(* ===== verification/_CoqProject ===== *)
-Q . S2P
Prelude.v
Trace.v
FilterSpecs.v
FilterSQL.v
Queries.v
SqlWhere.v
Console.v
Strptime.v
Update.v
Browse.v
Picker.v
Workflows.v
Menu.v
Seed.v
