(* ===== verification/Prelude.v ===== *)
(** * Flight-Management-DB: a verification development

    The program (src/src/) is a console front end over an SQLite
    database of flights.  Its parts, leaf first:
    - AllFilterSpecs.py: the declarative filter tables of the listings;
    - FilterSQL.py: the filter state (a dict from key to value), its
      printing, the interactive [prompt_filter] and the WHERE-clause
      composer [apply_sql_filter];
    - Queries.py: the SQL texts and the query builders of every listing;
    - UI.py: the console primitives (prompts, menus, [safe_run]), the
      generic [browse] loop, and the single-field update helper
      [update_whitelisted_field] with its format check;
    - ActionsWorkflows.py: the menu actions, built from the record
      picker [pick_id_from_filtered_listing], [browse], the update helper
      and the INSERT/DELETE statements, each inside [with get_conn()];
    - App.py and SeedDB.py: the connection, the menu dispatcher and the
      creation and seeding of the database file.

    ** How the files model it

    - Prelude.v (this file): Python's string primitives on the Latin-1
      range ([py_strip], [py_lower], [py_upper], [py_isdigit],
      [py_int], [str(int)]); the values, events and exceptions the
      program handles; the effect monad [io D A = world D -> res A *
      world D], where a world holds the remaining input lines, the output
      trace and the committed database of type [D]; [catch] for
      [try/except]; [run_machine], which runs a step function with fuel;
      [bind_params], the conversion of [int] parameters to SQLite's
      signed 64-bit INTEGER that Python's sqlite3 does before a
      statement runs ([OverflowError] out of range).
      It also defines the judgements the proofs use: [triple] (Hoare
      triples), [rets] and [rets_at] (read-only runs), [db_ro] (never
      changes the committed database), [runs] (Hoare triples on the
      database), [commits_within R] (every committed state is reached by
      [R]-steps) and [fuel_ok] (no [OutOfFuel]).  Their rules are in the
      hint database [fdb], with the tactics [solve_ro] and friends.
    - Trace.v: the judgement [shows_ok m] (every event [m] adds to the
      console trace is a prompt, a printed line or a table with a row),
      its rules (hint database [shows]) and the tactic [solve_shows];
      each component registers its definitions and proves its loops.
    - FilterSpecs.v: [FilterSpec] and the four tables, field by field.
    - FilterSQL.v: the filter state as a [gmap string (option fvalue)];
      [init_filters], [format_filters], [apply_sql_filter] (pure) and
      [prompt_filter] (in [io], with its two callbacks as arguments);
      [clear_filters] of UI.py.
    - Queries.v: every SQL text of Queries.py character for character,
      and the seven builders.
    - SqlWhere.v: what the WHERE text of the builders means to SQLite.
      Each branch of [apply_sql_filter] is a predicate tree
      ([filter_conjuncts], [filter_params]); [render_pred] prints trees
      with the parentheses SQLite's precedence needs; [eval_pred]
      evaluates them on a row in three-valued logic, with [LIKE]'s
      wildcards and ASCII case folding, [trim] of spaces and the [NOCASE]
      collation.  Column values and declared collations come from the
      schema, so they are parameters.
    - Console.v: UI.py's primitives.  The database is reached through the
      class [SqlBackend] ([sql_query]: headers and rows of a SELECT, or a
      database error), so the theorems hold for every database.  It holds
      [read_input] (end of input raises [AbortAction]), [prompt_int],
      [prompt_optional], [prompt_required], [choose_from_list],
      [query_rows], [record_exists], [fetch_one] and [safe_run].
    - Strptime.v: CPython's [datetime.strptime] for the directives the
      program uses: the format compiled to [_strptime]'s regular
      expression, the backtracking first match, the trailing-data check
      and the range checks of [datetime].
    - Update.v: the class [SqlExec] ([sql_exec]: the state after an
      INSERT/UPDATE/DELETE with its row count, or [IntegrityError]).  A
      connection is the database state it sees.  [with_conn] is [with
      get_conn() as conn:]: leaving normally commits, an exception drops
      the pending changes.  The file also models [is_valid_update_value],
      [prompt_update_value], and [update_whitelisted_field] with its
      rollback-and-retry loop.
    - Browse.v: [browse] as the machine [browse_step] on render/await
      states, the abstract relation [browse_rel], and menu options 1, 3,
      7 and the airport listing of option 4.
    - Picker.v: [pick_id_from_filtered_listing] as the machine
      [pick_step] with its abstract relation [pick_rel]; the pickers of
      instances, pilots and flights; the program's airport, airline and
      route pickers.
    - Workflows.v: menu option 2 ([update_flight_information] as the
      machine [uflight_step] on pick/action/assign states, with
      [update_instance_information_fields], [assign_pilot_to_instance]
      and the delete branch), option 4's airport update, option 5
      ([add_new_flight], [add_flight_instance_for_flight]) and option 6
      ([summary_reports]), with a fuel lemma for each of them.
    - Menu.v: App.py's [main_menu]: the action table (a dict built from a
      list, looked up by [dict_get]), the raw [input] whose end of input
      ends the session, [safe_run] around every action, and
      [reset_database], whose SeedDB call [ensure_db] is a parameter.
    - Seed.v: SeedDB.py ([is_db_initialised], [ensure_db],
      [ensure_runtime_objects], [run_sql_file]) and App.py's
      [initialise_db] and [main], which passes this [ensure_db] to the
      menu.  The file system and the SQL script files are the class
      [DbFile]: whether the file exists, its size, the empty database of
      a new file, and the run of one script (the state after the
      statements that ran, and the error that stopped it).  The implicit
      COMMIT of [executescript] is written out.

    Every loop of the program is a [Fixpoint] on a fuel argument, or a
    step function run by [run_machine].  Running out of fuel is the
    exception [OutOfFuel], which the program does not have.  Each
    iteration of each loop reads an input line, and end of input raises
    [AbortAction].  So a fuel larger than the number of input lines is
    enough, and the termination theorems show that no [OutOfFuel] is
    raised then.

    ** What is proved

    - The session (Menu.v): with more fuel than lines of input the menu
      returns normally on every input.  Every action stops, and
      [safe_run] reports every exception an action raises.  The keys run
      the actions of the table, and [8] or the end of input ends the
      session.
    - Output (Seed.v, from every component): no run of [main] prints
      an empty table; a query without rows prints [No results.]
      (spec section 8).
    - Start-up (Seed.v): an initialised file keeps its data and only
      gets the views and triggers scripts again; any other file is
      rebuilt from an empty one by the seed scripts.  An error while
      seeding escapes [main] before the menu starts.
    - The whole program (Seed.v, from Menu.v and Workflows.v): every
      database state a run of [main] commits is reached by the steps of
      [session_step]: deleting the file, seeding, refreshing the views
      and triggers, and the checked changes of options 2, 4 and 5.
    - Commits (Workflows.v, Update.v): every database state menu option 2
      commits is reached by whole, checked changes.  A deletion is all or
      nothing.  A pilot is not assigned to a duty role already filled,
      and is assigned to a free one (the crew scenario of the spec).
      Option 5 commits only a flight inserted after the duplicate check,
      or an instance whose date and times passed the format check.  The
      update helper performs exactly one whitelisted UPDATE.
    - Pickers (Picker.v): the pickers only read the database and return
      only identifiers their existence query found (each run of the
      generic picker is a sequence of steps of the spec's abstract picker
      [pick_rel], whose selection needs the existence query).  The
      pickers stop.
    - Queries (FilterSQL.v, Queries.v): a blank filter never changes a
      query.  Filter values reach SQL only as parameters.  Every query
      has as many placeholders as parameters.  The builders are total.
    - Meaning of the queries (SqlWhere.v): the filter loop appends the
      rendering of the filters' trees, each [?] numbered by its
      parameter, and a row passes exactly when it passes every set
      filter.  Each filtered listing's query is its unfiltered query
      with those conjuncts inserted before the [ORDER BY].  The yes and no presence filters split all rows, NULL
      included (spec section 8).  The substring filter tests a
      case-insensitive substring when the value has no wildcard.  The
      exact filters compare under the column's collation, or [NOCASE].
    - Browsing (FilterSQL.v, Browse.v): [prompt_filter] sets exactly one
      key to a value of its kind.  Every state of the abstract browse
      machine keeps the listing's keys.  On the executable loop, an
      assertion of the key invariant, or of the type of the filter state
      (every value set fits its spec's kind), at the top of every
      iteration changes nothing on any input.  Browsing stops.
    - Format check (Update.v, Strptime.v): the date check is exact on
      zero-padded texts.  For every date with a one-digit month and day it
      also accepts the unpadded text, which is in no date's prompted
      format, and the prompt returns that text as typed.
    - Bounds (Prelude.v, Picker.v): the backend interfaces require
      sqlite3's binding as a law.  An identifier typed at a picker that
      parses but does not fit 64 bits raises [OverflowError] instead of
      the not-found reprompt, and ends the menu action.
    - Round trip (Prelude.v, Console.v): [int(str(z)) == z], so an
      identifier copied from a listing, with any whitespace around it,
      reads back as itself at [prompt_int], while [q], [Q], [-q] and [-Q]
      cancel.
      A new instance with a blank status is inserted with [Scheduled]
      and NULL terminal and gate (Workflows.v, spec section 8).
    - Findings: a non-clearable field is cleared all the same
      (Workflows.v).  A superscript digit at a menu prompt raises
      [ValueError] (Console.v).  A seeding error ends the program
      (Seed.v).  An identifier beyond 64 bits ends the action instead of
      the not-found reprompt (Picker.v).  A [%] or [_] typed into a
      substring filter is a wildcard (SqlWhere.v).

    ** Not modelled

    - Rendering by [tabulate]: an event carrying the headers and rows.
    - The SQL engine, schema, views and triggers: the database is an
      abstract [D] behind [SqlBackend]/[SqlExec].  Of the engine only the
      WHERE conditions of the filters are evaluated (SqlWhere.v): the
      joins, views and ordering of the SELECTs are not.  The scripts that
      define them (the [SQL_DIR] files SeedDB.py names) are not in the
      repository, and the spec leaves the layout out of its contract, so
      no constraint or trigger can be modelled from them.
    - Rollback as an operation.  A connection is the database state it
      sees, and the pending changes of a [with get_conn()] block that
      raises are dropped by [with_conn].  So each [conn.rollback()] of
      the program (in [update_whitelisted_field], and in the pilot
      assignment, the deletion, the instance insert and the flight
      insert of ActionsWorkflows.py) is [conn_rollback], a read of the
      committed state: a missing rollback would not change the model,
      and the theorems do not check that the code calls it.
    - Type affinity of SQLite comparisons: [sql_eq] compares the bound
      value with the column value as they are.  The filters bind an
      integer for an int spec and a text otherwise, so the comparisons
      the listings make are between values of one kind.
    - [headers_from_description] (UI.py): the backend returns the
      column names directly, so the cursor's [description] is not
      modelled.
    - The contents of the SQL script files, [mkdir], and OS errors while
      reading a script: a script is one [run_script] of [DbFile].
    - Characters beyond U+00FF in input.  On the Latin-1 range [py_upper]
      leaves the three characters whose upper case lies outside it (U+00B5,
      U+00DF, U+00FF) unchanged.  These characters occur only in flight
      numbers. *)

From Stdlib Require Import Ascii ZArith Lia.
From stdpp Require Import base list gmap strings.

Declare Scope fdb_scope.
Delimit Scope fdb_scope with fdb.
Open Scope fdb_scope.

Infix "==?" := String.eqb (at level 70, no associativity) : fdb_scope.

Create HintDb fdb.
Create Rewrite HintDb fdb_rw.

(** ** Python's string primitives on the Latin-1 range

    A Python [str] character is a code point; the model represents each one
    by a Rocq [ascii], i.e. code points U+0000 .. U+00FF.  On that range the
    functions below agree with CPython's [str.isspace], [str.lower],
    [str.isdigit], [str.strip] and [int(str)]. *)

Definition code (c : ascii) : N := N_of_ascii c.

(** [str.isspace]: the ASCII whitespace, the four separators U+001C..U+001F,
    NEL (U+0085) and NO-BREAK SPACE (U+00A0). *)
Definition is_space (c : ascii) : bool :=
  existsb (N.eqb (code c)) [9; 10; 11; 12; 13; 28; 29; 30; 31; 32; 133; 160]%N.

(** [str.lower] on one character: A-Z and the Latin-1 capitals (except
    U+00D7, the multiplication sign) move down by 32. *)
Definition lower_char (c : ascii) : ascii :=
  let n := code c in
  if (((65 <=? n) && (n <=? 90)) || ((192 <=? n) && (n <=? 222) && negb (n =? 215)))%N
  then ascii_of_N (n + 32)%N else c.

(** A decimal digit (Unicode category Nd): only 0-9 in Latin-1. *)
Definition is_decimal (c : ascii) : bool := ((48 <=? code c) && (code c <=? 57))%N.

(** [str.isdigit] on one character: the decimal digits and the superscripts
    U+00B2, U+00B3, U+00B9 (Numeric_Type=Digit). *)
Definition is_digit_char (c : ascii) : bool :=
  is_decimal c || existsb (N.eqb (code c)) [178; 179; 185]%N.

Fixpoint py_lstrip (s : string) : string :=
  match s with
  | EmptyString => EmptyString
  | String c s' => if is_space c then py_lstrip s' else s
  end.

Fixpoint py_rstrip (s : string) : string :=
  match s with
  | EmptyString => EmptyString
  | String c s' =>
      let r := py_rstrip s' in
      if is_space c && (r ==? "") then "" else String c r
  end.

(** [s.strip()] *)
Definition py_strip (s : string) : string := py_rstrip (py_lstrip s).

(** [str.upper] on one Latin-1 character: a-z and U+00E0..U+00FE (except
    U+00F7, the division sign) move up by 32.  The three characters whose
    capital lies outside Latin-1 or is two letters (U+00B5, U+00DF,
    U+00FF) are left as they are: the model's strings are Latin-1. *)
Definition upper_char (c : ascii) : ascii :=
  let n := code c in
  if (((97 <=? n) && (n <=? 122)) || ((224 <=? n) && (n <=? 254) && negb (n =? 247)))%N
  then ascii_of_N (n - 32)%N else c.

(** [s.upper()] *)
Fixpoint py_upper (s : string) : string :=
  match s with
  | EmptyString => EmptyString
  | String c s' => String (upper_char c) (py_upper s')
  end.

(** [s.lower()] *)
Fixpoint py_lower (s : string) : string :=
  match s with
  | EmptyString => EmptyString
  | String c s' => String (lower_char c) (py_lower s')
  end.

Fixpoint all_chars (p : ascii -> bool) (s : string) : bool :=
  match s with
  | EmptyString => true
  | String c s' => p c && all_chars p s'
  end.

(** [s.isdigit()]: non-empty and every character a digit. *)
Definition py_isdigit (s : string) : bool :=
  negb (s ==? "") && all_chars is_digit_char s.

(** [s.startswith(p)] *)
Definition py_startswith (s p : string) : bool := String.prefix p s.

(** [sep.join(parts)] *)
Definition py_join (sep : string) (parts : list string) : string :=
  String.concat sep parts.

(** ["-" * n] *)
Fixpoint py_repeat (s : string) (n : nat) : string :=
  match n with
  | O => ""
  | S n' => s +:+ py_repeat s n'
  end.

Definition digit_value (c : ascii) : Z := Z.of_N (code c - 48).

(** The digits of [int(s)] after the sign: decimal digits, with single
    underscores allowed between two digits.  [seen] records that the
    previous character was a digit. *)
Fixpoint int_digits (s : string) (acc : Z) (seen : bool) : option Z :=
  match s with
  | EmptyString => if seen then Some acc else None
  | String c s' =>
      if is_decimal c then int_digits s' (acc * 10 + digit_value c)%Z true
      else if (c =? "_")%char && seen then int_digits s' acc false
      else None
  end.

(** [int(s)] for base 10: surrounding whitespace, an optional sign, then
    the digits; [None] stands for the [ValueError] it raises. *)
Definition py_int (s : string) : option Z :=
  match py_strip s with
  | String "-" r => Z.opp <$> int_digits r 0 false
  | String "+" r => int_digits r 0 false
  | t => int_digits t 0 false
  end.

Definition digit_char (d : N) : ascii := ascii_of_N (48 + d).

Fixpoint dec_go (fuel : nat) (n : N) (acc : string) : string :=
  match fuel with
  | O => acc
  | S f =>
      if (n =? 0)%N then acc
      else dec_go f (n / 10)%N (String (digit_char (n mod 10)%N) acc)
  end.

(** [str(n)] for a natural number; [N.size_nat n] (the bit length) bounds
    the number of decimal digits. *)
Definition dec_N (n : N) : string :=
  if (n =? 0)%N then "0" else dec_go (N.size_nat n) n "".

(** [str(z)] for a Python [int]. *)
Definition py_str_int (z : Z) : string :=
  match z with
  | Z0 => "0"
  | Zpos p => dec_N (Npos p)
  | Zneg p => "-" +:+ dec_N (Npos p)
  end.

(** The double-quote character, written once so that no string literal of
    the development has to escape it. *)
Definition dq : string := String (ascii_of_nat 34) EmptyString.

(** ** SQLite values, rows and the console trace *)

Inductive sqlval :=
  | SNull
  | SInt (z : Z)
  | SText (s : string).

Definition row := list sqlval.

(** What the program shows on the console, newest first in the trace:
    an [input] prompt, one [print] line, or a [tabulate] table. *)
Inductive event :=
  | EvPrompt (p : string)
  | EvPrint (s : string)
  | EvTable (headers : list string) (rows : list row).

(** ** Exceptions and the io monad *)

(** The Python exceptions the program raises or catches.  [OutOfFuel] is
    the model's own: a loop that ran out of fuel; the termination theorems
    show it never escapes when the fuel exceeds the input left. *)
Inductive exn :=
  | AbortAction
  | ValueError (msg : string)
  | IntegrityError (msg : string)
  | DatabaseError (msg : string)
  | StopIteration
  | TypeError (msg : string)
  | IndexError (msg : string)
  | KeyError (msg : string)
  | OverflowError (msg : string)
  | OutOfFuel.

Inductive res (A : Type) :=
  | Ok (a : A)
  | Exc (e : exn).
Arguments Ok {A} a.
Arguments Exc {A} e.

(** ** Binding parameters (Python's sqlite3 module)

    SQLite's INTEGER is a signed 64-bit integer.  [execute] converts each
    [int] parameter with [_pysqlite_long_as_int64], which raises
    [OverflowError] for a value outside that range; no statement runs. *)
Definition SQLITE_INT_MIN : Z := (- 2 ^ 63)%Z.
Definition SQLITE_INT_MAX : Z := (2 ^ 63 - 1)%Z.
Definition OVERFLOW_MSG : string := "Python int too large to convert to SQLite INTEGER".

Definition bind_param (v : sqlval) : res unit :=
  match v with
  | SInt z => if (SQLITE_INT_MIN <=? z)%Z && (z <=? SQLITE_INT_MAX)%Z then Ok tt
              else Exc (OverflowError OVERFLOW_MSG)
  | _ => Ok tt
  end.

(** The parameters are bound left to right; the first failure stops. *)
Fixpoint bind_params (ps : list sqlval) : res unit :=
  match ps with
  | [] => Ok tt
  | p :: ps' => match bind_param p with Ok _ => bind_params ps' | Exc e => Exc e end
  end.

Lemma bind_params_overflow z :
  ~ (SQLITE_INT_MIN <= z <= SQLITE_INT_MAX)%Z -> bind_params [SInt z] = Exc (OverflowError OVERFLOW_MSG).
Proof.
  intros Hz. simpl. destruct (_ && _) eqn:E; [|done].
  apply andb_true_iff in E as [E1 E2]. apply Z.leb_le in E1, E2. lia.
Qed.

Lemma bind_params_errors ps e : bind_params ps = Exc e -> e = OverflowError OVERFLOW_MSG.
Proof.
  induction ps as [|[|z|s] ps IH]; simpl; try done.
  destruct (_ && _); [exact IH|intros H; injection H as <-; reflexivity].
Qed.

(** The state a console session threads: the lines the user will type
    (standard input), the trace of what was shown, and the database. *)
Record world (D : Type) := mkWorld {
  w_in : list string;
  w_out : list event;
  w_db : D
}.
Arguments mkWorld {D} _ _ _.
Arguments w_in {D} _.
Arguments w_out {D} _.
Arguments w_db {D} _.

Definition io (D A : Type) : Type := world D -> res A * world D.

(** The number of input lines left. *)
Definition in_len {D} (w : world D) : nat := length (w_in w).

#[export] Instance io_ret {D} : MRet (io D) := fun A a w => (Ok a, w).
#[export] Instance io_bind {D} : MBind (io D) :=
  fun A B f m w =>
    match m w with
    | (Ok a, w') => f a w'
    | (Exc e, w') => (Exc e, w')
    end.

Section IoOps.
Context {D : Type}.

Definition throw {A} (e : exn) : io D A := fun w => (Exc e, w).

(** [try: m except e: handler(e)] for the exceptions [handler] takes. *)
Definition catch {A} (m : io D A) (handler : exn -> option (io D A)) : io D A :=
  fun w =>
    match m w with
    | (Exc e, w') =>
        match handler e with
        | Some h => h w'
        | None => (Exc e, w')
        end
    | r => r
    end.

Definition emit (ev : event) : io D unit :=
  fun w => (Ok tt, mkWorld (w_in w) (ev :: w_out w) (w_db w)).

Definition print (s : string) : io D unit := emit (EvPrint s).

Definition get_db : io D D := fun w => (Ok (w_db w), w).

Definition put_db (d : D) : io D unit :=
  fun w => (Ok tt, mkWorld (w_in w) (w_out w) d).
End IoOps.

(** ** A Hoare logic for the io monad

    [triple P m Q E]: from a world satisfying [P], [m] either returns [a]
    in a world satisfying [Q a] or raises [e] in a world satisfying [E e]. *)

Definition post {D A} (Q : A -> world D -> Prop) (E : exn -> world D -> Prop)
    (r : res A * world D) : Prop :=
  match r with
  | (Ok a, w') => Q a w'
  | (Exc e, w') => E e w'
  end.

Definition triple {D A} (P : world D -> Prop) (m : io D A)
    (Q : A -> world D -> Prop) (E : exn -> world D -> Prop) : Prop :=
  forall w, P w -> post Q E (m w).

Section TripleRules.
Context {D : Type}.
Implicit Types (P : world D -> Prop) (E : exn -> world D -> Prop).

Lemma triple_ret {A} P (Q : A -> world D -> Prop) E (a : A) :
  (forall w, P w -> Q a w) -> triple P (mret a) Q E.
Proof. intros H w Hw. by apply H. Qed.

Lemma triple_bind {A B} P (m : io D A) (f : A -> io D B) R Q E :
  triple P m R E -> (forall a, triple (R a) (f a) Q E) ->
  triple P (m ≫= f) Q E.
Proof.
  intros Hm Hf w Hw. specialize (Hm w Hw). unfold mbind, io_bind.
  destruct (m w) as [[a|e] w']; simpl in *; [by apply Hf | done].
Qed.

Lemma triple_throw {A} P (Q : A -> world D -> Prop) E e :
  (forall w, P w -> E e w) -> triple P (throw e) Q E.
Proof. intros H w Hw. by apply H. Qed.

Lemma triple_conseq {A} P P' (m : io D A) Q Q' E E' :
  triple P' m Q' E' ->
  (forall w, P w -> P' w) ->
  (forall a w, Q' a w -> Q a w) ->
  (forall e w, E' e w -> E e w) ->
  triple P m Q E.
Proof.
  intros Hm HP HQ HE w Hw. specialize (Hm w (HP w Hw)).
  destruct (m w) as [[a|e] w']; simpl in *; auto.
Qed.

Lemma triple_if {A} P (b : bool) (m1 m2 : io D A) Q E :
  (b = true -> triple P m1 Q E) -> (b = false -> triple P m2 Q E) ->
  triple P (if b then m1 else m2) Q E.
Proof. destruct b; auto. Qed.

Lemma triple_emit P Q E ev :
  (forall w, P w -> Q tt (mkWorld (w_in w) (ev :: w_out w) (w_db w))) ->
  triple P (emit ev) Q E.
Proof. intros H w Hw. by apply H. Qed.

Lemma triple_catch {A} P (m : io D A) handler Q E R :
  triple P m Q R ->
  (forall e w, R e w ->
     match handler e with
     | Some h => post Q E (h w)
     | None => E e w
     end) ->
  triple P (catch m handler) Q E.
Proof.
  intros Hm Hh w Hw. specialize (Hm w Hw). unfold catch.
  destruct (m w) as [[a|e] w']; simpl in *; [done|].
  specialize (Hh e w' Hm). by destruct (handler e).
Qed.
End TripleRules.

(** Decompose the computation of a bind on a concrete world. *)
Lemma io_bind_run {D A B} (m : io D A) (f : A -> io D B) w :
  (m ≫= f) w = match m w with
               | (Ok a, w') => f a w'
               | (Exc e, w') => (Exc e, w')
               end.
Proof. reflexivity. Qed.

Lemma io_ret_run {D A} (a : A) (w : world D) : (mret a : io D A) w = (Ok a, w).
Proof. reflexivity. Qed.

(** [rets m Q E]: whatever the world, [m] returns a value satisfying [Q]
    or raises an exception satisfying [E]: the contract of a callback. *)
Definition rets {D A} (m : io D A) (Q : A -> Prop) (E : exn -> Prop) : Prop :=
  triple (fun _ => True) m (fun a _ => Q a) (fun e _ => E e).

Section RetsRules.
Context {D : Type}.

Lemma rets_ret {A} (a : A) (Q : A -> Prop) E : Q a -> @rets D A (mret a) Q E.
Proof. intros H w _. exact H. Qed.

Lemma rets_throw {A} e (Q : A -> Prop) (E : exn -> Prop) : E e -> @rets D A (throw e) Q E.
Proof. intros H w _. exact H. Qed.

Lemma rets_bind {A B} (m : io D A) (f : A -> io D B) R Q E :
  rets m R E -> (forall a, R a -> rets (f a) Q E) -> rets (m ≫= f) Q E.
Proof.
  intros Hm Hf w _. specialize (Hm w I). rewrite io_bind_run.
  destruct (m w) as [[a|e] w']; simpl in *; [|done]. exact (Hf a Hm w' I).
Qed.

Lemma rets_emit_seq {A} ev (m : io D A) Q E : rets m Q E -> rets (emit ev ;; m) Q E.
Proof. intros Hm w _. exact (Hm _ I). Qed.

Lemma rets_true {A} (m : io D A) : rets m (fun _ => True) (fun _ => True).
Proof. intros w _. by destruct (m w) as [[]]. Qed.

Lemma rets_conseq {A} (m : io D A) (Q Q' : A -> Prop) (E E' : exn -> Prop) :
  rets m Q' E' -> (forall a, Q' a -> Q a) -> (forall e, E' e -> E e) -> rets m Q E.
Proof.
  intros Hm HQ HE w _. specialize (Hm w I).
  destruct (m w) as [[a|e] w']; simpl in *; auto.
Qed.
Lemma rets_catch {A} (m : io D A) handler Q E E' :
  rets m Q E' ->
  (forall e, E' e -> match handler e with Some h => rets h Q E | None => E e end) ->
  rets (catch m handler) Q E.
Proof.
  intros Hm Hh w _. specialize (Hm w I). unfold catch.
  destruct (m w) as [[a|e] w']; simpl in *; [done|].
  specialize (Hh e Hm). destruct (handler e) as [h|]; [exact (Hh w' I)|done].
Qed.
End RetsRules.

#[export] Hint Resolve rets_ret rets_throw rets_emit_seq : fdb.

(** ** Read-only computations

    [db_ro m]: [m] never changes the committed database (it may read it,
    prompt and print).  [rets_at d m Q E]: run on database [d], [m] leaves
    it unchanged and returns a value satisfying [Q] or raises an exception
    satisfying [E]; the value may depend on what [m] read from [d]. *)

Definition db_ro {D A} (m : io D A) : Prop := forall w, w_db (snd (m w)) = w_db w.

Definition rets_at {D A} (d : D) (m : io D A) (Q : A -> Prop) (E : exn -> Prop) : Prop :=
  triple (fun w => w_db w = d) m (fun a w => w_db w = d /\ Q a) (fun e w => w_db w = d /\ E e).

Section ReadOnly.
Context {D : Type}.

Lemma db_ro_ret {A} (a : A) : @db_ro D A (mret a).
Proof. done. Qed.

Lemma db_ro_throw {A} e : @db_ro D A (throw e).
Proof. done. Qed.

Lemma db_ro_emit ev : @db_ro D unit (emit ev).
Proof. done. Qed.

Lemma db_ro_get_db : @db_ro D D get_db.
Proof. done. Qed.

Lemma db_ro_bind {A B} (m : io D A) (f : A -> io D B) :
  db_ro m -> (forall a, db_ro (f a)) -> db_ro (m ≫= f).
Proof.
  intros Hm Hf w. rewrite io_bind_run. specialize (Hm w).
  destruct (m w) as [[a|e] w'] eqn:E; simpl in *; [by rewrite Hf|done].
Qed.

Lemma db_ro_catch {A} (m : io D A) handler :
  db_ro m -> (forall e h, handler e = Some h -> db_ro h) -> db_ro (catch m handler).
Proof.
  intros Hm Hh w. unfold catch. specialize (Hm w).
  destruct (m w) as [[a|e] w'] eqn:E; simpl in *; [done|].
  destruct (handler e) as [h|] eqn:Eh; simpl; [|done]. by rewrite (Hh e h Eh).
Qed.

Lemma rets_at_intro {A} d (m : io D A) Q E : rets m Q E -> db_ro m -> rets_at d m Q E.
Proof.
  intros Hm Hro w Hw. specialize (Hm w I). specialize (Hro w).
  destruct (m w) as [[a|e] w']; simpl in *; split; congruence || done.
Qed.

Lemma rets_at_ret {A} d (a : A) (Q : A -> Prop) E : Q a -> @rets_at D A d (mret a) Q E.
Proof. intros H w Hw. by split. Qed.

Lemma rets_at_throw {A} d e (Q : A -> Prop) (E : exn -> Prop) : E e -> @rets_at D A d (throw e) Q E.
Proof. intros H w Hw. by split. Qed.

Lemma rets_at_bind {A B} d (m : io D A) (f : A -> io D B) R Q E :
  rets_at d m R E -> (forall a, R a -> rets_at d (f a) Q E) -> rets_at d (m ≫= f) Q E.
Proof.
  intros Hm Hf w Hw. specialize (Hm w Hw). rewrite io_bind_run.
  destruct (m w) as [[a|e] w']; simpl in *; [|done].
  destruct Hm as [Hd Ha]. exact (Hf a Ha w' Hd).
Qed.

Lemma rets_at_get_db {B} d (f : D -> io D B) Q E :
  rets_at d (f d) Q E -> rets_at d (get_db ≫= f) Q E.
Proof. intros Hf w Hw. rewrite io_bind_run. simpl. rewrite Hw. by apply Hf. Qed.

Lemma rets_at_emit_seq {A} d ev (m : io D A) Q E : rets_at d m Q E -> rets_at d (emit ev ;; m) Q E.
Proof. intros Hm w Hw. apply Hm. exact Hw. Qed.

Lemma rets_at_conseq {A} d (m : io D A) (Q Q' : A -> Prop) (E E' : exn -> Prop) :
  rets_at d m Q' E' -> (forall a, Q' a -> Q a) -> (forall e, E' e -> E e) -> rets_at d m Q E.
Proof.
  intros Hm HQ HE w Hw. specialize (Hm w Hw).
  destruct (m w) as [[a|e] w']; simpl in *; intuition.
Qed.

(** A read-only step whose result is not inspected. *)
Lemma rets_at_ro_bind {A B} d (m : io D A) (f : A -> io D B) Q (E : exn -> Prop) :
  db_ro m -> (forall e, E e) -> (forall a, rets_at d (f a) Q E) -> rets_at d (m ≫= f) Q E.
Proof.
  intros Hro HE Hf. eapply rets_at_bind; [apply rets_at_intro; [|exact Hro]|intros a _; apply Hf].
  eapply rets_conseq; [apply rets_true|done|intros e _; apply HE].
Qed.

Lemma rets_at_catch {A} d (m : io D A) handler Q E E' :
  rets_at d m Q E' ->
  (forall e, E' e -> match handler e with Some h => rets_at d h Q E | None => E e end) ->
  rets_at d (catch m handler) Q E.
Proof.
  intros Hm Hh w Hw. specialize (Hm w Hw). unfold catch.
  destruct (m w) as [[a|e] w']; simpl in *; [done|]. destruct Hm as [Hd He].
  specialize (Hh e He). destruct (handler e) as [h|]; [by apply Hh|done].
Qed.
End ReadOnly.

#[export] Hint Resolve db_ro_ret db_ro_throw db_ro_emit db_ro_get_db : fdb.
#[export] Hint Resolve rets_at_ret rets_at_throw rets_at_emit_seq : fdb.

(** Prove [db_ro] of a composite computation: split binds, catches and
    conditionals, and close the leaves from the hint database. *)
Ltac solve_ro :=
  repeat first
    [ progress cbv beta zeta
    | apply db_ro_bind; [|intros ?]
    | apply db_ro_catch; [|intros ? ? ?]
    | progress (unfold print)
    | match goal with
      | |- db_ro (match ?x with _ => _ end) => destruct x
      | |- db_ro (if ?b then _ else _) => destruct b
      | H : Some _ = Some _ |- _ => injection H as <-
      | H : None = Some _ |- _ => discriminate H
      | H : (match ?x with _ => _ end) = Some _ |- _ => destruct x
      end
    | solve [eauto with fdb] ].

#[export] Hint Resolve triple_ret triple_throw triple_emit : fdb.

(** Unfold the monad's operations on a concrete run. *)
Ltac io_unfold :=
  unfold mbind, io_bind, mret, io_ret, throw, emit, print, get_db, put_db, post, in_len in *;
  simpl in *.
#[export] Hint Rewrite @io_bind_run @io_ret_run : fdb_rw.

(** ** Shared lemmas on strings and lists *)

Lemma string_eqb_refl (s : string) : (s ==? s) = true.
Proof. apply String.eqb_refl. Qed.

Lemma string_eqb_true (s t : string) : (s ==? t) = true <-> s = t.
Proof. apply String.eqb_eq. Qed.

Lemma string_eqb_false (s t : string) : (s ==? t) = false <-> s <> t.
Proof. apply String.eqb_neq. Qed.

(** [simpl] does not unfold [String.append] under stdpp's settings; its
    two equations are stated once here. *)
Lemma string_app_nil_l (s : string) : "" +:+ s = s.
Proof. reflexivity. Qed.

Lemma string_app_cons c (s t : string) : String c s +:+ t = String c (s +:+ t).
Proof. reflexivity. Qed.

Lemma string_app_nil_r (s : string) : s +:+ "" = s.
Proof. induction s as [|c s IH]; [done|]. by rewrite string_app_cons, IH. Qed.

Lemma string_app_assoc (s1 s2 s3 : string) : s1 +:+ s2 +:+ s3 = (s1 +:+ s2) +:+ s3.
Proof. induction s1 as [|c s1 IH]; [done|]. by rewrite !string_app_cons, IH. Qed.

Lemma string_app_length (s1 s2 : string) :
  String.length (s1 +:+ s2) = String.length s1 + String.length s2.
Proof. induction s1 as [|c s1 IH]; [done|]. rewrite string_app_cons; simpl. by rewrite IH. Qed.

#[export] Hint Rewrite string_eqb_refl string_app_nil_r string_app_nil_l string_app_cons : fdb_rw.

(** [case_eqb] splits on the first string comparison of the goal. *)
Ltac case_eqb :=
  match goal with
  | |- context [?s ==? ?t] =>
      let H := fresh "Heqb" in
      destruct (s ==? t) eqn:H;
      [apply string_eqb_true in H | apply string_eqb_false in H]
  end.

Lemma py_strip_idem_lstrip s : py_lstrip (py_lstrip s) = py_lstrip s.
Proof. induction s as [|c s IH]; simpl; [done|]. destruct (is_space c) eqn:E; simpl; [done|]. by rewrite E. Qed.

Lemma all_chars_app p s t : all_chars p (s +:+ t) = all_chars p s && all_chars p t.
Proof. induction s as [|c s IH]; [done|]. simpl. rewrite IH. apply andb_assoc. Qed.

(** [s.strip()] removes whitespace padding around a text that has no
    whitespace of its own. *)
Lemma py_lstrip_spaces l t : all_chars is_space l = true -> py_lstrip (l +:+ t) = py_lstrip t.
Proof.
  induction l as [|c l IH]; intros H; [done|]. simpl in *.
  apply andb_true_iff in H as [-> Hl]. by apply IH.
Qed.

Lemma py_rstrip_spaces s r :
  all_chars (fun c => negb (is_space c)) s = true -> all_chars is_space r = true ->
  py_rstrip (s +:+ r) = s.
Proof.
  intros Hs Hr. induction s as [|c s IH]; simpl in *.
  - rewrite string_app_nil_l. clear Hs.
    induction r as [|c r IHr]; [done|]. simpl in *. apply andb_true_iff in Hr as [-> Hr].
    by rewrite IHr.
  - destruct (is_space c); [done|]. by rewrite IH.
Qed.

Lemma py_strip_pad l s r :
  all_chars is_space l = true -> all_chars (fun c => negb (is_space c)) s = true ->
  all_chars is_space r = true -> s <> "" -> py_strip (l +:+ s +:+ r) = s.
Proof.
  intros Hl Hs Hr Hne. unfold py_strip. rewrite py_lstrip_spaces by done.
  destruct s as [|c s']; [done|]. rewrite string_app_cons. cbn [py_lstrip].
  destruct (is_space c) eqn:Ec; [cbn [all_chars] in Hs; by rewrite Ec in Hs|].
  rewrite <- string_app_cons. by apply py_rstrip_spaces.
Qed.

(** ** Fuel: every loop of the program reads a line per iteration

    [fuel_ok n strict m]: started with at most [k < n] lines of input left,
    [m] never raises [OutOfFuel], never lets the input grow, and when
    [strict] holds it consumes at least one line whenever it returns.  A
    loop whose body is strict is [fuel_ok] for fuel [n] when run with fuel
    [n]: this is how each loop's termination theorem is proved. *)

Definition fuel_ok {D A} (n : nat) (strict : bool) (m : io D A) : Prop :=
  forall k, k < n ->
  triple (fun w => in_len w <= k) m
    (fun _ w => if strict then in_len w < k else in_len w <= k)
    (fun e w => e <> OutOfFuel /\ in_len w <= k).

Section FuelRules.
Context {D : Type}.

Lemma fuel_ok_ret {A} n (a : A) : @fuel_ok D A n false (mret a).
Proof. intros k Hk w Hw. exact Hw. Qed.

Lemma fuel_ok_throw {A} n b e : e <> OutOfFuel -> @fuel_ok D A n b (throw e).
Proof. intros He k Hk w Hw. by split. Qed.

Lemma fuel_ok_emit n ev : @fuel_ok D unit n false (emit ev).
Proof. intros k Hk w Hw. exact Hw. Qed.

Lemma fuel_ok_weaken {A} n n' b b' (m : io D A) :
  fuel_ok n' b m -> n <= n' -> (b' = true -> b = true) -> fuel_ok n b' m.
Proof.
  intros Hm Hn Hb k Hk w Hw. specialize (Hm k ltac:(lia) w Hw).
  destruct (m w) as [[a|e] w']; simpl in *; [|done].
  destruct b, b'; try lia; by specialize (Hb eq_refl).
Qed.

Lemma fuel_ok_bind {A B} n b1 b2 (m : io D A) (f : A -> io D B) :
  fuel_ok n b1 m -> (forall a, fuel_ok n b2 (f a)) ->
  fuel_ok n (b1 || b2) (m ≫= f).
Proof.
  intros Hm Hf k Hk w Hw. specialize (Hm k Hk w Hw).
  rewrite io_bind_run. destruct (m w) as [[a|e] w'] eqn:Erun; simpl in *; [|done].
  destruct b1; simpl in Hm |- *.
  - destruct k as [|k']; [lia|].
    assert (Hk' : k' < n) by lia. assert (Hw' : in_len w' <= k') by lia.
    specialize (Hf a k' Hk' w' Hw').
    destruct (f a w') as [[b|e] w'']; simpl in *.
    + destruct b2; simpl in *; lia.
    + destruct Hf as [Hf1 Hf2]. split; [exact Hf1|]. lia.
  - specialize (Hf a k Hk w' Hm).
    destruct (f a w') as [[b|e] w'']; simpl in *; [destruct b2; simpl in *; lia|done].
Qed.

Lemma fuel_ok_catch {A} n b (m : io D A) handler :
  fuel_ok n b m ->
  (forall e h, handler e = Some h -> fuel_ok n b h) ->
  fuel_ok n b (catch m handler).
Proof.
  intros Hm Hh k Hk w Hw. specialize (Hm k Hk w Hw). unfold catch.
  destruct (m w) as [[a|e] w']; simpl in *; [done|].
  destruct Hm as [He Hw'].
  destruct (handler e) as [h|] eqn:E; [|by split].
  exact (Hh e h E k Hk w' Hw').
Qed.

(** After a strict step one line less is left, so the continuation of a
    loop iteration needs one unit of fuel less. *)
Lemma fuel_ok_bind_strict {A B} n b (m : io D A) (f : A -> io D B) :
  fuel_ok (S n) true m -> (forall a, fuel_ok n b (f a)) ->
  fuel_ok (S n) true (m ≫= f).
Proof.
  intros Hm Hf k Hk w Hw. specialize (Hm k Hk w Hw).
  rewrite io_bind_run. destruct (m w) as [[a|e] w'] eqn:Erun; simpl in *; [|done].
  destruct k as [|k']; [lia|].
  assert (Hk' : k' < n) by lia. assert (Hw' : in_len w' <= k') by lia.
  specialize (Hf a k' Hk' w' Hw').
  destruct (f a w') as [[c|e] w'']; simpl in *.
  - destruct b; simpl in *; lia.
  - destruct Hf as [Hf1 Hf2]. split; [exact Hf1|]. lia.
Qed.

Lemma fuel_ok_get_db {A} n b (f : D -> io D A) :
  (forall d, fuel_ok n b (f d)) -> fuel_ok n b (get_db ≫= f).
Proof. intros Hf k Hk w Hw. rewrite io_bind_run. exact (Hf (w_db w) k Hk w Hw). Qed.

Lemma fuel_ok_put_db n d : @fuel_ok D unit n false (put_db d).
Proof. intros k Hk w Hw. exact Hw. Qed.

Lemma fuel_ok_strict_weak {A} n (m : io D A) : fuel_ok n true m -> fuel_ok n false m.
Proof. intros H. eapply fuel_ok_weaken; [exact H|lia|done]. Qed.

Lemma fuel_ok_seq_strict {A B} n (m : io D A) (f : A -> io D B) :
  fuel_ok n true m -> (forall a, fuel_ok n false (f a)) -> fuel_ok n true (m ≫= f).
Proof. apply (fuel_ok_bind n true false). Qed.

Lemma fuel_ok_seq {A B} n b (m : io D A) (f : A -> io D B) :
  fuel_ok n false m -> (forall a, fuel_ok n b (f a)) -> fuel_ok n b (m ≫= f).
Proof. apply (fuel_ok_bind n false b). Qed.

(** The end-to-end consequence: with more fuel than lines of input, the
    computation does not run out of fuel. *)
Lemma fuel_ok_no_out_of_fuel {A} n b (m : io D A) w :
  fuel_ok n b m -> in_len w < n -> fst (m w) <> Exc OutOfFuel.
Proof.
  intros Hm Hw. specialize (Hm (in_len w) Hw w (le_n _)).
  destruct (m w) as [[a|e] w']; simpl in *; [done|].
  intros [= ->]. by destruct Hm.
Qed.
End FuelRules.

#[export] Hint Resolve fuel_ok_ret fuel_ok_emit fuel_ok_strict_weak fuel_ok_put_db : fdb.
#[export] Hint Opaque fuel_ok : fdb.

Lemma orb_false_r_eq (b : bool) : b || false = b.
Proof. by destruct b. Qed.

(** ** Interactive loops as state machines

    A loop of the program is a step function on an explicit state and a
    [final] test that says when the loop has returned and with what.
    [run_machine] iterates the step, one unit of fuel per step. *)

Fixpoint run_machine {D S R} (fuel : nat) (final : S -> option R) (step : S -> io D S)
    (s : S) : io D R :=
  match fuel with
  | O => throw OutOfFuel
  | Datatypes.S n =>
      match final s with
      | Some r => mret r
      | None => s' ← step s; run_machine n final step s'
      end
  end.

(** Reflexive-transitive closure of a step relation. *)
Inductive star {S} (R : S -> S -> Prop) : S -> S -> Prop :=
  | star_refl s : star R s s
  | star_step s1 s2 s3 : R s1 s2 -> star R s2 s3 -> star R s1 s3.

Lemma star_trans {S} (R : S -> S -> Prop) s1 s2 s3 :
  star R s1 s2 -> star R s2 s3 -> star R s1 s3.
Proof. induction 1; eauto using star. Qed.

Lemma star_right {S} (R : S -> S -> Prop) s1 s2 s3 :
  star R s1 s2 -> R s2 s3 -> star R s1 s3.
Proof. intros H12 H23. eapply star_trans; eauto using star. Qed.

Lemma star_mono {S} (R R' : S -> S -> Prop) s1 s2 :
  (forall s s', R s s' -> R' s s') -> star R s1 s2 -> star R' s1 s2.
Proof. intros HR. induction 1; eauto using star. Qed.

(** An invariant of the relation holds on every reachable state. *)
Lemma star_invariant {S} (R : S -> S -> Prop) (Inv : S -> Prop) s1 s2 :
  (forall s s', Inv s -> R s s' -> Inv s') -> star R s1 s2 -> Inv s1 -> Inv s2.
Proof. intros Hpres. induction 1; eauto. Qed.

#[export] Hint Constructors star : fdb.
#[export] Hint Resolve star_trans star_right : fdb.

Section MachineRules.
Context {D S R : Type} (final : S -> option R) (step : S -> io D S).

(** The step refines a relation [rel]: each state the machine can enter
    from [s] is a [rel]-successor of [s].  Then every state the run
    passes through, and the one it stops in, is reachable. *)
Lemma run_machine_reach (rel : S -> S -> Prop) (E : exn -> Prop) n s0 s :
  (forall s, final s = None -> rets (step s) (rel s) E) ->
  star rel s0 s ->
  rets (run_machine n final step s)
    (fun r => exists s', star rel s0 s' /\ final s' = Some r)
    (fun e => E e \/ e = OutOfFuel).
Proof.
  intros Hstep. revert s. induction n as [|n IH]; intros s Hreach; simpl.
  - apply rets_throw. by right.
  - destruct (final s) as [r|] eqn:Ef; [apply rets_ret; eauto|].
    eapply rets_bind; [eapply rets_conseq; [apply Hstep, Ef|done|by left]|].
    intros s' Hs'. apply IH. eauto with fdb.
Qed.

(** Fuel: if each step from a non-final state reads a line, the run
    never runs out of fuel when the fuel exceeds the input. *)
Lemma run_machine_fuel_ok N n s :
  (forall s, final s = None -> fuel_ok N true (step s)) -> n <= N ->
  fuel_ok n false (run_machine n final step s).
Proof.
  intros Hstep. revert s. induction n as [|n IH]; intros s Hn; simpl.
  - intros k Hk. exfalso. lia.
  - destruct (final s) as [r|] eqn:Ef; [apply fuel_ok_ret|].
    apply (fuel_ok_weaken (Datatypes.S n) (Datatypes.S n) true false); [|lia|done].
    apply (fuel_ok_bind_strict n false).
    + apply (fuel_ok_weaken (Datatypes.S n) N true true); [apply Hstep, Ef|lia|done].
    + intros s'. apply IH. lia.
Qed.

Lemma run_machine_db_ro n s : (forall s, db_ro (step s)) -> db_ro (run_machine n final step s).
Proof.
  intros Hstep. revert s. induction n as [|n IH]; intros s; simpl; [done|].
  destruct (final s); [done|]. by apply db_ro_bind.
Qed.

(** [run_machine_reach] on a fixed database: a machine whose steps only
    read the database [d] stops in a reachable final state, with [d]
    unchanged. *)
Lemma run_machine_reach_at d (rel : S -> S -> Prop) (E : exn -> Prop) n s0 s :
  (forall s, final s = None -> rets_at d (step s) (rel s) E) ->
  star rel s0 s ->
  rets_at d (run_machine n final step s)
    (fun r => exists s', star rel s0 s' /\ final s' = Some r)
    (fun e => E e \/ e = OutOfFuel).
Proof.
  intros Hstep. revert s. induction n as [|n IH]; intros s Hreach; simpl.
  - apply rets_at_throw. by right.
  - destruct (final s) as [r|] eqn:Ef; [apply rets_at_ret; eauto|].
    eapply rets_at_bind; [eapply rets_at_conseq; [apply Hstep, Ef|done|by left]|].
    intros s' Hs'. apply IH. eauto with fdb.
Qed.
End MachineRules.

(** ** Computations that commit

    [runs d m Q E]: run on committed database [d], [m] returns [a] leaving
    the committed database [d'] with [Q a d'], or raises [e] leaving [d']
    with [E e d'].  [commits_within R m]: every database [m] leaves behind
    is reachable from the one it started on by [R]-steps, whether it
    returns or raises. *)

Definition runs {D A} (d : D) (m : io D A) (Q : A -> D -> Prop) (E : exn -> D -> Prop) : Prop :=
  triple (fun w => w_db w = d) m (fun a w => Q a (w_db w)) (fun e w => E e (w_db w)).

Definition commits_within {D A} (R : D -> D -> Prop) (m : io D A) : Prop :=
  forall d, runs d m (fun _ d' => star R d d') (fun _ d' => star R d d').

Section Runs.
Context {D : Type}.

Lemma runs_ret {A} d (a : A) (Q : A -> D -> Prop) E : Q a d -> runs d (mret a) Q E.
Proof. intros H w Hw. simpl. by rewrite Hw. Qed.

Lemma runs_throw {A} d e (Q : A -> D -> Prop) (E : exn -> D -> Prop) : E e d -> runs d (throw e) Q E.
Proof. intros H w Hw. simpl. by rewrite Hw. Qed.

Lemma runs_bind {A B} d (m : io D A) (f : A -> io D B) R Q E :
  runs d m R E -> (forall a d', R a d' -> runs d' (f a) Q E) -> runs d (m ≫= f) Q E.
Proof.
  intros Hm Hf w Hw. specialize (Hm w Hw). rewrite io_bind_run.
  destruct (m w) as [[a|e] w']; simpl in *; [|done]. by apply (Hf a (w_db w')).
Qed.

Lemma runs_conseq {A} d (m : io D A) (Q Q' : A -> D -> Prop) (E E' : exn -> D -> Prop) :
  runs d m Q' E' -> (forall a d', Q' a d' -> Q a d') -> (forall e d', E' e d' -> E e d') ->
  runs d m Q E.
Proof. intros Hm HQ HE w Hw. specialize (Hm w Hw). destruct (m w) as [[a|e] w']; simpl in *; auto. Qed.

Lemma runs_of_rets_at {A} d (m : io D A) Q E :
  rets_at d m Q E -> runs d m (fun a d' => d' = d /\ Q a) (fun e d' => d' = d /\ E e).
Proof. intros H w Hw. specialize (H w Hw). by destruct (m w) as [[a|e] w']. Qed.

(** A read-only step followed by [f]. *)
Lemma runs_at_bind {A B} d (m : io D A) (f : A -> io D B) R Q (E : exn -> D -> Prop) :
  rets_at d m R (fun _ => True) -> (forall e, E e d) ->
  (forall a, R a -> runs d (f a) Q E) -> runs d (m ≫= f) Q E.
Proof.
  intros Hm HE Hf.
  apply (runs_bind d m f (fun a d' => d' = d /\ R a));
    [eapply runs_conseq; [apply runs_of_rets_at, Hm|done|intros e d' [-> _]; apply HE]|].
  intros a d' [-> Ha]. exact (Hf a Ha).
Qed.

Lemma runs_ro_bind {A B} d (m : io D A) (f : A -> io D B) Q (E : exn -> D -> Prop) :
  db_ro m -> (forall e, E e d) -> (forall a, runs d (f a) Q E) -> runs d (m ≫= f) Q E.
Proof.
  intros Hro HE Hf. apply (runs_at_bind d m f (fun _ => True)); [|done|intros a _; apply Hf].
  apply rets_at_intro; [apply rets_true|exact Hro].
Qed.

Lemma runs_emit_seq {A} d ev (m : io D A) Q E : runs d m Q E -> runs d (emit ev ;; m) Q E.
Proof. intros Hm w Hw. apply Hm. exact Hw. Qed.

Lemma runs_ro {A} d (m : io D A) (Q : A -> D -> Prop) (E : exn -> D -> Prop) :
  db_ro m -> (forall a, Q a d) -> (forall e, E e d) -> runs d m Q E.
Proof.
  intros Hro HQ HE w Hw. specialize (Hro w). rewrite Hw in Hro.
  destruct (m w) as [[a|e] w']; simpl in *; rewrite Hro; auto.
Qed.

Lemma runs_put_db d c (Q : unit -> D -> Prop) E : Q tt c -> runs d (put_db c) Q E.
Proof. intros H w Hw. exact H. Qed.

Lemma runs_get_db {B} d (f : D -> io D B) Q E : runs d (f d) Q E -> runs d (get_db ≫= f) Q E.
Proof. intros Hf w Hw. rewrite io_bind_run. simpl. rewrite Hw. by apply Hf. Qed.

Lemma runs_catch {A} d (m : io D A) handler Q E E' :
  runs d m Q E' ->
  (forall e d', E' e d' -> match handler e with Some h => runs d' h Q E | None => E e d' end) ->
  runs d (catch m handler) Q E.
Proof.
  intros Hm Hh w Hw. specialize (Hm w Hw). unfold catch.
  destruct (m w) as [[a|e] w']; simpl in *; [done|].
  specialize (Hh e (w_db w') Hm). destruct (handler e) as [h|]; [by apply Hh|done].
Qed.

Lemma commits_within_ro {A} (R : D -> D -> Prop) (m : io D A) : db_ro m -> commits_within R m.
Proof. intros Hro d w Hw. specialize (Hro w). destruct (m w) as [[a|e] w']; simpl in *; rewrite Hro, Hw; constructor. Qed.

Lemma commits_within_bind {A B} R (m : io D A) (f : A -> io D B) :
  commits_within R m -> (forall a, commits_within R (f a)) -> commits_within R (m ≫= f).
Proof.
  intros Hm Hf d. eapply runs_bind; [apply Hm|]. intros a d' Hd'.
  eapply runs_conseq; [apply Hf|intros ? ? H; exact (star_trans _ _ _ _ Hd' H)
                               |intros ? ? H; exact (star_trans _ _ _ _ Hd' H)].
Qed.

Lemma commits_within_catch {A} R (m : io D A) handler :
  commits_within R m -> (forall e h, handler e = Some h -> commits_within R h) ->
  commits_within R (catch m handler).
Proof.
  intros Hm Hh d. eapply runs_catch; [apply Hm|]. intros e d' Hd'.
  destruct (handler e) as [h|] eqn:E; [|done].
  eapply runs_conseq; [apply (Hh e h E)|intros ? ? H; exact (star_trans _ _ _ _ Hd' H)
                                       |intros ? ? H; exact (star_trans _ _ _ _ Hd' H)].
Qed.

(** A read-only step whose result satisfies [P], followed by [f]. *)
Lemma commits_within_rets_bind {A B} R (m : io D A) (f : A -> io D B) (P : A -> Prop) :
  rets m P (fun _ => True) -> db_ro m -> (forall a, P a -> commits_within R (f a)) ->
  commits_within R (m ≫= f).
Proof.
  intros Hm Hro Hf d. eapply runs_at_bind; [by apply rets_at_intro|intros; apply star_refl|].
  intros a Ha. exact (Hf a Ha d).
Qed.

(** A computation whose only effect is one [R]-step or none. *)
Lemma commits_within_step {A} R (m : io D A) :
  (forall d, runs d m (fun _ d' => d' = d \/ R d d') (fun _ d' => d' = d \/ R d d')) ->
  commits_within R m.
Proof.
  intros H d. eapply runs_conseq; [apply H|intros ? ? [->|?]|intros ? ? [->|?]];
    eauto using star, star_refl.
Qed.

Lemma commits_within_mono {A} (R R' : D -> D -> Prop) (m : io D A) :
  (forall d d', R d d' -> R' d d') -> commits_within R m -> commits_within R' m.
Proof.
  intros HR Hm d. eapply runs_conseq; [apply Hm|intros ? ? H|intros ? ? H]; exact (star_mono _ _ _ _ HR H).
Qed.
End Runs.

Section MachineCommits.
Context {D S R : Type} (final : S -> option R) (step : S -> io D S).

Lemma run_machine_commits (W : D -> D -> Prop) n s :
  (forall s, commits_within W (step s)) -> commits_within W (run_machine n final step s).
Proof.
  intros Hstep. revert s. induction n as [|n IH]; intros s; simpl.
  - intros d. apply runs_throw. constructor.
  - destruct (final s); [apply commits_within_ro; done|].
    apply commits_within_bind; [apply Hstep|intros s'; apply IH].
Qed.
End MachineCommits.

(** An assertion [assert Inv(s)] placed at the top of every iteration of
    a loop: when it fails the run stops with [AssertionError]. *)
Definition guard_step {D S} (Inv : S -> Prop) `{!forall s, Decision (Inv s)}
    (step : S -> io D S) (s : S) : io D S :=
  if decide (Inv s) then step s else throw (TypeError "AssertionError").

Section MachineGuard.
Context {D S R : Type} (final : S -> option R) (step : S -> io D S).
Context (Inv : S -> Prop) `{!forall s, Decision (Inv s)}.

(** If every step from a state satisfying [Inv] can only enter states
    satisfying [Inv], the run with the assertion is the run without it:
    the assertion never fires. *)
Lemma run_machine_guard n s (w : world D) :
  (forall s, Inv s -> final s = None -> rets (step s) Inv (fun _ => True)) ->
  Inv s ->
  run_machine n final (guard_step Inv step) s w = run_machine n final step s w.
Proof.
  intros Hstep. revert s w. induction n as [|n IH]; intros s w Hs; [done|]. simpl.
  destruct (final s) as [r|] eqn:Ef; [done|].
  rewrite !io_bind_run. unfold guard_step. rewrite decide_True by done.
  specialize (Hstep s Hs Ef w I).
  destruct (step s w) as [[s'|e] w'] eqn:E; simpl in *; [|done]. by apply IH.
Qed.
End MachineGuard.

(** ** [int(str(z)) == z]

    [str] prints no whitespace and only digits after the sign, and
    [int] reads them back: the decimal printing of [dec_go] and the
    digit reading of [int_digits] are inverse. *)

Section DecimalRoundTrip.

Lemma code_digit_char d : (d < 10)%N -> code (digit_char d) = (48 + d)%N.
Proof. intros Hd. unfold code, digit_char. apply N_ascii_embedding. lia. Qed.

Lemma digit_char_decimal d : (d < 10)%N -> is_decimal (digit_char d) = true.
Proof. intros Hd. unfold is_decimal. rewrite code_digit_char by done. rewrite andb_true_iff, !N.leb_le. lia. Qed.

Lemma digit_char_not_space d : (d < 10)%N -> is_space (digit_char d) = false.
Proof.
  intros Hd. unfold is_space. rewrite code_digit_char by done.
  assert (d = 0 \/ d = 1 \/ d = 2 \/ d = 3 \/ d = 4 \/ d = 5 \/ d = 6 \/ d = 7 \/ d = 8 \/ d = 9)%N
    as Hc by lia.
  repeat destruct Hc as [->|Hc]; [..|subst]; reflexivity.
Qed.

Lemma digit_value_char d : (d < 10)%N -> digit_value (digit_char d) = Z.of_N d.
Proof. intros Hd. unfold digit_value. rewrite code_digit_char by done. f_equal. lia. Qed.

Lemma dec_go_zero f acc : dec_go f 0 acc = acc.
Proof. by destruct f. Qed.

Lemma pos_lt_pow_size_nat p : (Npos p < 2 ^ N.of_nat (Pos.size_nat p))%N.
Proof.
  induction p as [p IH|p IH|]; simpl; [| |lia];
    rewrite Nat2N.inj_succ, N.pow_succ_r'; lia.
Qed.

(** Printing a positive [n] in front of [acc] and reading it back from
    the start gives [n], followed by the reading of [acc]. *)
Lemma int_digits_dec_go f (n : N) acc :
  (0 < n)%N -> (n < 2 ^ N.of_nat f)%N ->
  int_digits (dec_go f n acc) 0 false = int_digits acc (Z.of_N n) true.
Proof.
  revert n acc. induction f as [|f IH]; intros n acc Hn Hf; [simpl in Hf; lia|].
  cbn [dec_go]. replace (n =? 0)%N with false by (symmetry; apply N.eqb_neq; lia).
  assert (Hm : (n mod 10 < 10)%N) by (apply N.mod_lt; lia).
  destruct (N.eq_dec (n / 10)%N 0%N) as [Hq|Hq].
  - rewrite Hq, dec_go_zero. simpl. rewrite digit_char_decimal, digit_value_char by done.
    f_equal. pose proof (N.div_mod n 10 ltac:(lia)) as Hdm. rewrite Hq in Hdm. lia.
  - rewrite IH; [|by apply N.neq_0_lt_0|].
    + simpl. rewrite digit_char_decimal, digit_value_char by done.
      f_equal. pose proof (N.div_mod n 10 ltac:(lia)) as Hdm. lia.
    + rewrite Nat2N.inj_succ, N.pow_succ_r' in Hf.
      apply N.Div0.div_lt_upper_bound. lia.
Qed.

(** The characters [str] prints are neither whitespace nor capitals. *)
Definition plain_char (c : ascii) : bool := negb (is_space c) && Ascii.eqb (lower_char c) c.

Lemma digit_char_plain d : (d < 10)%N -> plain_char (digit_char d) = true.
Proof.
  intros Hd.
  assert (d = 0 \/ d = 1 \/ d = 2 \/ d = 3 \/ d = 4 \/ d = 5 \/ d = 6 \/ d = 7 \/ d = 8 \/ d = 9)%N
    as Hc by lia.
  repeat destruct Hc as [->|Hc]; [..|subst]; reflexivity.
Qed.

Lemma dec_go_plain f n acc : all_chars plain_char acc = true -> all_chars plain_char (dec_go f n acc) = true.
Proof.
  revert n acc. induction f as [|f IH]; intros n acc Hacc; simpl; [done|].
  destruct (n =? 0)%N; [done|]. apply IH. simpl. rewrite Hacc, andb_true_r.
  apply digit_char_plain, N.mod_lt. lia.
Qed.

Lemma py_strip_plain s : all_chars plain_char s = true -> py_strip s = s.
Proof.
  intros H. unfold py_strip.
  assert (Hl : py_lstrip s = s).
  { destruct s as [|c s]; [done|]. simpl in *. unfold plain_char in H.
    by destruct (is_space c). }
  rewrite Hl. clear Hl. induction s as [|c s IH]; [done|].
  simpl in *. apply andb_true_iff in H as [Hc Hs]. rewrite IH by done. unfold plain_char in Hc.
  by destruct (is_space c).
Qed.

Lemma py_lower_plain s : all_chars plain_char s = true -> py_lower s = s.
Proof.
  induction s as [|c s IH]; intros H; [done|]. simpl in *.
  apply andb_true_iff in H as [Hc Hs]. unfold plain_char in Hc. apply andb_true_iff in Hc as [_ Hc].
  apply Ascii.eqb_eq in Hc. by rewrite Hc, IH.
Qed.

Lemma plain_nonspace s : all_chars plain_char s = true -> all_chars (fun c => negb (is_space c)) s = true.
Proof.
  induction s as [|c s IH]; intros H; [done|]. simpl in *.
  apply andb_true_iff in H as [Hc Hs]. unfold plain_char in Hc. apply andb_true_iff in Hc as [-> _].
  by apply IH.
Qed.

(** [int(s)] of a stripped text that reads as digits from its start. *)
Lemma py_int_digits s v : py_strip s = s -> int_digits s 0 false = Some v -> py_int s = Some v.
Proof.
  intros Hs Hd. unfold py_int. rewrite Hs. destruct s as [|c r]; [done|].
  destruct c as [[] [] [] [] [] [] [] []]; simpl in *; first [discriminate | exact Hd].
Qed.

Lemma dec_N_pos p :
  int_digits (dec_N (Npos p)) 0 false = Some (Zpos p) /\
  all_chars plain_char (dec_N (Npos p)) = true.
Proof.
  unfold dec_N. simpl. split.
  - rewrite int_digits_dec_go; [done|lia|apply pos_lt_pow_size_nat].
  - by apply dec_go_plain.
Qed.

Lemma py_str_int_plain z : all_chars plain_char (py_str_int z) = true.
Proof. destruct z as [|p|p]; [done| |]; destruct (dec_N_pos p) as [_ Hs]; simpl; by rewrite ?Hs. Qed.

Lemma py_int_str z : py_int (py_str_int z) = Some z.
Proof.
  pose proof (py_str_int_plain z) as Hp.
  destruct z as [|p|p]; [done| |]; destruct (dec_N_pos p) as [Hd _].
  - apply py_int_digits; [by apply py_strip_plain|exact Hd].
  - unfold py_int. rewrite py_strip_plain by exact Hp. cbn [py_str_int].
    rewrite string_app_cons, string_app_nil_l. cbv beta iota. by rewrite Hd.
Qed.
End DecimalRoundTrip.
