(* ===== verification/Trace.v ===== *)
(** * What the program shows

    The console trace of a world lists the events the program has shown,
    newest first.  [shows_ok m] says that [m] only adds events that are
    [event_ok]: prompts and printed lines, and tables with at least one
    row (UI.py's [print_rows] prints [No results.] instead of an empty
    table, spec section 8).  The rules for the monad's operations are
    hints of the database [shows]; the definitions the tactic
    [solve_shows] may unfold are registered with [Hint Unfold] in the
    file that declares them, and each loop has its own lemma. *)

From Stdlib Require Import Lia.
From stdpp Require Import base list tactics.
From S2P Require Import Prelude.

Create HintDb shows.

Definition event_ok (ev : event) : Prop :=
  match ev with
  | EvTable _ rows => rows <> []
  | _ => True
  end.

Definition shows_ok {D A} (m : io D A) : Prop :=
  forall w, Forall event_ok (w_out w) -> Forall event_ok (w_out (snd (m w))).

Section ShowsRules.
Context {D : Type}.

Lemma shows_ok_ret {A} (a : A) : shows_ok (D:=D) (mret a).
Proof. by intros w. Qed.

Lemma shows_ok_throw {A} e : shows_ok (D:=D) (throw (A:=A) e).
Proof. by intros w. Qed.

Lemma shows_ok_get_db : shows_ok (D:=D) get_db.
Proof. by intros w. Qed.

Lemma shows_ok_put_db d : shows_ok (D:=D) (put_db d).
Proof. by intros w. Qed.

Lemma shows_ok_emit ev : event_ok ev -> shows_ok (D:=D) (emit ev).
Proof. intros Hev w Hw. simpl. by constructor. Qed.

Lemma shows_ok_print s : shows_ok (D:=D) (print s).
Proof. by apply shows_ok_emit. Qed.

Lemma shows_ok_prompt p : shows_ok (D:=D) (emit (EvPrompt p)).
Proof. by apply shows_ok_emit. Qed.

Lemma shows_ok_bind {A B} (m : io D A) (f : A -> io D B) :
  shows_ok m -> (forall a, shows_ok (f a)) -> shows_ok (m ≫= f).
Proof.
  intros Hm Hf w Hw. rewrite io_bind_run. specialize (Hm w Hw).
  destruct (m w) as [[a|e] w']; simpl in *; [by apply Hf|done].
Qed.

(** The continuation needs only the values [m] may return. *)
Lemma shows_ok_rets_bind {A B} (m : io D A) (f : A -> io D B) (P : A -> Prop) :
  rets m P (fun _ => True) -> shows_ok m -> (forall a, P a -> shows_ok (f a)) -> shows_ok (m ≫= f).
Proof.
  intros Hr Hm Hf w Hw. rewrite io_bind_run. specialize (Hm w Hw). specialize (Hr w I).
  destruct (m w) as [[a|e] w']; simpl in *; [by apply Hf|done].
Qed.

Lemma shows_ok_catch {A} (m : io D A) h :
  shows_ok m -> (forall e m', h e = Some m' -> shows_ok m') -> shows_ok (catch m h).
Proof.
  intros Hm Hh w Hw. unfold catch. specialize (Hm w Hw).
  destruct (m w) as [[a|e] w'] eqn:E; simpl in *; [done|].
  destruct (h e) as [m'|] eqn:Eh; [by eapply Hh|done].
Qed.

Lemma shows_ok_run_machine {S R} n (final : S -> option R) (step : S -> io D S) s :
  (forall s, shows_ok (step s)) -> shows_ok (run_machine n final step s).
Proof.
  intros Hstep. revert s. induction n as [|n IH]; intros s; simpl; [apply shows_ok_throw|].
  destruct (final s); [apply shows_ok_ret|]. by apply shows_ok_bind.
Qed.

Lemma shows_ok_mapM {A B} (f : A -> io D B) l :
  (forall a, shows_ok (f a)) -> shows_ok (mapM f l).
Proof.
  intros Hf. induction l as [|a l IH]; simpl; [apply shows_ok_ret|].
  apply shows_ok_bind; [done|]. intros b. apply shows_ok_bind; [done|]. intros. apply shows_ok_ret.
Qed.
End ShowsRules.

#[export] Hint Resolve shows_ok_ret shows_ok_throw shows_ok_get_db shows_ok_put_db shows_ok_print
  shows_ok_prompt shows_ok_run_machine shows_ok_mapM : shows.

(** Close the goal from the hints, or split binds, catches and case
    analyses, or unfold the definitions registered in [shows].  The hints
    come first: [apply shows_ok_bind] would unfold a definition that has
    a lemma of its own. *)
Ltac solve_shows :=
  repeat first
    [ progress cbv beta zeta
    | solve [eauto with shows]
    | apply shows_ok_bind; [|intros ?]
    | apply shows_ok_catch; [|intros ? ? ?]
    | apply shows_ok_run_machine; intros ?
    | match goal with
      | |- shows_ok (match ?x with _ => _ end) => destruct x
      | |- shows_ok (if ?b then _ else _) => destruct b
      | H : Some _ = Some _ |- _ => injection H as <-
      | H : None = Some _ |- _ => discriminate H
      | H : (match ?x with _ => _ end) = Some _ |- _ => destruct x
      end
    | progress autounfold with shows ].
