(* ===== verification/FilterSpecs.v ===== *)
(** * The filter specification tables (src/src/AllFilterSpecs.py)

    [FilterSpec] is the frozen dataclass of the source, field for field; the
    four tables are the listings' declared filters, in their declared order.
    The UI and SQL kinds are kept as the strings the source compares
    ([Literal] annotations are not enforced at run time); [spec_wf] says a
    spec uses only the declared kinds and names a column, and every table
    is well formed with unique keys and labels. *)

From Stdlib Require Import Ascii ZArith.
From stdpp Require Import base list strings.
From S2P Require Import Prelude.

Record FilterSpec := mkFilterSpec {
  key : string;
  label : string;
  ui_kind : string;
  prompt : option string;
  sql_kind : string;
  col : option string
}.

Definition FLIGHT_FILTER_SPECS : list FilterSpec := [
  mkFilterSpec "flight_no_like" "FlightNo" "text"
    (Some "FlightNo Contains: ") "like" (Some "v.FlightNumber");
  mkFilterSpec "airline_code" "Airline Code" "text"
    (Some "Airline Code (ICAO or IATA): ") "equal_ci"
    (Some "COALESCE(al.IcaoCode, al.IataCode, '')");
  mkFilterSpec "departure_iata" "Departure Airport Code" "text"
    (Some "Departure Airport IATA: ") "equal_ci" (Some "v.OriginIata");
  mkFilterSpec "arrival_iata" "Arrival Airport Code" "text"
    (Some "Arrival Airport IATA: ") "equal_ci" (Some "v.DestIata");
  mkFilterSpec "departure_date" "Departure Date" "text"
    (Some "Departure Date YYYY-MM-DD: ") "equal" (Some "v.FlightDate");
  mkFilterSpec "arrival_date" "Arrival Date" "text"
    (Some "Arrival Date YYYY-MM-DD: ") "equal" (Some "date(v.SchedArrUtc)");
  mkFilterSpec "status" "Status" "status"
    (Some "Status: ") "equal" (Some "v.Status");
  mkFilterSpec "has_captain" "Has Captain" "yes_no"
    (Some "Has Captain (Y/N): ") "presence" (Some "v.Captain");
  mkFilterSpec "has_first_officer" "Has First Officer (Y/N)" "yes_no"
    (Some "Has First Officer (Y/N) ") "presence"
    (Some ("v." +:+ dq +:+ "First Officer" +:+ dq))
].

Definition PILOT_SCHEDULE_FILTER_SPECS : list FilterSpec := [
  mkFilterSpec "staff_id" "Pilot StaffID" "int"
    (Some "Pilot StaffID: ") "equal" (Some "StaffID");
  mkFilterSpec "flight_no_like" "FlightNo" "text"
    (Some "FlightNo Contains: ") "like" (Some "FlightNumber");
  mkFilterSpec "duty_role" "Duty Role" "text"
    (Some "Duty Role: ") "equal_ci" (Some "DutyRole");
  mkFilterSpec "status" "Status" "status"
    (Some "Status: ") "equal" (Some "Status");
  mkFilterSpec "date" "Date" "text"
    (Some "Date YYYY-MM-DD: ") "equal" (Some "FlightDate")
].

Definition AUDIT_LOG_FILTER_SPECS : list FilterSpec := [
  mkFilterSpec "op" "Operation" "text"
    (Some "Operation (INSERT/UPDATE/DELETE): ") "equal_ci" (Some "Operation");
  mkFilterSpec "instance_id" "InstanceID" "int"
    (Some "InstanceID: ") "equal" (Some "InstanceID");
  mkFilterSpec "field" "Field Changed" "text"
    (Some "FieldChanged (e.g. Status, Gate): ") "equal" (Some "FieldChanged")
].

Definition AIRPORT_FILTER_SPECS : list FilterSpec := [
  mkFilterSpec "iata" "Airport IATA" "text"
    (Some "Airport IATA exact: ") "equal_ci" (Some "IataCode");
  mkFilterSpec "country" "Country" "text"
    (Some "Country Contains: ") "like" (Some "Country")
].

(** ** Well-formedness of a table *)

Definition UI_KINDS : list string := ["text"; "status"; "yes_no"; "int"].
Definition SQL_KINDS : list string := ["like"; "equal"; "equal_ci"; "presence"].

Definition str_mem (s : string) (l : list string) : bool := existsb (String.eqb s) l.

Fixpoint str_nodup (l : list string) : bool :=
  match l with
  | [] => true
  | s :: l' => negb (str_mem s l') && str_nodup l'
  end.

(** A spec names a non-empty column and uses the declared kinds. *)
Definition spec_wf (s : FilterSpec) : bool :=
  str_mem (ui_kind s) UI_KINDS && str_mem (sql_kind s) SQL_KINDS &&
  match col s with Some c => negb (c ==? "") | None => false end.

Definition table_wf (specs : list FilterSpec) : bool :=
  forallb spec_wf specs && str_nodup (map key specs) && str_nodup (map label specs).

Definition ALL_TABLES : list (list FilterSpec) :=
  [FLIGHT_FILTER_SPECS; PILOT_SCHEDULE_FILTER_SPECS;
   AUDIT_LOG_FILTER_SPECS; AIRPORT_FILTER_SPECS].

Lemma str_mem_spec s l : str_mem s l = true <-> s ∈ l.
Proof.
  unfold str_mem. rewrite existsb_exists, list_elem_of_In. split.
  - intros (x & Hin & Heq). apply String.eqb_eq in Heq. by subst.
  - intros Hin. exists s. by rewrite String.eqb_refl.
Qed.

Lemma str_nodup_spec l : str_nodup l = true <-> NoDup l.
Proof.
  induction l as [|s l IH]; simpl; [split; [constructor|done]|].
  rewrite andb_true_iff, negb_true_iff, NoDup_cons, <- IH.
  split; intros [H1 H2]; split; try done.
  - intros Hin. apply str_mem_spec in Hin. congruence.
  - destruct (str_mem s l) eqn:E; [|done]. by apply str_mem_spec in E.
Qed.

Lemma table_wf_spec specs :
  table_wf specs = true ->
  Forall (fun s => spec_wf s = true) specs /\
  NoDup (map key specs) /\ NoDup (map label specs).
Proof.
  unfold table_wf. rewrite !andb_true_iff, forallb_forall, !str_nodup_spec.
  intros [[H1 H2] H3]. split_and!; [|done|done].
  apply Forall_forall. intros x Hx. apply H1. by apply list_elem_of_In.
Qed.

Lemma all_tables_wf : Forall (fun t => table_wf t = true) ALL_TABLES.
Proof. repeat constructor; vm_compute; reflexivity. Qed.

#[export] Hint Resolve all_tables_wf : fdb.
