(* ===== verification/FilterSQL.v ===== *)
(** * Filter state and the SQL predicate composer (src/src/FilterSQL.py)

    The filter dict of a browsing session maps each spec key to a Python
    value or [None]: a [gmap string (option fvalue)], where a key that is
    present with [None] differs from an absent key, as in the dict.
    [init_filters], [format_filters] and [apply_sql_filter] are the pure
    functions of FilterSQL.py; [clear_filters] is UI.py's in-place reset;
    [prompt_filter] is the interactive update, written in the io monad and
    taking the two prompt callbacks as arguments exactly as the source does.

    The theorems: the composer's contract (no-op on blank values, at most
    one clause and one parameter appended, the clause for each SQL kind,
    [ValueError] only for an undeclared kind), the key invariant of the
    filter state (init, reset and prompt keep the keys those of the specs),
    and the rendering of the active-filter summary. *)

From Stdlib Require Import Ascii ZArith Lia.
From stdpp Require Import base list gmap strings.
From S2P Require Import Prelude Trace FilterSpecs.

(** A filter value: the [str] or [int] the prompts store. *)
Inductive fvalue :=
  | FStr (s : string)
  | FInt (z : Z).

#[export] Instance fvalue_eq_dec : EqDecision fvalue.
Proof. solve_decision. Defined.

Abbreviation filters := (gmap string (option fvalue)).

(** [f"{v}"] *)
Definition fvalue_str (v : fvalue) : string :=
  match v with
  | FStr s => s
  | FInt z => py_str_int z
  end.

(** [v in (None, "")] *)
Definition is_blank (v : option fvalue) : bool :=
  match v with
  | None => true
  | Some (FStr s) => s ==? ""
  | Some (FInt _) => false
  end.

(** [filters.get(k)] *)
Definition filters_get (f : filters) (k : string) : option fvalue :=
  match f !! k with
  | Some (Some v) => Some v
  | _ => None
  end.

(** [{s.key: None for s in specs}] *)
Definition init_filters (specs : list FilterSpec) : filters :=
  list_to_map ((fun s => (key s, None)) <$> specs).

(** One entry of the summary: [f"{s.label}={v}"] when the value is set. *)
Definition format_part (f : filters) (s : FilterSpec) : option string :=
  let v := filters_get f (key s) in
  if is_blank v then None
  else (fun x => label s +:+ "=" +:+ fvalue_str x) <$> v.

Definition format_filters (f : filters) (specs : list FilterSpec) : string :=
  match omap (format_part f) specs with
  | [] => "(none)"
  | parts => py_join ", " parts
  end.

(** [clear_filters] (UI.py): every key present is set to [None]. *)
Definition clear_filters (f : filters) : filters := (fun _ => None) <$> f.

(** [apply_sql_filter(sql, params, spec, value)]: the caller's parameter
    list is mutated by [append]; the model returns it with the new SQL. *)
Definition apply_sql_filter (sql : string) (params : list fvalue)
    (spec : FilterSpec) (value : option fvalue) : res (string * list fvalue) :=
  match value, col spec with
  | Some v, Some c =>
      if is_blank value || (c ==? "") then Ok (sql, params) else
      let kind := sql_kind spec in
      if kind ==? "like" then
        Ok (sql +:+ " AND " +:+ c +:+ " LIKE ?",
            params ++ [FStr ("%" +:+ fvalue_str v +:+ "%")])
      else if kind ==? "equal" then
        Ok (sql +:+ " AND " +:+ c +:+ " = ?", params ++ [v])
      else if kind ==? "equal_ci" then
        Ok (sql +:+ " AND " +:+ c +:+ " = ? COLLATE NOCASE", params ++ [v])
      else if kind ==? "presence" then
        if bool_decide (v = FStr "yes") then
          Ok (sql +:+ " AND " +:+ c +:+ " IS NOT NULL AND trim(" +:+ c +:+ ") <> ''", params)
        else if bool_decide (v = FStr "no") then
          Ok (sql +:+ " AND (" +:+ c +:+ " IS NULL OR trim(" +:+ c +:+ ") = '')", params)
        else Ok (sql, params)
      else Exc (ValueError ("Unknown sql_kind: " +:+ kind))
  | _, _ => Ok (sql, params)
  end.

(** ** The interactive update [prompt_filter] *)

(** [next(s for s in specs if s.label == label)] *)
Fixpoint find_by_label (specs : list FilterSpec) (l : string) : option FilterSpec :=
  match specs with
  | [] => None
  | s :: specs' => if label s ==? l then Some s else find_by_label specs' l
  end.

(** [spec.prompt or default] *)
Definition prompt_or (p : option string) (default : string) : string :=
  match p with
  | Some t => if t ==? "" then default else t
  | None => default
  end.

Section PromptFilter.
Context {D : Type}.
Variable choose_from_list : string -> list string -> io D string.
Variable prompt_optional : string -> io D (option string).

(** The [while True] loop that reads a value for a non-status spec; it
    returns the value the loop stores in [filters[spec.key]]. *)
Fixpoint prompt_value_loop (fuel : nat) (spec : FilterSpec) : io D fvalue :=
  match fuel with
  | O => throw OutOfFuel
  | S fuel' =>
      raw ← prompt_optional (prompt_or (prompt spec) (label spec +:+ ": "));
      match raw with
      | Some r =>
          if r ==? "" then
            print "Invalid value. A value is required. Use -q to cancel." ;;
            prompt_value_loop fuel' spec
          else if ui_kind spec ==? "int" then
            match py_int r with
            | Some z => mret (FInt z)
            | None =>
                print "Invalid value. Enter a whole number. Use -q to cancel." ;;
                prompt_value_loop fuel' spec
            end
          else if ui_kind spec ==? "yes_no" then
            let v := py_lower (py_strip r) in
            if (v ==? "y") || (v ==? "yes") then mret (FStr "yes")
            else if (v ==? "n") || (v ==? "no") then mret (FStr "no")
            else
              print "Invalid value. Enter Yes or No. Use -q to cancel." ;;
              prompt_value_loop fuel' spec
          else mret (FStr r)
      | None =>
          print "Invalid value. A value is required. Use -q to cancel." ;;
          prompt_value_loop fuel' spec
      end
  end.

Definition prompt_filter (fuel : nat) (f : filters) (specs : list FilterSpec)
    (valid_statuses : list string) : io D filters :=
  l ← choose_from_list "Filter to Update:" (label <$> specs);
  match find_by_label specs l with
  | None => throw StopIteration
  | Some spec =>
      if ui_kind spec ==? "status" then
        st ← choose_from_list (prompt_or (prompt spec) "Status: ") valid_statuses;
        mret (<[key spec := Some (FStr st)]> f)
      else
        v ← prompt_value_loop fuel spec;
        mret (<[key spec := Some v]> f)
  end.
End PromptFilter.

(** ** The composer's contract *)

Lemma is_blank_false_some v : is_blank v = false -> exists x, v = Some x.
Proof. destruct v; [eauto|done]. Qed.

(** C12. A blank value ([None] or [""]), a spec without a column, or a
    spec whose column is empty leaves the SQL text and the parameter list
    exactly as they were. *)
Theorem apply_sql_filter_noop sql params spec value :
  value = None \/ value = Some (FStr "") \/ col spec = None \/ col spec = Some "" ->
  apply_sql_filter sql params spec value = Ok (sql, params).
Proof.
  unfold apply_sql_filter. intros H.
  destruct value as [v|], (col spec) as [c|]; try done.
  destruct H as [H|[H|[H|H]]]; simplify_eq; [done|].
  by rewrite orb_true_r.
Qed.

(** A blank value is skipped whatever the spec. *)
Lemma apply_sql_filter_blank sql params spec value :
  is_blank value = true -> apply_sql_filter sql params spec value = Ok (sql, params).
Proof. unfold apply_sql_filter. intros Hb. destruct value, (col spec); try done. by rewrite Hb. Qed.

(** On success the composer appends one clause to the text (possibly the
    empty one) and at most one parameter. *)
Lemma apply_sql_filter_extends sql params spec value sql' params' :
  apply_sql_filter sql params spec value = Ok (sql', params') ->
  exists clause extra,
    sql' = sql +:+ clause /\ params' = params ++ extra /\ length extra <= 1.
Proof.
  unfold apply_sql_filter.
  destruct value as [v|], (col spec) as [c|];
    try (intros [= <- <-]; exists "", []; rewrite string_app_nil_r, app_nil_r;
         split_and!; [done|done|simpl; lia]).
  repeat case_match; intros [= <- <-];
    first [ exists "", []; rewrite string_app_nil_r, app_nil_r; split_and!; [done|done|simpl; lia]
          | eexists _, []; split_and!; [reflexivity | by rewrite app_nil_r | simpl; lia]
          | eexists _, [_]; split_and!; [reflexivity | reflexivity | simpl; lia] ].
Qed.

(** The only error is [ValueError] for a SQL kind outside the declared
    four, raised for a set value on a spec with a column. *)
Lemma apply_sql_filter_error sql params spec value e :
  apply_sql_filter sql params spec value = Exc e ->
  e = ValueError ("Unknown sql_kind: " +:+ sql_kind spec) /\
  str_mem (sql_kind spec) SQL_KINDS = false.
Proof.
  unfold apply_sql_filter.
  destruct value as [v|], (col spec) as [c|]; try done.
  repeat case_match; try done. intros [= <-]. split; [done|].
  unfold str_mem; simpl. repeat match goal with H : (_ ==? _) = false |- _ => rewrite H end.
  done.
Qed.

Lemma apply_sql_filter_wf sql params spec value :
  spec_wf spec = true -> exists r, apply_sql_filter sql params spec value = Ok r.
Proof.
  intros Hwf. destruct (apply_sql_filter sql params spec value) as [r|e] eqn:E; [eauto|].
  apply apply_sql_filter_error in E as [_ Hk].
  unfold spec_wf in Hwf. rewrite Hk, andb_false_r in Hwf. simpl in Hwf. discriminate.
Qed.

(** ** The key invariant of the filter state *)

Definition spec_keys (specs : list FilterSpec) : gset string := list_to_set (key <$> specs).

Lemma init_filters_lookup specs k :
  init_filters specs !! k = if bool_decide (k ∈ key <$> specs) then Some None else None.
Proof.
  unfold init_filters. induction specs as [|s specs IH]; [done|].
  rewrite !fmap_cons, list_to_map_cons.
  destruct (decide (key s = k)) as [<-|Hne].
  - rewrite lookup_insert_eq, bool_decide_true; [done|]. set_solver.
  - rewrite lookup_insert_ne by done. rewrite IH.
    repeat case_bool_decide; try done; set_solver.
Qed.

Lemma init_filters_dom specs : dom (init_filters specs) = spec_keys specs.
Proof.
  apply set_eq. intros k. rewrite elem_of_dom, init_filters_lookup.
  unfold spec_keys. rewrite elem_of_list_to_set.
  case_bool_decide as Hin; split; intros Hx; first [done | by eexists | by destruct Hx].
Qed.

Lemma clear_filters_dom f : dom (clear_filters f) = dom f.
Proof. unfold clear_filters. by rewrite dom_fmap_L. Qed.

Lemma clear_filters_get f k : filters_get (clear_filters f) k = None.
Proof. unfold filters_get, clear_filters. rewrite lookup_fmap. by destruct (f !! k). Qed.

Lemma init_filters_get specs k : filters_get (init_filters specs) k = None.
Proof. unfold filters_get. rewrite init_filters_lookup. by case_bool_decide. Qed.

#[export] Hint Resolve init_filters_dom clear_filters_dom : fdb.
#[export] Hint Rewrite clear_filters_get init_filters_get : fdb_rw.

(** ** The active-filter summary *)

Lemma format_part_none f s : filters_get f (key s) = None -> format_part f s = None.
Proof. unfold format_part. by intros ->. Qed.

Lemma omap_all_none {A B} (g : A -> option B) l :
  Forall (fun x => g x = None) l -> omap g l = [].
Proof. induction 1 as [|x l Hx _ IH]; simpl; [done|]. by rewrite Hx. Qed.

(** A fresh or just reset filter state renders as ["(none)"]. *)
Lemma format_filters_cleared f specs :
  format_filters (clear_filters f) specs = "(none)".
Proof.
  unfold format_filters. rewrite omap_all_none; [done|].
  apply Forall_forall. intros s _. apply format_part_none, clear_filters_get.
Qed.

(** ** prompt_filter against the contract of its callbacks

    prompt_filter receives [choose_from_list] and [prompt_optional] as
    arguments.  What it needs of them is an interface: [ChooseLaw] (the
    chosen option is one of the options offered) and [PromptLaw] (neither
    raises [StopIteration]).  UI.py's functions satisfy both (Console.v). *)

Class ChooseLaw {D} (choose : string -> list string -> io D string) : Prop :=
  choose_law t opts : rets (choose t opts) (fun a => a ∈ opts) (fun e => e <> StopIteration).

Class PromptLaw {D} (popt : string -> io D (option string)) : Prop :=
  prompt_law p : rets (popt p) (fun _ => True) (fun e => e <> StopIteration).

(** The value prompt_filter stores for a spec, by the spec's UI kind. *)
Definition value_fits (statuses : list string) (spec : FilterSpec) (v : fvalue) : Prop :=
  if ui_kind spec ==? "status" then exists st, v = FStr st /\ st ∈ statuses
  else if ui_kind spec ==? "int" then exists z, v = FInt z
  else if ui_kind spec ==? "yes_no" then v = FStr "yes" \/ v = FStr "no"
  else exists s, v = FStr s /\ s <> "".

Lemma find_by_label_elem specs l s :
  find_by_label specs l = Some s -> s ∈ specs /\ label s = l.
Proof.
  induction specs as [|s' specs IH]; simpl; [done|].
  case_eqb; [intros [= <-]; split; [set_solver|done]|].
  intros H. destruct (IH H). split; [set_solver|done].
Qed.

Lemma find_by_label_total specs l :
  l ∈ label <$> specs -> exists s, find_by_label specs l = Some s.
Proof.
  induction specs as [|s' specs IH]; [set_solver|].
  rewrite fmap_cons, elem_of_cons. intros Hl. cbn [find_by_label]. case_eqb; [eauto|].
  destruct Hl as [->|Hl]; [done|]. by apply IH.
Qed.

(** Setting the key of a declared spec keeps the declared keys. *)
Lemma insert_spec_key_dom (f : filters) specs spec x :
  spec ∈ specs -> dom f = spec_keys specs -> dom (<[key spec := x]> f) = spec_keys specs.
Proof.
  intros Hin Hdom. rewrite dom_insert_L, Hdom.
  unfold spec_keys. apply set_eq. intros k. rewrite elem_of_union, elem_of_singleton.
  split; [intros [->|Hk]; [|done]|auto]. rewrite elem_of_list_to_set. set_solver.
Qed.

(** The type of a filter state: every value set for a spec fits the
    spec's UI kind. *)
Definition filters_typed (statuses : list string) (specs : list FilterSpec) (f : filters) : Prop :=
  forall spec v, spec ∈ specs -> f !! key spec = Some (Some v) -> value_fits statuses spec v.

#[export] Instance value_fits_dec statuses spec v : Decision (value_fits statuses spec v).
Proof.
  unfold value_fits.
  destruct (_ ==? "status"); [|destruct (_ ==? "int"); [|destruct (_ ==? "yes_no")]];
    destruct v as [s|z]; try (right; naive_solver); try (left; naive_solver); try apply _.
  - destruct (decide (s ∈ statuses)); [left|right]; naive_solver.
  - destruct (decide (s = "")); [right|left]; naive_solver.
Defined.

(** One spec at a time: [filters_typed] is decidable. *)
Definition spec_typed (statuses : list string) (f : filters) (spec : FilterSpec) : Prop :=
  match f !! key spec with
  | Some (Some v) => value_fits statuses spec v
  | _ => True
  end.

Lemma filters_typed_Forall statuses specs f :
  filters_typed statuses specs f <-> Forall (spec_typed statuses f) specs.
Proof.
  rewrite Forall_forall. unfold spec_typed. split.
  - intros H spec Hin. destruct (f !! key spec) as [[v|]|] eqn:E; [|done|done].
    by apply (H spec v).
  - intros H spec v Hin E. specialize (H spec Hin). by rewrite E in H.
Qed.

#[export] Instance spec_typed_dec statuses f spec : Decision (spec_typed statuses f spec).
Proof. unfold spec_typed. repeat case_match; apply _. Defined.

#[export] Instance filters_typed_dec statuses specs f : Decision (filters_typed statuses specs f).
Proof.
  destruct (decide (Forall (spec_typed statuses f) specs)) as [H|H]; [left|right];
    by rewrite filters_typed_Forall.
Defined.

Lemma init_filters_typed statuses specs : filters_typed statuses specs (init_filters specs).
Proof. intros spec v _. rewrite init_filters_lookup. by case_bool_decide. Qed.

Lemma clear_filters_typed statuses specs f : filters_typed statuses specs (clear_filters f).
Proof. intros spec v _. unfold clear_filters. rewrite lookup_fmap. by destruct (f !! key spec). Qed.

Lemma key_inj specs s1 s2 :
  NoDup (map key specs) -> s1 ∈ specs -> s2 ∈ specs -> key s1 = key s2 -> s1 = s2.
Proof.
  induction specs as [|s specs IH]; [set_solver|]. cbn [map]. rewrite NoDup_cons, !elem_of_cons.
  assert (Hm : forall s', s' ∈ specs -> key s' ∈ map key specs).
  { intros s' Hs'. apply list_elem_of_In, in_map, list_elem_of_In, Hs'. }
  intros [Hnin Hnd] [->|H1] [->|H2] Hk; try done.
  - destruct Hnin. rewrite Hk. by apply Hm.
  - destruct Hnin. rewrite <- Hk. by apply Hm.
  - by apply IH.
Qed.

(** Setting a spec's key to a value of its kind keeps the state typed,
    when the listing's keys are distinct. *)
Lemma insert_filters_typed statuses specs f spec v :
  NoDup (map key specs) -> spec ∈ specs -> value_fits statuses spec v ->
  filters_typed statuses specs f -> filters_typed statuses specs (<[key spec := Some v]> f).
Proof.
  intros Hnd Hin Hv Hf spec' v' Hin'. destruct (decide (key spec = key spec')) as [Hk|Hk].
  - rewrite <- Hk, lookup_insert_eq. intros [= <-]. by rewrite <- (key_inj specs spec spec').
  - rewrite lookup_insert_ne by done. by apply Hf.
Qed.

Lemma all_tables_keys_nodup specs : specs ∈ ALL_TABLES -> NoDup (map key specs).
Proof.
  intros Hin. apply table_wf_spec. by apply (proj1 (Forall_forall _ _) all_tables_wf).
Qed.

Section PromptFilterProps.
Context {D : Type} (choose : string -> list string -> io D string)
  (popt : string -> io D (option string)) `{!ChooseLaw choose} `{!PromptLaw popt}.
Variable statuses : list string.

Lemma prompt_value_loop_fits fuel spec :
  ui_kind spec <> "status" ->
  rets (prompt_value_loop popt fuel spec) (value_fits statuses spec)
    (fun e => e <> StopIteration).
Proof.
  intros Hst. induction fuel as [|fuel IH]; simpl; [by apply rets_throw|].
  eapply rets_bind; [apply prompt_law|]. intros [r|] _; [|by apply rets_emit_seq].
  destruct (r ==? "") eqn:Er; [by apply rets_emit_seq|].
  apply string_eqb_false in Hst.
  destruct (ui_kind spec ==? "int") eqn:Ei.
  { destruct (py_int r); [|by apply rets_emit_seq].
    apply rets_ret. unfold value_fits. rewrite Hst, Ei. eauto. }
  destruct (ui_kind spec ==? "yes_no") eqn:Ey.
  - repeat case_match; first [ by apply rets_emit_seq
      | apply rets_ret; unfold value_fits; rewrite Hst, Ei, Ey; auto ].
  - apply rets_ret. unfold value_fits. rewrite Hst, Ei, Ey.
    exists r. split; [done|]. by apply string_eqb_false.
Qed.

(** The answer of one prompt: one declared spec's key set to a value
    fitting its kind. *)
Lemma prompt_filter_post fuel f specs :
  rets (prompt_filter choose popt fuel f specs statuses)
    (fun f' => exists spec v, spec ∈ specs /\ value_fits statuses spec v /\
                          f' = <[key spec := Some v]> f)
    (fun e => e <> StopIteration).
Proof.
  unfold prompt_filter. eapply rets_bind; [apply choose_law|]. intros l Hl.
  destruct (find_by_label_total specs l Hl) as [spec Hspec]. rewrite Hspec.
  destruct (find_by_label_elem _ _ _ Hspec) as [Hin _].
  destruct (ui_kind spec ==? "status") eqn:Est.
  - eapply rets_bind; [apply choose_law|]. intros st Hst. apply rets_ret.
    exists spec, (FStr st). unfold value_fits. rewrite Est. eauto.
  - apply string_eqb_false in Est.
    eapply rets_bind; [by apply prompt_value_loop_fits|]. intros v Hv.
    apply rets_ret. eauto.
Qed.

Lemma prompt_filter_keys fuel f specs :
  dom f = spec_keys specs ->
  rets (prompt_filter choose popt fuel f specs statuses)
    (fun f' => dom f' = spec_keys specs) (fun e => e <> StopIteration).
Proof.
  intros Hdom. eapply rets_conseq; [apply prompt_filter_post| |done].
  intros f' (spec & v & Hin & _ & ->). by apply insert_spec_key_dom.
Qed.

(** C22. On a filter state holding exactly the listing's keys,
    prompt_filter sets exactly one entry: the key of a spec of the listing,
    to a value of that spec's UI kind (an option of the status list, an
    [int], ["yes"]/["no"], or a non-empty text), so the state still holds
    exactly the listing's keys; the lookup of the chosen label never raises
    [StopIteration]. *)
Theorem prompt_filter_sets_one fuel f specs :
  dom f = spec_keys specs ->
  rets (prompt_filter choose popt fuel f specs statuses)
    (fun f' => exists spec v, spec ∈ specs /\ value_fits statuses spec v /\
                          f' = <[key spec := Some v]> f /\ dom f' = spec_keys specs)
    (fun e => e <> StopIteration).
Proof.
  intros Hdom. eapply rets_conseq; [apply prompt_filter_post| |done].
  intros f' (spec & v & Hin & Hv & ->). exists spec, v.
  split_and!; [done|done|done|by apply insert_spec_key_dom].
Qed.
End PromptFilterProps.

(** ** Fuel for prompt_filter *)

Section PromptFilterFuel.
Context {D : Type} (choose : string -> list string -> io D string)
  (popt : string -> io D (option string)).
Variable N : nat.
Hypothesis choose_fuel : forall t opts, fuel_ok N true (choose t opts).
Hypothesis popt_fuel : forall p, fuel_ok N true (popt p).

Lemma prompt_value_loop_fuel fuel spec :
  fuel <= N -> fuel_ok fuel true (prompt_value_loop popt fuel spec).
Proof.
  induction fuel as [|fuel IH]; intros Hle; simpl; [intros k Hk; exfalso; lia|].
  apply (fuel_ok_bind_strict fuel false).
  { eapply fuel_ok_weaken; [apply popt_fuel|lia|done]. }
  intros raw. specialize (IH ltac:(lia)).
  repeat case_match;
    first [ apply fuel_ok_ret
          | apply fuel_ok_seq; [apply fuel_ok_emit | intros _; by apply fuel_ok_strict_weak] ].
Qed.

Lemma prompt_filter_fuel fuel f specs statuses :
  fuel <= N -> fuel_ok fuel true (prompt_filter choose popt fuel f specs statuses).
Proof.
  intros Hle. unfold prompt_filter.
  apply fuel_ok_seq_strict; [eapply fuel_ok_weaken; [apply choose_fuel|lia|done]|].
  intros l. case_match; [|by apply fuel_ok_throw]. case_match.
  - apply fuel_ok_seq; [eapply fuel_ok_weaken; [apply choose_fuel|lia|done]|].
    intros st. apply fuel_ok_ret.
  - apply fuel_ok_seq; [by apply fuel_ok_strict_weak, prompt_value_loop_fuel|].
    intros v. apply fuel_ok_ret.
Qed.
End PromptFilterFuel.

(** ** prompt_filter only reads the database when its callbacks do *)

Section PromptFilterRo.
Context {D : Type} (choose : string -> list string -> io D string)
  (popt : string -> io D (option string)).
Hypothesis choose_ro : forall t opts, db_ro (choose t opts).
Hypothesis popt_ro : forall p, db_ro (popt p).
#[local] Hint Resolve choose_ro popt_ro : fdb.

Lemma prompt_value_loop_ro fuel spec : db_ro (prompt_value_loop popt fuel spec).
Proof. induction fuel; simpl; solve_ro. Qed.
#[local] Hint Resolve prompt_value_loop_ro : fdb.

Lemma prompt_filter_ro fuel f specs statuses : db_ro (prompt_filter choose popt fuel f specs statuses).
Proof. unfold prompt_filter. solve_ro. Qed.
End PromptFilterRo.

(** The filter prompt shows what its callbacks show, and prints. *)
Section PromptFilterShows.
Context {D : Type} (choose : string -> list string -> io D string) (popt : string -> io D (option string)).
Hypotheses (Hchoose : forall t opts, shows_ok (choose t opts)) (Hpopt : forall p, shows_ok (popt p)).
#[local] Hint Resolve Hchoose Hpopt : shows.

Lemma prompt_value_loop_shows n spec : shows_ok (prompt_value_loop popt n spec).
Proof. induction n; simpl; solve_shows. Qed.

#[local] Hint Resolve prompt_value_loop_shows : shows.

Lemma prompt_filter_shows n f specs st : shows_ok (prompt_filter choose popt n f specs st).
Proof. unfold prompt_filter. solve_shows. Qed.
End PromptFilterShows.

#[export] Hint Resolve prompt_filter_shows : shows.

(** ** Witnesses *)

Lemma apply_sql_filter_noop_witness :
  (Some (FStr "") = None \/ Some (FStr "") = Some (FStr "") \/
   col (hd (mkFilterSpec "" "" "" None "" None) FLIGHT_FILTER_SPECS) = None \/ col (hd (mkFilterSpec "" "" "" None "" None) FLIGHT_FILTER_SPECS) = Some "") /\
  apply_sql_filter " WHERE 1 = 1" [FInt 7] (hd (mkFilterSpec "" "" "" None "" None) FLIGHT_FILTER_SPECS) (Some (FStr "")) = Ok (" WHERE 1 = 1", [FInt 7]).
Proof.
  split; [right; left; reflexivity|].
  apply apply_sql_filter_noop. right. left. reflexivity.
Defined.
