(* ===== verification/Queries.v ===== *)
(** * The query builders and SQL statements (src/src/Queries.py)

    Every SQL text of Queries.py, character for character (the f-strings
    spliced with [+:+]; the double quotes of [v."First Officer"] spelled
    with [dq]).  A listing builder starts from its base [SELECT ... WHERE
    1 = 1] (or [WHERE Active = 1]), runs [apply_sql_filter] once per spec of
    its table in the declared order ([apply_filters], the [for spec in ...]
    loop every builder repeats), appends its fixed [ORDER BY], and returns
    the text with the parameter tuple.

    The theorems: a builder's text is its base, the filters' clauses and
    its order clause; the builders never raise on their tables; the number
    of [?] placeholders equals the number of parameters; and the text does
    not depend on what the user typed, only on which filters are set (and
    on yes/no for the presence filters): user input reaches SQLite only as
    bound parameters. *)

From Stdlib Require Import Ascii ZArith Lia.
From stdpp Require Import base list gmap strings.
From S2P Require Import Prelude FilterSpecs FilterSQL.

(** [compact_utc_expr(datetime_expr, flight_date_expr)] *)
Definition compact_utc_expr (datetime_expr flight_date_expr : string) : string :=
  let day_offset :=
    "CAST(julianday(date(" +:+ datetime_expr +:+ ")) - " +:+
    "julianday(date(" +:+ flight_date_expr +:+ ")) AS INTEGER)" in
  "strftime('%H:%M', " +:+ datetime_expr +:+ ") || " +:+
  "CASE WHEN " +:+ day_offset +:+ " > 0 THEN ' +' || " +:+ day_offset +:+ " ELSE '' END".

(** The loop [for spec in SPECS: sql = apply_sql_filter(sql, params, spec,
    filters.get(spec.key))] shared by the filtered builders. *)
Fixpoint apply_filters (sql : string) (params : list fvalue) (specs : list FilterSpec)
    (f : filters) : res (string * list fvalue) :=
  match specs with
  | [] => Ok (sql, params)
  | spec :: specs' =>
      match apply_sql_filter sql params spec (filters_get f (key spec)) with
      | Ok (sql', params') => apply_filters sql' params' specs' f
      | Exc e => Exc e
      end
  end.

(** [sql += order; return sql, tuple(params)] *)
Definition finish_query (order : string) (r : res (string * list fvalue)) : res (string * list fvalue) :=
  match r with
  | Ok (sql, params) => Ok (sql +:+ order, params)
  | Exc e => Exc e
  end.

Definition build_flights_by_criteria (f : filters) : res (string * list fvalue) :=
  let dep_utc := (compact_utc_expr "v.SchedDepUtc" "v.FlightDate") in
  let arr_utc := (compact_utc_expr "v.SchedArrUtc" "v.FlightDate") in
  let actual_dep_utc := (compact_utc_expr "v.ActualDepUtc" "v.FlightDate") in
  let actual_arr_utc := (compact_utc_expr "v.ActualArrUtc" "v.FlightDate") in
  let sql := "
        SELECT
            v.InstanceID,
            v.FlightNumber AS FlightNo,
            COALESCE(al.IcaoCode, al.IataCode, l.AirlineName) AS Airline,
            v.FlightDate   AS Date,
            " +:+ dep_utc +:+ " AS DepUTC,
            " +:+ arr_utc +:+ " AS ArrUTC,
            " +:+ actual_dep_utc +:+ " AS ActualDepUTC,
            " +:+ actual_arr_utc +:+ " AS ActualArrUTC,
            v.Status,
            v.Gate,
            v.Terminal,
            '(' || v.OriginIata || ') ' || v.OriginName AS Departure,
            '(' || v.DestIata || ') ' || v.DestinationName AS Arrival,
            v.Captain,
            v." +:+ dq +:+ "First Officer" +:+ dq +:+ " AS FirstOfficer
        FROM View_FlightsDetailedWithPilots v
        LEFT JOIN View_FlightLookup l ON l.FlightID = v.FlightID
        LEFT JOIN Airline al ON al.AirlineID = l.AirlineID
        WHERE 1 = 1
    " in
  finish_query " ORDER BY v.FlightDate DESC, v.SchedDepUtc DESC, v.FlightNumber ASC, v.InstanceID DESC;"
    (apply_filters sql [] FLIGHT_FILTER_SPECS f).

Definition build_pilot_schedule (f : filters) : res (string * list fvalue) :=
  let dep_utc := (compact_utc_expr "SchedDepUtc" "FlightDate") in
  let arr_utc := (compact_utc_expr "SchedArrUtc" "FlightDate") in
  let sql := "
        SELECT
            StaffID,
            FirstName,
            LastName,
            DutyRole,
            InstanceID,
            FlightNumber AS FlightNo,
            FlightDate   AS Date,
            " +:+ dep_utc +:+ " AS DepUTC,
            " +:+ arr_utc +:+ " AS ArrUTC,
            Status
        FROM View_PilotSchedule
        WHERE 1 = 1
    " in
  finish_query " ORDER BY FlightDate DESC, SchedDepUtc DESC, FlightNumber ASC, StaffID ASC, InstanceID DESC;"
    (apply_filters sql [] PILOT_SCHEDULE_FILTER_SPECS f).

Definition build_airports (f : filters) : res (string * list fvalue) :=
  let sql := "
        SELECT
            AirportID,
            IataCode AS IATA,
            IcaoCode AS ICAO,
            Name,
            City,
            Country,
            Timezone
        FROM Airport
        WHERE 1 = 1
    " in
  finish_query " ORDER BY Country, City, Name, AirportID;"
    (apply_filters sql [] AIRPORT_FILTER_SPECS f).

Definition build_flights_for_new_instance (_filters : filters) : res (string * list fvalue) :=
  let sql := "
        SELECT
            FlightID,
            AirlineName  AS Airline,
            FlightNumber AS FlightNo,
            OriginIata   AS OriginIATA,
            OriginName   AS OriginName,
            DestIata     AS DestIATA,
            DestName     AS DestName
        FROM View_FlightLookup
        WHERE 1 = 1
    " in
  Ok (sql +:+ " ORDER BY FlightNumber, FlightID;", []).

Definition build_airlines_for_new_flight (_filters : filters) : res (string * list fvalue) :=
  let sql := "
        SELECT
            AirlineID,
            IataCode AS IATA,
            IcaoCode AS ICAO,
            Name
        FROM Airline
        WHERE Active = 1
    " in
  Ok (sql +:+ " ORDER BY Name, AirlineID;", []).

Definition build_routes_for_new_flight (_filters : filters) : res (string * list fvalue) :=
  let sql := "
        SELECT
            r.RouteID,
            ao.IataCode AS Origin,
            ad.IataCode AS Dest,
            r.DistanceKm AS Km
        FROM Route r
        JOIN Airport ao ON ao.AirportID = r.OriginAirportID
        JOIN Airport ad ON ad.AirportID = r.DestinationAirportID
        WHERE 1 = 1
    " in
  Ok (sql +:+ " ORDER BY Origin, Dest, r.RouteID;", []).

Definition build_audit_log (f : filters) : res (string * list fvalue) :=
  let sql := "
        SELECT
            LogID,
            Operation    AS Op,
            TableName    AS 'Table',
            InstanceID,
            FlightNumber AS FlightNo,
            FlightDate   AS Date,
            FieldChanged AS Field,
            OldValue     AS Old,
            NewValue     AS New,
            ChangedAt,
            ChangedBy    AS By
        FROM View_AuditLog
        WHERE 1 = 1
    " in
  finish_query " ORDER BY ChangedAt DESC, LogID DESC;"
    (apply_filters sql [] AUDIT_LOG_FILTER_SPECS f).

(** ** The SQL statements of the workflows *)

Definition dep_utc_for_instance : string :=
  (compact_utc_expr "v.SchedDepUtc" "v.FlightDate").

Definition arr_utc_for_instance : string :=
  (compact_utc_expr "v.SchedArrUtc" "v.FlightDate").

Definition actual_dep_utc_for_instance : string :=
  (compact_utc_expr "v.ActualDepUtc" "v.FlightDate").

Definition actual_arr_utc_for_instance : string :=
  (compact_utc_expr "v.ActualArrUtc" "v.FlightDate").

Definition instance_overview_base : string :=
  "
    SELECT
        v.InstanceID,
        v.FlightNumber AS FlightNo,
        COALESCE(al.IcaoCode, al.IataCode, l.AirlineName) AS Airline,
        v.FlightDate   AS Date,
        " +:+ dep_utc_for_instance +:+ " AS DepUTC,
        " +:+ arr_utc_for_instance +:+ " AS ArrUTC,
        " +:+ actual_dep_utc_for_instance +:+ " AS ActualDepUTC,
        " +:+ actual_arr_utc_for_instance +:+ " AS ActualArrUTC,
        v.Status,
        v.Gate,
        '(' || v.OriginIata || ') ' || v.OriginName AS Departure,
        '(' || v.DestIata || ') ' || v.DestinationName AS Arrival,
        v.Captain,
        v." +:+ dq +:+ "First Officer" +:+ dq +:+ " AS FirstOfficer
    FROM View_FlightsDetailedWithPilots v
    LEFT JOIN View_FlightLookup l ON l.FlightID = v.FlightID
    LEFT JOIN Airline al ON al.AirlineID = l.AirlineID
".

Definition SQL_PREVIEW_FLIGHT_INSTANCES : string :=
  instance_overview_base +:+ " ORDER BY v.FlightDate DESC, v.SchedDepUtc DESC, v.FlightNumber ASC, v.InstanceID DESC;".

Definition SQL_INSTANCE_OVERVIEW_BY_ID : string :=
  instance_overview_base +:+ " WHERE v.InstanceID = ?;".

Definition SQL_PILOTS : string :=
  "
    SELECT
        s.StaffID,
        s.FirstName,
        s.LastName,
        a.IataCode AS BaseIata
    FROM Staff s
    JOIN Airport a ON a.AirportID = s.BaseAirportID
    WHERE s.Role = 'Pilot'
    ORDER BY s.LastName, s.FirstName, s.StaffID;
".

Definition SQL_PILOT_BY_ID : string :=
  "
    SELECT StaffID
    FROM Staff
    WHERE StaffID = ? AND Role = 'Pilot'
    LIMIT 1;
".

Definition SQL_INSTANCE_EXISTS : string :=
  "
    SELECT InstanceID
    FROM FlightInstance
    WHERE InstanceID = ?
    LIMIT 1;
".

Definition SQL_BOOKING_ITEM_COUNT_BY_INSTANCE : string :=
  "
    SELECT COUNT(*)
    FROM BookingItem
    WHERE InstanceID = ?;
".

Definition SQL_DELETE_BOOKING_ITEMS_BY_INSTANCE : string :=
  "
    DELETE FROM BookingItem
    WHERE InstanceID = ?;
".

Definition SQL_DELETE_FLIGHT_INSTANCE_BY_ID : string :=
  "
    DELETE FROM FlightInstance
    WHERE InstanceID = ?;
".

Definition SQL_CREW_FOR_INSTANCE : string :=
  "
    SELECT
        ca.InstanceID,
        ca.StaffID,
        s.FirstName,
        s.LastName,
        ca.DutyRole
    FROM CrewAssignment ca
    JOIN Staff s ON s.StaffID = ca.StaffID
    WHERE ca.InstanceID = ?
    ORDER BY ca.DutyRole, s.LastName, s.FirstName, s.StaffID;
".

Definition SQL_CREW_ASSIGNMENT_EXISTS : string :=
  "
    SELECT 1
    FROM CrewAssignment
    WHERE InstanceID = ? AND StaffID = ?;
".

Definition SQL_ROLE_TAKEN_FOR_INSTANCE : string :=
  "
    SELECT
        s.FirstName,
        s.LastName
    FROM CrewAssignment ca
    JOIN Staff s ON s.StaffID = ca.StaffID
    WHERE ca.InstanceID = ? AND ca.DutyRole = ?
    LIMIT 1;
".

Definition SQL_INSERT_CREW_ASSIGNMENT : string :=
  "
    INSERT INTO CrewAssignment (InstanceID, StaffID, DutyRole)
    VALUES (?, ?, ?);
".

Definition SQL_LAST_CREW_ASSIGNMENT : string :=
  "
    SELECT
        ca.InstanceID,
        ca.StaffID,
        s.FirstName,
        s.LastName,
        ca.DutyRole
    FROM CrewAssignment ca
    JOIN Staff s ON s.StaffID = ca.StaffID
    WHERE ca.InstanceID = ? AND ca.StaffID = ?
    LIMIT 1;
".

Definition SQL_AIRPORT_BY_ID : string :=
  "
    SELECT
        AirportID,
        IataCode AS IATA,
        IcaoCode AS ICAO,
        Name,
        City,
        Country,
        Timezone,
        Dst
    FROM Airport
    WHERE AirportID = ?;
".

Definition SQL_AIRLINE_BY_ID : string :=
  "
    SELECT
        AirlineID,
        IataCode AS IATA,
        IcaoCode AS ICAO,
        Name
    FROM Airline
    WHERE AirlineID = ? AND Active = 1
    LIMIT 1;
".

Definition SQL_ROUTE_BY_ID : string :=
  "
    SELECT
        r.RouteID,
        ao.IataCode AS Origin,
        ad.IataCode AS Dest,
        r.DistanceKm AS Km
    FROM Route r
    JOIN Airport ao ON ao.AirportID = r.OriginAirportID
    JOIN Airport ad ON ad.AirportID = r.DestinationAirportID
    WHERE r.RouteID = ?
    LIMIT 1;
".

Definition flight_lookup_base : string :=
  "
    SELECT
        f.FlightID,
        f.FlightNumber AS FlightNo,
        f.AirlineID,
        al.Name AS Airline,
        f.RouteID,
        ao.IataCode AS Origin,
        ad.IataCode AS Dest
    FROM Flight f
    JOIN Airline al ON al.AirlineID = f.AirlineID
    JOIN Route r ON r.RouteID = f.RouteID
    JOIN Airport ao ON ao.AirportID = r.OriginAirportID
    JOIN Airport ad ON ad.AirportID = r.DestinationAirportID
".

Definition SQL_FLIGHT_BY_FLIGHTID : string :=
  flight_lookup_base +:+ " WHERE f.FlightID = ? LIMIT 1;".

Definition SQL_FLIGHT_BY_AIRLINE_AND_NUMBER : string :=
  flight_lookup_base +:+ " WHERE f.AirlineID = ? AND upper(f.FlightNumber) = upper(?) LIMIT 1;".

Definition SQL_INSERT_FLIGHT : string :=
  "
    INSERT INTO Flight (AirlineID, FlightNumber, RouteID)
    VALUES (?, ?, ?);
".

Definition SQL_FLIGHT_BY_ID : string :=
  flight_lookup_base +:+ " WHERE f.FlightID = ?;".

Definition SQL_AIRCRAFT_IN_SERVICE : string :=
  "
    SELECT
        AircraftID,
        TailNumber   AS Tail,
        Manufacturer,
        Model,
        SeatCapacity AS Seats
    FROM Aircraft
    WHERE InService = 1
    ORDER BY AircraftID;
".

Definition SQL_INSERT_FLIGHT_INSTANCE : string :=
  "
    INSERT INTO FlightInstance (
        FlightID,
        FlightDate,
        SchedDepUtc,
        SchedArrUtc,
        ActualDepUtc,
        ActualArrUtc,
        Status,
        Terminal,
        Gate,
        AircraftID
    )
    VALUES (?, ?, ?, ?, NULL, NULL, ?, ?, ?, ?);
".

Definition SQL_LAST_INSERT_ROWID : string :=
  "SELECT last_insert_rowid();".

Definition SQL_REPORT_DESTINATION : string :=
  "
    SELECT *
    FROM View_FlightsPerDestination
    ORDER BY Flights DESC, DestIata, DestinationName;
".

Definition SQL_REPORT_PILOT : string :=
  "
    SELECT *
    FROM View_FlightsPerPilot
    ORDER BY AssignedInstances DESC, LastName, FirstName, StaffID;
".

(** ** Placeholders and parameters *)

Fixpoint count_qmarks (s : string) : nat :=
  match s with
  | EmptyString => 0
  | String c s' => (if (c =? "?")%char then 1 else 0) + count_qmarks s'
  end.

Lemma count_qmarks_app a b : count_qmarks (a +:+ b) = count_qmarks a + count_qmarks b.
Proof. induction a as [|c a IH]; [done|]. rewrite string_app_cons; simpl. rewrite IH. lia. Qed.

#[export] Hint Rewrite count_qmarks_app : fdb_rw.

(** A spec whose column expression contains no [?]. *)
Definition col_qfree (s : FilterSpec) : bool :=
  match col s with Some c => count_qmarks c =? 0 | None => true end.

Lemma apply_sql_filter_qmarks sql params spec v sql' params' :
  col_qfree spec = true ->
  apply_sql_filter sql params spec v = Ok (sql', params') ->
  count_qmarks sql' + length params = count_qmarks sql + length params'.
Proof.
  unfold col_qfree, apply_sql_filter. intros Hq.
  destruct v as [x|], (col spec) as [c|]; try (intros [= <- <-]; lia).
  apply Nat.eqb_eq in Hq.
  repeat case_match; intros [= <- <-]; autorewrite with fdb_rw; simpl;
    rewrite ?length_app; simpl; lia.
Qed.

Lemma apply_filters_qmarks sql params specs f sql' params' :
  forallb col_qfree specs = true ->
  apply_filters sql params specs f = Ok (sql', params') ->
  count_qmarks sql' + length params = count_qmarks sql + length params'.
Proof.
  revert sql params. induction specs as [|s specs IH]; intros sql params Hq; simpl.
  - intros [= <- <-]. lia.
  - apply andb_true_iff in Hq as [Hs Hq].
    destruct (apply_sql_filter _ _ _ _) as [[sql1 params1]|e] eqn:E; [|done].
    intros H. specialize (IH _ _ Hq H). apply apply_sql_filter_qmarks in E; [lia|done].
Qed.

Lemma finish_query_qmarks order base specs f sql params :
  count_qmarks base = 0 -> count_qmarks order = 0 -> forallb col_qfree specs = true ->
  finish_query order (apply_filters base [] specs f) = Ok (sql, params) ->
  count_qmarks sql = length params.
Proof.
  intros Hb Ho Hq. unfold finish_query.
  destruct (apply_filters base [] specs f) as [[s p]|e] eqn:E; [|done].
  intros [= <- <-]. apply apply_filters_qmarks in E; [|done].
  rewrite count_qmarks_app, Ho. simpl in E. lia.
Qed.

(** C15. Every filtered listing query has exactly as many [?] placeholders
    as parameters, whatever filters are set: SQLite's binding of the
    parameter tuple never fails on a count mismatch. *)
Theorem build_queries_placeholders f :
  (forall sql params, build_flights_by_criteria f = Ok (sql, params) ->
     count_qmarks sql = length params) /\
  (forall sql params, build_pilot_schedule f = Ok (sql, params) ->
     count_qmarks sql = length params) /\
  (forall sql params, build_airports f = Ok (sql, params) ->
     count_qmarks sql = length params) /\
  (forall sql params, build_audit_log f = Ok (sql, params) ->
     count_qmarks sql = length params).
Proof.
  split_and!; intros sql params; apply finish_query_qmarks; vm_compute; reflexivity.
Qed.

(** ** The builders never raise on the declared tables *)

Lemma apply_filters_total sql params specs f :
  forallb spec_wf specs = true -> exists r, apply_filters sql params specs f = Ok r.
Proof.
  revert sql params. induction specs as [|s specs IH]; intros sql params Hwf; simpl; [eauto|].
  apply andb_true_iff in Hwf as [Hs Hwf].
  destruct (apply_sql_filter_wf sql params s (filters_get f (key s)) Hs) as [[sql1 p1] ->].
  by apply IH.
Qed.

Lemma finish_query_total order base specs f :
  forallb spec_wf specs = true -> exists r, finish_query order (apply_filters base [] specs f) = Ok r.
Proof.
  intros Hwf. destruct (apply_filters_total base [] specs f Hwf) as [[s p] E].
  unfold finish_query. rewrite E. eauto.
Qed.

(** C34. The four filtered builders return a query for every filter state:
    the [ValueError("Unknown sql_kind")] branch of the composer is
    unreachable from the declared tables. *)
Theorem build_queries_total f :
  (exists r, build_flights_by_criteria f = Ok r) /\
  (exists r, build_pilot_schedule f = Ok r) /\
  (exists r, build_airports f = Ok r) /\
  (exists r, build_audit_log f = Ok r).
Proof. split_and!; apply finish_query_total; vm_compute; reflexivity. Qed.

(** ** The SQL text does not contain what the user typed

    What the text of a clause depends on is the [shape] of the value: set
    or not, and for a presence filter whether it is ["yes"] or ["no"]. *)

Inductive vshape := ShUnset | ShYes | ShNo | ShOther.

#[export] Instance vshape_eq_dec : EqDecision vshape.
Proof. solve_decision. Defined.

Definition value_shape (v : option fvalue) : vshape :=
  if is_blank v then ShUnset
  else if bool_decide (v = Some (FStr "yes")) then ShYes
  else if bool_decide (v = Some (FStr "no")) then ShNo
  else ShOther.

Definition res_text (r : res (string * list fvalue)) : res string :=
  match r with
  | Ok (s, _) => Ok s
  | Exc e => Exc e
  end.

(** The clause text as a function of the spec and the shape alone. *)
Definition clause_text (sql : string) (spec : FilterSpec) (sh : vshape) : res string :=
  match col spec with
  | Some c =>
      if bool_decide (sh = ShUnset) || (c ==? "") then Ok sql else
      let kind := sql_kind spec in
      if kind ==? "like" then Ok (sql +:+ " AND " +:+ c +:+ " LIKE ?")
      else if kind ==? "equal" then Ok (sql +:+ " AND " +:+ c +:+ " = ?")
      else if kind ==? "equal_ci" then Ok (sql +:+ " AND " +:+ c +:+ " = ? COLLATE NOCASE")
      else if kind ==? "presence" then
        match sh with
        | ShYes => Ok (sql +:+ " AND " +:+ c +:+ " IS NOT NULL AND trim(" +:+ c +:+ ") <> ''")
        | ShNo => Ok (sql +:+ " AND (" +:+ c +:+ " IS NULL OR trim(" +:+ c +:+ ") = '')")
        | _ => Ok sql
        end
      else Exc (ValueError ("Unknown sql_kind: " +:+ kind))
  | None => Ok sql
  end.

Lemma apply_sql_filter_text sql params spec v :
  res_text (apply_sql_filter sql params spec v) = clause_text sql spec (value_shape v).
Proof.
  unfold apply_sql_filter, clause_text, value_shape.
  destruct v as [x|]; destruct (col spec) as [c|]; try done.
  destruct (is_blank (Some x)) eqn:Eb; simpl; [done|].
  destruct (c ==? ""); rewrite ?orb_true_r, ?orb_false_r; [done|].
  repeat case_bool_decide; simplify_eq/=; repeat case_match; done.
Qed.

Lemma apply_filters_text sql p1 p2 specs f1 f2 :
  (forall k, value_shape (filters_get f1 k) = value_shape (filters_get f2 k)) ->
  res_text (apply_filters sql p1 specs f1) = res_text (apply_filters sql p2 specs f2).
Proof.
  intros Hsh. revert sql p1 p2. induction specs as [|s specs IH]; intros sql p1 p2; [done|].
  simpl. pose proof (apply_sql_filter_text sql p1 s (filters_get f1 (key s))) as T1.
  pose proof (apply_sql_filter_text sql p2 s (filters_get f2 (key s))) as T2.
  rewrite Hsh, <- T2 in T1.
  destruct (apply_sql_filter sql p1 _ _) as [[s1 q1]|e1],
           (apply_sql_filter sql p2 _ _) as [[s2 q2]|e2]; simplify_eq/=; [apply IH|done].
Qed.

Lemma finish_query_text order r1 r2 :
  res_text r1 = res_text r2 -> res_text (finish_query order r1) = res_text (finish_query order r2).
Proof. destruct r1 as [[??]|?], r2 as [[??]|?]; simpl; congruence. Qed.

(** C14. Two filter states whose values have the same shape (set or not,
    and yes/no for presence filters) give the four listings the same SQL
    text: the text typed at a filter prompt never reaches the SQL string,
    only the parameter tuple. *)
Theorem build_queries_text_independent f1 f2 :
  (forall k, value_shape (filters_get f1 k) = value_shape (filters_get f2 k)) ->
  res_text (build_flights_by_criteria f1) = res_text (build_flights_by_criteria f2) /\
  res_text (build_pilot_schedule f1) = res_text (build_pilot_schedule f2) /\
  res_text (build_airports f1) = res_text (build_airports f2) /\
  res_text (build_audit_log f1) = res_text (build_audit_log f2).
Proof. intros Hsh. split_and!; apply finish_query_text, apply_filters_text, Hsh. Qed.

(** ** Blank filters leave the base query *)

Lemma apply_filters_blank sql params specs f :
  (forall k, is_blank (filters_get f k) = true) ->
  apply_filters sql params specs f = Ok (sql, params).
Proof.
  intros Hb. revert sql params. induction specs as [|s specs IH]; intros sql params; [done|].
  simpl. rewrite apply_sql_filter_blank; [apply IH|apply Hb].
Qed.

(** C13. A filter state in which every value is absent or [""] (a fresh or
    reset session) builds exactly the query of the empty filter dict: the
    base SELECT and the ORDER BY, with no parameter. *)
Theorem build_queries_blank f :
  (forall k, filters_get f k = None \/ filters_get f k = Some (FStr "")) ->
  build_flights_by_criteria f = build_flights_by_criteria ∅ /\
  build_pilot_schedule f = build_pilot_schedule ∅ /\
  build_airports f = build_airports ∅ /\
  build_audit_log f = build_audit_log ∅.
Proof.
  intros Hf. assert (Hb : forall k, is_blank (filters_get f k) = true).
  { intros k. by destruct (Hf k) as [-> | ->]. }
  assert (H0 : forall k, is_blank (filters_get (∅ : filters) k) = true) by done.
  unfold build_flights_by_criteria, build_pilot_schedule, build_airports, build_audit_log.
  by rewrite !(apply_filters_blank _ _ _ f Hb), !(apply_filters_blank _ _ _ ∅ H0).
Qed.

(** ** Witnesses *)

Lemma build_queries_blank_witness :
  (forall k, filters_get (clear_filters (<["status" := Some (FStr "Active")]> (init_filters FLIGHT_FILTER_SPECS))) k = None \/
             filters_get (clear_filters (<["status" := Some (FStr "Active")]> (init_filters FLIGHT_FILTER_SPECS))) k = Some (FStr "")) /\
  build_flights_by_criteria (clear_filters (<["status" := Some (FStr "Active")]> (init_filters FLIGHT_FILTER_SPECS))) = build_flights_by_criteria ∅.
Proof.
  assert (H : forall k, filters_get (clear_filters (<["status" := Some (FStr "Active")]> (init_filters FLIGHT_FILTER_SPECS))) k = None \/
                        filters_get (clear_filters (<["status" := Some (FStr "Active")]> (init_filters FLIGHT_FILTER_SPECS))) k = Some (FStr "")).
  { intros k. left. rewrite clear_filters_get. reflexivity. }
  split; [exact H|].
  exact (proj1 (build_queries_blank (clear_filters (<["status" := Some (FStr "Active")]> (init_filters FLIGHT_FILTER_SPECS))) H)).
Defined.

Lemma build_queries_text_independent_witness :
  (forall k, value_shape (filters_get (<["status" := Some (FStr "Active")]> (init_filters FLIGHT_FILTER_SPECS)) k) =
             value_shape (filters_get (<["status" := Some (FStr "Landed")]> (init_filters FLIGHT_FILTER_SPECS)) k)) /\
  res_text (build_flights_by_criteria (<["status" := Some (FStr "Active")]> (init_filters FLIGHT_FILTER_SPECS))) =
  res_text (build_flights_by_criteria (<["status" := Some (FStr "Landed")]> (init_filters FLIGHT_FILTER_SPECS))).
Proof.
  assert (H : forall k, value_shape (filters_get (<["status" := Some (FStr "Active")]> (init_filters FLIGHT_FILTER_SPECS)) k) =
             value_shape (filters_get (<["status" := Some (FStr "Landed")]> (init_filters FLIGHT_FILTER_SPECS)) k)).
  { intros k. unfold filters_get. destruct (decide (k = "status")) as [->|Hk].
    - rewrite !lookup_insert_eq. reflexivity.
    - rewrite !lookup_insert_ne by congruence. reflexivity. }
  split; [exact H|].
  exact (proj1 (build_queries_text_independent
    (<["status" := Some (FStr "Active")]> (init_filters FLIGHT_FILTER_SPECS))
    (<["status" := Some (FStr "Landed")]> (init_filters FLIGHT_FILTER_SPECS)) H)).
Defined.

Lemma build_queries_placeholders_witness :
  exists sql params,
    build_flights_by_criteria (<["flight_no_like" := Some (FStr "AA")]>
      (<["has_captain" := Some (FStr "no")]> (<["status" := Some (FStr "Active")]>
        (init_filters FLIGHT_FILTER_SPECS)))) = Ok (sql, params) /\
    count_qmarks sql = length params /\ length params = 2.
Proof.
  eexists _, _. split; [reflexivity|]. split; [|reflexivity].
  apply (proj1 (build_queries_placeholders (<["flight_no_like" := Some (FStr "AA")]>
      (<["has_captain" := Some (FStr "no")]> (<["status" := Some (FStr "Active")]>
        (init_filters FLIGHT_FILTER_SPECS)))))).
  reflexivity.
Defined.
