(* ===== verification/SqlWhere.v ===== *)
(** * What the composed WHERE clauses select (src/src/FilterSQL.py)

    [apply_sql_filter] builds SQL by concatenating text.  This file gives
    that text its meaning under SQLite's rules.  The clause of a filter is
    a small predicate tree: [sterm] for the operands (a spec's column
    expression, a positional parameter [?], a string literal, [trim],
    [COLLATE NOCASE]) and [spred] for the comparisons, [IS [NOT] NULL],
    [LIKE], [AND] and [OR].  [render_pred] prints a tree with the
    parentheses SQLite's precedence needs (comparisons above [AND] above
    [OR]), so a printed tree is parsed back as that tree.
    [filter_conjuncts] is the tree of each branch of [apply_sql_filter].
    [eval_pred] evaluates a tree on a row in SQL's three-valued logic,
    with SQLite's [LIKE] (wildcards [%] and [_], ASCII letters matched
    without case), its collations [BINARY] and [NOCASE], and its [trim]
    (spaces only).  The row gives the value of each column expression;
    the collation a column was declared with belongs to the schema, which
    is not in the repository, so it is a parameter [col_coll].

    The theorems: the text [apply_filters] composes is the rendering of
    the conjunction of the filters' trees, whose [?]s in textual order
    are numbered by the parameter list; a row passes the composed clause
    exactly when it passes every set filter on its own value, and each
    of the four filtered listings queries its unfiltered query with
    those conjuncts before its [ORDER BY].  The yes
    and no presence filters split every row, NULL included (spec section
    8).  The substring filter is [LIKE '%v%']: a case-insensitive
    substring test when [v] has no wildcard, and not one otherwise.  The
    exact filters compare under the column's collation ([equal]) or
    under [NOCASE] ([equal_ci]). *)

From Stdlib Require Import Ascii ZArith Lia.
From stdpp Require Import base list strings.
From S2P Require Import Prelude FilterSpecs FilterSQL Queries.

(** ** Syntax and printing *)

Inductive sterm :=
  | TCol (c : string)
  | TParam (i : nat)
  | TStr (s : string)
  | TInt (z : Z)
  | TTrim (t : sterm)
  | TNocase (t : sterm).

Inductive spred :=
  | PEq (a b : sterm)
  | PNe (a b : sterm)
  | PLike (a b : sterm)
  | PIsNull (a : sterm)
  | PIsNotNull (a : sterm)
  | PAnd (p q : spred)
  | POr (p q : spred).

Fixpoint render_term (t : sterm) : string :=
  match t with
  | TCol c => c
  | TParam _ => "?"
  | TStr s => "'" +:+ s +:+ "'"
  | TInt z => py_str_int z
  | TTrim t => "trim(" +:+ render_term t +:+ ")"
  | TNocase t => render_term t +:+ " COLLATE NOCASE"
  end.

Definition paren (b : bool) (s : string) : string := if b then "(" +:+ s +:+ ")" else s.

(** Level 0 is a whole condition, 1 the left operand of [AND] (an [OR]
    needs parentheses), 2 its right operand ([AND] and [OR] need them:
    both associate to the left). *)
Fixpoint render_pred (lvl : nat) (p : spred) : string :=
  match p with
  | PEq a b => render_term a +:+ " = " +:+ render_term b
  | PNe a b => render_term a +:+ " <> " +:+ render_term b
  | PLike a b => render_term a +:+ " LIKE " +:+ render_term b
  | PIsNull a => render_term a +:+ " IS NULL"
  | PIsNotNull a => render_term a +:+ " IS NOT NULL"
  | PAnd p q => paren (2 <=? lvl) (render_pred 1 p +:+ " AND " +:+ render_pred 2 q)
  | POr p q => paren (1 <=? lvl) (render_pred 0 p +:+ " OR " +:+ render_pred 1 q)
  end.

(** The text [sql += " AND " + clause] appends for each conjunct. *)
Definition render_conjuncts (cs : list spred) : string :=
  foldr (fun c s => " AND " +:+ render_pred 2 c +:+ s) "" cs.

(** The WHERE condition of a base [WHERE b] followed by the conjuncts. *)
Definition where_pred (base : spred) (cs : list spred) : spred := foldl PAnd base cs.

(** The parameter numbers of a tree in textual order. *)
Fixpoint term_params (t : sterm) : list nat :=
  match t with
  | TParam i => [i]
  | TTrim t | TNocase t => term_params t
  | _ => []
  end.

Fixpoint pred_params (p : spred) : list nat :=
  match p with
  | PEq a b | PNe a b | PLike a b => term_params a ++ term_params b
  | PIsNull a | PIsNotNull a => term_params a
  | PAnd p q | POr p q => pred_params p ++ pred_params q
  end.

(** ** The trees of [apply_sql_filter] *)

(** The conjuncts a filter appends, its [?] numbered [i]. *)
Definition filter_conjuncts (spec : FilterSpec) (value : option fvalue) (i : nat) : list spred :=
  match value, col spec with
  | Some v, Some c =>
      if is_blank value || (c ==? "") then [] else
      let kind := sql_kind spec in
      if kind ==? "like" then [PLike (TCol c) (TParam i)]
      else if kind ==? "equal" then [PEq (TCol c) (TParam i)]
      else if kind ==? "equal_ci" then [PEq (TCol c) (TNocase (TParam i))]
      else if kind ==? "presence" then
        if bool_decide (v = FStr "yes") then [PIsNotNull (TCol c); PNe (TTrim (TCol c)) (TStr "")]
        else if bool_decide (v = FStr "no") then [POr (PIsNull (TCol c)) (PEq (TTrim (TCol c)) (TStr ""))]
        else []
      else []
  | _, _ => []
  end.

(** The parameters it appends. *)
Definition filter_params (spec : FilterSpec) (value : option fvalue) : list fvalue :=
  match value, col spec with
  | Some v, Some c =>
      if is_blank value || (c ==? "") then [] else
      let kind := sql_kind spec in
      if kind ==? "like" then [FStr ("%" +:+ fvalue_str v +:+ "%")]
      else if (kind ==? "equal") || (kind ==? "equal_ci") then [v]
      else []
  | _, _ => []
  end.

(** ** SQLite's evaluation *)

Inductive coll := Binary | Nocase.

(** [sqlite3_bind]: a [str] is TEXT, an [int] INTEGER; a [?] without a
    value is NULL. *)
Definition bind_value (v : fvalue) : sqlval :=
  match v with
  | FStr s => SText s
  | FInt z => SInt z
  end.

Definition is_null (v : sqlval) : bool := match v with SNull => true | _ => false end.

Definition sql_text (v : sqlval) : option string :=
  match v with
  | SNull => None
  | SInt z => Some (py_str_int z)
  | SText s => Some s
  end.

(** [trim(x)] removes spaces, not other white space. *)
Definition is_sql_space (c : ascii) : bool := bool_decide (c = " "%char).

Fixpoint trim_left (s : string) : string :=
  match s with
  | EmptyString => EmptyString
  | String c s' => if is_sql_space c then trim_left s' else s
  end.

Fixpoint trim_right (s : string) : string :=
  match s with
  | EmptyString => EmptyString
  | String c s' =>
      let r := trim_right s' in
      if is_sql_space c && (r ==? "") then "" else String c r
  end.

Definition sql_trim (s : string) : string := trim_right (trim_left s).

(** The ASCII case folding of [NOCASE] and [LIKE]. *)
Definition ascii_fold (c : ascii) : ascii :=
  let n := code c in
  if ((65 <=? n) && (n <=? 90))%N then ascii_of_N (n + 32)%N else c.

Fixpoint fold_string (s : string) : string :=
  match s with
  | EmptyString => EmptyString
  | String c s' => String (ascii_fold c) (fold_string s')
  end.

(** [s LIKE p]: [%] matches any run of characters, [_] any one, and
    another character itself up to ASCII case. *)
Fixpoint like_match (p s : string) : bool :=
  match p with
  | EmptyString => match s with EmptyString => true | _ => false end
  | String c p' =>
      if bool_decide (c = "%"%char) then
        (fix go (s : string) : bool :=
           like_match p' s || match s with EmptyString => false | String _ s' => go s' end) s
      else
        match s with
        | EmptyString => false
        | String d s' =>
            (bool_decide (c = "_"%char) || bool_decide (ascii_fold c = ascii_fold d)) && like_match p' s'
        end
  end.

(** No character of [s] is a [LIKE] wildcard. *)
Fixpoint no_wildcard (s : string) : bool :=
  match s with
  | EmptyString => true
  | String c s' => negb (bool_decide (c = "%"%char) || bool_decide (c = "_"%char)) && no_wildcard s'
  end.

Section Eval.
Variable col_coll : string -> coll.
Variable row : string -> sqlval.
Variable params : list fvalue.

Fixpoint eval_term (t : sterm) : sqlval :=
  match t with
  | TCol c => row c
  | TParam i => default SNull (bind_value <$> params !! i)
  | TStr s => SText s
  | TInt z => SInt z
  | TTrim t => match sql_text (eval_term t) with Some s => SText (sql_trim s) | None => SNull end
  | TNocase t => eval_term t
  end.

(** The collation a [COLLATE] clause gives an operand, and the one a
    bare column carries from its declaration. *)
Definition explicit_coll (t : sterm) : option coll :=
  match t with TNocase _ => Some Nocase | _ => None end.

Definition column_coll (t : sterm) : option coll :=
  match t with TCol c => Some (col_coll c) | _ => None end.

(** The left operand's explicit collation first, then the right one's,
    then the columns', then [BINARY]. *)
Definition cmp_coll (a b : sterm) : coll :=
  match explicit_coll a, explicit_coll b, column_coll a, column_coll b with
  | Some k, _, _, _ | None, Some k, _, _ | None, None, Some k, _ | None, None, None, Some k => k
  | None, None, None, None => Binary
  end.

Definition sql_eq (k : coll) (v1 v2 : sqlval) : option bool :=
  match v1, v2 with
  | SNull, _ | _, SNull => None
  | SInt z1, SInt z2 => Some (Z.eqb z1 z2)
  | SText s1, SText s2 =>
      Some (match k with Binary => s1 ==? s2 | Nocase => fold_string s1 ==? fold_string s2 end)
  | _, _ => Some false
  end.

Definition and3 (x y : option bool) : option bool :=
  match x, y with
  | Some false, _ | _, Some false => Some false
  | Some true, Some true => Some true
  | _, _ => None
  end.

Definition or3 (x y : option bool) : option bool :=
  match x, y with
  | Some true, _ | _, Some true => Some true
  | Some false, Some false => Some false
  | _, _ => None
  end.

Fixpoint eval_pred (p : spred) : option bool :=
  match p with
  | PEq a b => sql_eq (cmp_coll a b) (eval_term a) (eval_term b)
  | PNe a b => negb <$> sql_eq (cmp_coll a b) (eval_term a) (eval_term b)
  | PLike a b =>
      match sql_text (eval_term a), sql_text (eval_term b) with
      | Some s, Some pat => Some (like_match pat s)
      | _, _ => None
      end
  | PIsNull a => Some (is_null (eval_term a))
  | PIsNotNull a => Some (negb (is_null (eval_term a)))
  | PAnd p q => and3 (eval_pred p) (eval_pred q)
  | POr p q => or3 (eval_pred p) (eval_pred q)
  end.
End Eval.

(** A value is present when it is not NULL and not blank once trimmed:
    what the presence filters are meant to test. *)
Definition present (v : sqlval) : bool :=
  match sql_text v with
  | Some s => negb (sql_trim s ==? "")
  | None => false
  end.

(** A WHERE clause keeps the rows on which it is TRUE. *)
Definition selects col_coll row params (p : spred) : Prop := eval_pred col_coll row params p = Some true.

(** A filter on its own: its conjuncts, numbered from 0, on its own
    parameters. *)
Definition filter_holds col_coll row (spec : FilterSpec) (value : option fvalue) : Prop :=
  Forall (selects col_coll row (filter_params spec value)) (filter_conjuncts spec value 0).

(** ** The text is the rendering of the trees *)

(** Re-associate concatenations to the right and compute the literal
    prefixes. *)
Ltac str_norm := repeat (rewrite <- ?string_app_assoc, ?string_app_nil_r; cbn [String.append]).

Lemma render_conjuncts_app cs1 cs2 :
  render_conjuncts (cs1 ++ cs2) = render_conjuncts cs1 +:+ render_conjuncts cs2.
Proof.
  induction cs1 as [|c cs IH]; simpl; [done|]. unfold render_conjuncts in *. rewrite IH. by str_norm.
Qed.

Lemma apply_sql_filter_conjuncts sql params spec value sql' params' :
  apply_sql_filter sql params spec value = Ok (sql', params') ->
  sql' = sql +:+ render_conjuncts (filter_conjuncts spec value (length params)) /\
  params' = params ++ filter_params spec value.
Proof.
  unfold apply_sql_filter, filter_conjuncts, filter_params.
  destruct value as [v|], (col spec) as [c|]; try (intros [= <- <-]; by rewrite string_app_nil_r, app_nil_r).
  repeat case_match; simplify_eq/=; intros; simplify_eq; split;
    try (rewrite ?app_nil_r; reflexivity); unfold render_conjuncts; simpl; str_norm; reflexivity.
Qed.

(** The [?] of a filter's clause is numbered by the parameters before it. *)
Lemma filter_conjuncts_params spec value i :
  concat (map pred_params (filter_conjuncts spec value i)) = seq i (length (filter_params spec value)).
Proof.
  unfold filter_conjuncts, filter_params.
  destruct value as [v|], (col spec) as [c|]; try done. repeat case_match; simplify_eq/=; done.
Qed.

(** ** Evaluation lemmas *)

Section EvalLemmas.
Variables (cc : string -> coll) (row : string -> sqlval).

Lemma and3_true x y : and3 x y = Some true <-> x = Some true /\ y = Some true.
Proof. destruct x as [[]|], y as [[]|]; simpl; intuition congruence. Qed.

Lemma or3_true x y : or3 x y = Some true <-> x = Some true \/ y = Some true.
Proof. destruct x as [[]|], y as [[]|]; simpl; intuition congruence. Qed.

(** The base of a WHERE and the conjuncts appended to it. *)
Lemma where_pred_selects ps base cs :
  selects cc row ps (where_pred base cs) <-> selects cc row ps base /\ Forall (selects cc row ps) cs.
Proof.
  unfold where_pred. revert base. induction cs as [|c cs IH]; intros base; simpl.
  - rewrite Forall_nil. tauto.
  - rewrite IH, Forall_cons. unfold selects at 1. simpl. rewrite and3_true. tauto.
Qed.

(** A filter's clause numbered after [ps], evaluated with its parameters
    after [ps] and more after them, is the filter on its own. *)
Lemma filter_conjuncts_shift ps spec value rest :
  Forall (selects cc row (ps ++ filter_params spec value ++ rest)) (filter_conjuncts spec value (length ps))
  <-> filter_holds cc row spec value.
Proof.
  unfold filter_holds, filter_conjuncts, filter_params.
  destruct value as [v|], (col spec) as [c|]; try done.
  assert (Hl : forall x, (ps ++ x :: rest) !! length ps = Some x).
  { intros x. rewrite lookup_app_r, Nat.sub_diag by lia. done. }
  repeat case_match; simplify_eq/=; rewrite ?Forall_cons, ?Forall_nil; unfold selects; simpl;
    rewrite ?Hl; try done.
Qed.
End EvalLemmas.

(** ** The loop of the builders *)

Lemma apply_filters_params sql ps specs f sql' ps' :
  apply_filters sql ps specs f = Ok (sql', ps') -> exists extra, ps' = ps ++ extra.
Proof.
  revert sql ps. induction specs as [|spec specs IH]; intros sql ps; simpl.
  - intros [= <- <-]. exists []. by rewrite app_nil_r.
  - destruct (apply_sql_filter _ _ _ _) as [[sql1 ps1]|e] eqn:E; [|done].
    intros (extra & ->)%IH. apply apply_sql_filter_conjuncts in E as [_ ->].
    eexists. by rewrite <- app_assoc.
Qed.

(** The loop appends the conjuncts of the filters, in order. *)
Lemma apply_filters_conjuncts cc row sql ps specs f sql' ps' :
  apply_filters sql ps specs f = Ok (sql', ps') ->
  exists cs,
    sql' = sql +:+ render_conjuncts cs /\
    concat (map pred_params cs) = seq (length ps) (length ps' - length ps) /\
    forall base, selects cc row ps' (where_pred base cs) <->
                 selects cc row ps' base /\
                 Forall (fun spec => filter_holds cc row spec (filters_get f (key spec))) specs.
Proof.
  revert sql ps. induction specs as [|spec specs IH]; intros sql ps; simpl.
  - intros [= <- <-]. exists []. rewrite string_app_nil_r, Nat.sub_diag. split_and!; [done|done|].
    intros base. rewrite Forall_nil. simpl. tauto.
  - destruct (apply_sql_filter _ _ _ _) as [[sql1 ps1]|e] eqn:E; [|done]. intros Hrest.
    pose proof Hrest as [extra ->]%apply_filters_params.
    apply apply_sql_filter_conjuncts in E as [-> ->].
    destruct (IH _ _ Hrest) as (cs & -> & Hp & Hsel).
    exists (filter_conjuncts spec (filters_get f (key spec)) (length ps) ++ cs). split_and!.
    + by rewrite render_conjuncts_app, string_app_assoc.
    + rewrite map_app, concat_app, filter_conjuncts_params, Hp, !length_app, <- seq_app. f_equal. lia.
    + intros base. unfold where_pred in *. rewrite foldl_app, Hsel, where_pred_selects, Forall_cons.
      rewrite <- app_assoc, filter_conjuncts_shift. tauto.
Qed.

(** C16. The WHERE clause a builder composes means what its filters say.
    Running [apply_sql_filter] over a table of specs appends the
    rendering of a list of conjuncts; the [?]s of those conjuncts, in the
    order they appear in the text, are numbered by the positions of the
    parameters appended; and whatever the declared collations of the
    columns, a row passes the base condition followed by the conjuncts
    exactly when it passes the base and every spec whose filter is set,
    each on its own value. *)
Theorem apply_filters_where cc row sql ps specs f sql' ps' :
  apply_filters sql ps specs f = Ok (sql', ps') ->
  exists cs,
    sql' = sql +:+ render_conjuncts cs /\
    concat (map pred_params cs) = seq (length ps) (length ps' - length ps) /\
    forall base, selects cc row ps' (where_pred base cs) <->
                 selects cc row ps' base /\
                 Forall (fun spec => filter_holds cc row spec (filters_get f (key spec))) specs.
Proof. apply apply_filters_conjuncts. Qed.

(** ** The listings' queries *)

(** A builder of the [finish_query order (apply_filters base [] specs f)]
    shape: its unfiltered query is [base] and [order], and its filtered
    one inserts the conjuncts between them. *)
Lemma finish_filters_select cc row base order specs f sql ps :
  finish_query order (apply_filters base [] specs f) = Ok (sql, ps) ->
  exists cs,
    finish_query order (apply_filters base [] specs ∅) = Ok (base +:+ order, []) /\
    sql = base +:+ render_conjuncts cs +:+ order /\
    forall b, selects cc row ps (where_pred b cs) <->
              selects cc row ps b /\ Forall (fun spec => filter_holds cc row spec (filters_get f (key spec))) specs.
Proof.
  unfold finish_query. rewrite (apply_filters_blank _ _ _ ∅) by done.
  destruct (apply_filters base [] specs f) as [[s p]|e] eqn:E; [|done]. intros [= <- <-].
  destruct (apply_filters_conjuncts cc row _ _ _ _ _ _ E) as (cs & -> & _ & Hsel).
  exists cs. split_and!; [done|by rewrite string_app_assoc|exact Hsel].
Qed.

(** C17. The four filtered listings query what their filters say: for
    the flights, the pilot schedule, the airports and the audit log, the
    query a filter state builds is the query of no filter with the
    filters' conjuncts inserted between its [WHERE 1 = 1] and its [ORDER
    BY], and a row passes the base condition and the conjuncts exactly
    when it passes the base and every filter of the listing's table that
    is set, each on its own value. *)
Theorem listing_queries_select cc row f :
  Forall (fun '(build, specs) =>
            forall sql ps, build f = Ok (sql, ps) ->
            exists base order cs,
              build ∅ = Ok (base +:+ order, []) /\
              sql = base +:+ render_conjuncts cs +:+ order /\
              forall b, selects cc row ps (where_pred b cs) <->
                        selects cc row ps b /\
                        Forall (fun spec => filter_holds cc row spec (filters_get f (key spec))) specs)
    [(build_flights_by_criteria, FLIGHT_FILTER_SPECS); (build_pilot_schedule, PILOT_SCHEDULE_FILTER_SPECS);
     (build_airports, AIRPORT_FILTER_SPECS); (build_audit_log, AUDIT_LOG_FILTER_SPECS)].
Proof.
  repeat constructor; intros sql ps Hb; cbv zeta in *;
    destruct (finish_filters_select cc row _ _ _ _ _ _ Hb) as (cs & ? & ? & ?); eauto 10.
Qed.

(** ** The presence filters *)

(** C18. The presence filters split the rows (spec, section 8): on a
    presence spec with a column, the yes filter appends [c IS NOT NULL
    AND trim(c) <> ''] and the no filter [(c IS NULL OR trim(c) = '')],
    neither with a parameter; whatever the row, the yes clause is TRUE
    exactly when the column's value is present (not NULL, not blank once
    trimmed) and the no clause exactly when it is not, so no row passes
    both and every row, NULL included, passes one. *)
Theorem presence_filters_partition cc row sql params spec c :
  sql_kind spec = "presence" -> col spec = Some c -> c <> "" ->
  apply_sql_filter sql params spec (Some (FStr "yes")) =
    Ok (sql +:+ render_conjuncts [PIsNotNull (TCol c); PNe (TTrim (TCol c)) (TStr "")], params) /\
  apply_sql_filter sql params spec (Some (FStr "no")) =
    Ok (sql +:+ render_conjuncts [POr (PIsNull (TCol c)) (PEq (TTrim (TCol c)) (TStr ""))], params) /\
  (filter_holds cc row spec (Some (FStr "yes")) <-> present (row c) = true) /\
  (filter_holds cc row spec (Some (FStr "no")) <-> present (row c) = false).
Proof.
  intros Hk Hc Hne. apply String.eqb_neq in Hne.
  unfold apply_sql_filter, filter_holds, filter_conjuncts, filter_params. rewrite Hk, Hc. simpl.
  rewrite Hne. simpl. split_and!; [unfold render_conjuncts; simpl; str_norm; reflexivity..| |].
  all: rewrite !Forall_cons, Forall_nil; unfold selects, present; simpl.
  all: destruct (row c) as [|z|s]; simpl; [intuition congruence|..];
         destruct (sql_trim _ ==? ""); simpl; intuition congruence.
Qed.

(** ** [LIKE] and substrings *)

Lemma fold_string_app s1 s2 : fold_string (s1 +:+ s2) = fold_string s1 +:+ fold_string s2.
Proof. induction s1 as [|c s IH]; simpl; [done|]. by rewrite IH. Qed.

Lemma fold_string_length s : String.length (fold_string s) = String.length s.
Proof. induction s as [|c s IH]; simpl; [done|]. by rewrite IH. Qed.

(** A leading [%] skips any prefix. *)
Lemma like_match_pct p t :
  like_match (String "%" p) t = true <-> exists x y, t = x +:+ y /\ like_match p y = true.
Proof.
  induction t as [|d t IH]; simpl in *.
  - rewrite orb_false_r. split; [intros H; by exists "", ""|].
    intros ([|] & [|] & Ht & H); by simplify_eq/=.
  - rewrite orb_true_iff, IH. split.
    + intros [H|(x & y & -> & H)]; [by exists "", (String d t)|by exists (String d x), y].
    + intros ([|c x] & y & Ht & H); rewrite ?string_app_nil_l, ?string_app_cons in Ht;
        [subst; by left|injection Ht as -> ->; right; eauto].
Qed.

(** Without wildcards, [s%] tests a prefix up to ASCII case. *)
Lemma like_match_prefix s t :
  no_wildcard s = true ->
  like_match (s +:+ "%") t = true <-> exists y z, t = y +:+ z /\ fold_string y = fold_string s.
Proof.
  revert t. induction s as [|c s IH]; intros t Hw.
  - rewrite string_app_nil_l, like_match_pct. split.
    + intros _. by exists "", t.
    + intros _. exists t, "". by rewrite string_app_nil_r.
  - simpl in Hw. apply andb_prop in Hw as [Hc Hw].
    destruct (bool_decide (c = "%"%char)) eqn:E1, (bool_decide (c = "_"%char)) eqn:E2; try done.
    rewrite string_app_cons. cbn [like_match]. rewrite E1, E2. destruct t as [|d t]; cbn iota beta.
    + split; [done|]. intros ([|] & z & Ht & H); simplify_eq/=.
    + rewrite orb_false_l, andb_true_iff, bool_decide_eq_true, IH by done. split.
      * intros [Hcd (y & z & -> & Hy)]. exists (String d y), z. rewrite string_app_cons. simpl.
        by rewrite Hy, Hcd.
      * intros ([|d' y] & z & Ht & Hy); rewrite ?string_app_nil_l, ?string_app_cons in Ht;
          simplify_eq/=. split; [done|eauto].
Qed.

(** [LIKE '%s%'] without wildcards in [s]: [s] occurs up to ASCII case. *)
Lemma like_match_infix s t :
  no_wildcard s = true ->
  like_match ("%" +:+ s +:+ "%") t = true <->
  exists x y z, t = x +:+ y +:+ z /\ fold_string y = fold_string s.
Proof.
  intros Hw. rewrite string_app_cons, string_app_nil_l, like_match_pct. split.
  - intros (x & t' & -> & (y & z & -> & Hy)%like_match_prefix); [|done]. eauto.
  - intros (x & y & z & -> & Hy). exists x, (y +:+ z). split; [done|].
    apply like_match_prefix; eauto.
Qed.

(** ** The substring filters *)

Lemma eval_like_col cc row c pat :
  eval_pred cc row [FStr pat] (PLike (TCol c) (TParam 0)) = (fun t => like_match pat t) <$> sql_text (row c).
Proof. simpl. by destruct (sql_text (row c)). Qed.

(** A [like] filter on its own: its pattern ['%v%'] matches the column's text. *)
Lemma like_filter_holds cc row spec c v :
  sql_kind spec = "like" -> col spec = Some c -> c <> "" -> is_blank (Some v) = false ->
  filter_holds cc row spec (Some v) <->
  exists t, sql_text (row c) = Some t /\ like_match ("%" +:+ fvalue_str v +:+ "%") t = true.
Proof.
  intros Hk Hc Hne Hb. apply String.eqb_neq in Hne.
  unfold filter_holds, filter_conjuncts, filter_params. rewrite Hk, Hc, Hb, Hne. cbn -[eval_pred].
  rewrite Forall_cons, Forall_nil. unfold selects. rewrite eval_like_col.
  destruct (sql_text (row c)) as [t|]; cbn [fmap option_fmap option_map].
  - rewrite (inj_iff Some). split; [intros [H _]; eauto|intros (? & [= <-] & H); done].
  - split; [intros [[=] _]|intros (? & [=] & _)].
Qed.

(** C19. The substring filter is a substring test up to ASCII case when
    the value has no wildcard: on a [like] spec with a column, a value
    [s] appends [c LIKE ?] with the parameter ['%s%'] after the existing
    ones, and a row passes it exactly when the column is not NULL and its
    text has a part equal to [s] up to the case of ASCII letters. *)
Theorem like_filter_substring cc row sql params spec c s :
  sql_kind spec = "like" -> col spec = Some c -> c <> "" -> s <> "" -> no_wildcard s = true ->
  apply_sql_filter sql params spec (Some (FStr s)) =
    Ok (sql +:+ render_conjuncts [PLike (TCol c) (TParam (length params))],
        params ++ [FStr ("%" +:+ s +:+ "%")]) /\
  (filter_holds cc row spec (Some (FStr s)) <->
   exists t x y z, sql_text (row c) = Some t /\ t = x +:+ y +:+ z /\ fold_string y = fold_string s).
Proof.
  intros Hk Hc Hne Hs Hw. split.
  - apply String.eqb_neq in Hne, Hs. unfold apply_sql_filter. rewrite Hk, Hc. simpl. rewrite Hne, Hs.
    unfold render_conjuncts. simpl. str_norm. reflexivity.
  - rewrite like_filter_holds by (done || by apply String.eqb_neq). simpl fvalue_str. split.
    + intros (t & Ht & (x & y & z & -> & Hy)%like_match_infix); [|done]. eauto 10.
    + intros (t & x & y & z & Ht & -> & Hy). exists (x +:+ y +:+ z). split; [done|].
      apply like_match_infix; eauto.
Qed.

Lemma like_match_pct_all t : like_match "%" t = true.
Proof. apply like_match_pct. exists t, "". by rewrite string_app_nil_r. Qed.

(** [_%] matches the texts that are not empty. *)
Lemma like_match_any_one t : like_match "_%" t = true <-> t <> "".
Proof.
  destruct t as [|d t]; cbn [like_match]; simpl.
  - split; [done|congruence].
  - split; [congruence|intros _; apply like_match_pct_all].
Qed.

(** C32. The substring filter does not escape [LIKE]'s wildcards, so a
    value typed with [%] or [_] is not searched for as text: the value
    [%] selects every row whose column is not NULL and the value [_]
    every row whose column is not empty, whether or not the text
    contains that character. *)
Theorem like_filter_wildcards cc row spec c :
  sql_kind spec = "like" -> col spec = Some c -> c <> "" ->
  (filter_holds cc row spec (Some (FStr "%")) <-> row c <> SNull) /\
  (filter_holds cc row spec (Some (FStr "_")) <-> exists t, sql_text (row c) = Some t /\ t <> "").
Proof.
  intros Hk Hc Hne.
  rewrite !like_filter_holds by done. cbn [fvalue_str]. rewrite !string_app_cons, !string_app_nil_l.
  assert (Hall : forall t, like_match (String "%" (String "%" "%")) t = true).
  { intros t. apply like_match_pct. exists "", t. split; [done|].
    apply like_match_pct. exists "", t. split; [done|]. apply like_match_pct_all. }
  split.
  - destruct (row c); simpl; (split; [intros (? & ? & _); done|]).
    + done.
    + intros _. eexists. split; [reflexivity|apply Hall].
    + intros _. eexists. split; [reflexivity|apply Hall].
  - split.
    + intros (t & Ht & (x & y & -> & Hy)%like_match_pct). exists (x +:+ y). split; [done|].
      apply like_match_any_one in Hy. destruct x, y; done.
    + intros (t & Ht & Hne'). exists t. split; [done|]. apply like_match_pct. exists "", t.
      split; [done|]. by apply like_match_any_one.
Qed.

(** ** The exact filters *)

(** C20. The exact filters compare by collation: on an [equal] or
    [equal_ci] spec with a column, a set value selects the rows whose
    column equals the bound value ([str] as TEXT, [int] as INTEGER),
    under the collation the column was declared with for [equal], and
    under [NOCASE] (ASCII letters without case) for [equal_ci], whatever
    the column's own collation; NULL equals nothing. *)
Theorem equal_filters_compare cc row spec c v :
  sql_kind spec = "equal" \/ sql_kind spec = "equal_ci" -> col spec = Some c -> c <> "" ->
  is_blank (Some v) = false ->
  filter_holds cc row spec (Some v) <->
  sql_eq (if sql_kind spec ==? "equal_ci" then Nocase else cc c) (row c) (bind_value v) = Some true.
Proof.
  intros Hk Hc Hne Hb. apply String.eqb_neq in Hne.
  unfold filter_holds, filter_conjuncts, filter_params. rewrite Hc, Hb, Hne.
  destruct Hk as [-> | ->]; cbn -[sql_eq]; rewrite Forall_cons, Forall_nil; unfold selects; simpl; tauto.
Qed.

(** ** Witnesses *)

(** The captain filter of the flights listing, and a row without one. *)
Definition has_captain_spec : FilterSpec := nth 7 FLIGHT_FILTER_SPECS (mkFilterSpec "" "" "" None "" None).
Definition flight_no_spec : FilterSpec := nth 0 FLIGHT_FILTER_SPECS (mkFilterSpec "" "" "" None "" None).
Definition no_captain_row : string -> sqlval :=
  fun c => if c ==? "v.Captain" then SText "  " else SText "XY1".

Lemma apply_filters_where_witness :
  exists sql ps,
    apply_filters "WHERE 1 = 1" [] FLIGHT_FILTER_SPECS
      (<["has_captain" := Some (FStr "no")]> (<["flight_no_like" := Some (FStr "Y1")]>
         (init_filters FLIGHT_FILTER_SPECS))) = Ok (sql, ps) /\
    exists cs,
      sql = "WHERE 1 = 1" +:+ render_conjuncts cs /\
      concat (map pred_params cs) = seq (length (@nil fvalue)) (length ps - length (@nil fvalue)) /\
      forall base, selects (fun _ => Binary) no_captain_row ps (where_pred base cs) <->
        selects (fun _ => Binary) no_captain_row ps base /\
        Forall (fun spec => filter_holds (fun _ => Binary) no_captain_row spec
                  (filters_get (<["has_captain" := Some (FStr "no")]> (<["flight_no_like" := Some (FStr "Y1")]>
                     (init_filters FLIGHT_FILTER_SPECS))) (key spec))) FLIGHT_FILTER_SPECS.
Proof.
  eexists _, _. split; [reflexivity|]. apply apply_filters_where. reflexivity.
Defined.

Lemma presence_filters_partition_witness :
  sql_kind has_captain_spec = "presence" /\ col has_captain_spec = Some "v.Captain" /\ "v.Captain" <> "" /\
  apply_sql_filter "WHERE 1 = 1" [] has_captain_spec (Some (FStr "yes")) =
    Ok ("WHERE 1 = 1" +:+ render_conjuncts [PIsNotNull (TCol "v.Captain");
                                           PNe (TTrim (TCol "v.Captain")) (TStr "")], []) /\
  apply_sql_filter "WHERE 1 = 1" [] has_captain_spec (Some (FStr "no")) =
    Ok ("WHERE 1 = 1" +:+ render_conjuncts [POr (PIsNull (TCol "v.Captain"))
                                             (PEq (TTrim (TCol "v.Captain")) (TStr ""))], []) /\
  (filter_holds (fun _ => Binary) no_captain_row has_captain_spec (Some (FStr "yes")) <->
   present (no_captain_row "v.Captain") = true) /\
  (filter_holds (fun _ => Binary) no_captain_row has_captain_spec (Some (FStr "no")) <->
   present (no_captain_row "v.Captain") = false).
Proof.
  do 2 (split; [reflexivity|]). split; [discriminate|].
  apply (presence_filters_partition (fun _ => Binary) no_captain_row "WHERE 1 = 1" [] has_captain_spec
           "v.Captain"); first [reflexivity|discriminate].
Defined.

Lemma like_filter_substring_witness :
  sql_kind flight_no_spec = "like" /\ col flight_no_spec = Some "v.FlightNumber" /\
  "v.FlightNumber" <> "" /\ "y1" <> "" /\ no_wildcard "y1" = true /\
  apply_sql_filter "WHERE 1 = 1" [] flight_no_spec (Some (FStr "y1")) =
    Ok ("WHERE 1 = 1" +:+ render_conjuncts [PLike (TCol "v.FlightNumber") (TParam (length (@nil fvalue)))],
        [] ++ [FStr ("%" +:+ "y1" +:+ "%")]) /\
  (filter_holds (fun _ => Binary) no_captain_row flight_no_spec (Some (FStr "y1")) <->
   exists t x y z, sql_text (no_captain_row "v.FlightNumber") = Some t /\ t = x +:+ y +:+ z /\
                   fold_string y = fold_string "y1").
Proof.
  do 2 (split; [reflexivity|]). do 2 (split; [discriminate|]). split; [reflexivity|].
  apply (like_filter_substring (fun _ => Binary) no_captain_row "WHERE 1 = 1" [] flight_no_spec
           "v.FlightNumber" "y1"); first [reflexivity|discriminate].
Defined.

Lemma like_filter_wildcards_witness :
  sql_kind flight_no_spec = "like" /\ col flight_no_spec = Some "v.FlightNumber" /\ "v.FlightNumber" <> "" /\
  (filter_holds (fun _ => Binary) no_captain_row flight_no_spec (Some (FStr "%")) <->
   no_captain_row "v.FlightNumber" <> SNull) /\
  (filter_holds (fun _ => Binary) no_captain_row flight_no_spec (Some (FStr "_")) <->
   exists t, sql_text (no_captain_row "v.FlightNumber") = Some t /\ t <> "").
Proof.
  do 2 (split; [reflexivity|]). split; [discriminate|].
  apply (like_filter_wildcards (fun _ => Binary) no_captain_row flight_no_spec "v.FlightNumber");
    first [reflexivity|discriminate].
Defined.

Definition airline_code_spec : FilterSpec := nth 1 FLIGHT_FILTER_SPECS (mkFilterSpec "" "" "" None "" None).

Lemma equal_filters_compare_witness :
  (sql_kind airline_code_spec = "equal" \/ sql_kind airline_code_spec = "equal_ci") /\
  col airline_code_spec = Some "COALESCE(al.IcaoCode, al.IataCode, '')" /\
  "COALESCE(al.IcaoCode, al.IataCode, '')" <> "" /\ is_blank (Some (FStr "xy1")) = false /\
  (filter_holds (fun _ => Binary) no_captain_row airline_code_spec (Some (FStr "xy1")) <->
   sql_eq (if sql_kind airline_code_spec ==? "equal_ci" then Nocase else Binary)
     (no_captain_row "COALESCE(al.IcaoCode, al.IataCode, '')") (bind_value (FStr "xy1")) = Some true).
Proof.
  split; [by right|]. split; [reflexivity|]. split; [discriminate|]. split; [reflexivity|].
  apply (equal_filters_compare (fun _ => Binary) no_captain_row airline_code_spec
           "COALESCE(al.IcaoCode, al.IataCode, '')" (FStr "xy1")); first [by right|reflexivity|discriminate].
Defined.

Lemma listing_queries_select_witness :
  Forall (fun '(build, specs) =>
            forall sql ps, build (<["has_captain" := Some (FStr "no")]> (init_filters FLIGHT_FILTER_SPECS)) =
                           Ok (sql, ps) ->
            exists base order cs,
              build ∅ = Ok (base +:+ order, []) /\
              sql = base +:+ render_conjuncts cs +:+ order /\
              forall b, selects (fun _ => Binary) no_captain_row ps (where_pred b cs) <->
                        selects (fun _ => Binary) no_captain_row ps b /\
                        Forall (fun spec => filter_holds (fun _ => Binary) no_captain_row spec
                          (filters_get (<["has_captain" := Some (FStr "no")]> (init_filters FLIGHT_FILTER_SPECS))
                             (key spec))) specs)
    [(build_flights_by_criteria, FLIGHT_FILTER_SPECS); (build_pilot_schedule, PILOT_SCHEDULE_FILTER_SPECS);
     (build_airports, AIRPORT_FILTER_SPECS); (build_audit_log, AUDIT_LOG_FILTER_SPECS)].
Proof. exact (listing_queries_select (fun _ => Binary) no_captain_row _). Defined.
