(* ===== verification/Console.v ===== *)
(** * The console layer (src/src/UI.py)

    Input is the list of lines the user will type: [read_input] pops one,
    and at end of input ([EOFError]) prints an empty line and raises
    [AbortAction], as the source does; an interrupt is the same path.
    Output is the trace of prompts, printed lines and [tabulate] tables.
    The database is reached through the [SqlBackend] interface: running a
    statement with its parameters yields the column names and the rows, or
    a [sqlite3.Error]; this file only reads.

    Every loop ([prompt_int], [choose_from_list], [browse]) reads a line per
    iteration, so each is written with fuel and its theorem shows that fuel
    larger than the remaining input is enough.  [browse] is the render /
    await-command state machine of the two nested [while True] loops: the
    flag [render] says whether the next iteration first redraws the
    listing (outer loop) or only reads another command (inner loop). *)

From Stdlib Require Import Ascii ZArith Lia.
From stdpp Require Import base list gmap strings.
From S2P Require Import Prelude Trace FilterSpecs FilterSQL Queries.

(** ** The database interface *)

Definition fvalue_to_sql (v : fvalue) : sqlval :=
  match v with
  | FStr s => SText s
  | FInt z => SInt z
  end.

(** [conn.execute(sql, params)] followed by [fetchall()], with the column
    names of [cursor.description]. *)
Class SqlBackend (D : Type) := {
  sql_query : D -> string -> list sqlval -> res (list string * list row)
}.

(** What the program assumes of [conn.execute]: a failing statement
    raises a [sqlite3.Error] (an integrity or a database error), or the
    [OverflowError] of a parameter that does not fit SQLite's INTEGER;
    the parameters are bound before the statement runs. *)
Class SqlBackendLaws (D : Type) `{!SqlBackend D} : Prop := {
  sql_query_errors d sql params e :
    sql_query d sql params = Exc e ->
    exists msg, e = IntegrityError msg \/ e = DatabaseError msg \/ e = OverflowError msg;
  sql_query_binds d sql params e :
    bind_params params = Exc e -> sql_query d sql params = Exc e
}.

Section Console.
Context {D : Type} `{!SqlBackend D}.

Definition of_res {A} (r : res A) : io D A :=
  match r with
  | Ok a => mret a
  | Exc e => throw e
  end.

Definition VALID_STATUSES : list string :=
  ["Scheduled"; "Active"; "Landed"; "Delayed"; "Cancelled"; "Diverted"].

Definition print_rows (headers : list string) (rows : list row) : io D unit :=
  match rows with
  | [] => print "
No results.
"
  | _ => print "" ;; emit (EvTable headers rows) ;; print ""
  end.

(** [[row] if row else []]: an empty tuple is falsy. *)
Definition print_single_row (headers : list string) (r : option row) : io D unit :=
  print_rows headers (match r with Some (x :: xs) => [x :: xs] | _ => [] end).

Definition handle_integrity_error (msg : string) : io D unit :=
  print ("
Database rule failed (FK/UNIQUE/CHECK): " +:+ msg).

(** [safe_run(fn)]: every exception of a menu action is reported and
    control returns to the menu.  [str(StopIteration())] is empty. *)
Definition safe_run (fn : io D unit) : io D unit :=
  catch fn (fun e =>
    match e with
    | AbortAction => Some (print "
Cancelled. Returning to Menu.
")
    | ValueError msg => Some (print ("
Invalid input: " +:+ msg +:+ "
"))
    | IntegrityError msg => Some (handle_integrity_error msg ;; print "")
    | DatabaseError msg => Some (print ("
Database error: " +:+ msg +:+ "
"))
    | StopIteration => Some (print ("
Unexpected error: " +:+ "
"))
    | TypeError msg => Some (print ("
Unexpected error: " +:+ msg +:+ "
"))
    | KeyError msg => Some (print ("
Unexpected error: '" +:+ msg +:+ "'
"))
    | IndexError msg => Some (print ("
Unexpected error: " +:+ msg +:+ "
"))
    | OverflowError msg => Some (print ("
Unexpected error: " +:+ msg +:+ "
"))
    | OutOfFuel => None
    end).

Definition is_quit (s : string) : bool :=
  let t := py_lower (py_strip s) in (t ==? "-q") || (t ==? "q").

(** [input(prompt)]; [EOFError] becomes [AbortAction] after [print()]. *)
Definition next_line : io D string :=
  fun w =>
    match w_in w with
    | [] => (print "" ;; throw AbortAction) w
    | l :: rest => (Ok l, mkWorld rest (w_out w) (w_db w))
    end.

Definition read_input (p : string) : io D string :=
  emit (EvPrompt p) ;; next_line.

Fixpoint prompt_int (fuel : nat) (p : string) : io D Z :=
  match fuel with
  | O => throw OutOfFuel
  | S fuel' =>
      s ← read_input p;
      let s := py_strip s in
      if is_quit s then throw AbortAction else
      match py_int s with
      | Some z => mret z
      | None => print "Enter a number (or -q to cancel)." ;; prompt_int fuel' p
      end
  end.

Definition prompt_optional (p : string) : io D (option string) :=
  s ← read_input p;
  let s := py_strip s in
  if is_quit s then throw AbortAction
  else mret (if s ==? "" then None else Some s).

Definition prompt_required (p field_name : string) : io D string :=
  v ← prompt_optional p;
  match v with
  | Some x => if x ==? "" then throw (ValueError (field_name +:+ " is required.")) else mret x
  | None => throw (ValueError (field_name +:+ " is required."))
  end.

(** The [while True] loop of [choose_from_list], after the menu. *)
Fixpoint choose_loop (fuel : nat) (options : list string) : io D string :=
  match fuel with
  | O => throw OutOfFuel
  | S fuel' =>
      raw ← read_input "Choose: ";
      let raw := py_strip raw in
      if is_quit raw then throw AbortAction
      else if py_isdigit raw then
        match py_int raw with
        | None => throw (ValueError ("invalid literal for int() with base 10: '" +:+ raw +:+ "'"))
        | Some idx =>
            if (1 <=? idx)%Z && (idx <=? Z.of_nat (length options))%Z then
              match options !! (Z.to_nat idx - 1) with
              | Some o => mret o
              | None => throw (IndexError "list index out of range")
              end
            else
              print ("Choose 1–" +:+ py_str_int (Z.of_nat (length options)) +:+ ".") ;;
              choose_loop fuel' options
        end
      else
        let normalised := py_lower raw in
        match list_find (fun o => normalised = py_lower o) options with
        | Some (_, o) => mret o
        | None =>
            let yes := if bool_decide (normalised ∈ ["y"; "yes"]) then
                         snd <$> list_find (fun o => py_startswith (py_lower o) "yes" = true) options
                       else None in
            let no := if bool_decide (normalised ∈ ["n"; "no"]) then
                        snd <$> list_find (fun o => py_startswith (py_lower o) "no" = true) options
                      else None in
            match yes, no with
            | Some o, _ => mret o
            | None, Some o => mret o
            | None, None =>
                print ("Choose 1–" +:+ py_str_int (Z.of_nat (length options)) +:+
                       " or type the option text.") ;;
                choose_loop fuel' options
            end
        end
  end.

Fixpoint print_options (i : nat) (options : list string) : io D unit :=
  match options with
  | [] => mret tt
  | o :: os => print (py_str_int (Z.of_nat i) +:+ ") " +:+ o) ;; print_options (S i) os
  end.

Definition choose_from_list (fuel : nat) (title : string) (options : list string) : io D string :=
  print ("
" +:+ title) ;; print_options 1 options ;; choose_loop fuel options.

(** [query_rows(sql, params)]: a fresh connection, one statement. *)
Definition query_rows (sql : string) (params : list sqlval) : io D (list string * list row) :=
  d ← get_db; of_res (sql_query d sql params).

Definition preview_query (sql : string) (params : list sqlval) : io D unit :=
  '(headers, rows) ← query_rows sql params; print_rows headers rows.

(** [record_exists]: [fetchone()] is not [None]. *)
Definition record_exists (sql : string) (params : list sqlval) : io D bool :=
  '(_, rows) ← query_rows sql params;
  mret (match rows with [] => false | _ => true end).

(** [fetch_one] (App.py) and [fetch_row_with_headers] (UI.py) on a
    connection with no pending change: the first row, if any. *)
Definition fetch_one (sql : string) (params : list sqlval) : io D (option row) :=
  '(_, rows) ← query_rows sql params; mret (head rows).

Definition fetch_row_with_headers (sql : string) (params : list sqlval) :
    io D (list string * option row) :=
  '(headers, rows) ← query_rows sql params; mret (headers, head rows).
End Console.

(** ** Properties of the console primitives *)

Section ConsoleProps.
Context {D : Type} `{!SqlBackend D}.

Lemma read_input_fuel n p : fuel_ok n true (read_input (D:=D) p).
Proof.
  intros k Hk w Hw. unfold read_input, next_line. io_unfold.
  destruct (w_in w) as [|l rest] eqn:E; io_unfold; [split; [done|lia]|lia].
Qed.

(** At end of input every prompt raises [AbortAction]. *)
Lemma read_input_eof p (w : world D) :
  w_in w = [] -> fst (read_input p w) = Exc AbortAction.
Proof. intros E. unfold read_input, next_line. io_unfold. by rewrite E. Qed.

Lemma read_input_rets p (E : exn -> Prop) :
  E AbortAction -> rets (read_input (D:=D) p) (fun _ => True) E.
Proof.
  intros HE w _. unfold read_input, next_line. io_unfold. by destruct (w_in w).
Qed.

Lemma prompt_optional_fuel n p : fuel_ok n true (prompt_optional (D:=D) p).
Proof.
  apply fuel_ok_seq_strict; [apply read_input_fuel|]. intros s. cbv beta zeta.
  destruct (is_quit (py_strip s)); [by apply fuel_ok_throw|apply fuel_ok_ret].
Qed.

Lemma prompt_optional_rets p :
  rets (prompt_optional (D:=D) p) (fun r => r <> Some "") (fun e => e = AbortAction).
Proof.
  eapply rets_bind; [by apply read_input_rets|]. intros s _. cbv beta zeta.
  destruct (is_quit (py_strip s)); [by apply rets_throw|apply rets_ret].
  case_eqb; [done|]. congruence.
Qed.

(** [prompt_optional] on a line that is not a quit token: the stripped
    line, or [None] when it is empty. *)
Lemma prompt_optional_line p l rest out (d : D) :
  is_quit (py_strip l) = false ->
  exists out', prompt_optional p (mkWorld (l :: rest) out d) =
    (Ok (if py_strip l ==? "" then None else Some (py_strip l)), mkWorld rest out' d).
Proof. intros Hq. unfold prompt_optional, read_input. rewrite !io_bind_run. simpl. rewrite Hq. eauto. Qed.

#[export] Instance prompt_optional_law : PromptLaw (prompt_optional (D:=D)).
Proof. intros p. eapply rets_conseq; [apply prompt_optional_rets|done|]. by intros e ->. Qed.

Lemma prompt_int_fuel fuel p : fuel_ok fuel true (prompt_int (D:=D) fuel p).
Proof.
  induction fuel as [|fuel IH]; simpl; [intros k Hk; exfalso; lia|].
  apply (fuel_ok_bind_strict fuel false); [apply read_input_fuel|]. intros s. cbv beta zeta.
  destruct (is_quit (py_strip s)); [by apply fuel_ok_throw|].
  destruct (py_int (py_strip s)); [apply fuel_ok_ret|].
  apply fuel_ok_seq; [apply fuel_ok_emit|]. intros _. by apply fuel_ok_strict_weak.
Qed.

Lemma print_options_fuel n i opts : fuel_ok n false (print_options (D:=D) i opts).
Proof.
  revert i. induction opts as [|o opts IH]; intros i; simpl; [apply fuel_ok_ret|].
  apply fuel_ok_seq; [apply fuel_ok_emit|done].
Qed.

Lemma print_options_rets i opts E : rets (print_options (D:=D) i opts) (fun _ => True) E.
Proof.
  revert i. induction opts as [|o opts IH]; intros i; simpl; [by apply rets_ret|].
  by apply rets_emit_seq.
Qed.

Lemma choose_loop_fuel fuel opts : fuel_ok fuel true (choose_loop (D:=D) fuel opts).
Proof.
  induction fuel as [|fuel IH]; simpl; [intros k Hk; exfalso; lia|].
  apply (fuel_ok_bind_strict fuel false); [apply read_input_fuel|]. intros raw. cbv beta zeta.
  repeat case_match;
    first [ apply fuel_ok_ret | by apply fuel_ok_throw
          | apply fuel_ok_seq; [apply fuel_ok_emit | intros _; by apply fuel_ok_strict_weak] ].
Qed.

Lemma choose_from_list_fuel fuel t opts : fuel_ok fuel true (choose_from_list (D:=D) fuel t opts).
Proof.
  unfold choose_from_list. apply fuel_ok_seq; [apply fuel_ok_emit|]. intros _.
  apply fuel_ok_seq; [apply print_options_fuel|]. intros _. apply choose_loop_fuel.
Qed.

Lemma list_find_member (P : string -> Prop) `{!forall x, Decision (P x)} opts i o :
  list_find P opts = Some (i, o) -> o ∈ opts.
Proof. intros [Hl _]%list_find_Some. by eapply list_elem_of_lookup_2. Qed.

Lemma list_find_snd_member (P : string -> Prop) `{!forall x, Decision (P x)} opts o :
  snd <$> list_find P opts = Some o -> o ∈ opts.
Proof.
  destruct (list_find P opts) as [[i o']|] eqn:E; intros [= <-]. by eapply list_find_member.
Qed.

Lemma choose_loop_member fuel opts :
  rets (choose_loop (D:=D) fuel opts) (fun a => a ∈ opts) (fun e => e <> StopIteration).
Proof.
  induction fuel as [|fuel IH]; simpl; [by apply rets_throw|].
  eapply rets_bind; [by apply read_input_rets|]. intros raw _. cbv beta zeta.
  repeat case_match; simplify_eq/=;
    first [ by apply rets_throw | by apply rets_emit_seq
          | apply rets_ret; cbv beta;
            first [ by eapply list_elem_of_lookup_2 | by eapply list_find_member
                  | by eapply list_find_snd_member ] ].
Qed.

(** The interface prompt_filter relies on: UI.py's [choose_from_list]
    returns one of the options it was given. *)
#[export] Instance choose_from_list_law fuel : ChooseLaw (choose_from_list (D:=D) fuel).
Proof.
  intros t opts. unfold choose_from_list. apply rets_emit_seq.
  eapply rets_bind; [apply print_options_rets|]. intros _ _. apply choose_loop_member.
Qed.

Lemma of_res_fuel {A} n (r : res A) : r <> Exc OutOfFuel -> fuel_ok n false (of_res (D:=D) r).
Proof. destruct r; intros H; [apply fuel_ok_ret|apply fuel_ok_throw; congruence]. Qed.

Lemma query_rows_fuel `{!SqlBackendLaws D} n sql params :
  fuel_ok n false (query_rows (D:=D) sql params).
Proof.
  intros k Hk w Hw. unfold query_rows, get_db. rewrite io_bind_run. simpl.
  destruct (sql_query (w_db w) sql params) as [a|e] eqn:E; [done|].
  destruct (sql_query_errors _ _ _ _ E) as [m [-> | [-> | ->]]]; by split.
Qed.

Lemma print_rows_fuel n h rows : fuel_ok n false (print_rows (D:=D) h rows).
Proof.
  unfold print_rows. destruct rows; [apply fuel_ok_emit|].
  repeat (apply fuel_ok_seq; [apply fuel_ok_emit|intros _]). apply fuel_ok_emit.
Qed.

(** ** The console operations only read the database *)

Lemma next_line_ro : db_ro (next_line (D:=D)).
Proof. intros w. unfold next_line. by destruct (w_in w). Qed.

Lemma of_res_ro {A} (r : res A) : db_ro (of_res (D:=D) r).
Proof. destruct r; simpl; auto with fdb. Qed.

#[local] Hint Resolve next_line_ro of_res_ro : fdb.

Lemma read_input_ro p : db_ro (read_input (D:=D) p).
Proof. unfold read_input. solve_ro. Qed.
#[local] Hint Resolve read_input_ro : fdb.

Lemma prompt_int_ro fuel p : db_ro (prompt_int (D:=D) fuel p).
Proof. induction fuel; simpl; solve_ro. Qed.

Lemma prompt_optional_ro p : db_ro (prompt_optional (D:=D) p).
Proof. unfold prompt_optional. solve_ro. Qed.
#[local] Hint Resolve prompt_optional_ro : fdb.

Lemma prompt_required_ro p n : db_ro (prompt_required (D:=D) p n).
Proof. unfold prompt_required. solve_ro. Qed.

Lemma choose_loop_ro fuel opts : db_ro (choose_loop (D:=D) fuel opts).
Proof. induction fuel; simpl; solve_ro. Qed.

Lemma print_options_ro i opts : db_ro (print_options (D:=D) i opts).
Proof. revert i. induction opts; intros i; simpl; solve_ro. Qed.

#[local] Hint Resolve choose_loop_ro print_options_ro : fdb.

Lemma choose_from_list_ro fuel t opts : db_ro (choose_from_list (D:=D) fuel t opts).
Proof. unfold choose_from_list. solve_ro. Qed.

Lemma query_rows_ro sql params : db_ro (query_rows (D:=D) sql params).
Proof. unfold query_rows. solve_ro. Qed.
#[local] Hint Resolve query_rows_ro : fdb.

Lemma print_rows_ro h rows : db_ro (print_rows (D:=D) h rows).
Proof. unfold print_rows. solve_ro. Qed.

Lemma record_exists_ro sql params : db_ro (record_exists (D:=D) sql params).
Proof. unfold record_exists. solve_ro. Qed.

Lemma query_rows_at d sql params :
  rets_at d (query_rows (D:=D) sql params)
    (fun hr => sql_query d sql params = Ok hr) (fun e => sql_query d sql params = Exc e).
Proof.
  unfold query_rows. apply rets_at_get_db.
  destruct (sql_query d sql params); simpl; auto with fdb.
Qed.

(** [record_exists] on database [d] answers whether the query returns a
    row there. *)
Lemma record_exists_at d sql params :
  rets_at d (record_exists (D:=D) sql params)
    (fun b => b = true <-> exists h r rs, sql_query d sql params = Ok (h, r :: rs))
    (fun e => sql_query d sql params = Exc e).
Proof.
  unfold record_exists. eapply rets_at_bind; [apply query_rows_at|].
  intros [h rows] Hq. apply rets_at_ret. rewrite Hq.
  destruct rows as [|r rs]; split; try done; [intros (? & ? & ? & ?); congruence|eauto].
Qed.

(** The direction the pickers use: [true] means a row was found. *)
Lemma record_exists_found d sql params :
  rets_at d (record_exists (D:=D) sql params)
    (fun b => b = true -> exists h r rs, sql_query d sql params = Ok (h, r :: rs)) (fun _ => True).
Proof. eapply rets_at_conseq; [apply record_exists_at|by intros b []|done]. Qed.

Lemma fetch_one_at d sql params :
  rets_at d (fetch_one (D:=D) sql params)
    (fun r => forall x, r = Some x -> exists h rs, sql_query d sql params = Ok (h, x :: rs))
    (fun _ => True).
Proof.
  unfold fetch_one. eapply rets_at_bind; [eapply rets_at_conseq; [apply query_rows_at|done|done]|].
  intros [h rows] Hq. apply rets_at_ret. intros x. destruct rows; simpl; intros [= ->]; eauto.
Qed.

Lemma fetch_one_ro sql params : db_ro (fetch_one (D:=D) sql params).
Proof. unfold fetch_one. solve_ro. Qed.

Lemma record_exists_fuel `{!SqlBackendLaws D} n sql params :
  fuel_ok n false (record_exists (D:=D) sql params).
Proof. apply fuel_ok_seq; [apply query_rows_fuel|]. intros [? ?]. apply fuel_ok_ret. Qed.

Lemma preview_query_fuel `{!SqlBackendLaws D} n sql params :
  fuel_ok n false (preview_query (D:=D) sql params).
Proof.
  apply fuel_ok_seq; [apply query_rows_fuel|]. intros [? ?]. apply print_rows_fuel.
Qed.

Lemma fetch_one_fuel `{!SqlBackendLaws D} n sql params :
  fuel_ok n false (fetch_one (D:=D) sql params).
Proof. apply fuel_ok_seq; [apply query_rows_fuel|]. intros [? ?]. apply fuel_ok_ret. Qed.
End ConsoleProps.

(** ** No empty table is shown *)

#[export] Hint Unfold of_res read_input prompt_optional prompt_required choose_from_list print_single_row
  handle_integrity_error safe_run query_rows preview_query record_exists fetch_one fetch_row_with_headers
  : shows.

Section ConsoleShows.
Context {D : Type} `{!SqlBackend D}.

Lemma of_res_shows {A} (r : res A) : shows_ok (D:=D) (of_res r).
Proof. destruct r; apply shows_ok_ret || apply shows_ok_throw. Qed.

Lemma next_line_shows : shows_ok (D:=D) next_line.
Proof. intros w Hw. unfold next_line. destruct (w_in w); simpl; [by constructor|done]. Qed.

(** The one place a table is shown: only with rows. *)
Lemma print_rows_shows headers rows : shows_ok (D:=D) (print_rows headers rows).
Proof. unfold print_rows. destruct rows; solve_shows. by apply shows_ok_emit. Qed.

Lemma print_options_shows i opts : shows_ok (D:=D) (print_options i opts).
Proof. revert i. induction opts; intros i; simpl; solve_shows. Qed.

#[local] Hint Resolve of_res_shows next_line_shows print_rows_shows print_options_shows : shows.

Lemma prompt_int_shows n p : shows_ok (D:=D) (prompt_int n p).
Proof. induction n; simpl; solve_shows. Qed.

Lemma choose_loop_shows n opts : shows_ok (D:=D) (choose_loop n opts).
Proof. induction n; simpl; solve_shows. Qed.

#[local] Hint Resolve choose_loop_shows : shows.

(** The callbacks the filter prompt is given. *)
Lemma choose_from_list_shows n t opts : shows_ok (D:=D) (choose_from_list n t opts).
Proof. solve_shows. Qed.

Lemma prompt_optional_shows p : shows_ok (D:=D) (prompt_optional p).
Proof. solve_shows. Qed.
End ConsoleShows.

#[export] Hint Resolve of_res_shows next_line_shows print_rows_shows print_options_shows prompt_int_shows
  choose_loop_shows choose_from_list_shows prompt_optional_shows : shows.

#[export] Hint Resolve next_line_ro of_res_ro read_input_ro prompt_int_ro prompt_optional_ro
  prompt_required_ro choose_loop_ro print_options_ro choose_from_list_ro query_rows_ro
  print_rows_ro record_exists_ro fetch_one_ro : fdb.
#[export] Hint Resolve query_rows_fuel print_rows_fuel record_exists_fuel fetch_one_fuel
  preview_query_fuel : fdb.

(** Walk through the read-only prefix of a computation on database [d]:
    every bind whose result is not needed is discharged by [solve_ro];
    the reads whose result matters ([record_exists], [fetch_one]) are
    left to the caller. *)
Ltac rets_at_walk :=
  repeat first
    [ progress cbv beta zeta
    | match goal with
      | |- rets_at _ (mbind _ (record_exists _ _)) _ _ => fail 1
      | |- rets_at _ (mbind _ (fetch_one _ _)) _ _ => fail 1
      | |- rets_at _ (mbind _ _) _ _ => apply rets_at_ro_bind; [solve_ro|done|intros ?]
      | |- rets_at _ (let '(_, _) := ?p in _) _ _ => destruct p
      end ].

(** Walk through a computation that reads no input: each bind is split
    and its head closed by the fuel lemmas. *)
Ltac fuel_walk :=
  repeat first
    [ progress cbv beta zeta
    | apply fuel_ok_ret
    | apply fuel_ok_emit
    | progress unfold print
    | apply fuel_ok_seq; [solve [eauto with fdb] | intros ?]
    | match goal with
      | |- fuel_ok _ _ (if ?b then _ else _) => destruct b
      | |- fuel_ok _ _ (let '(_, _) := ?p in _) => destruct p
      end
    | solve [eauto with fdb] ].

(** Typing [1] at the menu of [choose_from_list] picks the first option. *)
Lemma print_options_run {D} `{!SqlBackend D} i opts (w : world D) :
  exists out', print_options (D:=D) i opts w = (Ok tt, mkWorld (w_in w) out' (w_db w)).
Proof.
  revert i w. induction opts as [|o opts IH]; intros i w; simpl; [destruct w; eauto|].
  rewrite io_bind_run. simpl. apply (IH _ (mkWorld _ _ _)).
Qed.

Lemma choose_from_list_first {D} `{!SqlBackend D} fuel t o opts rest out (d : D) :
  exists out', choose_from_list (S fuel) t (o :: opts) (mkWorld ("1" :: rest) out d) =
               (Ok o, mkWorld rest out' d).
Proof.
  unfold choose_from_list. rewrite !io_bind_run. unfold print at 1, emit at 1. cbn [w_in w_out w_db].
  rewrite io_bind_run. match goal with |- context [print_options 1 _ ?w] =>
    destruct (print_options_run 1 (o :: opts) w) as [out1 ->] end.
  simpl. rewrite !io_bind_run. simpl. replace (0 * 10 + digit_value "1")%Z with 1%Z by reflexivity.
  rewrite (proj2 (Z.leb_le _ _)) by lia. eauto.
Qed.

(** A bind on a result value: the value, or the exception raised with
    the database unchanged. *)
Lemma runs_of_res_bind {D A B} d (r : res A) (f : A -> io D B) Q (E : exn -> D -> Prop) :
  (forall a, r = Ok a -> runs d (f a) Q E) -> (forall e, r = Exc e -> E e d) ->
  runs d (of_res r ≫= f) Q E.
Proof.
  intros Hok Hexc. destruct r as [a|e]; simpl.
  - apply (runs_bind _ _ _ (fun x d' => x = a /\ d' = d)); [by apply runs_ret|].
    intros ? ? [-> ->]. by apply Hok.
  - apply (runs_bind _ _ _ (fun _ _ => False)); [apply runs_throw; by apply Hexc|done].
Qed.

(** ** A Latin-1 digit that [int()] rejects *)

(** U+00B2 SUPERSCRIPT TWO: [str.isdigit] holds, [int] raises. *)
Definition SUPERSCRIPT_TWO : string := String (ascii_of_nat 178) EmptyString.

(** A text of more than two characters without whitespace or capitals
    is not a quit command. *)
Lemma is_quit_plain_long s : all_chars plain_char s = true -> 2 < String.length s -> is_quit s = false.
Proof.
  intros Hp Hl. unfold is_quit. rewrite py_strip_plain, py_lower_plain by done.
  destruct (s ==? "-q") eqn:E1; [apply String.eqb_eq in E1; subst; simpl in Hl; lia|].
  destruct (s ==? "q") eqn:E2; [apply String.eqb_eq in E2; subst; simpl in Hl; lia|done].
Qed.

(** The text [str] prints for an integer is not a quit command. *)
Lemma is_quit_str z : is_quit (py_str_int z) = false.
Proof.
  unfold is_quit. rewrite py_strip_plain, py_lower_plain by apply py_str_int_plain.
  pose proof (py_int_str z) as Hz.
  destruct (py_str_int z ==? "-q") eqn:E1; [apply String.eqb_eq in E1; by rewrite E1 in Hz|].
  destruct (py_str_int z ==? "q") eqn:E2; [apply String.eqb_eq in E2; by rewrite E2 in Hz|done].
Qed.

(** C27. What the program prints for an integer reads back as that
    integer, and [prompt_int] reads the line the way [UI.prompt_int] does:
    [int(str(z)) == z] for every [z]; given the line [str(z)] padded with
    any whitespace on either side (an identifier copied from a listing),
    [prompt_int] returns [z] at once, consuming exactly that line; given
    [q], [Q], [-q] or [-Q] padded the same way it raises [AbortAction],
    again consuming exactly that line and leaving the database as it was. *)
Theorem prompt_int_roundtrip {D} `{!SqlBackend D} fuel p z l r rest out (d : D) :
  all_chars is_space l = true -> all_chars is_space r = true ->
  py_int (py_str_int z) = Some z /\
  (exists out', prompt_int (S fuel) p (mkWorld ((l +:+ py_str_int z +:+ r) :: rest) out d) =
                (Ok z, mkWorld rest out' d)) /\
  (forall q, In q ["q"; "Q"; "-q"; "-Q"] ->
   exists out', prompt_int (S fuel) p (mkWorld ((l +:+ q +:+ r) :: rest) out d) =
                (Exc AbortAction, mkWorld rest out' d)).
Proof.
  intros Hl Hr. split; [apply py_int_str|]. split.
  - cbn [prompt_int]. rewrite io_bind_run. simpl.
    rewrite py_strip_pad by (try apply plain_nonspace, py_str_int_plain; first [done | intros E;
      pose proof (py_int_str z) as Hz; rewrite E in Hz; discriminate]).
    rewrite is_quit_str, py_int_str. eauto.
  - intros q Hq. cbn [prompt_int]. rewrite io_bind_run. simpl.
    rewrite py_strip_pad by (done || (repeat destruct Hq as [<-|Hq]; done)).
    repeat destruct Hq as [<-|Hq]; try done; eauto.
Qed.

(** C31. [choose_from_list] tests [raw.isdigit()] and then calls
    [int(raw)] outside any [try]: a superscript digit passes the test and
    makes [int] raise [ValueError], which escapes the menu prompt instead of
    the "Choose 1-N" reprompt that other bad numbers get. *)
Theorem choose_loop_superscript_raises {D} fuel opts (w : world D) rest :
  w_in w = SUPERSCRIPT_TWO :: rest ->
  fst (choose_loop (S fuel) opts w) =
    Exc (ValueError ("invalid literal for int() with base 10: '" +:+ SUPERSCRIPT_TWO +:+ "'")).
Proof. intros E. unfold choose_loop, read_input, next_line. io_unfold. by rewrite E. Qed.

(** ** A backend for concrete runs: every statement returns no row *)

Inductive nodb := NoDB.

#[export] Instance nodb_backend : SqlBackend nodb := {
  sql_query _ _ params := match bind_params params with Ok _ => Ok ([], []) | Exc e => Exc e end
}.

#[export] Instance nodb_laws : SqlBackendLaws nodb.
Proof.
  split; intros d sql params e; simpl; destruct (bind_params params) as [|e'] eqn:Eb; try done.
  - intros [= <-]. apply bind_params_errors in Eb as ->. eauto.
  - by intros [= ->].
Qed.

(** ** Witnesses *)

Lemma choose_loop_superscript_raises_witness :
  w_in (mkWorld [SUPERSCRIPT_TWO; "1"] [] NoDB) = SUPERSCRIPT_TWO :: ["1"] /\
  fst (choose_loop 1 VALID_STATUSES (mkWorld [SUPERSCRIPT_TWO; "1"] [] NoDB)) =
    Exc (ValueError ("invalid literal for int() with base 10: '" +:+ SUPERSCRIPT_TWO +:+ "'")).
Proof. split; [reflexivity|]. apply (choose_loop_superscript_raises 0 _ _ ["1"]). reflexivity. Defined.

Lemma prompt_filter_sets_one_witness :
  dom (init_filters AIRPORT_FILTER_SPECS) = spec_keys AIRPORT_FILTER_SPECS /\
  rets (prompt_filter (D:=nodb) (choose_from_list 4) prompt_optional 4
          (init_filters AIRPORT_FILTER_SPECS) AIRPORT_FILTER_SPECS VALID_STATUSES)
    (fun f' => exists spec v, spec ∈ AIRPORT_FILTER_SPECS /\ value_fits VALID_STATUSES spec v /\
                          f' = <[key spec := Some v]> (init_filters AIRPORT_FILTER_SPECS) /\
                          dom f' = spec_keys AIRPORT_FILTER_SPECS)
    (fun e => e <> StopIteration).
Proof.
  split; [vm_compute; reflexivity|].
  apply (prompt_filter_sets_one (choose_from_list 4) prompt_optional). vm_compute. reflexivity.
Defined.

Definition SPACE_TAB : string := String (ascii_of_nat 32) (String (ascii_of_nat 9) EmptyString).

Lemma prompt_int_roundtrip_witness :
  all_chars is_space SPACE_TAB = true /\ all_chars is_space " " = true /\
  py_int (py_str_int 1042) = Some 1042%Z /\
  (exists out', prompt_int (D:=nodb) 1 "Flight ID: "
     (mkWorld ((SPACE_TAB +:+ py_str_int 1042 +:+ " ") :: []) [] NoDB) = (Ok 1042%Z, mkWorld [] out' NoDB)) /\
  (forall q, In q ["q"; "Q"; "-q"; "-Q"] ->
   exists out', prompt_int (D:=nodb) 1 "Flight ID: " (mkWorld ((SPACE_TAB +:+ q +:+ " ") :: []) [] NoDB) =
                (Exc AbortAction, mkWorld [] out' NoDB)).
Proof.
  split; [reflexivity|]. split; [reflexivity|].
  apply (prompt_int_roundtrip 0 "Flight ID: " 1042 SPACE_TAB " " [] [] NoDB); reflexivity.
Defined.
