(* ===== verification/Strptime.v ===== *)
(** * [datetime.strptime] for the formats of FIELD_FORMAT_RULES

    UI.py's [is_valid_update_value] accepts a value when
    [datetime.strptime(value, fmt)] does not raise.  CPython's [_strptime]
    compiles the format into a regular expression ([TimeRE.pattern]: each
    [%x] becomes the directive's alternatives, a run of whitespace becomes
    [\s+], other characters stand for themselves), calls [match] on the
    value (first match in the engine's backtracking order, anchored at the
    start only), raises when characters are left over ("unconverted data
    remains"), and finally builds a [datetime], which checks the calendar
    (year 1..9999, the day within its month) and the clock (second at
    most 59).  This file models that pipeline for the directives
    %Y %m %d %H %M %S, the only ones the program uses. *)

From Stdlib Require Import Ascii ZArith Lia.
From stdpp Require Import base list strings.
From S2P Require Import Prelude.

(** A character class of the compiled pattern. *)
Inductive cclass :=
  | CDigit
  | CRange (lo hi : ascii)
  | CChar (c : ascii).

Definition cmatch (k : cclass) (c : ascii) : bool :=
  match k with
  | CDigit => is_decimal c
  | CRange lo hi => ((code lo <=? code c) && (code c <=? code hi))%N
  | CChar x => Ascii.eqb x c
  end.

(** The alternatives of each directive, in the order of [TimeRE]. *)
Definition directive_alts (c : ascii) : option (list (list cclass)) :=
  match c with
  | "Y"%char => Some [[CDigit; CDigit; CDigit; CDigit]]
  | "m"%char => Some [[CChar "1"; CRange "0" "2"]; [CChar "0"; CRange "1" "9"]; [CRange "1" "9"]]
  | "d"%char => Some [[CChar "3"; CRange "0" "1"]; [CRange "1" "2"; CDigit];
                      [CChar "0"; CRange "1" "9"]; [CRange "1" "9"]; [CChar " "; CRange "1" "9"]]
  | "H"%char => Some [[CChar "2"; CRange "0" "3"]; [CRange "0" "1"; CDigit]; [CDigit]]
  | "M"%char => Some [[CRange "0" "5"; CDigit]; [CDigit]]
  | "S"%char => Some [[CChar "6"; CRange "0" "1"]; [CRange "0" "5"; CDigit]; [CDigit]]
  | _ => None
  end.

Inductive item :=
  | IGroup (name : ascii) (alts : list (list cclass))
  | ILit (c : ascii)
  | ISpace.

Fixpoint skip_spaces (s : string) : string :=
  match s with
  | String c s' => if is_space c then skip_spaces s' else s
  | EmptyString => s
  end.

(** [TimeRE.pattern(format)]; [None] is the [ValueError] of a bad
    directive. *)
Fixpoint compile_format (fmt : string) : option (list item) :=
  match fmt with
  | EmptyString => Some []
  | String "%" (String c rest) =>
      alts ← directive_alts c; items ← compile_format rest; Some (IGroup c alts :: items)
  | String c rest =>
      if is_space c then (items ← compile_format (skip_spaces rest); Some (ISpace :: items))
      else (items ← compile_format rest; Some (ILit c :: items))
  end.

(** One alternative against a prefix: the matched text and the rest. *)
Fixpoint alt_match (a : list cclass) (s : string) : option (string * string) :=
  match a with
  | [] => Some ("", s)
  | k :: a' =>
      match s with
      | String c s' =>
          if cmatch k c then
            match alt_match a' s' with
            | Some (m, r) => Some (String c m, r)
            | None => None
            end
          else None
      | EmptyString => None
      end
  end.

Fixpoint first_some {A B} (f : A -> option B) (l : list A) : option B :=
  match l with
  | [] => None
  | x :: l' => match f x with Some b => Some b | None => first_some f l' end
  end.

Fixpoint space_run (s : string) : nat :=
  match s with
  | String c s' => if is_space c then S (space_run s') else O
  | EmptyString => O
  end.

Fixpoint drop_chars (n : nat) (s : string) : string :=
  match n, s with
  | S n', String _ s' => drop_chars n' s'
  | _, _ => s
  end.

(** [pattern.match(s)]: depth first, alternatives in order, [\s+] greedy
    (longest run first); the groups matched and the unmatched rest. *)
Fixpoint re_match (items : list item) (s : string) : option (list (ascii * string) * string) :=
  match items with
  | [] => Some ([], s)
  | IGroup n alts :: items' =>
      first_some (fun a =>
        match alt_match a s with
        | Some (m, r) =>
            match re_match items' r with
            | Some (g, r') => Some ((n, m) :: g, r')
            | None => None
            end
        | None => None
        end) alts
  | ILit c :: items' =>
      match s with
      | String c' s' => if Ascii.eqb c c' then re_match items' s' else None
      | EmptyString => None
      end
  | ISpace :: items' =>
      first_some (fun j => re_match items' (drop_chars j s)) (rev (seq 1 (space_run s)))
  end.

(** The value of a group, [int(found_dict[name])], or the default. *)
Definition group_value (g : list (ascii * string)) (n : ascii) (dflt : Z) : Z :=
  match find (fun p => Ascii.eqb p.1 n) g with
  | Some (_, m) => default dflt (py_int m)
  | None => dflt
  end.

Definition is_leap (y : Z) : bool :=
  ((Z.eqb (y mod 4) 0 && negb (Z.eqb (y mod 100) 0)) || Z.eqb (y mod 400) 0)%Z.

Definition days_in_month (y m : Z) : Z :=
  (if Z.eqb m 2 then (if is_leap y then 29 else 28)
   else if existsb (Z.eqb m) [4; 6; 9; 11] then 30 else 31)%Z.

(** [datetime(year, month, day, hour, minute, second)] does not raise. *)
Definition datetime_ok (y mo d h mi s : Z) : bool :=
  ((1 <=? y) && (y <=? 9999) && (1 <=? mo) && (mo <=? 12) &&
  (1 <=? d) && (d <=? days_in_month y mo) &&
  (0 <=? h) && (h <=? 23) && (0 <=? mi) && (mi <=? 59) && (0 <=? s) && (s <=? 59))%Z.

(** [datetime.strptime(value, fmt)] does not raise. *)
Definition strptime_ok (fmt value : string) : bool :=
  match compile_format fmt with
  | None => false
  | Some items =>
      match re_match items value with
      | Some (g, rest) =>
          (rest ==? "") &&
          datetime_ok (group_value g "Y" 1900%Z) (group_value g "m" 1%Z) (group_value g "d" 1%Z)
                      (group_value g "H" 0%Z) (group_value g "M" 0%Z) (group_value g "S" 0%Z)
      | None => false
      end
  end.

(** ** Canonical renderings ([strftime] of the same formats) *)

(** [n] on [w] zero-padded decimal digits. *)
Fixpoint pad_digits (w : nat) (n : Z) : string :=
  match w with
  | O => ""
  | S w' => pad_digits w' (n / 10) +:+ String (digit_char (Z.to_N (n mod 10))) ""
  end.

Definition render_date (y m d : Z) : string :=
  pad_digits 4 y +:+ "-" +:+ pad_digits 2 m +:+ "-" +:+ pad_digits 2 d.

Definition render_datetime (y m d h mi s : Z) : string :=
  render_date y m d +:+ " " +:+ pad_digits 2 h +:+ ":" +:+ pad_digits 2 mi +:+ ":" +:+ pad_digits 2 s.

(** ** The matcher on a concatenation *)

Lemma alt_match_app a t s :
  length a <= String.length t ->
  alt_match a (t +:+ s) = (fun '(m, r) => (m, r +:+ s)) <$> alt_match a t.
Proof.
  revert t. induction a as [|k a IH]; intros t Hl; [done|].
  destruct t as [|c t]; simpl in *; [lia|]. rewrite ?string_app_cons. simpl.
  destruct (cmatch k c); [|done]. rewrite IH by lia.
  by destruct (alt_match a t) as [[m r]|].
Qed.

(** A group whose first matching alternative consumes the whole of [t]
    matches [t] when the rest of the pattern matches what follows. *)
Lemma re_match_group n alts items t s g r :
  Forall (fun a => length a <= String.length t) alts ->
  first_some (fun a => alt_match a t) alts = Some (t, "") ->
  re_match items s = Some (g, r) ->
  re_match (IGroup n alts :: items) (t +:+ s) = Some ((n, t) :: g, r).
Proof.
  intros Hl Hfirst Hrest. simpl. induction alts as [|a alts IH]; [done|].
  apply Forall_cons in Hl as [Ha Hl]. simpl in *. rewrite alt_match_app by done.
  destruct (alt_match a t) as [[m r0]|] eqn:E; simpl.
  - injection Hfirst as -> ->. rewrite string_app_nil_l, Hrest. done.
  - by apply IH.
Qed.

Lemma re_match_lit c items s g r :
  re_match items s = Some (g, r) -> re_match (ILit c :: items) (String c s) = Some (g, r).
Proof. intros H. simpl. by rewrite Ascii.eqb_refl. Qed.

Lemma re_match_group1 n a items t s :
  length a <= String.length t -> alt_match a t = Some (t, "") ->
  re_match (IGroup n [a] :: items) (t +:+ s) =
    match re_match items s with Some (g, r) => Some ((n, t) :: g, r) | None => None end.
Proof.
  intros Hl Ha. simpl. rewrite alt_match_app, Ha by done. simpl. rewrite string_app_nil_l.
  by destruct (re_match items s) as [[g r]|].
Qed.

Lemma re_match_space items s g r :
  space_run s = O -> re_match items s = Some (g, r) ->
  re_match (ISpace :: items) (String " " s) = Some (g, r).
Proof. intros Hs H. simpl. rewrite Hs. simpl. by rewrite H. Qed.

(** ** Finite tables, checked by evaluation

    [group_canon c lo hi w]: for every value in [lo..hi] the directive's
    first matching alternative consumes exactly the [w]-digit rendering,
    and [int] of that text is the value. *)

Definition Zrange (lo hi : Z) : list Z := Z.of_nat <$> seq (Z.to_nat lo) (S (Z.to_nat (hi - lo))).

Definition group_canon (c : ascii) (lo hi : Z) (w : nat) : bool :=
  match directive_alts c with
  | Some alts =>
      forallb (fun a => length a <=? w) alts &&
      forallb (fun v =>
        bool_decide (first_some (fun a => alt_match a (pad_digits w v)) alts = Some (pad_digits w v, "")) &&
        bool_decide (py_int (pad_digits w v) = Some v)) (Zrange lo hi)
  | None => false
  end.

Lemma pad_digits_length w n : String.length (pad_digits w n) = w.
Proof. revert n. induction w as [|w IH]; intros n; [done|]. simpl. rewrite string_app_length, IH. simpl. lia. Qed.

Lemma Zrange_elem lo hi v : (0 <= lo)%Z -> (lo <= v <= hi)%Z -> v ∈ Zrange lo hi.
Proof.
  intros H0 Hv. unfold Zrange. apply list_elem_of_fmap. exists (Z.to_nat v).
  split; [lia|]. apply elem_of_seq. lia.
Qed.

Lemma group_canon_spec c lo hi w v :
  group_canon c lo hi w = true -> (0 <= lo)%Z -> (lo <= v <= hi)%Z ->
  exists alts, directive_alts c = Some alts /\
    Forall (fun a => length a <= String.length (pad_digits w v)) alts /\
    first_some (fun a => alt_match a (pad_digits w v)) alts = Some (pad_digits w v, "") /\
    py_int (pad_digits w v) = Some v.
Proof.
  unfold group_canon. intros H H0 Hv. destruct (directive_alts c) as [alts|]; [|done].
  apply andb_true_iff in H as [Hl Hall]. exists alts. rewrite pad_digits_length.
  apply forallb_forall with (x := v) in Hall; [|apply list_elem_of_In, Zrange_elem; lia].
  apply andb_true_iff in Hall as [H1 H2]. apply bool_decide_eq_true in H1, H2.
  split_and!; [done| |done|done].
  apply Forall_forall. intros a Ha. apply forallb_forall with (x := a) in Hl;
    [by apply Nat.leb_le|by apply list_elem_of_In].
Qed.

Lemma canon_int c lo hi w v :
  group_canon c lo hi w = true -> (0 <= lo)%Z -> (lo <= v <= hi)%Z -> py_int (pad_digits w v) = Some v.
Proof. intros H H0 Hv. by destruct (group_canon_spec c lo hi w v H H0 Hv) as (? & ? & ? & ? & ?). Qed.

Lemma group_canon_Y : group_canon "Y" 0 9999 4 = true.
Proof. vm_compute. reflexivity. Qed.
Lemma group_canon_m : group_canon "m" 1 12 2 = true.
Proof. vm_compute. reflexivity. Qed.
Lemma group_canon_d : group_canon "d" 1 31 2 = true.
Proof. vm_compute. reflexivity. Qed.
Lemma group_canon_H : group_canon "H" 0 23 2 = true.
Proof. vm_compute. reflexivity. Qed.
Lemma group_canon_M : group_canon "M" 0 59 2 = true.
Proof. vm_compute. reflexivity. Qed.
Lemma group_canon_S : group_canon "S" 0 59 2 = true.
Proof. vm_compute. reflexivity. Qed.

(** The pattern of ["%Y-%m-%d"] after the year. *)
Definition md_items : list item :=
  [ILit "-"; IGroup "m" (default [] (directive_alts "m")); ILit "-";
   IGroup "d" (default [] (directive_alts "d"))].

Lemma compile_date :
  compile_format "%Y-%m-%d" = Some (IGroup "Y" [[CDigit; CDigit; CDigit; CDigit]] :: md_items).
Proof. reflexivity. Qed.

Definition md_in_range (m d : Z) : bool := ((1 <=? m) && (m <=? 12) && (1 <=? d) && (d <=? 31))%Z.

(** On ["-MM-DD"] the match is complete and yields [m] and [d], or the
    pair is out of range. *)
Definition md_check (m d : Z) : bool :=
  match re_match md_items ("-" +:+ pad_digits 2 m +:+ "-" +:+ pad_digits 2 d) with
  | Some (g, rest) =>
      if rest ==? "" then
        Z.eqb (group_value g "m" 1) m && Z.eqb (group_value g "d" 1) d &&
        Z.eqb (group_value g "H" 0) 0 && Z.eqb (group_value g "M" 0) 0 && Z.eqb (group_value g "S" 0) 0
      else negb (md_in_range m d)
  | None => negb (md_in_range m d)
  end.

Lemma group_value_cons n t g n' dflt :
  group_value ((n, t) :: g) n' dflt = if Ascii.eqb n n' then default dflt (py_int t) else group_value g n' dflt.
Proof. unfold group_value. simpl. by destruct (Ascii.eqb n n'). Qed.

Lemma md_table : forallb (fun m => forallb (fun d => md_check m d) (Zrange 0 99)) (Zrange 0 99) = true.
Proof. vm_compute. reflexivity. Qed.

Lemma md_check_all m d : (0 <= m <= 99)%Z -> (0 <= d <= 99)%Z -> md_check m d = true.
Proof.
  intros Hm Hd. pose proof md_table as H.
  apply forallb_forall with (x := m) in H; [|apply list_elem_of_In, Zrange_elem; lia].
  apply forallb_forall with (x := d) in H; [done|apply list_elem_of_In, Zrange_elem; lia].
Qed.

Lemma days_in_month_le y m : (days_in_month y m <= 31)%Z.
Proof. unfold days_in_month. repeat case_match; lia. Qed.

Lemma datetime_ok_md y m d h mi s : datetime_ok y m d h mi s = true -> md_in_range m d = true.
Proof.
  unfold datetime_ok, md_in_range. pose proof (days_in_month_le y m).
  rewrite !andb_true_iff, !Z.leb_le. lia.
Qed.

(** Exact behaviour on canonical dates: a zero-padded ["YYYY-MM-DD"]
    (any four-digit year, any two-digit month and day) is accepted by
    [strptime] exactly when it is a date of the proleptic Gregorian
    calendar with a year from 1 to 9999. *)
Lemma strptime_date_canonical y m d :
  (0 <= y <= 9999)%Z -> (0 <= m <= 99)%Z -> (0 <= d <= 99)%Z ->
  strptime_ok "%Y-%m-%d" (render_date y m d) = datetime_ok y m d 0 0 0.
Proof.
  intros Hy Hm Hd. unfold strptime_ok. rewrite compile_date. unfold render_date.
  destruct (group_canon_spec "Y" 0 9999 4 y group_canon_Y) as (alts & Ha & Hl & Hf & Hint); [lia|lia|].
  injection Ha as <-. apply Forall_inv in Hl. cbn [first_some] in Hf.
  destruct (alt_match [CDigit; CDigit; CDigit; CDigit] (pad_digits 4 y)) as [p|] eqn:Ea;
    [injection Hf as ->|done].
  rewrite re_match_group1 by done.
  pose proof (md_check_all m d Hm Hd) as Hmd. unfold md_check in Hmd.
  destruct (re_match md_items _) as [[g rest]|]; [|by destruct (datetime_ok y m d 0 0 0) eqn:E;
    [apply datetime_ok_md in E; rewrite E in Hmd|]].
  rewrite !group_value_cons, Ascii.eqb_refl, Hint. cbn [default Ascii.eqb Bool.eqb].
  destruct (rest ==? "").
  - rewrite !andb_true_iff, !Z.eqb_eq in Hmd. destruct Hmd as [[[[-> ->] ->] ->] ->]. done.
  - simpl. destruct (datetime_ok y m d 0 0 0) eqn:E; [|done].
    apply datetime_ok_md in E. by rewrite E in Hmd.
Qed.

Definition dt_items : list item :=
  IGroup "Y" [[CDigit; CDigit; CDigit; CDigit]] :: md_items ++
  [ISpace; IGroup "H" (default [] (directive_alts "H")); ILit ":";
   IGroup "M" (default [] (directive_alts "M")); ILit ":"; IGroup "S" (default [] (directive_alts "S"))].

Lemma compile_datetime : compile_format "%Y-%m-%d %H:%M:%S" = Some dt_items.
Proof. reflexivity. Qed.

Lemma string_app_single c s : String c "" +:+ s = String c s.
Proof. reflexivity. Qed.

Lemma to_N_mod10 x : (Z.to_N (x mod 10) < 10)%N.
Proof. pose proof (Z.mod_pos_bound x 10 ltac:(lia)). apply N2Z.inj_lt. rewrite Z2N.id by lia. simpl. lia. Qed.

Lemma pad2_space_run n s : space_run (pad_digits 2 n +:+ s) = O.
Proof. simpl. rewrite digit_char_not_space; [done|apply to_N_mod10]. Qed.

(** One group of [dt_items] on its canonical rendering. *)
Ltac canon_group c lo hi v lemma :=
  let alts := fresh "alts" in let Ha := fresh "Ha" in let Hl := fresh "Hl" in
  let Hf := fresh "Hf" in let Hi := fresh "Hi" in
  destruct (group_canon_spec c lo hi _ v lemma) as (alts & Ha & Hl & Hf & Hi); [lia|lia|];
  injection Ha as <-; apply re_match_group; [exact Hl|exact Hf|].

(** Every real date and time, rendered as ["YYYY-MM-DD HH:MM:SS"], is
    accepted. *)
Lemma strptime_datetime_complete y m d h mi s :
  datetime_ok y m d h mi s = true ->
  strptime_ok "%Y-%m-%d %H:%M:%S" (render_datetime y m d h mi s) = true.
Proof.
  intros Hok. pose proof (days_in_month_le y m).
  assert (Hr := Hok). unfold datetime_ok in Hr. rewrite !andb_true_iff, !Z.leb_le in Hr.
  unfold strptime_ok. rewrite compile_datetime. unfold render_datetime, render_date.
  rewrite <- !string_app_assoc, !string_app_single.
  assert (E : re_match dt_items
    (pad_digits 4 y +:+ String "-" (pad_digits 2 m +:+ String "-" (pad_digits 2 d +:+
     String " " (pad_digits 2 h +:+ String ":" (pad_digits 2 mi +:+ String ":" (pad_digits 2 s)))))) =
    Some ([("Y", pad_digits 4 y); ("m", pad_digits 2 m); ("d", pad_digits 2 d);
           ("H", pad_digits 2 h); ("M", pad_digits 2 mi); ("S", pad_digits 2 s)]%char, "")).
  { canon_group "Y"%char 0%Z 9999%Z y group_canon_Y. apply re_match_lit.
    canon_group "m"%char 1%Z 12%Z m group_canon_m. apply re_match_lit.
    canon_group "d"%char 1%Z 31%Z d group_canon_d. apply re_match_space; [apply pad2_space_run|].
    canon_group "H"%char 0%Z 23%Z h group_canon_H. apply re_match_lit.
    canon_group "M"%char 0%Z 59%Z mi group_canon_M. apply re_match_lit.
    rewrite <- (string_app_nil_r (pad_digits 2 s)).
    canon_group "S"%char 0%Z 59%Z s group_canon_S. reflexivity. }
  rewrite E, !group_value_cons. cbn [Ascii.eqb Bool.eqb andb default].
  rewrite (canon_int _ _ _ _ y group_canon_Y), (canon_int _ _ _ _ m group_canon_m),
    (canon_int _ _ _ _ d group_canon_d), (canon_int _ _ _ _ h group_canon_H),
    (canon_int _ _ _ _ mi group_canon_M), (canon_int _ _ _ _ s group_canon_S) by lia.
  exact Hok.
Qed.

(** ** Dates typed without zero padding

    [render_date_short y m d] is ["YYYY-M-D"]: the year on four digits,
    the month and the day as [str] prints them.  For a one-digit month and
    day it is not the ["YYYY-MM-DD"] of any date, yet [strptime] accepts
    it: the %m and %d alternatives end with a one-digit [[1-9]]. *)
Definition render_date_short (y m d : Z) : string :=
  pad_digits 4 y +:+ "-" +:+ py_str_int m +:+ "-" +:+ py_str_int d.

Definition md_short_check (m d : Z) : bool :=
  bool_decide (re_match md_items ("-" +:+ py_str_int m +:+ "-" +:+ py_str_int d) =
               Some ([("m", py_str_int m); ("d", py_str_int d)]%char, "")) &&
  (String.length (py_str_int m) =? 1) && (String.length (py_str_int d) =? 1).

Lemma md_short_table :
  forallb (fun m => forallb (fun d => md_short_check m d) (Zrange 1 9)) (Zrange 1 9) = true.
Proof. vm_compute. reflexivity. Qed.

Lemma md_short_check_all m d : (1 <= m <= 9)%Z -> (1 <= d <= 9)%Z -> md_short_check m d = true.
Proof.
  intros Hm Hd. pose proof md_short_table as H.
  apply forallb_forall with (x := m) in H; [|apply list_elem_of_In, Zrange_elem; lia].
  apply forallb_forall with (x := d) in H; [done|apply list_elem_of_In, Zrange_elem; lia].
Qed.

Lemma days_in_month_ge y m : (28 <= days_in_month y m)%Z.
Proof. unfold days_in_month. repeat case_match; lia. Qed.

Lemma pad_digits_plain w n : all_chars plain_char (pad_digits w n) = true.
Proof.
  revert n. induction w as [|w IH]; intros n; [done|]. cbn [pad_digits].
  rewrite all_chars_app, IH. simpl. rewrite digit_char_plain; [done|apply to_N_mod10].
Qed.

(** A year from 1 to 9999 with a one-digit month and day, typed without
    padding: [strptime] accepts it, and it has eight characters, none of
    them whitespace or upper case. *)
Lemma strptime_date_short y m d :
  (1 <= y <= 9999)%Z -> (1 <= m <= 9)%Z -> (1 <= d <= 9)%Z ->
  strptime_ok "%Y-%m-%d" (render_date_short y m d) = true /\
  String.length (render_date_short y m d) = 8 /\
  all_chars plain_char (render_date_short y m d) = true.
Proof.
  intros Hy Hm Hd. pose proof (md_short_check_all m d Hm Hd) as Hmd. unfold md_short_check in Hmd.
  rewrite !andb_true_iff, !Nat.eqb_eq, bool_decide_eq_true in Hmd. destruct Hmd as [[Hre Hlm] Hld].
  unfold render_date_short. split_and!.
  - unfold strptime_ok. rewrite compile_date.
    destruct (group_canon_spec "Y" 0 9999 4 y group_canon_Y) as (alts & Ha & Hl & Hf & Hint); [lia|lia|].
    injection Ha as <-. apply Forall_inv in Hl. cbn [first_some] in Hf.
    destruct (alt_match [CDigit; CDigit; CDigit; CDigit] (pad_digits 4 y)) as [p|] eqn:Ea;
      [injection Hf as ->|done].
    rewrite re_match_group1, Hre by done.
    rewrite !group_value_cons. cbn [Ascii.eqb Bool.eqb default]. rewrite Hint, !py_int_str.
    cbn [String.eqb andb]. unfold datetime_ok. pose proof (days_in_month_ge y m).
    rewrite !andb_true_iff, !Z.leb_le. cbn [default from_option group_value find id]. lia.
  - rewrite !string_app_length, pad_digits_length, Hlm, Hld. reflexivity.
  - rewrite !all_chars_app, pad_digits_plain, !py_str_int_plain. reflexivity.
Qed.
