(* ===== verification/Update.v ===== *)
(** * Writes: connections, transactions and the field update (src/src/UI.py)

    The program writes through [sqlite3] connections: [conn.execute] of an
    INSERT, UPDATE or DELETE changes what that connection sees, [commit]
    makes it the database every later connection sees, [rollback] goes
    back to the last commit, and [with get_conn() as conn:] commits when
    its block ends normally and rolls back when it raises.  Here a
    connection is the database state it sees ([c : D]); the committed
    state is the world's database; [with_conn] runs a block on a fresh
    connection and commits the connection's final state; a block that
    raises commits nothing more (its pending changes are dropped, changes
    it committed stay).

    Then the mutation helper of UI.py: the format rules of date fields,
    [is_valid_update_value], [prompt_update_value] and
    [update_whitelisted_field]. *)

From Stdlib Require Import Ascii ZArith Lia.
From stdpp Require Import base list strings.
From S2P Require Import Prelude Trace FilterSpecs FilterSQL Queries Console Strptime.

(** [conn.execute] of a statement that writes: the state the connection
    sees afterwards and the cursor's [rowcount]. *)
Class SqlExec (D : Type) := {
  sql_exec : D -> string -> list sqlval -> res (D * nat)
}.

Class SqlExecLaws (D : Type) `{!SqlExec D} : Prop := {
  sql_exec_errors d sql params e :
    sql_exec d sql params = Exc e ->
    exists msg, e = IntegrityError msg \/ e = DatabaseError msg \/ e = OverflowError msg;
  sql_exec_binds d sql params e :
    bind_params params = Exc e -> sql_exec d sql params = Exc e
}.

Section Conn.
Context {D : Type} `{!SqlBackend D} `{!SqlExec D}.

Definition conn_execute (c : D) (sql : string) (params : list sqlval) : io D (D * nat) :=
  of_res (sql_exec c sql params).

(** [conn.execute(sql, params).fetchone()] and [fetch_row_with_headers]
    on the connection. *)
Definition conn_fetch_row_with_headers (c : D) (sql : string) (params : list sqlval) :
    io D (list string * option row) :=
  '(headers, rows) ← of_res (sql_query c sql params); mret (headers, head rows).

Definition conn_fetch_one (c : D) (sql : string) (params : list sqlval) : io D (option row) :=
  '(_, r) ← conn_fetch_row_with_headers c sql params; mret r.

Definition conn_record_exists (c : D) (sql : string) (params : list sqlval) : io D bool :=
  r ← conn_fetch_one c sql params; mret (if r is Some _ then true else false).

Definition conn_commit (c : D) : io D unit := put_db c.

(** [conn.rollback()]: the connection sees the committed state again. *)
Definition conn_rollback : io D D := get_db.

(** [with get_conn() as conn: body]; the body returns its result and the
    state its connection ends in, which the block's exit commits. *)
Definition with_conn {A} (body : D -> io D (A * D)) : io D A :=
  c ← get_db; '(a, c') ← body c; put_db c' ;; mret a.
End Conn.

(** ** Field formats and the update prompt *)

Definition FIELD_FORMAT_RULES : list (string * (string * string)) := [
  ("FlightDate", ("%Y-%m-%d", "YYYY-MM-DD"));
  ("SchedDepUtc", ("%Y-%m-%d %H:%M:%S", "YYYY-MM-DD HH:MM:SS UTC"));
  ("SchedArrUtc", ("%Y-%m-%d %H:%M:%S", "YYYY-MM-DD HH:MM:SS UTC"));
  ("ActualDepUtc", ("%Y-%m-%d %H:%M:%S", "YYYY-MM-DD HH:MM:SS UTC"));
  ("ActualArrUtc", ("%Y-%m-%d %H:%M:%S", "YYYY-MM-DD HH:MM:SS UTC"))
].

(** [FIELD_FORMAT_RULES.get(field)] *)
Definition field_rule (field : string) : option (string * string) :=
  snd <$> find (fun p => p.1 ==? field) FIELD_FORMAT_RULES.

Definition is_valid_update_value (field value : string) : bool :=
  match field_rule field with
  | None => true
  | Some (fmt, _) => strptime_ok fmt value
  end.

(** [NULL] for [None], text otherwise. *)
Definition opt_to_sql (v : option string) : sqlval :=
  match v with
  | Some s => SText s
  | None => SNull
  end.

Section UpdatePrompt.
Context {D : Type} `{!SqlBackend D}.

Definition update_prompt_text (field : string) (hint : option string) (show_non_clearable_hint detailed : bool) : string :=
  if detailed then
    match hint with
    | Some h =>
        if show_non_clearable_hint then "New " +:+ field +:+ " (format " +:+ h +:+ "; Cannot be Cleared): "
        else "New " +:+ field +:+ " (format " +:+ h +:+ ", Type <<CLEAR>> to clear): "
    | None =>
        if show_non_clearable_hint then "New " +:+ field +:+ " (cannot be cleared): "
        else "New " +:+ field +:+ " (Type <<CLEAR>> to clear): "
    end
  else "New " +:+ field +:+ ": ".

(** The [while True] loop of [prompt_update_value]. *)
Fixpoint update_value_loop (fuel : nat) (field : string) (hint : option string)
    (show_non_clearable_hint detailed : bool) : io D (option string) :=
  match fuel with
  | O => throw OutOfFuel
  | S fuel' =>
      s ← read_input (update_prompt_text field hint show_non_clearable_hint detailed);
      let s := py_strip s in
      if is_quit s then throw AbortAction
      else if s ==? "<<CLEAR>>" then mret None
      else if is_valid_update_value field s then mret (Some s)
      else print "Invalid value. Use -q to cancel" ;;
           update_value_loop fuel' field hint show_non_clearable_hint false
  end.

Definition prompt_update_value (fuel : nat) (field : string) (show_non_clearable_hint : bool) :
    io D (option string) :=
  update_value_loop fuel field (snd <$> field_rule field) show_non_clearable_hint true.
End UpdatePrompt.

(** ** [update_whitelisted_field] *)

Definition update_sql (table field id_column : string) : string :=
  "UPDATE " +:+ table +:+ " SET " +:+ field +:+ " = ? WHERE " +:+ id_column +:+ " = ?;".

Section UpdateField.
Context {D : Type} `{!SqlBackend D} `{!SqlExec D}.
Variables (table id_column : string) (record_id : sqlval) (fields : list string)
  (status_field : option string) (status_options : list string) (non_clearable_fields : list string).

(** The new value: from the status list for the status field (when a
    status field and options are given), from [prompt_update_value]
    otherwise. *)
Definition new_value (fuel : nat) (field : string) : io D sqlval :=
  match status_field with
  | Some sf =>
      if negb (sf ==? "") && negb (bool_decide (status_options = [])) && (field ==? sf) then
        st ← choose_from_list fuel "New Status:" status_options; mret (SText st)
      else v ← prompt_update_value fuel field (bool_decide (field ∈ non_clearable_fields));
           mret (opt_to_sql v)
  | None =>
      v ← prompt_update_value fuel field (bool_decide (field ∈ non_clearable_fields));
      mret (opt_to_sql v)
  end.

(** One attempt: [inl c'] is the return after the UPDATE, [inr c0] the
    [continue] after an integrity error and the rollback. *)
Definition update_attempt (fuel : nat) (c : D) : io D (D + D) :=
  field ← choose_from_list fuel "Field to Update:" fields;
  catch
    (new_val ← new_value fuel field;
     '(c', _) ← conn_execute c (update_sql table field id_column) [new_val; record_id];
     mret (inl c'))
    (fun e =>
       match e with
       | IntegrityError msg =>
           Some (c0 ← conn_rollback;
                 handle_integrity_error msg ;;
                 print "Try again (or -q to cancel).
" ;;
                 mret (inr c0))
       | _ => None
       end).

(** [update_whitelisted_field(conn, ...)]: the state the connection sees
    when it returns. *)
Fixpoint update_whitelisted_field (fuel : nat) (c : D) : io D D :=
  match fuel with
  | O => throw OutOfFuel
  | S fuel' =>
      r ← update_attempt fuel c;
      match r with
      | inl c' => mret c'
      | inr c0 => update_whitelisted_field fuel' c0
      end
  end.
End UpdateField.

(** ** What an update writes *)

Section UpdateProps.
Context {D : Type} `{!SqlBackend D} `{!SqlExec D}.

Lemma update_value_loop_ro fuel field hint show detailed :
  db_ro (update_value_loop (D:=D) fuel field hint show detailed).
Proof. revert detailed. induction fuel; intros detailed; simpl; solve_ro. Qed.

(** [prompt_update_value] returns [None] (the clear sentinel) or a value
    that passed the field's format check. *)
Lemma update_value_loop_valid fuel field hint show detailed :
  rets (update_value_loop (D:=D) fuel field hint show detailed)
    (fun r => forall s, r = Some s -> is_valid_update_value field s = true) (fun _ => True).
Proof.
  revert detailed. induction fuel as [|fuel IH]; intros detailed; simpl; [by apply rets_throw|].
  eapply rets_bind; [apply rets_true|]. intros s _. cbv beta zeta.
  destruct (is_quit _); [by apply rets_throw|]. destruct (_ ==? "<<CLEAR>>"); [by apply rets_ret|].
  destruct (is_valid_update_value field _) eqn:E; [apply rets_ret; by intros ? [= <-]|].
  apply rets_emit_seq, IH.
Qed.
End UpdateProps.

#[export] Hint Resolve update_value_loop_ro : fdb.

Section UpdateFieldProps.
Context {D : Type} `{!SqlBackend D} `{!SqlExec D}.
Variables (table id_column : string) (record_id : sqlval) (fields : list string)
  (status_field : option string) (status_options : list string) (non_clearable_fields : list string).
Variable d : D.

(** The status field (when a status field and options are given) takes
    one of the options; any other field takes [NULL] or a text that
    passed its format check. *)
Definition status_case (field : string) : bool :=
  match status_field with
  | Some sf => negb (sf ==? "") && negb (bool_decide (status_options = [])) && (field ==? sf)
  | None => false
  end.

Definition value_ok (field : string) (v : sqlval) : Prop :=
  if status_case field then exists st, v = SText st /\ st ∈ status_options
  else v = SNull \/ exists s, v = SText s /\ is_valid_update_value field s = true.

Lemma new_value_at fuel field :
  rets_at d (new_value status_field status_options non_clearable_fields fuel field)
    (value_ok field) (fun _ => True).
Proof.
  apply rets_at_intro.
  - unfold new_value, value_ok, status_case.
    assert (Hp : rets (v ← prompt_update_value (D:=D) fuel field (bool_decide (field ∈ non_clearable_fields));
                       mret (opt_to_sql v))
                   (fun v => v = SNull \/ exists s, v = SText s /\ is_valid_update_value field s = true)
                   (fun _ => True)).
    { eapply rets_bind; [apply update_value_loop_valid|]. intros [s|] Hs; apply rets_ret; [|by left].
      right. eauto. }
    destruct status_field as [sf|]; [|exact Hp]. destruct (_ && _ && _); [|exact Hp].
    eapply rets_bind; [eapply rets_conseq; [apply choose_from_list_law|done|done]|].
    intros st Hst. apply rets_ret. eauto.
  - unfold new_value, prompt_update_value. solve_ro.
Qed.

Definition one_update (c c' : D) : Prop :=
  exists field v n, field ∈ fields /\ value_ok field v /\
    sql_exec c (update_sql table field id_column) [v; record_id] = Ok (c', n).

Lemma update_attempt_at fuel c :
  rets_at d (update_attempt table id_column record_id fields status_field status_options
               non_clearable_fields fuel c)
    (fun r => match r with inl c' => one_update c c' | inr c0 => c0 = d end) (fun _ => True).
Proof.
  unfold update_attempt. eapply rets_at_bind.
  { apply rets_at_intro; [|apply choose_from_list_ro].
    eapply rets_conseq; [apply choose_from_list_law|done|done]. }
  intros field Hfield. eapply rets_at_catch with (E' := fun _ => True).
  - eapply rets_at_bind; [apply new_value_at|]. intros v Hv.
    unfold conn_execute. destruct (sql_exec c _ _) as [[c' n]|e] eqn:E; simpl;
      [|by apply rets_at_throw].
    apply rets_at_ret. exists field, v, n. done.
  - intros [] _; try done.
    all: unfold conn_rollback; apply rets_at_get_db; rets_at_walk; by apply rets_at_ret.
Qed.

(** The loop, from a connection [c] that sees [c] or the committed [d]. *)
Lemma update_whitelisted_field_at fuel c :
  rets_at d (update_whitelisted_field table id_column record_id fields status_field
               status_options non_clearable_fields fuel c)
    (fun c' => one_update c c' \/ one_update d c') (fun _ => True).
Proof.
  revert c. induction fuel as [|fuel IH]; intros c; simpl; [by apply rets_at_throw|].
  eapply rets_at_bind; [apply update_attempt_at|]. intros [c'|c0] H.
  - apply rets_at_ret. by left.
  - subst c0. eapply rets_at_conseq; [apply IH|intros c' [H|H]; by right|done].
Qed.
End UpdateFieldProps.

(** ** Connections *)

Section ConnProps.
Context {D : Type} `{!SqlBackend D} `{!SqlExec D}.

(** The block's result and the connection state it ends in: the state
    the block's exit commits. *)
Lemma with_conn_runs {A} d (body : D -> io D (A * D)) Q E :
  runs d (body d) (fun ac _ => Q ac.1 ac.2) E -> runs d (with_conn body) Q E.
Proof.
  intros Hb. unfold with_conn. apply runs_get_db.
  eapply runs_bind; [exact Hb|]. intros [a c'] d' Hq. simpl in Hq.
  apply (runs_bind _ _ _ (fun _ d'' => d'' = c')); [by apply runs_put_db|].
  intros [] ? ->. by apply runs_ret.
Qed.

Lemma conn_execute_runs d c sql params :
  runs d (conn_execute c sql params)
    (fun cn d' => d' = d /\ sql_exec c sql params = Ok cn)
    (fun e d' => d' = d /\ sql_exec c sql params = Exc e).
Proof. unfold conn_execute. destruct (sql_exec c sql params); cbn [of_res]; [apply runs_ret|apply runs_throw]; cbv beta; split; reflexivity. Qed.

Lemma conn_fetch_row_with_headers_at d c sql params :
  rets_at d (conn_fetch_row_with_headers c sql params)
    (fun hr => exists rows, sql_query c sql params = Ok (hr.1, rows) /\ hr.2 = head rows) (fun _ => True).
Proof.
  unfold conn_fetch_row_with_headers. destruct (sql_query c sql params) as [[h rows]|e]; simpl;
    [apply rets_at_ret; eauto|by apply rets_at_throw].
Qed.

Lemma conn_fetch_one_at d c sql params :
  rets_at d (conn_fetch_one c sql params)
    (fun r => exists h rows, sql_query c sql params = Ok (h, rows) /\ r = head rows) (fun _ => True).
Proof.
  unfold conn_fetch_one. eapply rets_at_bind; [apply conn_fetch_row_with_headers_at|].
  intros [h r] (rows & Hq & Hr). apply rets_at_ret. eauto.
Qed.

Lemma conn_fetch_row_with_headers_ro c sql params : db_ro (conn_fetch_row_with_headers (D:=D) c sql params).
Proof. unfold conn_fetch_row_with_headers. solve_ro. Qed.
Lemma conn_fetch_one_ro c sql params : db_ro (conn_fetch_one (D:=D) c sql params).
Proof. unfold conn_fetch_one. solve_ro; apply conn_fetch_row_with_headers_ro. Qed.
Lemma conn_record_exists_ro c sql params : db_ro (conn_record_exists (D:=D) c sql params).
Proof. unfold conn_record_exists. solve_ro; apply conn_fetch_one_ro. Qed.

(** A [with] block that only reads commits the state it started on. *)
Lemma with_conn_read_ro {A} (q : D -> io D A) :
  (forall c, db_ro (q c)) -> db_ro (with_conn (fun c => a ← q c; mret (a, c))).
Proof.
  intros Hq w. unfold with_conn. rewrite io_bind_run. cbn [get_db]. rewrite !io_bind_run.
  specialize (Hq (w_db w) w). by destruct (q (w_db w) w) as [[a|e] w'] eqn:E; simpl in *.
Qed.
End ConnProps.

#[export] Hint Resolve conn_fetch_row_with_headers_ro conn_fetch_one_ro conn_record_exists_ro : fdb.

(** ** Fuel: the update helper stops *)

Section UpdateFuel.
Context {D : Type} `{!SqlBackend D} `{!SqlBackendLaws D} `{!SqlExec D} `{!SqlExecLaws D}.

Lemma sql_query_not_oof (c : D) sql params : sql_query c sql params <> Exc OutOfFuel.
Proof. intros E. by destruct (sql_query_errors _ _ _ _ E) as [m [|[|]]]. Qed.

Lemma sql_exec_not_oof (c : D) sql params : sql_exec c sql params <> Exc OutOfFuel.
Proof. intros E. by destruct (sql_exec_errors _ _ _ _ E) as [m [|[|]]]. Qed.

Lemma conn_execute_fuel n c sql params : fuel_ok n false (conn_execute (D:=D) c sql params).
Proof. apply of_res_fuel, sql_exec_not_oof. Qed.

Lemma conn_fetch_row_with_headers_fuel n c sql params :
  fuel_ok n false (conn_fetch_row_with_headers (D:=D) c sql params).
Proof.
  apply fuel_ok_seq; [apply of_res_fuel, sql_query_not_oof|]. intros [? ?]. apply fuel_ok_ret.
Qed.

Lemma conn_fetch_one_fuel n c sql params : fuel_ok n false (conn_fetch_one (D:=D) c sql params).
Proof.
  apply fuel_ok_seq; [apply conn_fetch_row_with_headers_fuel|]. intros [? ?]. apply fuel_ok_ret.
Qed.

Lemma conn_record_exists_fuel n c sql params : fuel_ok n false (conn_record_exists (D:=D) c sql params).
Proof. apply fuel_ok_seq; [apply conn_fetch_one_fuel|]. intros ?. apply fuel_ok_ret. Qed.

Lemma with_conn_fuel {A} n b (body : D -> io D (A * D)) :
  (forall c, fuel_ok n b (body c)) -> fuel_ok n b (with_conn body).
Proof.
  intros Hb. apply fuel_ok_get_db. intros c.
  rewrite <- (orb_false_r_eq b). apply fuel_ok_bind; [apply Hb|]. intros [a c'].
  apply fuel_ok_seq; [apply fuel_ok_put_db|]. intros _. apply fuel_ok_ret.
Qed.

Lemma conn_commit_fuel n c : fuel_ok n false (conn_commit (D:=D) c).
Proof. apply fuel_ok_put_db. Qed.

Lemma conn_rollback_fuel {A} n b (f : D -> io D A) :
  (forall c, fuel_ok n b (f c)) -> fuel_ok n b (conn_rollback ≫= f).
Proof. apply fuel_ok_get_db. Qed.
End UpdateFuel.

#[export] Hint Resolve conn_execute_fuel conn_fetch_row_with_headers_fuel conn_fetch_one_fuel conn_commit_fuel
  conn_record_exists_fuel read_input_fuel choose_from_list_fuel prompt_int_fuel prompt_optional_fuel : fdb.

Section UpdateFuel2.
Context {D : Type} `{!SqlBackend D} `{!SqlBackendLaws D} `{!SqlExec D} `{!SqlExecLaws D}.

Lemma update_value_loop_fuel fuel field hint show detailed :
  fuel_ok fuel true (update_value_loop (D:=D) fuel field hint show detailed).
Proof.
  revert detailed. induction fuel as [|n IH]; intros detailed; simpl; [intros k Hk; lia|].
  apply (fuel_ok_bind_strict n false); [apply read_input_fuel|]. intros s. cbv beta zeta.
  destruct (is_quit _); [by apply fuel_ok_throw|]. fuel_walk.
Qed.

Lemma new_value_fuel status_field status_options non_clearable_fields fuel field :
  fuel_ok fuel true (new_value (D:=D) status_field status_options non_clearable_fields fuel field).
Proof.
  unfold new_value, prompt_update_value.
  repeat case_match; apply fuel_ok_seq_strict; eauto using update_value_loop_fuel with fdb.
Qed.

Lemma update_attempt_fuel table id_column record_id fields status_field status_options
    non_clearable_fields fuel c :
  fuel_ok fuel true (update_attempt (D:=D) table id_column record_id fields status_field status_options
                       non_clearable_fields fuel c).
Proof.
  unfold update_attempt. apply fuel_ok_seq_strict; [apply choose_from_list_fuel|]. intros field.
  apply fuel_ok_catch.
  - apply fuel_ok_seq; [apply fuel_ok_strict_weak, new_value_fuel|]. intros v. fuel_walk.
  - intros [] h [= <-]. apply conn_rollback_fuel. intros c0. unfold handle_integrity_error. fuel_walk.
Qed.

Lemma update_whitelisted_field_fuel table id_column record_id fields status_field status_options
    non_clearable_fields fuel c :
  fuel_ok fuel true (update_whitelisted_field (D:=D) table id_column record_id fields status_field
                       status_options non_clearable_fields fuel c).
Proof.
  revert c. induction fuel as [|n IH]; intros c; simpl; [intros k Hk; lia|].
  apply (fuel_ok_bind_strict n false); [apply update_attempt_fuel|]. intros [c'|c0]; [apply fuel_ok_ret|].
  apply fuel_ok_strict_weak, IH.
Qed.
End UpdateFuel2.

#[export] Hint Resolve update_whitelisted_field_fuel : fdb.

(** ** No empty table is shown *)

#[export] Hint Unfold conn_execute conn_fetch_row_with_headers conn_fetch_one conn_record_exists conn_commit
  conn_rollback with_conn prompt_update_value new_value update_attempt : shows.

Section UpdateShows.
Context {D : Type} `{!SqlBackend D} `{!SqlExec D}.

Lemma update_value_loop_shows n field hint show detailed :
  shows_ok (D:=D) (update_value_loop n field hint show detailed).
Proof. revert detailed. induction n; intros; simpl; solve_shows. Qed.

#[local] Hint Resolve update_value_loop_shows : shows.

Lemma update_whitelisted_field_shows table id_column record_id fields status_field status_options
    non_clearable_fields n c :
  shows_ok (D:=D) (update_whitelisted_field table id_column record_id fields status_field status_options
                     non_clearable_fields n c).
Proof. revert c. induction n; intros; simpl; solve_shows. Qed.
End UpdateShows.

#[export] Hint Resolve update_value_loop_shows update_whitelisted_field_shows : shows.

(** Walk through the read-only prefix of a computation that may commit:
    binds whose result is not needed are discharged by [solve_ro]; the
    fetches whose result matters, and the writes, are left to the
    caller. *)
Ltac runs_walk :=
  repeat first
    [ progress cbv beta zeta
    | match goal with
      | |- runs _ (mbind _ (conn_fetch_one _ _ _)) _ _ => fail 1
      | |- runs _ (mbind _ (conn_fetch_row_with_headers _ _ _)) _ _ => fail 1
      | |- runs _ (mbind _ (conn_record_exists _ _ _)) _ _ => fail 1
      | |- runs _ (mbind _ (record_exists _ _)) _ _ => fail 1
      | |- runs _ (mbind _ (print _)) _ _ => apply runs_emit_seq
      | |- runs _ (mbind _ (emit _)) _ _ => apply runs_emit_seq
      | |- runs _ (mbind _ _) _ _ =>
          apply runs_ro_bind; [solve [solve_ro]|try (intros; solve [done | by left | eassumption])|intros ?]
      | |- runs _ (let '(_, _) := ?p in _) _ _ => destruct p
      end
    | solve [apply runs_ro; [solve [solve_ro] | intros; solve [done | by left | eassumption]
                                             | intros; solve [done | by left | eassumption]]] ].

(** Typing the clear sentinel answers [None]. *)
Lemma update_value_loop_clear {D} `{!SqlBackend D} fuel field hint show detailed rest out (d : D) :
  exists out', update_value_loop (S fuel) field hint show detailed (mkWorld ("<<CLEAR>>" :: rest) out d) =
               (Ok None, mkWorld rest out' d).
Proof. simpl. rewrite io_bind_run. simpl. eauto. Qed.

(** ** The update helper's contract *)

Section UpdateClaims.
Context {D : Type} `{!SqlBackend D} `{!SqlExec D}.

(** C8. [update_whitelisted_field], run on a connection with no pending
    change over the committed database [d], commits nothing itself and
    returns the connection state after exactly one successful UPDATE of
    the given record ([WHERE id_column = record_id]) on one column of the
    whitelist: the status column takes one of the status options, any
    other column takes NULL or a text that passed its format check; an
    UPDATE that violates a constraint is rolled back and retried. *)
Theorem update_whitelisted_field_writes_one table id_column record_id fields status_field
    status_options non_clearable_fields fuel (d : D) :
  rets_at d (update_whitelisted_field table id_column record_id fields status_field status_options
               non_clearable_fields fuel d)
    (one_update table id_column record_id fields status_field status_options d) (fun _ => True).
Proof.
  eapply rets_at_conseq; [apply update_whitelisted_field_at|by intros c' [H|H]|done].
Qed.
End UpdateClaims.

(** C28. On canonical renderings the validator of the date fields is
    the calendar: a zero-padded ["YYYY-MM-DD"] (any four digits, any two
    digits for month and day) passes [is_valid_update_value "FlightDate"]
    exactly when it is a date with a year from 1 to 9999 (leap years
    included), and every real date and time rendered as
    ["YYYY-MM-DD HH:MM:SS"] passes for the four timestamp fields. *)
Theorem is_valid_update_value_canonical y m d h mi s :
  (0 <= y <= 9999)%Z -> (0 <= m <= 99)%Z -> (0 <= d <= 99)%Z ->
  is_valid_update_value "FlightDate" (render_date y m d) = datetime_ok y m d 0 0 0 /\
  (datetime_ok y m d h mi s = true ->
   Forall (fun f => is_valid_update_value f (render_datetime y m d h mi s) = true)
     ["SchedDepUtc"; "SchedArrUtc"; "ActualDepUtc"; "ActualArrUtc"]).
Proof.
  intros Hy Hm Hd. split; [by apply strptime_date_canonical|].
  intros Hok. pose proof (strptime_datetime_complete y m d h mi s Hok) as H.
  repeat constructor; exact H.
Qed.

(** C30. The format check does not enforce the format its prompt shows:
    for every year from 1 to 9999 and every one-digit month and day, the
    date typed without zero padding (["2024-1-5"]) is not the
    ["YYYY-MM-DD"] rendering of any date, yet [is_valid_update_value]
    accepts it ([datetime.strptime] reads one-digit months and days), and
    [prompt_update_value] returns it as typed at once, consuming exactly
    that line - the text [update_whitelisted_field] then writes. *)
Theorem is_valid_update_value_accepts_noncanonical {D} `{!SqlBackend D} fuel show y m d rest out (db : D) :
  (1 <= y <= 9999)%Z -> (1 <= m <= 9)%Z -> (1 <= d <= 9)%Z ->
  (forall y' m' d', render_date y' m' d' <> render_date_short y m d) /\
  is_valid_update_value "FlightDate" (render_date_short y m d) = true /\
  exists out', prompt_update_value (S fuel) "FlightDate" show
                 (mkWorld (render_date_short y m d :: rest) out db) =
               (Ok (Some (render_date_short y m d)), mkWorld rest out' db).
Proof.
  intros Hy Hm Hd. destruct (strptime_date_short y m d Hy Hm Hd) as (Hok & Hlen & Hp).
  split_and!.
  - intros y' m' d' E. apply (f_equal String.length) in E. rewrite Hlen in E.
    unfold render_date in E. rewrite !string_app_length, !pad_digits_length in E. simpl in E. lia.
  - exact Hok.
  - cbn [prompt_update_value update_value_loop]. rewrite io_bind_run. simpl.
    rewrite py_strip_plain, is_quit_plain_long by (done || lia).
    destruct (_ ==? "<<CLEAR>>") eqn:Ec;
      [apply String.eqb_eq in Ec; apply (f_equal String.length) in Ec; rewrite Hlen in Ec; done|].
    unfold is_valid_update_value in Hok |- *. simpl in Hok |- *. rewrite Hok. eauto.
Qed.

(** ** Witnesses *)

(** The one-state database of the witnesses accepts every write. *)
#[export] Instance nodb_exec : SqlExec nodb := {|
  sql_exec d _ params := match bind_params params with Ok _ => Ok (d, O) | Exc e => Exc e end
|}.

#[export] Instance nodb_exec_laws : SqlExecLaws nodb.
Proof.
  split; intros d sql params e; simpl; destruct (bind_params params) as [|e'] eqn:Eb; try done.
  - intros [= <-]. apply bind_params_errors in Eb as ->. eauto.
  - by intros [= ->].
Qed.

Lemma is_valid_update_value_canonical_witness :
  ((0 <= 2024 <= 9999)%Z /\ (0 <= 2 <= 99)%Z /\ (0 <= 29 <= 99)%Z) /\
  datetime_ok 2024 2 29 23 59 59 = true /\
  (is_valid_update_value "FlightDate" (render_date 2024 2 29) = datetime_ok 2024 2 29 0 0 0 /\
   (datetime_ok 2024 2 29 23 59 59 = true ->
    Forall (fun f => is_valid_update_value f (render_datetime 2024 2 29 23 59 59) = true)
      ["SchedDepUtc"; "SchedArrUtc"; "ActualDepUtc"; "ActualArrUtc"])).
Proof.
  split; [split_and!; lia|]. split; [reflexivity|].
  apply is_valid_update_value_canonical; lia.
Defined.

Lemma is_valid_update_value_accepts_noncanonical_witness :
  ((1 <= 2024 <= 9999)%Z /\ (1 <= 1 <= 9)%Z /\ (1 <= 5 <= 9)%Z) /\
  render_date_short 2024 1 5 = "2024-1-5" /\
  ((forall y' m' d', render_date y' m' d' <> render_date_short 2024 1 5) /\
   is_valid_update_value "FlightDate" (render_date_short 2024 1 5) = true /\
   exists out', prompt_update_value (D:=nodb) 1 "FlightDate" false
                  (mkWorld [render_date_short 2024 1 5] [] NoDB) =
                (Ok (Some (render_date_short 2024 1 5)), mkWorld [] out' NoDB)).
Proof.
  split; [split_and!; lia|]. split; [vm_compute; reflexivity|].
  apply is_valid_update_value_accepts_noncanonical; lia.
Defined.
