(* ===== verification/Browse.v ===== *)
(** * The browse loop (src/src/UI.py [browse]) and the browsing menu actions

    [browse] is two nested [while True] loops: the outer one builds and runs
    the query and shows the listing, the inner one reads commands until one
    of them changes the filters ([f], [r]) or quits.  Here it is the state
    machine of the spec's section 4.3: [BRender f] (redraw, then read a
    command), [BAwait f] (read another command) and [BExit].  One step of
    [browse_step] is one iteration of whichever loop is current, and
    [browse] runs it with [run_machine].  [browse_rel] is the abstract
    machine: it says which state may follow which, given a relation
    [pf_rel] that describes the [prompt_filters] callback.

    The theorems: each executable step is a [browse_rel] step; on the
    listings of the program the filter state of every reachable state has
    exactly the keys of the listing's specs, so an assertion of that at
    the top of every iteration never fires; the same holds for the type
    of the filter state (every value set fits its spec's kind), which
    rests on what [prompt_filter] stores; and each browsing menu action
    ([view_flights_by_criteria], [view_pilot_schedule], the airport view of
    [destination_management], [view_audit_log]) stops within one loop
    iteration per input line: with more fuel than lines it never runs out
    of fuel. *)

From Stdlib Require Import Ascii ZArith Lia.
From stdpp Require Import base list gmap strings.
From S2P Require Import Prelude Trace FilterSpecs FilterSQL Queries Console.

Inductive bstate :=
  | BRender (f : filters)
  | BAwait (f : filters)
  | BExit.

Definition bfilters (s : bstate) : option filters :=
  match s with
  | BRender f | BAwait f => Some f
  | BExit => None
  end.

Definition browse_final (s : bstate) : option unit :=
  match s with
  | BExit => Some tt
  | _ => None
  end.

Section Browse.
Context {D : Type} `{!SqlBackend D}.
Variable title : string.
Variable build_query : filters -> res (string * list fvalue).
Variable prompt_filters : option (filters -> io D filters).
Variable format_filters : option (filters -> string).

(** The outer loop's body up to the command prompt. *)
Definition render_listing (f : filters) : io D unit :=
  '(sql, params) ← of_res (build_query f);
  '(headers, rows) ← query_rows sql (fvalue_to_sql <$> params);
  print ("
" +:+ title) ;;
  print (py_repeat "-" (String.length title)) ;;
  print_rows headers rows ;;
  print ("Rows: " +:+ py_str_int (Z.of_nat (length rows))) ;;
  let rendered :=
    match format_filters with
    | Some g => let r := py_strip (g f) in if r ==? "" then "(none)" else r
    | None =>
        let active := filter (fun kv => is_blank kv.2 = false) (map_to_list f) in
        match active with
        | [] => "(none)"
        | _ => "{" +:+ py_join ", " ((fun kv => "'" +:+ kv.1 +:+ "': " +:+
                   match kv.2 with
                   | Some (FStr s) => "'" +:+ s +:+ "'"
                   | Some (FInt z) => py_str_int z
                   | None => "None"
                   end) <$> active) +:+ "}"
        end
    end in
  print ("Filters: " +:+ rendered) ;;
  print "Commands: f=filter, r=reset, -q=back".

(** One iteration of the inner loop: read a command and dispatch. *)
Definition await_command (f : filters) : io D bstate :=
  cmd ← read_input "Command: ";
  let cmd := py_lower (py_strip cmd) in
  let other :=
    if cmd ==? "r" then mret (BRender (clear_filters f))
    else print "Invalid Command. Use f, r, or -q." ;; mret (BAwait f) in
  if (cmd ==? "-q") || (cmd ==? "q") then mret BExit
  else match prompt_filters with
       | Some pf => if cmd ==? "f" then f' ← pf f; mret (BRender f') else other
       | None => other
       end.

Definition browse_step (s : bstate) : io D bstate :=
  match s with
  | BRender f => render_listing f ;; await_command f
  | BAwait f => await_command f
  | BExit => mret BExit
  end.

(** [browse(title, build_query, filters, prompt_filters, format_filters)] *)
Definition browse (fuel : nat) (f : filters) : io D unit :=
  run_machine fuel browse_final browse_step (BRender f).
End Browse.

(** ** The abstract machine *)

Section BrowseRel.
Variable pf_rel : filters -> filters -> Prop.

Inductive browse_rel : bstate -> bstate -> Prop :=
  | br_quit s f : bfilters s = Some f -> browse_rel s BExit
  | br_filter s f f' : bfilters s = Some f -> pf_rel f f' -> browse_rel s (BRender f')
  | br_reset s f : bfilters s = Some f -> browse_rel s (BRender (clear_filters f))
  | br_invalid s f : bfilters s = Some f -> browse_rel s (BAwait f).
End BrowseRel.

#[export] Hint Constructors browse_rel : fdb.

(** What prompt_filter does to the filter state (FilterSQL's theorem). *)
Definition prompt_rel (specs : list FilterSpec) (statuses : list string) (f f' : filters) : Prop :=
  exists spec v, spec ∈ specs /\ value_fits statuses spec v /\ f' = <[key spec := Some v]> f.

(** ** The executable step refines the abstract machine *)

Lemma browse_rel_from pf_rel s1 s2 s' :
  bfilters s1 = bfilters s2 -> browse_rel pf_rel s1 s' -> browse_rel pf_rel s2 s'.
Proof. intros Heq Hr. inversion Hr; subst; rewrite Heq in *; eauto with fdb. Qed.

Section BrowseRefines.
Context {D : Type} `{!SqlBackend D}.
Variables (title : string) (build_query : filters -> res (string * list fvalue))
  (prompt_filters : option (filters -> io D filters)) (format_filters : option (filters -> string)).
Variable pf_rel : filters -> filters -> Prop.
Hypothesis pf_ok : forall pf, prompt_filters = Some pf ->
  forall f, rets (pf f) (pf_rel f) (fun _ => True).

Lemma await_command_rel f :
  rets (await_command prompt_filters f) (browse_rel pf_rel (BAwait f)) (fun _ => True).
Proof.
  unfold await_command. eapply rets_bind; [apply rets_true|]. intros cmd _. cbv beta zeta.
  destruct (_ || _); [apply rets_ret; by eapply br_quit|].
  destruct prompt_filters as [pf|] eqn:Epf; [destruct (_ ==? "f")|];
    [eapply rets_bind; [by apply pf_ok|]; intros f' Hf'; apply rets_ret; by eapply br_filter| |];
    (destruct (_ ==? "r"); [apply rets_ret; by eapply br_reset|]);
    apply rets_emit_seq, rets_ret; by eapply br_invalid.
Qed.

Lemma browse_step_rel s :
  browse_final s = None ->
  rets (browse_step title build_query prompt_filters format_filters s)
    (browse_rel pf_rel s) (fun _ => True).
Proof.
  destruct s as [f|f|]; simpl; intros Hf; [|apply await_command_rel|done].
  eapply rets_bind; [apply rets_true|]. intros _ _.
  eapply rets_conseq; [apply await_command_rel| |done].
  intros s'. by apply browse_rel_from.
Qed.
End BrowseRefines.

(** ** The key invariant of the filter state, by rule induction *)

Definition keys_inv (K : gset string) (s : bstate) : Prop :=
  match bfilters s with
  | Some f => dom f = K
  | None => True
  end.

#[export] Instance keys_inv_dec K s : Decision (keys_inv K s).
Proof. unfold keys_inv. destruct (bfilters s); apply _. Defined.

(** A property of the filter state of every state that has one. *)
Definition finv (P : filters -> Prop) (s : bstate) : Prop :=
  match bfilters s with
  | Some f => P f
  | None => True
  end.

#[export] Instance finv_dec (P : filters -> Prop) `{!forall f, Decision (P f)} s : Decision (finv P s).
Proof. unfold finv. destruct (bfilters s); apply _. Defined.

(** A property of filter states that the prompt and the reset keep is an
    invariant of the machine. *)
Lemma browse_rel_finv (P : filters -> Prop) (pf_rel : filters -> filters -> Prop) s s' :
  (forall f f', P f -> pf_rel f f' -> P f') -> (forall f, P f -> P (clear_filters f)) ->
  finv P s -> browse_rel pf_rel s s' -> finv P s'.
Proof.
  intros Hpf Hcl Hs Hr. unfold finv in *.
  inversion Hr as [? ? Hb|? ? ? Hb Hp|? ? Hb|? ? Hb]; subst; simpl; rewrite ?Hb in Hs; eauto.
Qed.

Lemma browse_rel_keys (pf_rel : filters -> filters -> Prop) K s s' :
  (forall f f', dom f = K -> pf_rel f f' -> dom f' = K) ->
  keys_inv K s -> browse_rel pf_rel s s' -> keys_inv K s'.
Proof.
  intros Hpf. apply (browse_rel_finv (fun f => dom f = K)); [done|]. intros f <-. apply clear_filters_dom.
Qed.

Lemma prompt_rel_keys specs statuses f f' :
  dom f = spec_keys specs -> prompt_rel specs statuses f f' -> dom f' = spec_keys specs.
Proof. intros Hdom (spec & v & Hin & _ & ->). by apply insert_spec_key_dom. Qed.

(** C23. Every state the browse machine of a listing can reach from a
    fresh session ([init_filters specs]) holds a filter state whose keys
    are exactly the keys of the listing's specs: filtering and resetting
    never introduce an unknown key or drop a known one. *)
Theorem browse_reachable_keys specs statuses s :
  star (browse_rel (prompt_rel specs statuses)) (BRender (init_filters specs)) s ->
  keys_inv (spec_keys specs) s.
Proof.
  intros Hreach. eapply star_invariant; [|exact Hreach|apply init_filters_dom].
  intros s1 s2. apply browse_rel_keys, prompt_rel_keys.
Qed.

Lemma prompt_rel_typed specs statuses f f' :
  NoDup (map key specs) -> filters_typed statuses specs f ->
  prompt_rel specs statuses f f' -> filters_typed statuses specs f'.
Proof. intros Hnd Hf (spec & v & Hin & Hv & ->). by apply insert_filters_typed. Qed.

(** ** The browsing menu actions (src/src/ActionsWorkflows.py) *)

Section Views.
Context {D : Type} `{!SqlBackend D}.

(** One iteration of a listing's browse loop, with the callbacks every
    browsing action passes: [prompt_filter] on the listing's specs with
    [VALID_STATUSES], and [format_filters] on the same specs. *)
Definition listing_step (fuel : nat) (title : string)
    (build_query : filters -> res (string * list fvalue)) (specs : list FilterSpec)
    : bstate -> io D bstate :=
  browse_step title build_query
    (Some (fun f => prompt_filter (choose_from_list fuel) prompt_optional fuel f specs VALID_STATUSES))
    (Some (fun f => format_filters f specs)).

(** [filters = init_filters(SPECS); browse(title, builder, filters, ...)] *)
Definition browse_listing (fuel : nat) (title : string)
    (build_query : filters -> res (string * list fvalue)) (specs : list FilterSpec) : io D unit :=
  let filters := init_filters specs in
  browse title build_query
    (Some (fun f => prompt_filter (choose_from_list fuel) prompt_optional fuel f specs VALID_STATUSES))
    (Some (fun f => format_filters f specs)) fuel filters.

Definition view_flights_by_criteria (fuel : nat) : io D unit :=
  browse_listing fuel "View Flights by Criteria" build_flights_by_criteria FLIGHT_FILTER_SPECS.

Definition view_pilot_schedule (fuel : nat) : io D unit :=
  browse_listing fuel "View Pilot Schedule" build_pilot_schedule PILOT_SCHEDULE_FILTER_SPECS.

(** The "View Airports" branch of [destination_management]. *)
Definition view_airports (fuel : nat) : io D unit :=
  browse_listing fuel "Airports" build_airports AIRPORT_FILTER_SPECS.

Definition view_audit_log (fuel : nat) : io D unit :=
  browse_listing fuel "Audit Log" build_audit_log AUDIT_LOG_FILTER_SPECS.
End Views.

Section ViewProps.
Context {D : Type} `{!SqlBackend D}.

Lemma listing_prompt_ok fuel specs :
  forall pf, Some (fun f => prompt_filter (D:=D) (choose_from_list fuel) prompt_optional fuel f specs VALID_STATUSES) = Some pf ->
  forall f, rets (pf f) (prompt_rel specs VALID_STATUSES f) (fun _ => True).
Proof.
  intros pf [= <-] f. eapply rets_conseq; [apply prompt_filter_post; apply _|done|done].
Qed.

Lemma listing_step_keys fuel title build_query specs s :
  keys_inv (spec_keys specs) s -> browse_final s = None ->
  rets (listing_step (D:=D) fuel title build_query specs s) (keys_inv (spec_keys specs)) (fun _ => True).
Proof.
  intros Hs Hf. eapply rets_conseq; [eapply browse_step_rel, Hf; apply listing_prompt_ok| |done].
  intros s' Hr. eapply browse_rel_keys; [apply prompt_rel_keys|exact Hs|exact Hr].
Qed.

(** C35. Browsing any listing with [assert set(filters) == set(spec keys)]
    inserted at the top of every loop iteration behaves exactly as
    browsing without it, on every input: the key invariant of the filter
    state holds at every iteration of the executable loop. *)
Theorem browse_listing_assert fuel title build_query specs (w : world D) :
  run_machine fuel browse_final
    (guard_step (keys_inv (spec_keys specs)) (listing_step fuel title build_query specs))
    (BRender (init_filters specs)) w
  = browse_listing fuel title build_query specs w.
Proof.
  apply run_machine_guard; [apply listing_step_keys|]. apply init_filters_dom.
Qed.

Lemma listing_step_typed fuel title build_query specs s :
  specs ∈ ALL_TABLES -> finv (filters_typed VALID_STATUSES specs) s -> browse_final s = None ->
  rets (listing_step (D:=D) fuel title build_query specs s) (finv (filters_typed VALID_STATUSES specs))
    (fun _ => True).
Proof.
  intros Hspecs Hs Hf. eapply rets_conseq; [eapply browse_step_rel, Hf; apply listing_prompt_ok| |done].
  intros s' Hr. eapply browse_rel_finv; [|intros f _; apply clear_filters_typed|exact Hs|exact Hr].
  intros f f'. apply prompt_rel_typed, all_tables_keys_nodup, Hspecs.
Qed.

(** C24. The type of the filter state, on the executable loop: browsing
    one of the program's four listings with an assertion at the top of
    every iteration that every value set for a spec fits the spec's UI
    kind (a status of the listing for a status spec, an integer for an
    int spec, yes or no for a yes/no spec, a non-empty text otherwise)
    behaves exactly as browsing without it, on every input: what
    [prompt_filter] stores always has the kind its spec declares. *)
Theorem browse_listing_typed fuel title build_query specs (w : world D) :
  specs ∈ ALL_TABLES ->
  run_machine fuel browse_final
    (guard_step (finv (filters_typed VALID_STATUSES specs)) (listing_step fuel title build_query specs))
    (BRender (init_filters specs)) w
  = browse_listing fuel title build_query specs w.
Proof.
  intros Hspecs. apply run_machine_guard; [|apply init_filters_typed].
  intros s. by apply listing_step_typed.
Qed.

(** ** Termination *)

Lemma render_listing_fuel `{!SqlBackendLaws D} n title build_query fmt f :
  build_query f <> Exc OutOfFuel ->
  fuel_ok n false (render_listing (D:=D) title build_query fmt f).
Proof.
  intros Hb. unfold render_listing.
  apply fuel_ok_seq; [by apply of_res_fuel|]. intros [sql params].
  apply fuel_ok_seq; [apply query_rows_fuel|]. intros [headers rows].
  repeat (apply fuel_ok_seq; [first [apply fuel_ok_emit | apply print_rows_fuel]|intros _]).
  apply fuel_ok_emit.
Qed.

Lemma listing_step_fuel `{!SqlBackendLaws D} fuel title build_query specs s :
  (forall f, build_query f <> Exc OutOfFuel) -> browse_final s = None ->
  fuel_ok fuel true (listing_step (D:=D) fuel title build_query specs s).
Proof.
  intros Hb Hf.
  assert (Hawait : forall f, fuel_ok fuel true
    (await_command (D:=D) (Some (fun f => prompt_filter (choose_from_list fuel) prompt_optional fuel f specs VALID_STATUSES)) f)).
  { intros f. unfold await_command.
    apply fuel_ok_seq_strict; [apply read_input_fuel|]. intros cmd. cbv beta zeta.
    repeat case_match;
      first [ apply fuel_ok_ret
            | apply fuel_ok_seq; [apply fuel_ok_emit|intros _; apply fuel_ok_ret]
            | apply fuel_ok_seq; [|intros; apply fuel_ok_ret];
              apply fuel_ok_strict_weak, (prompt_filter_fuel _ _ fuel);
              [apply choose_from_list_fuel|apply prompt_optional_fuel|lia] ]. }
  destruct s as [f|f|]; simpl in *; [|apply Hawait|done].
  apply fuel_ok_seq; [by apply render_listing_fuel|]. intros _. apply Hawait.
Qed.

Lemma browse_listing_fuel `{!SqlBackendLaws D} fuel title build_query specs :
  (forall f, build_query f <> Exc OutOfFuel) ->
  fuel_ok fuel false (browse_listing (D:=D) fuel title build_query specs).
Proof.
  intros Hb. apply (run_machine_fuel_ok _ _ fuel); [|lia].
  intros s Hf. by apply listing_step_fuel.
Qed.

Lemma build_not_out_of_fuel (build : filters -> res (string * list fvalue)) :
  (forall f, exists r, build f = Ok r) -> forall f, build f <> Exc OutOfFuel.
Proof. intros H f. destruct (H f) as [r ->]. done. Qed.

(** The four browsing actions stop. *)
Lemma view_actions_fuel `{!SqlBackendLaws D} fuel :
  fuel_ok fuel false (view_flights_by_criteria (D:=D) fuel) /\
  fuel_ok fuel false (view_pilot_schedule (D:=D) fuel) /\
  fuel_ok fuel false (view_airports (D:=D) fuel) /\ fuel_ok fuel false (view_audit_log (D:=D) fuel).
Proof.
  split_and!; apply browse_listing_fuel, build_not_out_of_fuel; intros f;
    apply finish_query_total; vm_compute; reflexivity.
Qed.

(** C25. Each browsing menu action stops: with more fuel than lines of
    input it never runs out of fuel (every iteration reads a line, and
    end of input raises [AbortAction]). *)
Theorem view_actions_terminate `{!SqlBackendLaws D} fuel (w : world D) :
  in_len w < fuel ->
  fst (view_flights_by_criteria fuel w) <> Exc OutOfFuel /\
  fst (view_pilot_schedule fuel w) <> Exc OutOfFuel /\
  fst (view_airports fuel w) <> Exc OutOfFuel /\
  fst (view_audit_log fuel w) <> Exc OutOfFuel.
Proof.
  intros Hw. destruct (view_actions_fuel fuel) as (H1 & H2 & H3 & H4).
  split_and!; by eapply fuel_ok_no_out_of_fuel.
Qed.
End ViewProps.

(** ** The browsing actions only read the database *)

Section BrowseRo.
Context {D : Type} `{!SqlBackend D}.

Lemma browse_listing_ro fuel title build_query specs :
  db_ro (browse_listing (D:=D) fuel title build_query specs).
Proof.
  unfold browse_listing, browse. apply run_machine_db_ro.
  intros [f|f|]; simpl; unfold render_listing, await_command; solve_ro;
    first [apply prompt_filter_ro | apply prompt_value_loop_ro]; auto with fdb.
Qed.

Lemma view_actions_ro fuel :
  db_ro (view_flights_by_criteria (D:=D) fuel) /\ db_ro (view_pilot_schedule (D:=D) fuel) /\
  db_ro (view_airports (D:=D) fuel) /\ db_ro (view_audit_log (D:=D) fuel).
Proof. split_and!; apply browse_listing_ro. Qed.
End BrowseRo.

(** ** No empty table is shown *)

#[export] Hint Unfold render_listing await_command browse_step : shows.

Lemma browse_listing_shows {D} `{!SqlBackend D} n title build_query specs :
  shows_ok (D:=D) (browse_listing n title build_query specs).
Proof.
  unfold browse_listing, browse. apply shows_ok_run_machine. intros s. solve_shows.
Qed.

#[export] Hint Resolve browse_listing_shows : shows.
#[export] Hint Unfold view_flights_by_criteria view_pilot_schedule view_airports view_audit_log : shows.

(** ** Witnesses *)

Lemma view_actions_terminate_witness :
  in_len (mkWorld ["f"; "1"; "JFK"; "r"; "q"] [] NoDB) < 6 /\
  fst (view_flights_by_criteria 6 (mkWorld ["f"; "1"; "JFK"; "r"; "q"] [] NoDB)) <> Exc OutOfFuel.
Proof.
  split; [unfold in_len; simpl; lia|].
  exact (proj1 (view_actions_terminate 6 (mkWorld ["f"; "1"; "JFK"; "r"; "q"] [] NoDB) ltac:(unfold in_len; simpl; lia))).
Defined.

Lemma browse_reachable_keys_witness :
  star (browse_rel (prompt_rel AIRPORT_FILTER_SPECS VALID_STATUSES))
    (BRender (init_filters AIRPORT_FILTER_SPECS))
    (BAwait (clear_filters (init_filters AIRPORT_FILTER_SPECS))) /\
  keys_inv (spec_keys AIRPORT_FILTER_SPECS) (BAwait (clear_filters (init_filters AIRPORT_FILTER_SPECS))).
Proof.
  assert (H : star (browse_rel (prompt_rel AIRPORT_FILTER_SPECS VALID_STATUSES))
    (BRender (init_filters AIRPORT_FILTER_SPECS))
    (BAwait (clear_filters (init_filters AIRPORT_FILTER_SPECS)))).
  { eapply star_step; [by eapply br_reset|].
    eapply star_step; [by eapply br_invalid|]. apply star_refl. }
  split; [exact H|]. exact (browse_reachable_keys _ _ _ H).
Defined.

Lemma browse_listing_typed_witness :
  AIRPORT_FILTER_SPECS ∈ ALL_TABLES /\
  run_machine 6 browse_final
    (guard_step (finv (filters_typed VALID_STATUSES AIRPORT_FILTER_SPECS))
       (listing_step 6 "Airports" build_airports AIRPORT_FILTER_SPECS))
    (BRender (init_filters AIRPORT_FILTER_SPECS)) (mkWorld ["f"; "1"; "JFK"; "q"] [] NoDB)
  = browse_listing 6 "Airports" build_airports AIRPORT_FILTER_SPECS (mkWorld ["f"; "1"; "JFK"; "q"] [] NoDB).
Proof.
  assert (H1 : AIRPORT_FILTER_SPECS ∈ ALL_TABLES) by (unfold ALL_TABLES; set_solver).
  split; [exact H1|]. exact (browse_listing_typed 6 _ _ _ _ H1).
Defined.
