(* ===== verification/Picker.v ===== *)
(** * The record pickers (src/src/ActionsWorkflows.py)

    [pick_id_from_filtered_listing] is the browse loop with one more
    command: a typed integer is looked up with the caller's existence query
    and returned when a row exists.  As in Browse.v it is a machine with
    states [PRender f] (outer loop: redraw, then read), [PAwait f] (inner
    loop: read again) and [PDone id].  [pick_instance_for_update],
    [prompt_valid_pilot_staff_id] and [pick_existing_flight_or_new] are the
    three hand-written pickers of the workflows.

    The theorems: every picker only reads the database, and the identifier
    it returns is one its existence query finds in that database (each
    run of the generic picker is a sequence of steps of the abstract
    machine [pick_rel] of the spec's section 4.4, which selects only
    identifiers that exist); a typed identifier beyond 64 bits raises
    [OverflowError]; and the pickers stop within one iteration per input
    line. *)

From Stdlib Require Import Ascii ZArith Lia.
From stdpp Require Import base list gmap strings.
From S2P Require Import Prelude Trace FilterSpecs FilterSQL Queries Console Browse.

Inductive pstate :=
  | PRender (f : filters)
  | PAwait (f : filters)
  | PDone (id : Z).

Definition pfilters (s : pstate) : option filters :=
  match s with
  | PRender f | PAwait f => Some f
  | PDone _ => None
  end.

Definition pick_final (s : pstate) : option Z :=
  match s with
  | PDone id => Some id
  | _ => None
  end.

Section Picker.
Context {D : Type} `{!SqlBackend D}.
Variable title : string.
Variable build_query : filters -> res (string * list fvalue).
Variable format_filters_fn : option (filters -> string).
Variable prompt_filters : option (filters -> io D filters).
Variables id_name exists_sql prompt_text invalid_input_text not_found_text : string.
Variable allow_filtering : bool.

(** The outer loop's body up to the command prompt. *)
Definition render_pick (f : filters) : io D unit :=
  '(sql, params) ← of_res (build_query f);
  '(headers, rows) ← query_rows sql (fvalue_to_sql <$> params);
  print ("
" +:+ title) ;;
  print (py_repeat "-" (String.length title)) ;;
  print_rows headers rows ;;
  print ("Rows: " +:+ py_str_int (Z.of_nat (length rows))) ;;
  print ("Filters: " +:+ match format_filters_fn with Some g => g f | None => "(none)" end) ;;
  print ("Commands: " +:+ (if allow_filtering then "f=filter, r=reset, " else "") +:+
         "<" +:+ id_name +:+ ">=select, -q=back").

(** One iteration of the inner loop.  The [None] callback cannot be
    reached: the entry guard rejects it when filtering is on. *)
Definition await_pick (f : filters) : io D pstate :=
  cmd ← read_input prompt_text;
  let cmd := py_strip cmd in
  if is_quit cmd then throw AbortAction else
  let lowered := py_lower cmd in
  if allow_filtering && (lowered ==? "f") then
    match prompt_filters with
    | Some pf => f' ← pf f; mret (PRender f')
    | None => throw (TypeError "'NoneType' object is not callable")
    end
  else if allow_filtering && (lowered ==? "r") then mret (PRender (clear_filters f))
  else
    match py_int cmd with
    | None => print invalid_input_text ;; mret (PAwait f)
    | Some selected_id =>
        found ← record_exists (D:=D) exists_sql [SInt selected_id];
        if (found : bool) then mret (PDone selected_id)
        else (print not_found_text ;; mret (PAwait f))
    end.

Definition pick_step (s : pstate) : io D pstate :=
  match s with
  | PRender f => render_pick f ;; await_pick f
  | PAwait f => await_pick f
  | PDone id => mret (PDone id)
  end.

(** [pick_id_from_filtered_listing(...)] *)
Definition pick_id_from_filtered_listing (fuel : nat) (f : filters) : io D Z :=
  if allow_filtering && match prompt_filters with None => true | Some _ => false end then
    throw (ValueError "prompt_filters is required when allow_filtering=True")
  else run_machine fuel pick_final pick_step (PRender f).
End Picker.

Section Pickers.
Context {D : Type} `{!SqlBackend D}.

(** [pick_instance_for_update()]: one loop, the listing is redrawn before
    every command. *)
Fixpoint pick_instance_for_update (fuel : nat) : io D Z :=
  match fuel with
  | O => throw OutOfFuel
  | S fuel' =>
      '(headers, rows) ← query_rows SQL_PREVIEW_FLIGHT_INSTANCES [];
      print "
Update Flight Information" ;;
      print (py_repeat "-" (String.length "Update Flight Information")) ;;
      print_rows headers rows ;;
      print ("Rows: " +:+ py_str_int (Z.of_nat (length rows))) ;;
      print "Filters: (none)" ;;
      print "Commands: <InstanceID>=edit, -q=back" ;;
      cmd ← read_input "Enter InstanceID to edit (or command): ";
      let cmd := py_strip cmd in
      if is_quit cmd then throw AbortAction
      else if cmd ==? "" then pick_instance_for_update fuel'
      else
        match py_int cmd with
        | None => print "Enter an InstanceID to Edit, or -q." ;; pick_instance_for_update fuel'
        | Some instance_id =>
            found ← record_exists (D:=D) SQL_INSTANCE_EXISTS [SInt instance_id];
            if (found : bool) then mret instance_id
            else (print "
Instance not found. Choose one from the list above (or -q).
" ;;
                  pick_instance_for_update fuel')
        end
  end.

(** The loop of [prompt_valid_pilot_staff_id]. *)
Fixpoint pilot_id_loop (fuel : nat) : io D Z :=
  match fuel with
  | O => throw OutOfFuel
  | S fuel' =>
      staff_id ← prompt_int fuel "Enter Pilot StaffID (or -q): ";
      found ← record_exists (D:=D) SQL_PILOT_BY_ID [SInt staff_id];
      if (found : bool) then mret staff_id
      else (print "
Pilot not found. Choose a StaffID from the list above (or -q).
" ;;
            pilot_id_loop fuel')
  end.

Definition prompt_valid_pilot_staff_id (fuel : nat) : io D Z :=
  preview_query SQL_PILOTS [] ;; pilot_id_loop fuel.

(** The inner loop of [pick_existing_flight_or_new]: [None] is [NEW],
    [Some v] the first column of the row found.  No row and an empty row
    are both false for [if existing:], and both reprompt. *)
Fixpoint existing_flight_loop (fuel : nat) : io D (option sqlval) :=
  match fuel with
  | O => throw OutOfFuel
  | S fuel' =>
      cmd ← read_input "Enter command, NEW, or FlightID: ";
      let cmd := py_strip cmd in
      if is_quit cmd then throw AbortAction
      else if py_lower cmd ==? "new" then mret None
      else
        match py_int cmd with
        | None => print "Enter NEW, a FlightID, or -q." ;; existing_flight_loop fuel'
        | Some flight_id =>
            existing ← fetch_one (D:=D) SQL_FLIGHT_BY_FLIGHTID [SInt flight_id];
            match existing with
            | Some (v :: vs) =>
                print "
Flight Already Exists. Reusing Existing Flight:
" ;;
                print_single_row ["FlightID"; "FlightNo"; "AirlineID"; "Airline"; "RouteID";
                                  "Origin"; "Dest"] existing ;;
                mret (Some v)
            | _ =>
                print "
Flight not found. Try another FlightID or enter NEW (or -q).
" ;;
                existing_flight_loop fuel'
            end
        end
  end.

(** [pick_existing_flight_or_new()]: the inner loop never breaks, so the
    outer [while True] runs its body once. *)
Definition pick_existing_flight_or_new (fuel : nat) : io D (option sqlval) :=
  '(sql, params) ← of_res (build_flights_for_new_instance ∅);
  '(headers, rows) ← query_rows sql (fvalue_to_sql <$> params);
  print "
Existing Flights" ;;
  print (py_repeat "-" (String.length "Existing Flights")) ;;
  print_rows headers rows ;;
  print ("Rows: " +:+ py_str_int (Z.of_nat (length rows))) ;;
  print "Filters: (none)" ;;
  print "Commands: NEW=Create Flight, <FlightID>=select, -q=back" ;;
  existing_flight_loop fuel.
End Pickers.

(** ** The pickers of the workflows *)

Section ProgramPickers.
Context {D : Type} `{!SqlBackend D}.

Definition airport_prompt_filters (fuel : nat) (f : filters) : io D filters :=
  prompt_filter (choose_from_list fuel) prompt_optional fuel f AIRPORT_FILTER_SPECS VALID_STATUSES.

(** The airport picker of [destination_management]. *)
Definition pick_airport (fuel : nat) : io D Z :=
  pick_id_from_filtered_listing "Airports" build_airports
    (Some (fun f => format_filters f AIRPORT_FILTER_SPECS)) (Some (airport_prompt_filters fuel))
    "AirportID" SQL_AIRPORT_BY_ID "Enter AirportID (or Command): "
    "Enter f, r, an AirportID, or -q." "Airport not found. Choose from the list above (or -q)."
    true fuel (init_filters AIRPORT_FILTER_SPECS).

(** The airline picker of [add_new_flight]. *)
Definition pick_airline (fuel : nat) : io D Z :=
  pick_id_from_filtered_listing "Active Airlines" build_airlines_for_new_flight None None
    "AirlineID" SQL_AIRLINE_BY_ID "Enter AirlineID (or -q): " "Enter an AirlineID or -q."
    "Airline not found. Choose from the list above (or -q)." false fuel ∅.

(** The route picker of [add_new_flight]. *)
Definition pick_route (fuel : nat) : io D Z :=
  pick_id_from_filtered_listing "Routes" build_routes_for_new_flight None None
    "RouteID" SQL_ROUTE_BY_ID "Enter RouteID (or -q): " "Enter a RouteID or -q."
    "Route not found. Choose from the list above (or -q)." false fuel ∅.
End ProgramPickers.

(** ** The abstract picker (spec, section 4.4)

    [exists_in_db d sql id]: on database [d] the existence query [sql]
    finds a row for [id]. *)

Definition exists_in_db {D} `{!SqlBackend D} (d : D) (sql : string) (id : Z) : Prop :=
  exists h r rs, sql_query d sql [SInt id] = Ok (h, r :: rs).

Section PickRelDef.
Variable pf_rel : filters -> filters -> Prop.
Variable allow_filtering : bool.
Variable exists_id : Z -> Prop.

Inductive pick_rel : pstate -> pstate -> Prop :=
  | pk_filter s f f' : pfilters s = Some f -> allow_filtering = true -> pf_rel f f' ->
      pick_rel s (PRender f')
  | pk_reset s f : pfilters s = Some f -> allow_filtering = true ->
      pick_rel s (PRender (clear_filters f))
  | pk_stay s f : pfilters s = Some f -> pick_rel s (PAwait f)
  | pk_select s f id : pfilters s = Some f -> exists_id id -> pick_rel s (PDone id).

End PickRelDef.

#[export] Hint Constructors pick_rel : fdb.

Section PickRel.
Variable pf_rel : filters -> filters -> Prop.
Variable allow_filtering : bool.
Variable exists_id : Z -> Prop.
Abbreviation prel := (pick_rel pf_rel allow_filtering exists_id).

(** A run that ends in [PDone id] selected an identifier that exists. *)
Lemma pick_rel_done s id :
  star prel s (PDone id) -> s = PDone id \/ exists_id id.
Proof.
  intros H. remember (PDone id) as t eqn:Et in H.
  induction H as [s|s1 s2 s3 Hr Hs IH]; [by left|]. subst s3.
  right. destruct IH as [->|H]; [done| |done]. by inversion Hr.
Qed.

End PickRel.

Lemma pick_rel_from pf_rel allow exists_id s1 s2 s' :
  pfilters s1 = pfilters s2 -> pick_rel pf_rel allow exists_id s1 s' ->
  pick_rel pf_rel allow exists_id s2 s'.
Proof. intros Heq Hr. inversion Hr; subst; rewrite Heq in *; eauto with fdb. Qed.

(** ** The executable picker refines the abstract one *)

Section PickRefines.
Context {D : Type} `{!SqlBackend D}.
Variables (title : string) (build_query : filters -> res (string * list fvalue))
  (format_filters_fn : option (filters -> string)) (prompt_filters : option (filters -> io D filters))
  (id_name exists_sql prompt_text invalid_input_text not_found_text : string)
  (allow_filtering : bool).
Variable d : D.
Variable pf_rel : filters -> filters -> Prop.
Hypothesis pf_ok : forall pf, prompt_filters = Some pf ->
  forall f, rets_at d (pf f) (pf_rel f) (fun _ => True).

Abbreviation prel_db := (pick_rel pf_rel allow_filtering (exists_in_db d exists_sql)).

Lemma render_pick_ro f :
  db_ro (render_pick title build_query format_filters_fn id_name allow_filtering f).
Proof. unfold render_pick. solve_ro. Qed.

Lemma await_pick_rel f :
  rets_at d (await_pick prompt_filters exists_sql prompt_text invalid_input_text
               not_found_text allow_filtering f) (prel_db (PAwait f)) (fun _ => True).
Proof.
  unfold await_pick. apply rets_at_ro_bind; [auto with fdb|done|]. intros cmd. cbv beta zeta.
  destruct (is_quit _); [by apply rets_at_throw|].
  assert (Hid : rets_at d
    (match py_int (py_strip cmd) with
     | None => print invalid_input_text ;; mret (PAwait f)
     | Some selected_id =>
         found ← record_exists (D:=D) exists_sql [SInt selected_id];
         if (found : bool) then mret (PDone selected_id)
         else (print not_found_text ;; mret (PAwait f))
     end) (prel_db (PAwait f)) (fun _ => True)).
  { destruct (py_int _) as [id|]; [|apply rets_at_emit_seq, rets_at_ret; by eapply pk_stay].
    eapply rets_at_bind; [apply record_exists_found|]. intros [|] Hb.
    - apply rets_at_ret. eapply pk_select; [done|]. by apply Hb.
    - apply rets_at_emit_seq, rets_at_ret. by eapply pk_stay. }
  destruct allow_filtering eqn:Ea; simpl; [|exact Hid].
  destruct (_ ==? "f").
  - destruct prompt_filters as [pf|] eqn:Epf; [|by apply rets_at_throw].
    eapply rets_at_bind; [by apply pf_ok|]. intros f' Hf'. apply rets_at_ret. by eapply pk_filter.
  - destruct (_ ==? "r"); [|exact Hid]. apply rets_at_ret. by eapply pk_reset.
Qed.

Lemma pick_step_rel s :
  pick_final s = None ->
  rets_at d (pick_step title build_query format_filters_fn prompt_filters id_name exists_sql
               prompt_text invalid_input_text not_found_text allow_filtering s)
    (prel_db s) (fun _ => True).
Proof.
  destruct s as [f|f|id]; simpl; intros Hf; [|apply await_pick_rel|done].
  apply rets_at_ro_bind; [apply render_pick_ro|done|]. intros _.
  eapply rets_at_conseq; [apply await_pick_rel|intros s'; by apply pick_rel_from|done].
Qed.

(** Every run of the picker from [f0] that returns [id] went through a
    sequence of abstract steps ending in [PDone id]; the database is not
    changed. *)
Lemma pick_reach fuel f0 :
  rets_at d (pick_id_from_filtered_listing title build_query format_filters_fn prompt_filters
               id_name exists_sql prompt_text invalid_input_text not_found_text allow_filtering fuel f0)
    (fun id => exists s', star prel_db (PRender f0) s' /\ pick_final s' = Some id) (fun _ => True).
Proof.
  unfold pick_id_from_filtered_listing. destruct (_ && _); [by apply rets_at_throw|].
  eapply rets_at_conseq; [apply run_machine_reach_at; [apply pick_step_rel|constructor]|done|done].
Qed.
End PickRefines.

(** The picker returns only an identifier the existence query finds. *)
Lemma pick_returns_existing `{!SqlBackend D} title build_query format_filters_fn
    (prompt_filters : option (filters -> io D filters)) id_name exists_sql prompt_text
    invalid_input_text not_found_text allow_filtering d pf_rel fuel f0 :
  (forall pf, prompt_filters = Some pf -> forall f, rets_at d (pf f) (pf_rel f) (fun _ => True)) ->
  rets_at d (pick_id_from_filtered_listing title build_query format_filters_fn prompt_filters
               id_name exists_sql prompt_text invalid_input_text not_found_text allow_filtering fuel f0)
    (exists_in_db d exists_sql) (fun _ => True).
Proof.
  intros Hpf. eapply rets_at_conseq; [by eapply pick_reach|intros id (s' & Hs & Hf)|done].
  destruct s' as [| |id']; try done. injection Hf as ->.
  by destruct (pick_rel_done _ _ _ _ _ Hs).
Qed.

Section PickersAt.
Context {D : Type} `{!SqlBackend D}.
Variable d : D.

Lemma airport_prompt_filters_at fuel f :
  rets_at d (airport_prompt_filters fuel f) (prompt_rel AIRPORT_FILTER_SPECS VALID_STATUSES f)
    (fun _ => True).
Proof.
  apply rets_at_intro.
  - eapply rets_conseq; [apply prompt_filter_post; apply _|done|done].
  - apply prompt_filter_ro; auto with fdb.
Qed.

Lemma pick_instance_for_update_at fuel :
  rets_at d (pick_instance_for_update fuel) (exists_in_db d SQL_INSTANCE_EXISTS) (fun _ => True).
Proof.
  induction fuel as [|fuel IH]; cbn [pick_instance_for_update]; [by apply rets_at_throw|].
  rets_at_walk.
  destruct (is_quit _); [by apply rets_at_throw|]. destruct (_ ==? ""); [done|].
  destruct (py_int _) as [id|]; rets_at_walk; [|done].
  eapply rets_at_bind; [apply record_exists_found|]. intros [|] Hb; rets_at_walk; [|done].
  apply rets_at_ret. by apply Hb.
Qed.

Lemma pilot_id_loop_at fuel :
  rets_at d (pilot_id_loop fuel) (exists_in_db d SQL_PILOT_BY_ID) (fun _ => True).
Proof.
  induction fuel as [|fuel IH]; cbn [pilot_id_loop]; [by apply rets_at_throw|]. rets_at_walk.
  eapply rets_at_bind; [apply record_exists_found|]. intros [|] Hb; rets_at_walk; [|done].
  apply rets_at_ret. by apply Hb.
Qed.

(** [NEW], or the first column of a row the flight query finds. *)
Definition flight_choice_ok (r : option sqlval) : Prop :=
  match r with
  | None => True
  | Some v => exists id h vs rs, sql_query d SQL_FLIGHT_BY_FLIGHTID [SInt id] = Ok (h, (v :: vs) :: rs)
  end.

Lemma existing_flight_loop_at fuel :
  rets_at d (existing_flight_loop fuel) flight_choice_ok (fun _ => True).
Proof.
  induction fuel as [|fuel IH]; cbn [existing_flight_loop]; [by apply rets_at_throw|]. rets_at_walk.
  destruct (is_quit _); [by apply rets_at_throw|]. destruct (_ ==? "new"); [by apply rets_at_ret|].
  destruct (py_int _) as [id|]; rets_at_walk; [|done].
  eapply rets_at_bind; [apply fetch_one_at|]. intros r Hr.
  destruct r as [[|v vs]|]; rets_at_walk; try done.
  apply rets_at_ret. destruct (Hr _ eq_refl) as (h & rs & Hq). simpl. eauto.
Qed.
End PickersAt.

(** ** Fuel *)

Section PickFuel.
Context {D : Type} `{!SqlBackend D} `{!SqlBackendLaws D}.

Lemma render_pick_fuel n title build_query fmt id_name allow f :
  build_query f <> Exc OutOfFuel ->
  fuel_ok n false (render_pick (D:=D) title build_query fmt id_name allow f).
Proof.
  intros Hb. unfold render_pick. apply fuel_ok_seq; [by apply of_res_fuel|]. intros [sql params].
  fuel_walk.
Qed.

Lemma await_pick_fuel N (prompt_filters : option (filters -> io D filters))
    exists_sql prompt_text invalid_input_text not_found_text allow f :
  (forall pf, prompt_filters = Some pf -> forall f, fuel_ok N false (pf f)) ->
  fuel_ok N true (await_pick prompt_filters exists_sql prompt_text invalid_input_text
                    not_found_text allow f).
Proof.
  intros Hpf. unfold await_pick. apply fuel_ok_seq_strict; [apply read_input_fuel|]. intros cmd.
  cbv beta zeta. destruct (is_quit _); [by apply fuel_ok_throw|].
  repeat case_match; fuel_walk; try by apply fuel_ok_throw.
Qed.

Lemma pick_id_fuel fuel title build_query fmt (prompt_filters : option (filters -> io D filters))
    id_name exists_sql prompt_text invalid_input_text not_found_text allow f0 :
  (forall f, build_query f <> Exc OutOfFuel) ->
  (forall pf, prompt_filters = Some pf -> forall f, fuel_ok fuel false (pf f)) ->
  fuel_ok fuel false (pick_id_from_filtered_listing title build_query fmt prompt_filters id_name
                        exists_sql prompt_text invalid_input_text not_found_text allow fuel f0).
Proof.
  intros Hb Hpf. unfold pick_id_from_filtered_listing. destruct (_ && _); [by apply fuel_ok_throw|].
  apply (run_machine_fuel_ok _ _ fuel); [|lia]. intros [f|f|id] Hf; simpl; [|by apply await_pick_fuel|done].
  apply fuel_ok_seq; [by apply render_pick_fuel|]. intros _. by apply await_pick_fuel.
Qed.

Lemma pick_instance_for_update_fuel fuel : fuel_ok fuel true (pick_instance_for_update (D:=D) fuel).
Proof.
  induction fuel as [|n IH]; cbn [pick_instance_for_update]; [intros k Hk; lia|].
  fuel_walk.
  apply (fuel_ok_bind_strict n false); [apply read_input_fuel|]. intros cmd. cbv beta zeta.
  destruct (is_quit _); [by apply fuel_ok_throw|].
  repeat case_match; fuel_walk; eauto with fdb.
Qed.

Lemma pilot_id_loop_fuel fuel : fuel_ok fuel true (pilot_id_loop (D:=D) fuel).
Proof.
  induction fuel as [|n IH]; cbn [pilot_id_loop]; [intros k Hk; lia|].
  apply (fuel_ok_bind_strict n false); [apply prompt_int_fuel|]. intros id.
  fuel_walk. all: eauto with fdb.
Qed.

Lemma existing_flight_loop_fuel fuel : fuel_ok fuel true (existing_flight_loop (D:=D) fuel).
Proof.
  induction fuel as [|n IH]; cbn [existing_flight_loop]; [intros k Hk; lia|].
  apply (fuel_ok_bind_strict n false); [apply read_input_fuel|]. intros cmd. cbv beta zeta.
  destruct (is_quit _); [by apply fuel_ok_throw|].
  repeat case_match; fuel_walk; try by apply fuel_ok_throw.
  all: try (destruct a as [[|v vs]|]); fuel_walk; try by apply fuel_ok_throw.
  all: eauto with fdb.
Qed.
End PickFuel.

(** ** The pickers of the program *)

Section ProgramPickerProps.
Context {D : Type} `{!SqlBackend D}.

Lemma prompt_valid_pilot_staff_id_at d fuel :
  rets_at d (prompt_valid_pilot_staff_id (D:=D) fuel) (exists_in_db d SQL_PILOT_BY_ID) (fun _ => True).
Proof. unfold prompt_valid_pilot_staff_id. rets_at_walk. apply pilot_id_loop_at. Qed.

Lemma pick_existing_flight_or_new_at d fuel :
  rets_at d (pick_existing_flight_or_new (D:=D) fuel) (flight_choice_ok d) (fun _ => True).
Proof.
  unfold pick_existing_flight_or_new. rets_at_walk.
  apply existing_flight_loop_at.
Qed.

Lemma airport_prompt_filters_fuel fuel f : fuel_ok fuel false (airport_prompt_filters (D:=D) fuel f).
Proof.
  apply fuel_ok_strict_weak, (prompt_filter_fuel _ _ fuel);
    [apply choose_from_list_fuel|apply prompt_optional_fuel|lia].
Qed.

(** C10. Every picker of the workflows (the airport, airline and route
    listings, the flight-instance and pilot prompts, and the flight
    picker of [add_new_flight]) leaves the database as it found it, and
    what it returns was found in that database by its own existence query
    for the identifier the user typed ([NEW] apart). *)
Theorem program_pickers_return_existing (d : D) fuel :
  rets_at d (pick_airport fuel) (exists_in_db d SQL_AIRPORT_BY_ID) (fun _ => True) /\
  rets_at d (pick_airline fuel) (exists_in_db d SQL_AIRLINE_BY_ID) (fun _ => True) /\
  rets_at d (pick_route fuel) (exists_in_db d SQL_ROUTE_BY_ID) (fun _ => True) /\
  rets_at d (pick_instance_for_update fuel) (exists_in_db d SQL_INSTANCE_EXISTS) (fun _ => True) /\
  rets_at d (prompt_valid_pilot_staff_id fuel) (exists_in_db d SQL_PILOT_BY_ID) (fun _ => True) /\
  rets_at d (pick_existing_flight_or_new fuel) (flight_choice_ok d) (fun _ => True).
Proof.
  split_and!; try apply pick_returns_existing with (pf_rel := fun _ _ => True);
    try (intros pf [= <-] f; eapply rets_at_conseq; [apply airport_prompt_filters_at|done|done]);
    try done.
  - apply pick_instance_for_update_at.
  - apply prompt_valid_pilot_staff_id_at.
  - apply pick_existing_flight_or_new_at.
Qed.

(** The six pickers of the program stop. *)
Lemma program_pickers_fuel `{!SqlBackendLaws D} fuel :
  fuel_ok fuel false (pick_airport (D:=D) fuel) /\ fuel_ok fuel false (pick_airline (D:=D) fuel) /\
  fuel_ok fuel false (pick_route (D:=D) fuel) /\ fuel_ok fuel true (pick_instance_for_update (D:=D) fuel) /\
  fuel_ok fuel false (prompt_valid_pilot_staff_id (D:=D) fuel) /\
  fuel_ok fuel false (pick_existing_flight_or_new (D:=D) fuel).
Proof.
  split_and!.
  - apply pick_id_fuel; [|intros pf [= <-]; apply airport_prompt_filters_fuel].
    apply build_not_out_of_fuel. intros f. apply finish_query_total. vm_compute. reflexivity.
  - apply pick_id_fuel; [done|done].
  - apply pick_id_fuel; [done|done].
  - apply pick_instance_for_update_fuel.
  - unfold prompt_valid_pilot_staff_id. fuel_walk. apply fuel_ok_strict_weak, pilot_id_loop_fuel.
  - unfold pick_existing_flight_or_new. apply fuel_ok_seq; [by apply of_res_fuel|]. intros [sql params].
    fuel_walk. apply fuel_ok_strict_weak, existing_flight_loop_fuel.
Qed.

(** C26. The pickers stop: started with fewer lines of input than the
    fuel, none of them runs out of fuel (each iteration reads a line and
    end of input raises [AbortAction]). *)
Theorem pickers_terminate `{!SqlBackendLaws D} fuel (w : world D) :
  in_len w < fuel ->
  fst (pick_airport fuel w) <> Exc OutOfFuel /\ fst (pick_airline fuel w) <> Exc OutOfFuel /\
  fst (pick_route fuel w) <> Exc OutOfFuel /\ fst (pick_instance_for_update fuel w) <> Exc OutOfFuel /\
  fst (prompt_valid_pilot_staff_id fuel w) <> Exc OutOfFuel /\
  fst (pick_existing_flight_or_new fuel w) <> Exc OutOfFuel.
Proof.
  intros Hw. destruct (program_pickers_fuel fuel) as (H1 & H2 & H3 & H4 & H5 & H6).
  split_and!; by eapply fuel_ok_no_out_of_fuel.
Qed.
End ProgramPickerProps.

(** ** The pickers only read the database *)

Section PickersRo.
Context {D : Type} `{!SqlBackend D}.

Lemma pick_instance_for_update_ro fuel : db_ro (pick_instance_for_update (D:=D) fuel).
Proof. induction fuel; cbn [pick_instance_for_update]; solve_ro. Qed.

Lemma pilot_id_loop_ro fuel : db_ro (pilot_id_loop (D:=D) fuel).
Proof. induction fuel; cbn [pilot_id_loop]; solve_ro. Qed.

Lemma prompt_valid_pilot_staff_id_ro fuel : db_ro (prompt_valid_pilot_staff_id (D:=D) fuel).
Proof. unfold prompt_valid_pilot_staff_id, preview_query. solve_ro. apply pilot_id_loop_ro. Qed.

Lemma existing_flight_loop_ro fuel : db_ro (existing_flight_loop (D:=D) fuel).
Proof. induction fuel; cbn [existing_flight_loop]; solve_ro. Qed.

Lemma pick_existing_flight_or_new_ro fuel : db_ro (pick_existing_flight_or_new (D:=D) fuel).
Proof. unfold pick_existing_flight_or_new. solve_ro. apply existing_flight_loop_ro. Qed.

Lemma pick_id_ro title build_query fmt (prompt_filters : option (filters -> io D filters))
    id_name exists_sql prompt_text invalid_input_text not_found_text allow fuel f0 :
  (forall pf, prompt_filters = Some pf -> forall f, db_ro (pf f)) ->
  db_ro (pick_id_from_filtered_listing title build_query fmt prompt_filters id_name exists_sql
           prompt_text invalid_input_text not_found_text allow fuel f0).
Proof.
  intros Hpf. unfold pick_id_from_filtered_listing. destruct (_ && _); [solve_ro|].
  apply run_machine_db_ro. intros [f|f|id]; simpl; [|unfold await_pick|solve_ro].
  - apply db_ro_bind; [apply render_pick_ro|intros _]. unfold await_pick. solve_ro.
    all: by eapply Hpf.
  - solve_ro. all: by eapply Hpf.
Qed.

Lemma program_pickers_ro fuel :
  db_ro (pick_airport (D:=D) fuel) /\ db_ro (pick_airline (D:=D) fuel) /\ db_ro (pick_route (D:=D) fuel).
Proof.
  split_and!; apply pick_id_ro; try done.
  intros pf [= <-] f. apply prompt_filter_ro; auto with fdb.
Qed.
End PickersRo.

#[export] Hint Resolve pick_instance_for_update_ro prompt_valid_pilot_staff_id_ro pilot_id_loop_ro existing_flight_loop_ro
  pick_existing_flight_or_new_ro : fdb.

(** ** No empty table is shown *)

#[export] Hint Unfold render_pick await_pick pick_step prompt_valid_pilot_staff_id pick_existing_flight_or_new
  airport_prompt_filters pick_airport pick_airline pick_route : shows.

Section PickersShows.
Context {D : Type} `{!SqlBackend D}.

Lemma pick_id_shows_none title build_query fmt id_name exists_sql prompt_text invalid_input_text
    not_found_text allow n f0 :
  shows_ok (D:=D) (pick_id_from_filtered_listing title build_query fmt None id_name exists_sql prompt_text
                     invalid_input_text not_found_text allow n f0).
Proof. unfold pick_id_from_filtered_listing. destruct allow; simpl; solve_shows. Qed.

Lemma pick_id_shows_some title build_query fmt p id_name exists_sql prompt_text invalid_input_text
    not_found_text allow n f0 :
  (forall f, shows_ok (p f)) ->
  shows_ok (D:=D) (pick_id_from_filtered_listing title build_query fmt (Some p) id_name exists_sql
                     prompt_text invalid_input_text not_found_text allow n f0).
Proof. intros Hp. unfold pick_id_from_filtered_listing. destruct allow; simpl; solve_shows. Qed.

Lemma airport_prompt_filters_shows n f : shows_ok (D:=D) (airport_prompt_filters n f).
Proof. solve_shows. Qed.

#[local] Hint Resolve pick_id_shows_none pick_id_shows_some airport_prompt_filters_shows : shows.

Lemma pick_instance_for_update_shows n : shows_ok (D:=D) (pick_instance_for_update n).
Proof. induction n; simpl; solve_shows. Qed.

Lemma pilot_id_loop_shows n : shows_ok (D:=D) (pilot_id_loop n).
Proof. induction n; simpl; solve_shows. Qed.

Lemma existing_flight_loop_shows n : shows_ok (D:=D) (existing_flight_loop n).
Proof. induction n; simpl; solve_shows. Qed.
End PickersShows.

#[export] Hint Resolve pick_id_shows_none pick_id_shows_some airport_prompt_filters_shows pick_instance_for_update_shows pilot_id_loop_shows existing_flight_loop_shows
  : shows.

(** ** Identifiers beyond SQLite's INTEGER *)

(** C11. Bounds of a typed identifier (spec, section 4.4): a line that
    parses as an integer outside SQLite's signed 64-bit range is not
    answered by the existence query and a reprompt; binding it raises
    [OverflowError], which ends the picker, and with it the menu action,
    before anything is read again ([safe_run] reports it as an
    unexpected error).  It holds for every backend that binds its
    parameters as Python's sqlite3 does. *)
Theorem await_pick_overflow {D} `{!SqlBackend D} `{!SqlBackendLaws D} prompt_filters exists_sql prompt_text
    invalid_input_text not_found_text allow_filtering f l rest out (d : D) z :
  is_quit (py_strip l) = false -> py_lower (py_strip l) <> "f" -> py_lower (py_strip l) <> "r" ->
  py_int (py_strip l) = Some z -> ~ (SQLITE_INT_MIN <= z <= SQLITE_INT_MAX)%Z ->
  exists out', await_pick prompt_filters exists_sql prompt_text invalid_input_text not_found_text
                 allow_filtering f (mkWorld (l :: rest) out d) =
               (Exc (OverflowError OVERFLOW_MSG), mkWorld rest out' d).
Proof.
  intros Hq Hf Hr Hz Hrange. unfold await_pick, read_input. rewrite !io_bind_run. simpl.
  rewrite Hq, (proj2 (String.eqb_neq _ _) Hf), (proj2 (String.eqb_neq _ _) Hr), !andb_false_r, Hz.
  unfold record_exists, query_rows. rewrite !io_bind_run. simpl.
  rewrite (sql_query_binds _ _ _ _ (bind_params_overflow z Hrange)). eauto.
Qed.

(** ** Witnesses *)

Lemma pickers_terminate_witness :
  in_len (mkWorld ["f"; "1"; "2"; "3"] [] NoDB) < 5 /\
  fst (pick_airport 5 (mkWorld ["f"; "1"; "2"; "3"] [] NoDB)) <> Exc OutOfFuel.
Proof.
  assert (H : in_len (mkWorld ["f"; "1"; "2"; "3"] [] NoDB) < 5) by (unfold in_len; simpl; lia).
  split; [exact H|]. exact (proj1 (pickers_terminate 5 _ H)).
Defined.

Lemma await_pick_overflow_witness :
  is_quit (py_strip "9223372036854775808") = false /\ py_lower (py_strip "9223372036854775808") <> "f" /\
  py_lower (py_strip "9223372036854775808") <> "r" /\
  py_int (py_strip "9223372036854775808") = Some (2 ^ 63)%Z /\ ~ (SQLITE_INT_MIN <= 2 ^ 63 <= SQLITE_INT_MAX)%Z /\
  exists out', await_pick (D:=nodb) None SQL_AIRLINE_BY_ID "Enter AirlineID (or -q): " "Enter an AirlineID or -q."
                 "Airline not found. Choose from the list above (or -q)." false ∅
                 (mkWorld ["9223372036854775808"] [] NoDB) =
               (Exc (OverflowError OVERFLOW_MSG), mkWorld [] out' NoDB).
Proof.
  assert (Hq : is_quit (py_strip "9223372036854775808") = false) by reflexivity.
  assert (Hf : py_lower (py_strip "9223372036854775808") <> "f") by (vm_compute; congruence).
  assert (Hr : py_lower (py_strip "9223372036854775808") <> "r") by (vm_compute; congruence).
  assert (Hz : py_int (py_strip "9223372036854775808") = Some (2 ^ 63)%Z) by (vm_compute; reflexivity).
  assert (Hrange : ~ (SQLITE_INT_MIN <= 2 ^ 63 <= SQLITE_INT_MAX)%Z) by (unfold SQLITE_INT_MAX; lia).
  split_and!; [exact Hq|exact Hf|exact Hr|exact Hz|exact Hrange|].
  exact (await_pick_overflow None SQL_AIRLINE_BY_ID _ _ _ false ∅ _ [] [] NoDB _ Hq Hf Hr Hz Hrange).
Defined.
