(* ===== verification/Workflows.v ===== *)
(** * The workflows that write (src/src/ActionsWorkflows.py)

    Menu option 2 ([update_flight_information]: update a field of a flight
    instance, assign a pilot, delete the instance with its booking items),
    option 4's airport update ([destination_management]), option 5
    ([add_new_flight], [add_flight_instance_for_flight]) and option 6
    ([summary_reports]).  Each [with get_conn() as conn:] block is a
    [with_conn] of Update.v, each [try/except sqlite3.IntegrityError] a
    [catch] that rolls the connection back.  The nested [while True]
    loops of [update_flight_information] are the machine [uflight_step]
    on [ustate]: picking an instance, choosing an action for it, and the
    retry loop of a pilot assignment; the function only ever leaves by an
    exception (the [AbortAction] of [-q] or of the end of input). *)

From Stdlib Require Import Ascii ZArith Lia.
From stdpp Require Import base list sets strings.
From S2P Require Import Prelude Trace FilterSpecs FilterSQL Queries Console Update Browse Picker.

Definition PILOT_DUTY_ROLES : list string := ["Captain"; "First Officer"].

Definition INSTANCE_UPDATE_FIELDS : list string :=
  ["FlightDate"; "SchedDepUtc"; "SchedArrUtc"; "ActualDepUtc"; "ActualArrUtc"; "Status"; "Gate";
   "Terminal"].

Definition INSTANCE_NON_CLEARABLE : list string := ["FlightDate"; "SchedDepUtc"; "SchedArrUtc"].

Definition AIRPORT_UPDATE_FIELDS : list string := ["Name"; "City"; "Country"; "Timezone"; "Dst"].

(** A fetched row in a boolean context: [None] and [()] are false. *)
Definition row_truthy (r : option row) : bool :=
  match r with
  | Some (_ :: _) => true
  | _ => false
  end.

(** [str(v)] of a value read from SQLite. *)
Definition py_str_sql (v : sqlval) : string :=
  match v with
  | SNull => "None"
  | SInt z => py_str_int z
  | SText s => s
  end.

(** [int(v)] of a value read from SQLite. *)
Definition py_int_of_sql (v : sqlval) : res Z :=
  match v with
  | SInt z => Ok z
  | SText s =>
      match py_int s with
      | Some z => Ok z
      | None => Exc (ValueError ("invalid literal for int() with base 10: '" +:+ s +:+ "'"))
      end
  | SNull => Exc (TypeError "int() argument must be a string, a bytes-like object or a real number, not 'NoneType'")
  end.

(** [row[i]] of a fetched row ([None] is not subscriptable). *)
Definition row_index (r : option row) (i : nat) : res sqlval :=
  match r with
  | None => Exc (TypeError "'NoneType' object is not subscriptable")
  | Some vs =>
      match vs !! i with
      | Some v => Ok v
      | None => Exc (IndexError "tuple index out of range")
      end
  end.

(** Run a computation on a concrete world: unfold the binds, and rewrite
    with the answers of the database the hypotheses give. *)
Ltac io_run :=
  repeat (rewrite ?io_bind_run, ?io_ret_run;
          cbn [put_db get_db w_db w_in w_out of_res fst snd row_truthy head];
          try (match goal with H : sql_query _ _ _ = Ok _ |- _ => rewrite H end);
          try (match goal with H : sql_exec _ _ _ = Ok _ |- _ => rewrite H end); cbv beta iota).

Section Workflows.
Context {D : Type} `{!SqlBackend D} `{!SqlExec D}.
Variable fuel : nat.

(** [update_instance_information_fields(instance_id)] *)
Definition update_instance_information_fields (instance_id : Z) : io D unit :=
  found ← with_conn (fun c =>
    b ← conn_record_exists c SQL_INSTANCE_EXISTS [SInt instance_id];
    if (b : bool) then
      c' ← update_whitelisted_field "FlightInstance" "InstanceID" (SInt instance_id)
             INSTANCE_UPDATE_FIELDS (Some "Status") VALID_STATUSES INSTANCE_NON_CLEARABLE fuel c;
      conn_commit c' ;;
      mret (true, c')
    else
      print "
Instance Not Found.
" ;; mret (false, c));
  if (found : bool) then
    print "
Updated:
" ;; preview_query SQL_INSTANCE_OVERVIEW_BY_ID [SInt instance_id]
  else mret tt.

(** The INSERT of [assign_pilot_to_instance] and its [except]:
    [inl c'] committed, [inr c0] rolled back. *)
Definition insert_crew (c : D) (instance_id staff_id : Z) (duty_role : string) : io D (D + D) :=
  catch
    ('(c', _) ← conn_execute c SQL_INSERT_CREW_ASSIGNMENT
                  [SInt instance_id; SInt staff_id; SText duty_role];
     conn_commit c' ;; mret (inl c'))
    (fun e =>
       match e with
       | IntegrityError msg => Some (c0 ← conn_rollback; handle_integrity_error msg ;; mret (inr c0))
       | _ => None
       end).

(** [assign_pilot_to_instance(instance_id, staff_id)] *)
Definition assign_pilot_to_instance (instance_id staff_id : Z) : io D bool :=
  preview_query SQL_CREW_FOR_INSTANCE [SInt instance_id] ;;
  duty_role ← choose_from_list fuel "Duty Role:" PILOT_DUTY_ROLES;
  r ← with_conn (fun c =>
    ex ← conn_fetch_one c SQL_CREW_ASSIGNMENT_EXISTS [SInt instance_id; SInt staff_id];
    if row_truthy ex then
      print "
That Staff Member is Already Assigned to this Flight Instance." ;; mret (None, c)
    else
      role_taken ← conn_fetch_one c SQL_ROLE_TAKEN_FOR_INSTANCE [SInt instance_id; SText duty_role];
      if row_truthy role_taken then
        first_name ← of_res (row_index role_taken 0);
        last_name ← of_res (row_index role_taken 1);
        print ("
" +:+ duty_role +:+ " Is Already Assigned On This Flight Instance (" +:+
               py_str_sql first_name +:+ " " +:+ py_str_sql last_name +:+ ").") ;;
        mret (None, c)
      else
        ins ← insert_crew c instance_id staff_id duty_role;
        match ins with
        | inr c0 => mret (None, c0)
        | inl c' =>
            hr ← conn_fetch_row_with_headers c' SQL_LAST_CREW_ASSIGNMENT
                   [SInt instance_id; SInt staff_id];
            mret (Some hr, c')
        end);
  match r with
  | None => mret false
  | Some (headers, row) =>
      print "
 Successfully Assigned Pilot:
" ;; print_single_row headers row ;; mret true
  end.

(** The two DELETEs and the commit: the body of the [try] once the
    operator has agreed (or there was nothing to cascade). *)
Definition delete_rows (c : D) (instance_id : Z) (cascade : bool) : io D (bool * D) :=
  '(c1, deleted) ← (if cascade then
                      conn_execute c SQL_DELETE_BOOKING_ITEMS_BY_INSTANCE [SInt instance_id]
                    else mret (c, O));
  '(c2, _) ← conn_execute c1 SQL_DELETE_FLIGHT_INSTANCE_BY_ID [SInt instance_id];
  conn_commit c2 ;;
  print (if bool_decide (0 < deleted) then
           "
Deleted FlightInstance and " +:+ py_str_int (Z.of_nat deleted) +:+ " linked booking item(s).
"
         else "
Deleted.
") ;;
  mret (true, c2).

(** The [try] of the delete branch: [true] is the [break] back to the
    instance picker, [false] the [continue] to the action menu. *)
Definition delete_body (c : D) (instance_id : Z) : io D (bool * D) :=
  row ← conn_fetch_one c SQL_BOOKING_ITEM_COUNT_BY_INSTANCE [SInt instance_id];
  v ← of_res (row_index row 0);
  booking_count ← of_res (py_int_of_sql v);
  if (0 <? booking_count)%Z then
    print ("
This Flight Instance has " +:+ py_str_int booking_count +:+ " Linked Booking item(s).") ;;
    mode ← catch (m ← choose_from_list fuel "Delete Behaviour:"
                         ["Cancel Delete"; "Delete Linked Booking Items and Continue"];
                  mret (Some m))
                 (fun e => match e with
                           | AbortAction => Some (print "Delete Cancelled." ;; mret None)
                           | _ => None
                           end);
    match mode with
    | None => mret (false, c)
    | Some m =>
        if m ==? "Cancel Delete" then print "Delete Cancelled." ;; mret (false, c)
        else delete_rows c instance_id true
    end
  else delete_rows c instance_id false.

(** The third branch of the action loop. *)
Definition delete_instance (instance_id : Z) : io D bool :=
  confirm ← read_input "Type DELETE to Confirm (or -q): ";
  let confirm := py_strip confirm in
  if is_quit confirm || negb (py_lower confirm ==? "delete") then
    print "Delete Cancelled." ;; mret false
  else
    with_conn (fun c =>
      catch (delete_body c instance_id)
        (fun e => match e with
                  | IntegrityError msg =>
                      Some (c0 ← conn_rollback; handle_integrity_error msg ;; print "" ;; mret (false, c0))
                  | _ => None
                  end)).
End Workflows.

(** ** [update_flight_information] as a machine *)

Inductive ustate :=
  | UPick
  | UAction (instance_id : Z)
  | UAssign (instance_id staff_id : Z).

Section UpdateFlight.
Context {D : Type} `{!SqlBackend D} `{!SqlExec D}.
Variable fuel : nat.

Definition uflight_step (s : ustate) : io D ustate :=
  match s with
  | UPick => instance_id ← pick_instance_for_update fuel; mret (UAction instance_id)
  | UAction instance_id =>
      action ← choose_from_list fuel "Choose Action:"
                 ["Update a Field"; "Assign Pilot to This Instance"; "Delete this FlightInstance"];
      if action ==? "Update a Field" then
        update_instance_information_fields fuel instance_id ;; mret (UAction instance_id)
      else if action ==? "Assign Pilot to This Instance" then
        staff_id ← prompt_valid_pilot_staff_id fuel; mret (UAssign instance_id staff_id)
      else
        brk ← delete_instance fuel instance_id;
        mret (if (brk : bool) then UPick else UAction instance_id)
  | UAssign instance_id staff_id =>
      ok ← assign_pilot_to_instance fuel instance_id staff_id;
      if (ok : bool) then mret (UAction instance_id)
      else
        next_step ← choose_from_list fuel "Assignment not completed. Next step:"
                      ["Try Again"; "Choose Another Pilot"; "Cancel"];
        if next_step ==? "Try Again" then mret (UAssign instance_id staff_id)
        else if next_step ==? "Choose Another Pilot" then
          staff_id' ← prompt_valid_pilot_staff_id fuel; mret (UAssign instance_id staff_id')
        else print "Assignment Cancelled." ;; mret (UAction instance_id)
  end.

(** [update_flight_information()]: no state is final. *)
Definition update_flight_information : io D unit :=
  run_machine fuel (fun _ => None) uflight_step UPick.
End UpdateFlight.

(** ** Destination management, new flights, reports *)

Section MoreWorkflows.
Context {D : Type} `{!SqlBackend D} `{!SqlExec D}.
Variable fuel : nat.

(** [destination_management()] *)
Definition destination_management : io D unit :=
  print "
Destination Management" ;;
  print "----------------------" ;;
  choice ← choose_from_list fuel "Choose:" ["View Airports"; "Update an Airport"];
  if choice ==? "View Airports" then view_airports fuel
  else
    airport_id ← pick_airport fuel;
    r ← with_conn (fun c =>
      '(headers, current) ← conn_fetch_row_with_headers c SQL_AIRPORT_BY_ID [SInt airport_id];
      match current with
      | None => print "
Airport not found.
" ;; mret (None, c)
      | Some cur =>
          print_single_row headers current ;;
          c' ← update_whitelisted_field "Airport" "AirportID" (SInt airport_id)
                 AIRPORT_UPDATE_FIELDS None [] ["Name"] fuel c;
          conn_commit c' ;;
          hr ← conn_fetch_row_with_headers c' SQL_AIRPORT_BY_ID [SInt airport_id];
          mret (Some hr, c')
      end);
    match r with
    | None => mret tt
    | Some (headers2, updated) => print "
Updated:
" ;; print_single_row headers2 updated
    end.

(** [prompt_required_field_value(prompt, field_name)], the local helper
    of [add_flight_instance_for_flight]. *)
Fixpoint prompt_required_field_value (n : nat) (p field_name : string) : io D string :=
  match n with
  | O => throw OutOfFuel
  | S n' =>
      raw ← prompt_optional p;
      match raw with
      | None => print (field_name +:+ " is required. Use -q to cancel.") ;;
                prompt_required_field_value n' p field_name
      | Some r =>
          if is_valid_update_value field_name r then mret r
          else print ("Invalid " +:+ field_name +:+ ". Use the format shown in the prompt (or -q to cancel).") ;;
               prompt_required_field_value n' p field_name
      end
  end.

(** The INSERT of a flight instance: [inl (new_id, c')] committed,
    [inr c0] rolled back. *)
Definition insert_instance (c : D) (params : list sqlval) : io D ((option row * D) + D) :=
  catch
    ('(c', _) ← conn_execute c SQL_INSERT_FLIGHT_INSTANCE params;
     new_id ← conn_fetch_one c' SQL_LAST_INSERT_ROWID [];
     conn_commit c' ;; mret (inl (new_id, c')))
    (fun e => match e with
              | IntegrityError msg =>
                  Some (c0 ← conn_rollback; handle_integrity_error msg ;;
                        print "Try Again (or -q to cancel).
" ;; mret (inr c0))
              | _ => None
              end).

(** The [while True] loop of [add_flight_instance_for_flight]. *)
Fixpoint instance_insert_loop (n : nat) (flight_id : sqlval) (aircraft_id : Z) : io D unit :=
  match n with
  | O => throw OutOfFuel
  | S n' =>
      flight_date ← prompt_required_field_value fuel "FlightDate (YYYY-MM-DD): " "FlightDate";
      sched_dep ← prompt_required_field_value fuel "SchedDepUtc (YYYY-MM-DD HH:MM:SS): " "SchedDepUtc";
      sched_arr ← prompt_required_field_value fuel "SchedArrUtc (YYYY-MM-DD HH:MM:SS): " "SchedArrUtc";
      status ← prompt_optional "Status (blank = Scheduled): ";
      let status := default "Scheduled" status in
      terminal ← prompt_optional "Terminal (blank allowed): ";
      gate ← prompt_optional "Gate (blank allowed): ";
      r ← with_conn (fun c =>
        ins ← insert_instance c [flight_id; SText flight_date; SText sched_dep; SText sched_arr;
                                 SText status; opt_to_sql terminal; opt_to_sql gate; SInt aircraft_id];
        match ins with
        | inl (new_id, c') => mret (inl new_id, c')
        | inr c0 => mret (inr tt, c0)
        end);
      match r with
      | inr _ => instance_insert_loop n' flight_id aircraft_id
      | inl new_id =>
          instance_id ← of_res (row_index new_id 0);
          print ("
Inserted FlightInstance. New InstanceID = " +:+ py_str_sql instance_id +:+ "
") ;;
          preview_query SQL_INSTANCE_OVERVIEW_BY_ID [instance_id]
      end
  end.

(** [add_flight_instance_for_flight(flight_id)] *)
Definition add_flight_instance_for_flight (flight_id : sqlval) : io D unit :=
  preview_query SQL_AIRCRAFT_IN_SERVICE [] ;;
  aircraft_id ← prompt_int fuel "Enter AircraftID (or -q): ";
  instance_insert_loop fuel flight_id aircraft_id.

(** The INSERT of a flight: [Some new_id] committed, [None] rolled back
    (the function then returns). *)
Definition insert_flight (c : D) (airline_id : Z) (flight_number : string) (route_id : Z) :
    io D (option (option row) * D) :=
  catch
    ('(c', _) ← conn_execute c SQL_INSERT_FLIGHT [SInt airline_id; SText flight_number; SInt route_id];
     new_id ← conn_fetch_one c' SQL_LAST_INSERT_ROWID [];
     conn_commit c' ;; mret (Some new_id, c'))
    (fun e => match e with
              | IntegrityError msg =>
                  Some (c0 ← conn_rollback; handle_integrity_error msg ;; print "" ;; mret (None, c0))
              | _ => None
              end).

(** The [else] branch of [add_new_flight]: [None] is the early return. *)
Definition create_or_reuse_flight : io D (option sqlval) :=
  print "
Create a New Flight" ;;
  print "-------------------" ;;
  airline_id ← pick_airline fuel;
  fn ← prompt_required "FlightNumber (e.g. AA123): " "FlightNumber";
  let flight_number := py_upper fn in
  '(headers, duplicate) ← with_conn (fun c =>
      hr ← conn_fetch_row_with_headers c SQL_FLIGHT_BY_AIRLINE_AND_NUMBER
             [SInt airline_id; SText flight_number];
      mret (hr, c));
  if row_truthy duplicate then
    print "
That Airline + Flight Number Already Exists. Reusing Existing Flight:
" ;;
    print_single_row headers duplicate ;;
    v ← of_res (row_index duplicate 0); mret (Some v)
  else
    route_id ← pick_route fuel;
    r ← with_conn (fun c => insert_flight c airline_id flight_number route_id);
    match r with
    | None => mret None
    | Some new_id =>
        flight_id ← of_res (row_index new_id 0);
        '(headers, row) ← with_conn (fun c =>
            hr ← conn_fetch_row_with_headers c SQL_FLIGHT_BY_ID [flight_id]; mret (hr, c));
        print "
Inserted Flight:
" ;;
        print_single_row headers row ;;
        mret (Some flight_id)
    end.

(** [add_new_flight()] *)
Definition add_new_flight : io D unit :=
  print "
Add a New Flight" ;;
  print "----------------" ;;
  (* [if existing_flight_id is not None] *)
  existing ← pick_existing_flight_or_new fuel;
  fid ← match existing with
        | Some SNull | None => create_or_reuse_flight
        | Some v => mret (Some v)
        end;
  match fid with
  | None => mret tt
  | Some flight_id =>
      next_step ← choose_from_list fuel "Create A Scheduled Flight Instance Now?" ["Yes"; "No"];
      if next_step ==? "Yes" then
        print "
Add a New Flight Instance" ;;
        print "-------------------------" ;;
        print ("Using FlightID = " +:+ py_str_sql flight_id +:+ "
") ;;
        add_flight_instance_for_flight flight_id
      else mret tt
  end.

Definition REPORTS : list (string * string) :=
  [("Flights Per Destination", SQL_REPORT_DESTINATION); ("Flights Per Pilot", SQL_REPORT_PILOT)].

(** [summary_reports()] *)
Definition summary_reports : io D unit :=
  report ← choose_from_list fuel "Choose Report:" (fst <$> REPORTS);
  match snd <$> find (fun p => p.1 ==? report) REPORTS with
  | Some sql => preview_query sql []
  | None => throw (KeyError report)
  end.
End MoreWorkflows.

(** ** No empty table is shown *)

#[export] Hint Unfold update_instance_information_fields insert_crew assign_pilot_to_instance delete_rows
  delete_body delete_instance uflight_step insert_instance add_flight_instance_for_flight insert_flight
  create_or_reuse_flight : shows.

Section WorkflowsShows.
Context {D : Type} `{!SqlBackend D} `{!SqlExec D}.
Variable fuel : nat.

Lemma prompt_required_field_value_shows n p field :
  shows_ok (D:=D) (prompt_required_field_value n p field).
Proof. induction n; simpl; solve_shows. Qed.

#[local] Hint Resolve prompt_required_field_value_shows : shows.

Lemma instance_insert_loop_shows n fid aid : shows_ok (D:=D) (instance_insert_loop fuel n fid aid).
Proof. induction n; simpl; solve_shows. Qed.

#[local] Hint Resolve instance_insert_loop_shows : shows.

Lemma workflows_shows :
  shows_ok (D:=D) (update_flight_information fuel) /\ shows_ok (D:=D) (destination_management fuel) /\
  shows_ok (D:=D) (add_new_flight fuel) /\ shows_ok (D:=D) (summary_reports fuel).
Proof.
  split_and!; unfold update_flight_information, destination_management, add_new_flight, summary_reports;
    solve_shows.
Qed.
End WorkflowsShows.

(** ** What the workflows may commit *)

Section WriteRel.
Context {D : Type} `{!SqlBackend D} `{!SqlExec D}.

(** The value [int(row[0])] of the booking-item count on [d]. *)
Definition booking_count_is (d : D) (instance_id : Z) (z : Z) : Prop :=
  exists h r rs v, sql_query d SQL_BOOKING_ITEM_COUNT_BY_INSTANCE [SInt instance_id] = Ok (h, r :: rs) /\
    r !! 0 = Some v /\ py_int_of_sql v = Ok z.

(** A deletion of a flight instance as one unit: with a positive count,
    the booking items and then the instance; otherwise the instance
    alone.  The state between the two DELETEs is never committed. *)
Inductive instance_deleted (instance_id : Z) : D -> D -> Prop :=
  | del_cascade d d1 d' z n n' :
      booking_count_is d instance_id z -> (0 < z)%Z ->
      sql_exec d SQL_DELETE_BOOKING_ITEMS_BY_INSTANCE [SInt instance_id] = Ok (d1, n) ->
      sql_exec d1 SQL_DELETE_FLIGHT_INSTANCE_BY_ID [SInt instance_id] = Ok (d', n') ->
      instance_deleted instance_id d d'
  | del_plain d d' z n' :
      booking_count_is d instance_id z -> (z <= 0)%Z ->
      sql_exec d SQL_DELETE_FLIGHT_INSTANCE_BY_ID [SInt instance_id] = Ok (d', n') ->
      instance_deleted instance_id d d'.

(** A query whose first row is absent or empty. *)
Definition fetch_falsy (d : D) (sql : string) (params : list sqlval) : Prop :=
  exists h rows, sql_query d sql params = Ok (h, rows) /\ row_truthy (head rows) = false.

(** A crew assignment inserted after both checks found nothing. *)
Definition crew_inserted (instance_id staff_id : Z) (d d' : D) : Prop :=
  exists role n, role ∈ PILOT_DUTY_ROLES /\
    fetch_falsy d SQL_CREW_ASSIGNMENT_EXISTS [SInt instance_id; SInt staff_id] /\
    fetch_falsy d SQL_ROLE_TAKEN_FOR_INSTANCE [SInt instance_id; SText role] /\
    sql_exec d SQL_INSERT_CREW_ASSIGNMENT [SInt instance_id; SInt staff_id; SText role] = Ok (d', n).

Definition instance_field_updated (instance_id : Z) (d d' : D) : Prop :=
  one_update "FlightInstance" "InstanceID" (SInt instance_id) INSTANCE_UPDATE_FIELDS
    (Some "Status") VALID_STATUSES d d'.

(** The commits of menu option 2. *)
Inductive uflight_write (d d' : D) : Prop :=
  | uw_update instance_id : instance_field_updated instance_id d d' -> uflight_write d d'
  | uw_assign instance_id staff_id : crew_inserted instance_id staff_id d d' -> uflight_write d d'
  | uw_delete instance_id : instance_deleted instance_id d d' -> uflight_write d d'.

(** A new flight: the airline and the route were found by their pickers'
    existence queries, the duplicate check for the airline and the
    upper-cased number found nothing, and the INSERT ran. *)
Definition flight_inserted (d d' : D) : Prop :=
  exists airline_id fn route_id n, fn <> "" /\
    exists_in_db d SQL_AIRLINE_BY_ID airline_id /\ exists_in_db d SQL_ROUTE_BY_ID route_id /\
    fetch_falsy d SQL_FLIGHT_BY_AIRLINE_AND_NUMBER [SInt airline_id; SText (py_upper fn)] /\
    sql_exec d SQL_INSERT_FLIGHT [SInt airline_id; SText (py_upper fn); SInt route_id] = Ok (d', n).

(** A new flight instance: the date and the two times passed the format
    check, the status is the one typed or [Scheduled] (never empty), and
    a blank terminal or gate is stored as NULL. *)
Definition instance_inserted (d d' : D) : Prop :=
  exists flight_id date dep arr status terminal gate aircraft_id n,
    is_valid_update_value "FlightDate" date = true /\
    is_valid_update_value "SchedDepUtc" dep = true /\
    is_valid_update_value "SchedArrUtc" arr = true /\
    status <> "" /\ terminal <> Some "" /\ gate <> Some "" /\
    sql_exec d SQL_INSERT_FLIGHT_INSTANCE
      [flight_id; SText date; SText dep; SText arr; SText status;
       opt_to_sql terminal; opt_to_sql gate; SInt aircraft_id] = Ok (d', n).

(** An update of one whitelisted column of an airport the block found. *)
Definition airport_updated (d d' : D) : Prop :=
  exists airport_id, exists_in_db d SQL_AIRPORT_BY_ID airport_id /\
    one_update "Airport" "AirportID" (SInt airport_id) AIRPORT_UPDATE_FIELDS None [] d d'.

(** The commits of menu option 5. *)
Inductive add_flight_write (d d' : D) : Prop :=
  | aw_flight : flight_inserted d d' -> add_flight_write d d'
  | aw_instance : instance_inserted d d' -> add_flight_write d d'.
End WriteRel.

Section DeleteProps.
Context {D : Type} `{!SqlBackend D} `{!SqlExec D}.
Variable fuel : nat.
Variable instance_id : Z.

Lemma delete_rows_runs d z cascade :
  booking_count_is d instance_id z -> cascade = bool_decide (0 < z)%Z ->
  runs d (delete_rows d instance_id cascade)
    (fun r d' => r = (true, d') /\ instance_deleted instance_id d d') (fun _ d' => d' = d).
Proof.
  intros Hz Hc. unfold delete_rows.
  apply (runs_bind _ _ _ (fun cn d' => d' = d /\
     if cascade then sql_exec d SQL_DELETE_BOOKING_ITEMS_BY_INSTANCE [SInt instance_id] = Ok cn
     else cn = (d, O))).
  { destruct cascade; [|by apply runs_ret].
    eapply runs_conseq; [apply conn_execute_runs|done|by intros ? ? []]. }
  intros [c1 n] ? [-> Hc1]. cbv beta iota.
  eapply runs_bind; [eapply runs_conseq; [apply conn_execute_runs|done|by intros ? ? []]|].
  intros [c2 n'] ? [-> Hc2]. cbv beta iota.
  apply (runs_bind _ _ _ (fun _ d' => d' = c2)); [by apply runs_put_db|]. intros [] ? ->.
  runs_walk. apply runs_ret. split; [done|].
  destruct cascade; subst.
  - symmetry in Hc. apply bool_decide_eq_true in Hc. by eapply del_cascade.
  - injection Hc1 as -> ->. symmetry in Hc. apply bool_decide_eq_false in Hc.
    eapply del_plain; [done|lia|done].
Qed.

Lemma delete_body_runs d :
  runs d (delete_body fuel d instance_id)
    (fun r d' => (r = (false, d) /\ d' = d) \/ (r = (true, d') /\ instance_deleted instance_id d d'))
    (fun _ d' => d' = d).
Proof.
  unfold delete_body. eapply runs_at_bind; [apply conn_fetch_one_at|done|].
  intros row (h & rows & Hq & ->). apply runs_of_res_bind; [|done]. intros v Hv.
  apply runs_of_res_bind; [|done]. intros z Hz.
  assert (Hcount : booking_count_is d instance_id z).
  { unfold row_index in Hv. destruct rows as [|r rs]; [done|]. simpl in Hv.
    destruct (r !! 0) eqn:E; [injection Hv as ->|done]. exists h, r, rs, v. done. }
  destruct (0 <? z)%Z eqn:Ez.
  - runs_walk. destruct a as [m|]; [|apply runs_ret; by left].
    destruct (m ==? "Cancel Delete"); [runs_walk; apply runs_ret; by left|].
    eapply runs_conseq; [apply (delete_rows_runs d z); [done|]|intros r d' [-> ?]; by right|done].
    symmetry. apply bool_decide_eq_true. lia.
  - eapply runs_conseq; [apply (delete_rows_runs d z); [done|]|intros r d' [-> ?]; by right|done].
    symmetry. apply bool_decide_eq_false. lia.
Qed.
End DeleteProps.

Section AssignProps.
Context {D : Type} `{!SqlBackend D} `{!SqlExec D}.
Variable fuel : nat.
Variables instance_id staff_id : Z.

Lemma insert_crew_runs d role :
  runs d (insert_crew d instance_id staff_id role)
    (fun r d' => match r with
                 | inl c' => d' = c' /\ exists n, sql_exec d SQL_INSERT_CREW_ASSIGNMENT
                                        [SInt instance_id; SInt staff_id; SText role] = Ok (c', n)
                 | inr c0 => c0 = d /\ d' = d
                 end) (fun _ d' => d' = d).
Proof.
  unfold insert_crew. apply runs_catch with (E' := fun _ d' => d' = d).
  - eapply runs_bind; [eapply runs_conseq; [apply conn_execute_runs|done|by intros ? ? []]|].
    intros [c' n] ? [-> Hc]. cbv beta iota.
    apply (runs_bind _ _ _ (fun _ d' => d' = c')); [by apply runs_put_db|]. intros [] ? ->.
    apply runs_ret. eauto.
  - intros [] ? ->; try done.
Qed.

Lemma role_in_duty_roles d :
  rets_at d (choose_from_list (D:=D) fuel "Duty Role:" PILOT_DUTY_ROLES)
    (fun role => role ∈ PILOT_DUTY_ROLES) (fun _ => True).
Proof.
  apply rets_at_intro; [|apply choose_from_list_ro].
  eapply rets_conseq; [apply choose_from_list_law|done|done].
Qed.

Lemma assign_pilot_runs d :
  runs d (assign_pilot_to_instance fuel instance_id staff_id)
    (fun ok d' => if ok then crew_inserted instance_id staff_id d d' else d' = d)
    (fun _ d' => d' = d \/ crew_inserted instance_id staff_id d d').
Proof.
  unfold assign_pilot_to_instance. apply runs_ro_bind; [solve_ro|by left|intros _].
  eapply runs_at_bind; [apply role_in_duty_roles|by left|]. intros role Hrole.
  apply (runs_bind _ _ _ (fun r d' => match r with
                                      | None => d' = d
                                      | Some _ => crew_inserted instance_id staff_id d d'
                                      end)).
  - apply with_conn_runs. eapply runs_at_bind; [apply conn_fetch_one_at|by left|].
    intros ex (h & rows & Hex & ->).
    destruct (row_truthy (head rows)) eqn:Et; [runs_walk; by apply runs_ret|].
    eapply runs_at_bind; [apply conn_fetch_one_at|by left|]. intros rt (h' & rows' & Hrt & ->).
    destruct (row_truthy (head rows')) eqn:Et'.
    { apply runs_of_res_bind; [|by left]. intros ? _. apply runs_of_res_bind; [|by left].
      intros ? _. runs_walk. by apply runs_ret. }
    eapply runs_bind; [eapply runs_conseq; [apply insert_crew_runs|done|intros ? ? ->; by left]|].
    intros [c'|c0] d'; [intros [-> [n Hn]]|intros [-> ->]; by apply runs_ret].
    assert (Hins : crew_inserted instance_id staff_id d c').
    { exists role, n. split_and!; [done|by exists h, rows|by exists h', rows'|done]. }
    apply runs_ro_bind; [solve_ro|by right|]. intros hr. by apply runs_ret.
  - intros [[headers row]|] d' Hr; [|by apply runs_ret].
    runs_walk. all: try (intros; by right). all: by apply runs_ret.
Qed.
End AssignProps.

Section OptionTwo.
Context {D : Type} `{!SqlBackend D} `{!SqlExec D}.
Variable fuel : nat.

Lemma update_instance_information_fields_runs instance_id d :
  runs d (update_instance_information_fields fuel instance_id)
    (fun _ d' => d' = d \/ instance_field_updated instance_id d d')
    (fun _ d' => d' = d \/ instance_field_updated instance_id d d').
Proof.
  unfold update_instance_information_fields.
  apply (runs_bind _ _ _ (fun _ d' => d' = d \/ instance_field_updated instance_id d d')).
  - apply with_conn_runs. apply runs_ro_bind; [solve_ro|by left|intros b]. destruct b.
    + eapply runs_bind; [eapply runs_conseq; [apply runs_of_rets_at, update_whitelisted_field_at
                                             |done|intros ? ? [-> _]; by left]|].
      intros c' ? [-> Hc'].
      apply (runs_bind _ _ _ (fun _ d' => d' = c')); [by apply runs_put_db|]. intros [] ? ->.
      apply runs_ret. right. by destruct Hc'.
    + runs_walk. apply runs_ret. by left.
  - intros found d' Hd'. destruct found; runs_walk; by apply runs_ret.
Qed.

(** The delete branch commits the whole deletion or nothing. *)
Lemma delete_instance_runs instance_id d :
  runs d (delete_instance fuel instance_id)
    (fun brk d' => if brk then instance_deleted instance_id d d' else d' = d)
    (fun _ d' => d' = d).
Proof.
  unfold delete_instance. runs_walk.
  destruct (_ || _); [runs_walk; by apply runs_ret|].
  apply with_conn_runs. apply runs_catch with (E' := fun _ d' => d' = d).
  - eapply runs_conseq; [apply delete_body_runs|intros r d' [[-> ->]|[-> H]]; done|done].
  - intros [] ? ->; try done.
    unfold conn_rollback. apply runs_get_db. runs_walk. by apply runs_ret.
Qed.

Lemma uflight_step_commits s : commits_within uflight_write (uflight_step (D:=D) fuel s).
Proof.
  destruct s as [|instance_id|instance_id staff_id]; simpl.
  - apply commits_within_ro. solve_ro.
  - apply commits_within_bind; [apply commits_within_ro, choose_from_list_ro|intros action].
    destruct (action ==? "Update a Field").
    { apply commits_within_bind; [|intros ?; apply commits_within_ro; solve_ro].
      apply commits_within_step. intros d.
      eapply runs_conseq; [apply update_instance_information_fields_runs
        |intros ? ? [->|H]; [by left|right; by eapply uw_update]
        |intros ? ? [->|H]; [by left|right; by eapply uw_update]]. }
    destruct (action ==? "Assign Pilot to This Instance"); [apply commits_within_ro; solve_ro|].
    apply commits_within_bind; [|intros ?; apply commits_within_ro; solve_ro].
    apply commits_within_step. intros d.
    eapply runs_conseq; [apply delete_instance_runs|intros [] ? H; [right; by eapply uw_delete|by left]
                        |intros ? ? ->; by left].
  - apply commits_within_bind.
    { apply commits_within_step. intros d.
      eapply runs_conseq; [apply assign_pilot_runs|intros [] ? H; [right; by eapply uw_assign|by left]
                          |intros ? ? [->|H]; [by left|right; by eapply uw_assign]]. }
    intros ok. destruct ok; [by apply commits_within_ro|].
    apply commits_within_ro. solve_ro.
Qed.

(** C3. Deleting a flight instance is all or nothing (spec, section
    4.5 and the delete scenario of section 8): whatever the operator
    types and whatever the database answers, the committed database
    afterwards is either unchanged (the operator cancelled, a constraint
    failed and was rolled back, or an error was raised) or the result of
    the whole deletion - with a positive booking-item count, the items
    and then the instance, otherwise the instance alone - and the action
    reports [true] (back to the instance picker) exactly in the second
    case.  The state with the items deleted and the instance kept is
    never committed. *)
Theorem delete_instance_atomic instance_id d :
  runs d (delete_instance fuel instance_id)
    (fun brk d' => if brk then instance_deleted instance_id d d' else d' = d)
    (fun _ d' => d' = d).
Proof. apply delete_instance_runs. Qed.

(** C2. Menu option 2 commits nothing but whole, checked changes: every
    database state it leaves behind, when it returns or raises (it only
    ever leaves by an exception), is reached from the one it started on
    by a sequence of (a) an UPDATE of one whitelisted column of the
    chosen flight instance with a status from the status list, a
    format-checked value or NULL, (b) the insertion of a crew assignment
    whose duty role is Captain or First Officer after both the same-pilot
    and the same-role checks found nothing, and (c) a complete deletion
    of a flight instance. *)
Theorem update_flight_information_commits :
  commits_within uflight_write (update_flight_information (D:=D) fuel).
Proof. apply run_machine_commits. apply uflight_step_commits. Qed.
End OptionTwo.

Section OptionFive.
Context {D : Type} `{!SqlBackend D} `{!SqlExec D}.
Variable fuel : nat.

Lemma prompt_required_nonempty p field_name :
  rets (prompt_required (D:=D) p field_name) (fun x => x <> "") (fun _ => True).
Proof.
  unfold prompt_required. eapply rets_bind; [apply rets_true|]. intros [x|] _; [|by apply rets_throw].
  case_eqb; [by apply rets_throw|]. by apply rets_ret.
Qed.

Lemma prompt_required_field_value_valid n p field_name :
  rets (prompt_required_field_value (D:=D) n p field_name)
    (fun r => is_valid_update_value field_name r = true) (fun _ => True).
Proof.
  induction n as [|n IH]; cbn [prompt_required_field_value]; [by apply rets_throw|].
  eapply rets_bind; [apply rets_true|]. intros [r|] _; [|by apply rets_emit_seq].
  destruct (is_valid_update_value field_name r) eqn:Ev; [by apply rets_ret|by apply rets_emit_seq].
Qed.

Lemma prompt_required_field_value_ro n p field_name :
  db_ro (prompt_required_field_value (D:=D) n p field_name).
Proof. induction n; cbn [prompt_required_field_value]; solve_ro. Qed.

(** [prompt_optional(...) or "Scheduled"] is never empty. *)
Lemma default_scheduled_nonempty (s : option string) : s <> Some "" -> default "Scheduled" s <> "".
Proof. destruct s; simpl; [congruence|done]. Qed.

Lemma insert_flight_runs d airline_id fn route_id :
  runs d (insert_flight d airline_id fn route_id)
    (fun r d' => match r with
                 | (Some _, c') => d' = c' /\ exists n, sql_exec d SQL_INSERT_FLIGHT
                                        [SInt airline_id; SText fn; SInt route_id] = Ok (c', n)
                 | (None, c0) => c0 = d /\ d' = d
                 end) (fun _ d' => d' = d).
Proof.
  unfold insert_flight. apply runs_catch with (E' := fun _ d' => d' = d).
  - eapply runs_bind; [eapply runs_conseq; [apply conn_execute_runs|done|by intros ? ? []]|].
    intros [c' n] ? [-> Hc]. apply runs_ro_bind; [solve_ro|done|intros new_id].
    apply (runs_bind _ _ _ (fun _ d' => d' = c')); [by apply runs_put_db|]. intros [] ? ->.
    apply runs_ret. eauto.
  - intros [] ? ->; try done.
Qed.

Lemma insert_instance_runs d params :
  runs d (insert_instance d params)
    (fun r d' => match r with
                 | inl (_, c') => d' = c' /\ exists n, sql_exec d SQL_INSERT_FLIGHT_INSTANCE params = Ok (c', n)
                 | inr c0 => c0 = d /\ d' = d
                 end) (fun _ d' => d' = d).
Proof.
  unfold insert_instance. apply runs_catch with (E' := fun _ d' => d' = d).
  - eapply runs_bind; [eapply runs_conseq; [apply conn_execute_runs|done|by intros ? ? []]|].
    intros [c' n] ? [-> Hc]. apply runs_ro_bind; [solve_ro|done|intros new_id].
    apply (runs_bind _ _ _ (fun _ d' => d' = c')); [by apply runs_put_db|]. intros [] ? ->.
    apply runs_ret. eauto.
  - intros [] ? ->; try done.
Qed.

(** The pickers of a new flight return identifiers their existence
    queries found. *)
Lemma new_flight_pickers_at d :
  rets_at d (pick_airline (D:=D) fuel) (exists_in_db d SQL_AIRLINE_BY_ID) (fun _ => True) /\
  rets_at d (pick_route (D:=D) fuel) (exists_in_db d SQL_ROUTE_BY_ID) (fun _ => True).
Proof. split; apply pick_returns_existing with (pf_rel := fun _ _ => True); done. Qed.

Lemma create_or_reuse_flight_runs d :
  runs d (create_or_reuse_flight (D:=D) fuel)
    (fun _ d' => d' = d \/ flight_inserted d d') (fun _ d' => d' = d \/ flight_inserted d d').
Proof.
  destruct (new_flight_pickers_at d) as [Hair Hroute].
  unfold create_or_reuse_flight. runs_walk.
  eapply runs_at_bind; [exact Hair|by left|]. intros airline_id Ha.
  eapply runs_at_bind; [apply rets_at_intro; [apply prompt_required_nonempty|apply prompt_required_ro]
                       |by left|]. intros fn Hfn.
  apply (runs_bind _ _ _ (fun hd d' => d' = d /\ exists rows, sql_query d SQL_FLIGHT_BY_AIRLINE_AND_NUMBER
           [SInt airline_id; SText (py_upper fn)] = Ok (hd.1, rows) /\ hd.2 = head rows)).
  { apply with_conn_runs. eapply runs_at_bind; [apply conn_fetch_row_with_headers_at|by left|].
    intros hr Hr. by apply runs_ret. }
  intros [headers duplicate] ? [-> (rows & Hq & Hdup)]. cbn [fst snd] in *.
  destruct (row_truthy duplicate) eqn:Et; [runs_walk; by apply runs_ret|].
  eapply runs_at_bind; [exact Hroute|by left|]. intros route_id Hr.
  apply (runs_bind _ _ _ (fun r d' => match r with
                                      | None => d' = d
                                      | Some _ => flight_inserted d d'
                                      end)).
  - apply with_conn_runs.
    eapply runs_conseq; [apply insert_flight_runs|intros [[new_id|] c'] d'; cbn [fst snd]|intros ? ? ->; by left].
    + intros [-> [n Hn]]. exists airline_id, fn, route_id, n. split_and!; try done.
      exists headers, rows. split; [done|by subst].
    + by intros [-> ->].
  - intros [new_id|] d' Hd'; [|subst; apply runs_ret; by left].
    runs_walk; [intros; by right|].
    apply runs_ro_bind; [apply with_conn_read_ro; intros; solve_ro|intros; by right|intros [h r]].
    apply runs_ro; [solve_ro|intros; by right|intros; by right].
Qed.

Lemma instance_insert_loop_commits n flight_id aircraft_id :
  commits_within add_flight_write (instance_insert_loop (D:=D) fuel n flight_id aircraft_id).
Proof.
  induction n as [|n IH]; cbn [instance_insert_loop]; [apply commits_within_ro; solve_ro|].
  eapply commits_within_rets_bind; [apply prompt_required_field_value_valid
    |apply prompt_required_field_value_ro|intros date Hdate].
  eapply commits_within_rets_bind; [apply prompt_required_field_value_valid
    |apply prompt_required_field_value_ro|intros dep Hdep].
  eapply commits_within_rets_bind; [apply prompt_required_field_value_valid
    |apply prompt_required_field_value_ro|intros arr Harr].
  eapply commits_within_rets_bind; [eapply rets_conseq; [apply prompt_optional_rets|done|done]
    |apply prompt_optional_ro|intros status Hst].
  eapply commits_within_rets_bind; [eapply rets_conseq; [apply prompt_optional_rets|done|done]
    |apply prompt_optional_ro|intros terminal Hterm].
  eapply commits_within_rets_bind; [eapply rets_conseq; [apply prompt_optional_rets|done|done]
    |apply prompt_optional_ro|intros gate Hgate].
  cbv zeta. apply commits_within_bind.
  - apply commits_within_step. intros d. apply with_conn_runs.
    refine (runs_bind _ _ _ _ _ _
              (runs_conseq _ _ _ _ _ _ (insert_instance_runs d _) (fun _ _ H => H) _) _);
      [intros ? ? ->; by left|].
    intros [[new_id c']|c0] d'; [intros [-> [k Hk]]|intros [-> ->]]; apply runs_ret; cbn [fst snd]; [right|by left].
    apply aw_instance. exists flight_id, date, dep, arr, (default "Scheduled" status), terminal, gate, aircraft_id, k.
    split_and!; try done. by apply default_scheduled_nonempty.
  - intros [new_id|_]; [apply commits_within_ro; solve_ro|exact IH].
Qed.

Lemma add_flight_instance_for_flight_commits flight_id :
  commits_within add_flight_write (add_flight_instance_for_flight (D:=D) fuel flight_id).
Proof.
  unfold add_flight_instance_for_flight.
  do 2 (apply commits_within_bind; [apply commits_within_ro; solve_ro|intros ?]).
  apply instance_insert_loop_commits.
Qed.

Lemma add_new_flight_writes :
  commits_within add_flight_write (add_new_flight (D:=D) fuel).
Proof.
  unfold add_new_flight.
  do 2 (apply commits_within_bind; [apply commits_within_ro; solve_ro|intros _]).
  apply commits_within_bind; [apply commits_within_ro; solve_ro|intros existing].
  apply commits_within_bind.
  - destruct existing as [[|z|s]|]; try (apply commits_within_ro; solve [solve_ro]);
      apply commits_within_step; intros d;
      (eapply runs_conseq; [apply create_or_reuse_flight_runs|intros ? ? [->|H]; [by left|right; by apply aw_flight]
                           |intros ? ? [->|H]; [by left|right; by apply aw_flight]]).
  - intros [flight_id|]; [|apply commits_within_ro; solve_ro].
    apply commits_within_bind; [apply commits_within_ro; solve_ro|intros next_step].
    destruct (next_step ==? "Yes"); [|apply commits_within_ro; solve_ro].
    do 3 (apply commits_within_bind; [apply commits_within_ro; solve_ro|intros ?]).
    apply add_flight_instance_for_flight_commits.
Qed.

(** C5. Menu option 5 commits nothing but whole, checked insertions:
    every database state it leaves behind is reached from the one it
    started on by (a) the INSERT of a flight whose airline and route the
    pickers found, with a non-empty flight number stored upper-cased,
    after the check for the same airline and number found nothing, and
    (b) the INSERT of a flight instance whose date and times passed the
    format check, whose status is the one typed or [Scheduled] when left
    blank, and whose blank terminal and gate are stored as NULL.  A
    rejected INSERT is rolled back; nothing else is written. *)
Theorem add_new_flight_commits :
  commits_within add_flight_write (add_new_flight (D:=D) fuel).
Proof. apply add_new_flight_writes. Qed.
End OptionFive.

Section OptionFour.
Context {D : Type} `{!SqlBackend D} `{!SqlExec D}.
Variable fuel : nat.

(** Option 4 commits at most one airport update. *)
Lemma destination_management_commits :
  commits_within airport_updated (destination_management (D:=D) fuel).
Proof.
  destruct (view_actions_ro (D:=D) fuel) as (_ & _ & Hview & _).
  destruct (program_pickers_ro (D:=D) fuel) as (Hpick & _ & _).
  unfold destination_management.
  do 3 (apply commits_within_bind; [apply commits_within_ro; solve [solve_ro]|intros ?]).
  case_match; [by apply commits_within_ro|].
  apply commits_within_bind; [by apply commits_within_ro|intros airport_id].
  apply commits_within_bind; [|intros [[headers2 updated]|]; apply commits_within_ro; solve_ro].
  apply commits_within_step. intros d. apply with_conn_runs.
  eapply runs_at_bind; [apply conn_fetch_row_with_headers_at|by left|].
  intros [headers [cur|]] (rows & Hq & Hcur); cbn [fst snd] in *; [|runs_walk; apply runs_ret; by left].
  apply runs_ro_bind; [solve_ro|by left|intros _].
  eapply runs_bind; [eapply runs_conseq; [apply runs_of_rets_at, update_whitelisted_field_at
                                          |done|intros ? ? [-> _]; by left]|].
  intros c' ? [-> Hc'].
  apply (runs_bind _ _ _ (fun _ d' => d' = c')); [by apply runs_put_db|]. intros [] ? ->.
  assert (Hup : airport_updated d c').
  { exists airport_id. split; [|by destruct Hc'].
    destruct rows as [|r rs]; [done|]. by exists headers, r, rs. }
  apply runs_ro_bind; [solve_ro|by right|intros hr]. apply runs_ret. by right.
Qed.
End OptionFour.

(** ** Fuel: the workflows stop

    Every loop of the workflows reads a line per iteration, so with more
    fuel than lines of input none of them runs out of fuel. *)

Section WorkflowFuelBase.
Context {D : Type} `{!SqlBackend D} `{!SqlBackendLaws D}.

Lemma print_single_row_fuel n h r : fuel_ok n false (print_single_row (D:=D) h r).
Proof. apply print_rows_fuel. Qed.

Lemma handle_integrity_error_fuel n msg : fuel_ok n false (handle_integrity_error (D:=D) msg).
Proof. apply fuel_ok_emit. Qed.

Lemma row_index_fuel n r i : fuel_ok n false (of_res (D:=D) (row_index r i)).
Proof. apply of_res_fuel. unfold row_index. by repeat case_match. Qed.

Lemma py_int_of_sql_fuel n v : fuel_ok n false (of_res (D:=D) (py_int_of_sql v)).
Proof. apply of_res_fuel. unfold py_int_of_sql. by repeat case_match. Qed.

Lemma prompt_valid_pilot_staff_id_fuel fuel :
  fuel_ok fuel false (prompt_valid_pilot_staff_id (D:=D) fuel).
Proof. by destruct (program_pickers_fuel (D:=D) fuel) as (_ & _ & _ & _ & H & _). Qed.

Lemma pick_airport_fuel fuel : fuel_ok fuel false (pick_airport (D:=D) fuel).
Proof. by destruct (program_pickers_fuel (D:=D) fuel) as (H & _). Qed.

Lemma pick_airline_fuel fuel : fuel_ok fuel false (pick_airline (D:=D) fuel).
Proof. by destruct (program_pickers_fuel (D:=D) fuel) as (_ & H & _). Qed.

Lemma pick_route_fuel fuel : fuel_ok fuel false (pick_route (D:=D) fuel).
Proof. by destruct (program_pickers_fuel (D:=D) fuel) as (_ & _ & H & _). Qed.

Lemma pick_existing_flight_or_new_fuel fuel : fuel_ok fuel false (pick_existing_flight_or_new (D:=D) fuel).
Proof. by destruct (program_pickers_fuel (D:=D) fuel) as (_ & _ & _ & _ & _ & H). Qed.

Lemma view_airports_fuel fuel : fuel_ok fuel false (view_airports (D:=D) fuel).
Proof. by destruct (view_actions_fuel (D:=D) fuel) as (_ & _ & H & _). Qed.

Lemma prompt_required_fuel n p f : fuel_ok n true (prompt_required (D:=D) p f).
Proof.
  apply fuel_ok_seq_strict; [apply prompt_optional_fuel|]. intros v.
  repeat case_match; first [apply fuel_ok_ret | by apply fuel_ok_throw].
Qed.
End WorkflowFuelBase.

#[export] Hint Resolve print_single_row_fuel handle_integrity_error_fuel row_index_fuel py_int_of_sql_fuel
  prompt_required_fuel prompt_valid_pilot_staff_id_fuel pick_airport_fuel pick_airline_fuel
  pick_route_fuel pick_existing_flight_or_new_fuel view_airports_fuel : fdb.

Section WorkflowFuel.
Context {D : Type} `{!SqlBackend D} `{!SqlBackendLaws D} `{!SqlExec D} `{!SqlExecLaws D}.
Variable fuel : nat.

Lemma update_instance_information_fields_fuel instance_id :
  fuel_ok fuel false (update_instance_information_fields (D:=D) fuel instance_id).
Proof.
  unfold update_instance_information_fields. apply fuel_ok_seq; [apply with_conn_fuel; intros c|intros ?];
    fuel_walk.
Qed.

Lemma insert_crew_fuel c instance_id staff_id role :
  fuel_ok fuel false (insert_crew (D:=D) c instance_id staff_id role).
Proof.
  apply fuel_ok_catch; [fuel_walk|]. intros [] h [= <-]. apply conn_rollback_fuel. intros c0. fuel_walk.
Qed.

Lemma assign_pilot_to_instance_fuel instance_id staff_id :
  fuel_ok fuel true (assign_pilot_to_instance (D:=D) fuel instance_id staff_id).
Proof.
  unfold assign_pilot_to_instance. apply fuel_ok_seq; [eauto with fdb|intros _].
  apply fuel_ok_seq_strict; [apply choose_from_list_fuel|intros role].
  apply fuel_ok_seq; [apply with_conn_fuel; intros c|intros [[h r]|]]; fuel_walk.
  apply fuel_ok_seq; [apply insert_crew_fuel|intros [c'|c0]]; fuel_walk.
Qed.

Lemma delete_rows_fuel c instance_id cascade :
  fuel_ok fuel false (delete_rows (D:=D) c instance_id cascade).
Proof.
  unfold delete_rows. apply fuel_ok_seq; [destruct cascade; eauto with fdb|intros [c1 n]]. fuel_walk.
Qed.

Lemma delete_body_fuel c instance_id : fuel_ok fuel false (delete_body (D:=D) fuel c instance_id).
Proof.
  unfold delete_body. fuel_walk; try apply delete_rows_fuel.
  apply fuel_ok_seq; [|intros [m|]; fuel_walk; apply delete_rows_fuel].
  apply fuel_ok_catch; [fuel_walk|intros [] h [= <-]; fuel_walk].
Qed.

Lemma delete_instance_fuel instance_id : fuel_ok fuel true (delete_instance (D:=D) fuel instance_id).
Proof.
  unfold delete_instance. apply fuel_ok_seq_strict; [apply read_input_fuel|intros confirm].
  cbv beta zeta. destruct (_ || _); fuel_walk.
  apply with_conn_fuel. intros c. apply fuel_ok_catch; [apply delete_body_fuel|].
  intros [] h [= <-]. apply conn_rollback_fuel. intros c0. fuel_walk.
Qed.

Lemma uflight_step_fuel s : fuel_ok fuel true (uflight_step (D:=D) fuel s).
Proof.
  destruct s as [|instance_id|instance_id staff_id]; simpl.
  - apply fuel_ok_seq_strict; [apply pick_instance_for_update_fuel|intros ?; apply fuel_ok_ret].
  - apply fuel_ok_seq_strict; [apply choose_from_list_fuel|intros action].
    destruct (action ==? _).
    { apply fuel_ok_seq; [apply update_instance_information_fields_fuel|intros ?; apply fuel_ok_ret]. }
    destruct (action ==? _).
    + fuel_walk.
    + apply fuel_ok_seq; [apply fuel_ok_strict_weak, delete_instance_fuel|intros ?; apply fuel_ok_ret].
  - apply fuel_ok_seq_strict; [apply assign_pilot_to_instance_fuel|intros ok].
    destruct ok; fuel_walk.
Qed.

Lemma update_flight_information_fuel : fuel_ok fuel false (update_flight_information (D:=D) fuel).
Proof. apply (run_machine_fuel_ok _ _ fuel); [intros s _; apply uflight_step_fuel|lia]. Qed.
End WorkflowFuel.

Section MoreWorkflowFuel.
Context {D : Type} `{!SqlBackend D} `{!SqlBackendLaws D} `{!SqlExec D} `{!SqlExecLaws D}.
Variable fuel : nat.

Lemma destination_management_fuel : fuel_ok fuel false (destination_management (D:=D) fuel).
Proof.
  unfold destination_management. fuel_walk.
  apply fuel_ok_seq; [apply with_conn_fuel; intros c|intros [[h r]|]]; fuel_walk.
Qed.

Lemma prompt_required_field_value_fuel n p field_name :
  fuel_ok n true (prompt_required_field_value (D:=D) n p field_name).
Proof.
  induction n as [|n IH]; simpl; [intros k Hk; lia|].
  apply (fuel_ok_bind_strict n false); [apply prompt_optional_fuel|intros [raw|]]; fuel_walk.
Qed.

Lemma insert_instance_fuel n c params : fuel_ok n false (insert_instance (D:=D) c params).
Proof.
  apply fuel_ok_catch; [fuel_walk|]. intros [] h [= <-]. apply conn_rollback_fuel. intros c0. fuel_walk.
Qed.

Lemma instance_insert_loop_fuel n flight_id aircraft_id :
  n <= fuel -> fuel_ok n true (instance_insert_loop (D:=D) fuel n flight_id aircraft_id).
Proof.
  induction n as [|n IH]; intros Hn; simpl; [intros k Hk; lia|].
  apply (fuel_ok_bind_strict n false).
  { eapply fuel_ok_weaken; [apply prompt_required_field_value_fuel|lia|done]. }
  intros flight_date.
  do 2 (apply fuel_ok_seq; [eapply fuel_ok_weaken; [apply prompt_required_field_value_fuel|lia|done]|intros ?]).
  fuel_walk.
  apply fuel_ok_seq; [apply with_conn_fuel; intros c|intros [new_id|[]]].
  - apply fuel_ok_seq; [apply insert_instance_fuel|intros [[new_id c']|c0]]; fuel_walk.
  - fuel_walk.
  - apply fuel_ok_strict_weak, IH. lia.
Qed.

Lemma add_flight_instance_for_flight_fuel flight_id :
  fuel_ok fuel false (add_flight_instance_for_flight (D:=D) fuel flight_id).
Proof.
  unfold add_flight_instance_for_flight. fuel_walk.
  apply fuel_ok_strict_weak, instance_insert_loop_fuel. lia.
Qed.

Lemma insert_flight_fuel n c airline_id flight_number route_id :
  fuel_ok n false (insert_flight (D:=D) c airline_id flight_number route_id).
Proof.
  apply fuel_ok_catch; [fuel_walk|]. intros [] h [= <-]. apply conn_rollback_fuel. intros c0. fuel_walk.
Qed.

Lemma create_or_reuse_flight_fuel : fuel_ok fuel false (create_or_reuse_flight (D:=D) fuel).
Proof.
  unfold create_or_reuse_flight. fuel_walk.
  apply fuel_ok_seq; [apply with_conn_fuel; intros c; fuel_walk|intros [h duplicate]].
  fuel_walk. apply fuel_ok_seq; [apply with_conn_fuel; intros c; apply insert_flight_fuel|intros [new_id|]];
    fuel_walk.
  apply fuel_ok_seq; [apply with_conn_fuel; intros c; fuel_walk|intros [h' row]]. fuel_walk.
Qed.

Lemma add_new_flight_fuel : fuel_ok fuel false (add_new_flight (D:=D) fuel).
Proof.
  unfold add_new_flight. fuel_walk.
  apply fuel_ok_seq; [repeat case_match; auto using create_or_reuse_flight_fuel with fdb|intros [fid|]];
    fuel_walk.
  apply fuel_ok_strict_weak, instance_insert_loop_fuel. lia.
Qed.

Lemma summary_reports_fuel : fuel_ok fuel false (summary_reports (D:=D) fuel).
Proof. unfold summary_reports. fuel_walk. repeat case_match; fuel_walk. by apply fuel_ok_throw. Qed.
End MoreWorkflowFuel.

(** ** The clear sentinel on a non-clearable field *)

(** C29. A field marked non-clearable is cleared all the same: choosing
    [FlightDate] (option 1) in the update of a flight instance and typing
    [<<CLEAR>>] - the prompt says the field cannot be cleared - executes
    [UPDATE FlightInstance SET FlightDate = ? WHERE InstanceID = ?] with
    NULL, and when the database accepts the statement that is the state
    the connection ends in; the sentinel is not rejected before the
    write. *)
Theorem non_clearable_field_cleared {D} `{!SqlBackend D} `{!SqlExec D} (c c' : D) n instance_id
    out rest :
  sql_exec c (update_sql "FlightInstance" "FlightDate" "InstanceID") [SNull; SInt instance_id] = Ok (c', n) ->
  "FlightDate" ∈ INSTANCE_NON_CLEARABLE /\
  fst (update_whitelisted_field "FlightInstance" "InstanceID" (SInt instance_id) INSTANCE_UPDATE_FIELDS
         (Some "Status") VALID_STATUSES INSTANCE_NON_CLEARABLE 2 c
         (mkWorld ("1" :: "<<CLEAR>>" :: rest) out c)) = Ok c'.
Proof.
  intros H. split; [set_solver|].
  unfold update_whitelisted_field, update_attempt, INSTANCE_UPDATE_FIELDS. rewrite !io_bind_run.
  match goal with |- context [choose_from_list 2 ?t (?o :: ?l) ?w] =>
    destruct (choose_from_list_first 1 t o l ("<<CLEAR>>" :: rest) out c) as [out1 ->] end.
  unfold catch. rewrite !io_bind_run. unfold new_value, prompt_update_value.
  replace ("FlightDate" ==? "Status") with false by reflexivity. rewrite andb_false_r, io_bind_run.
  destruct (update_value_loop_clear 1 "FlightDate" (snd <$> field_rule "FlightDate")
              (bool_decide ("FlightDate" ∈ INSTANCE_NON_CLEARABLE)) true rest out1 c) as [out2 ->].
  cbn [mret io_ret opt_to_sql]. rewrite io_bind_run. unfold conn_execute, of_res. rewrite H. reflexivity.
Qed.

Lemma prompt_required_field_value_line {D} `{!SqlBackend D} n p f l rest out (d : D) :
  is_quit (py_strip l) = false -> py_strip l <> "" -> is_valid_update_value f (py_strip l) = true ->
  exists out', prompt_required_field_value (S n) p f (mkWorld (l :: rest) out d) =
    (Ok (py_strip l), mkWorld rest out' d).
Proof.
  intros Hq Hne Hv. cbn [prompt_required_field_value]. rewrite io_bind_run.
  destruct (prompt_optional_line p l rest out d Hq) as [o ->]. simpl.
  destruct (py_strip l ==? "") eqn:E; [by apply String.eqb_eq in E|]. rewrite Hv. eauto.
Qed.

(** C9. The round trip of the spec (section 8) for a new flight
    instance, on the code's side: given a date and two times that pass
    the format check and three blank lines for status, terminal and
    gate, [add_flight_instance_for_flight]'s loop executes the INSERT
    with the stripped date and times, the status [Scheduled] and NULL
    for the terminal and the gate; when the database accepts it and
    [last_insert_rowid()] answers, the committed database is the one
    that INSERT produced, whatever the overview query afterwards does. *)
Theorem instance_insert_default_status {D} `{!SqlBackend D} `{!SqlExec D} fuel n flight_id aircraft_id
    date dep arr rest out (d d' : D) k h rows :
  Forall (fun l => is_quit (py_strip l) = false /\ py_strip l <> "") [date; dep; arr] ->
  is_valid_update_value "FlightDate" (py_strip date) = true ->
  is_valid_update_value "SchedDepUtc" (py_strip dep) = true ->
  is_valid_update_value "SchedArrUtc" (py_strip arr) = true ->
  sql_exec d SQL_INSERT_FLIGHT_INSTANCE
    [flight_id; SText (py_strip date); SText (py_strip dep); SText (py_strip arr);
     SText "Scheduled"; SNull; SNull; SInt aircraft_id] = Ok (d', k) ->
  sql_query d' SQL_LAST_INSERT_ROWID [] = Ok (h, rows) ->
  w_db (snd (instance_insert_loop (S fuel) (S n) flight_id aircraft_id
               (mkWorld (date :: dep :: arr :: "" :: "" :: "" :: rest) out d))) = d'.
Proof.
  intros HF Hv1 Hv2 Hv3 Hex Hrow. rewrite !Forall_cons in HF.
  destruct HF as ([Hq1 Hn1] & [Hq2 Hn2] & [Hq3 Hn3] & _).
  cbn [instance_insert_loop]. rewrite io_bind_run.
  destruct (prompt_required_field_value_line fuel "FlightDate (YYYY-MM-DD): " "FlightDate" date
              (dep :: arr :: "" :: "" :: "" :: rest) out d Hq1 Hn1 Hv1) as [o1 ->].
  cbn [fst snd]. rewrite io_bind_run.
  destruct (prompt_required_field_value_line fuel "SchedDepUtc (YYYY-MM-DD HH:MM:SS): " "SchedDepUtc" dep
              (arr :: "" :: "" :: "" :: rest) o1 d Hq2 Hn2 Hv2) as [o2 ->].
  cbn [fst snd]. rewrite io_bind_run.
  destruct (prompt_required_field_value_line fuel "SchedArrUtc (YYYY-MM-DD HH:MM:SS): " "SchedArrUtc" arr
              ("" :: "" :: "" :: rest) o2 d Hq3 Hn3 Hv3) as [o3 ->].
  cbn [fst snd]. rewrite io_bind_run.
  destruct (prompt_optional_line "Status (blank = Scheduled): " "" ("" :: "" :: rest) o3 d eq_refl) as [o4 ->].
  cbn [fst snd]. rewrite io_bind_run.
  destruct (prompt_optional_line "Terminal (blank allowed): " "" ("" :: rest) o4 d eq_refl) as [o5 ->].
  cbn [fst snd]. rewrite io_bind_run.
  destruct (prompt_optional_line "Gate (blank allowed): " "" rest o5 d eq_refl) as [o6 ->].
  cbn [fst snd]. cbv zeta. simpl.
  unfold with_conn, insert_instance, catch, conn_execute, conn_fetch_one, conn_fetch_row_with_headers,
    conn_commit.
  io_run.
  destruct (row_index (head rows) 0) as [v|e]; cbn [of_res]; cbv beta iota; [|reflexivity].
  rewrite io_ret_run. cbv beta iota.
  match goal with |- w_db (snd (?m ?w)) = _ =>
    assert (Hro : db_ro m) by solve_ro; by rewrite Hro end.
Qed.

Lemma choose_duty_role_line {D} `{!SqlBackend D} fuel line role rest out (d : D) :
  (line, role) ∈ [("1", "Captain"); ("2", "First Officer")] ->
  exists out', choose_from_list (S fuel) "Duty Role:" PILOT_DUTY_ROLES (mkWorld (line :: rest) out d) =
    (Ok role, mkWorld rest out' d).
Proof.
  rewrite !elem_of_cons, elem_of_nil. intros [[= -> ->]|[[= -> ->]|[]]];
    unfold choose_from_list; rewrite !io_bind_run; simpl; eexists; reflexivity.
Qed.

(** C4. The crew scenario of the spec (section 8): on an instance whose
    Captain is already assigned and whose First Officer is not, for a
    staff member not yet on the instance, choosing Captain (line [1]) is
    rejected - the action does not report an assignment and the
    committed database is unchanged - while choosing First Officer (line
    [2]) inserts the crew assignment, commits it and reports success. *)
Theorem assign_pilot_role_scenario {D} `{!SqlBackend D} `{!SqlExec D} fuel instance_id staff_id rest out
    (d d' : D) n h0 rows0 h1 h2 r rs h3 h4 rows4 :
  sql_query d SQL_CREW_FOR_INSTANCE [SInt instance_id] = Ok (h0, rows0) ->
  sql_query d SQL_CREW_ASSIGNMENT_EXISTS [SInt instance_id; SInt staff_id] = Ok (h1, []) ->
  sql_query d SQL_ROLE_TAKEN_FOR_INSTANCE [SInt instance_id; SText "Captain"] = Ok (h2, r :: rs) -> r <> [] ->
  sql_query d SQL_ROLE_TAKEN_FOR_INSTANCE [SInt instance_id; SText "First Officer"] = Ok (h3, []) ->
  sql_exec d SQL_INSERT_CREW_ASSIGNMENT [SInt instance_id; SInt staff_id; SText "First Officer"] = Ok (d', n) ->
  sql_query d' SQL_LAST_CREW_ASSIGNMENT [SInt instance_id; SInt staff_id] = Ok (h4, rows4) ->
  (fst (assign_pilot_to_instance (S fuel) instance_id staff_id (mkWorld ("1" :: rest) out d)) <> Ok true /\
   w_db (snd (assign_pilot_to_instance (S fuel) instance_id staff_id (mkWorld ("1" :: rest) out d))) = d) /\
  exists out', assign_pilot_to_instance (S fuel) instance_id staff_id (mkWorld ("2" :: rest) out d) =
    (Ok true, mkWorld rest out' d').
Proof.
  intros Hc He Hcap Hr Hfo Hx Hl.
  unfold assign_pilot_to_instance, preview_query, query_rows. split.
  - io_run. destruct rows0; unfold print_rows, print, emit; io_run;
    match goal with |- context [choose_from_list (S fuel) _ _ {| w_in := _; w_out := ?o; w_db := _ |}] =>
      destruct (choose_duty_role_line fuel "1" "Captain" rest o d ltac:(set_solver)) as [o1 ->] end;
    unfold with_conn, conn_fetch_one, conn_fetch_row_with_headers; io_run.
    all: destruct r as [|x [|y zs]]; [done| |]; cbv iota; unfold row_index; cbn [lookup list_lookup];
      io_run; split; try done.
  - destruct rows0; unfold print_rows, print, emit; io_run;
    match goal with |- context [choose_from_list (S fuel) _ _ {| w_in := _; w_out := ?o; w_db := _ |}] =>
      destruct (choose_duty_role_line fuel "2" "First Officer" rest o d ltac:(set_solver)) as [o1 ->] end;
    unfold with_conn, conn_fetch_one, conn_fetch_row_with_headers, insert_crew, catch, conn_execute,
      conn_commit, print_single_row, print_rows, print, emit; io_run;
    destruct rows4 as [|[|v vs] rows4]; io_run; eexists; reflexivity.
Qed.

Lemma non_clearable_field_cleared_witness :
  "FlightDate" ∈ INSTANCE_NON_CLEARABLE /\
  fst (update_whitelisted_field (D:=nodb) "FlightInstance" "InstanceID" (SInt 7) INSTANCE_UPDATE_FIELDS
         (Some "Status") VALID_STATUSES INSTANCE_NON_CLEARABLE 2 NoDB
         (mkWorld ["1"; "<<CLEAR>>"] [] NoDB)) = Ok NoDB.
Proof. apply (non_clearable_field_cleared NoDB NoDB O 7 [] []). reflexivity. Defined.

Lemma instance_insert_default_status_witness :
  Forall (fun l => is_quit (py_strip l) = false /\ py_strip l <> "")
    ["2024-03-01"; "2024-03-01 10:00:00"; "2024-03-01 12:30:00"] /\
  is_valid_update_value "FlightDate" (py_strip "2024-03-01") = true /\
  is_valid_update_value "SchedDepUtc" (py_strip "2024-03-01 10:00:00") = true /\
  is_valid_update_value "SchedArrUtc" (py_strip "2024-03-01 12:30:00") = true /\
  w_db (snd (instance_insert_loop (D:=nodb) 3 1 (SInt 5) 2
               (mkWorld ["2024-03-01"; "2024-03-01 10:00:00"; "2024-03-01 12:30:00"; ""; ""; ""] [] NoDB)))
    = NoDB.
Proof.
  assert (HF : Forall (fun l => is_quit (py_strip l) = false /\ py_strip l <> "")
    ["2024-03-01"; "2024-03-01 10:00:00"; "2024-03-01 12:30:00"]).
  { repeat constructor; vm_compute; congruence. }
  assert (H1 : is_valid_update_value "FlightDate" (py_strip "2024-03-01") = true) by (vm_compute; reflexivity).
  assert (H2 : is_valid_update_value "SchedDepUtc" (py_strip "2024-03-01 10:00:00") = true)
    by (vm_compute; reflexivity).
  assert (H3 : is_valid_update_value "SchedArrUtc" (py_strip "2024-03-01 12:30:00") = true)
    by (vm_compute; reflexivity).
  split_and!; [exact HF|exact H1|exact H2|exact H3|].
  exact (instance_insert_default_status 2 0 (SInt 5) 2 _ _ _ [] [] NoDB NoDB O [] [] HF H1 H2 H3
           eq_refl eq_refl).
Defined.

(** A database whose instances have a Captain and no First Officer. *)
Inductive crewdb := CrewDB.

#[export] Instance crewdb_backend : SqlBackend crewdb := {
  sql_query _ _ params :=
    if existsb (fun v => match v with SText s => s ==? "Captain" | _ => false end) params
    then Ok ([], [[SText "Ann"; SText "Lee"]]) else Ok ([], [])
}.

#[export] Instance crewdb_exec : SqlExec crewdb := {| sql_exec d _ _ := Ok (d, 1) |}.

Lemma assign_pilot_role_scenario_witness :
  sql_query CrewDB SQL_ROLE_TAKEN_FOR_INSTANCE [SInt 3; SText "Captain"] = Ok ([], [[SText "Ann"; SText "Lee"]]) /\
  (fst (assign_pilot_to_instance 2 3 9 (mkWorld ["1"] [] CrewDB)) <> Ok true /\
   w_db (snd (assign_pilot_to_instance 2 3 9 (mkWorld ["1"] [] CrewDB))) = CrewDB) /\
  exists out', assign_pilot_to_instance 2 3 9 (mkWorld ["2"] [] CrewDB) = (Ok true, mkWorld [] out' CrewDB).
Proof.
  split; [reflexivity|].
  exact (assign_pilot_role_scenario 1 3 9 [] [] CrewDB CrewDB 1 [] [] [] [] [SText "Ann"; SText "Lee"] [] [] []
           [] eq_refl eq_refl eq_refl ltac:(discriminate) eq_refl eq_refl eq_refl).
Defined.
