(* ===== verification/Menu.v ===== *)
(** * The menu dispatcher (src/src/App.py)

    [main_menu]: the menu is printed, a choice is read with the raw
    [input] (end of input prints [Disconnected.] and returns, it does not
    raise), the choice is stripped and upper-cased, [8] exits, a key of
    the action table runs its action under [safe_run] and shows the menu
    again, and any other text prints [Invalid Choice.] and reads again
    without the menu.  [reset_database] calls SeedDB's [ensure_db], which
    deletes the database file and runs the schema and seed scripts: the
    file system and the scripts are outside the model, so [ensure_db] is
    a parameter of the section, and the theorems that need it assume it
    reads no input. *)

From Stdlib Require Import Ascii ZArith Lia.
From stdpp Require Import base list strings.
From S2P Require Import Prelude Trace FilterSpecs FilterSQL Queries Console Update Browse Picker Workflows.

(** [input(prompt)] itself: end of input is [None] (the [EOFError]
    that [main_menu] catches). *)
Definition next_line_opt {D} : io D (option string) :=
  fun w => match w_in w with
           | [] => (Ok None, w)
           | l :: rest => (Ok (Some l), mkWorld rest (w_out w) (w_db w))
           end.

Definition input_opt {D} (p : string) : io D (option string) :=
  emit (EvPrompt p) ;; next_line_opt.

(** [{key: handler for key, _, handler in entries}.get(k)]: the dict
    keeps the last handler of a key. *)
Definition dict_get {V} (entries : list (string * string * V)) (k : string) : option V :=
  (fun e => e.2) <$> find (fun e => e.1.1 ==? k) (reverse entries).

Section Menu.
Context {D : Type} `{!SqlBackend D} `{!SqlExec D}.
Variable fuel : nat.
Variable ensure_db : io D unit.

(** The local [reset_database] of [main_menu]. *)
Definition reset_database : io D unit :=
  ensure_db ;; print "
Database Reset.".

Definition menu_actions : list (string * string * io D unit) :=
  [("1", "View Flights by Criteria", view_flights_by_criteria fuel);
   ("2", "Update Flight Information (Field, Assign Pilot, Delete Flight)", update_flight_information fuel);
   ("3", "View Pilot Schedule", view_pilot_schedule fuel);
   ("4", "View/Update Destination Information", destination_management fuel);
   ("5", "Add a New Flight", add_new_flight fuel);
   ("6", "Summary Reports", summary_reports fuel);
   ("7", "View Audit Log", view_audit_log fuel)].

Definition extra_actions : list (string * string * io D unit) :=
  [("R", "Reset Database and Reseed", reset_database)].

Definition action_map (choice : string) : option (io D unit) :=
  dict_get (menu_actions ++ extra_actions) choice.

Definition exit_key : string := "8".

(** [for key, label, _ in entries: print(f"{key}) {label}")] *)
Fixpoint print_entries (entries : list (string * string * io D unit)) : io D unit :=
  match entries with
  | [] => mret tt
  | (key, label, _) :: rest => print (key +:+ ") " +:+ label) ;; print_entries rest
  end.

Definition print_menu : io D unit :=
  print "
Flight Management Menu" ;;
  print "----------------------" ;;
  print_entries menu_actions ;;
  print (exit_key +:+ ") Exit") ;;
  print "
Extra:" ;;
  print_entries extra_actions.

(** The inner [while True]: [None] is the return of [main_menu], [Some
    action] the [break] after [safe_run(action)]. *)
Fixpoint menu_choose (n : nat) : io D (option (io D unit)) :=
  match n with
  | O => throw OutOfFuel
  | S n' =>
      raw ← input_opt "Choose: ";
      match raw with
      | None => print "
Disconnected." ;; mret None
      | Some s =>
          let choice := py_upper (py_strip s) in
          if choice ==? exit_key then print "Disconnected." ;; mret None
          else match action_map choice with
               | Some action => mret (Some action)
               | None => print "Invalid Choice." ;; menu_choose n'
               end
      end
  end.

(** The outer [while True]. *)
Fixpoint main_menu_loop (n : nat) : io D unit :=
  match n with
  | O => throw OutOfFuel
  | S n' =>
      print_menu ;;
      a ← menu_choose fuel;
      match a with
      | None => mret tt
      | Some action => safe_run action ;; main_menu_loop n'
      end
  end.

Definition main_menu : io D unit := main_menu_loop fuel.
End Menu.

(** ** Safety: nothing escapes the menu *)

Section MenuProps.
Context {D : Type} `{!SqlBackend D} `{!SqlExec D}.

(** [safe_run] catches every exception of the program; only running out
    of fuel, which the program does not have, gets through. *)
Lemma safe_run_rets (m : io D unit) : rets (safe_run m) (fun _ => True) (fun e => e = OutOfFuel).
Proof.
  apply (rets_catch _ _ _ _ (fun _ => True)); [apply rets_true|].
  intros [] _; simpl; try done; unfold handle_integrity_error; eauto with fdb.
Qed.

Lemma safe_run_fuel n (m : io D unit) : fuel_ok n false m -> fuel_ok n false (safe_run m).
Proof.
  intros Hm. apply fuel_ok_catch; [exact Hm|].
  intros [] h [= <-]; unfold handle_integrity_error; fuel_walk.
Qed.

Lemma print_rets s E : rets (print (D:=D) s) (fun _ => True) E.
Proof. intros w _. done. Qed.

Lemma print_entries_rets entries E : rets (print_entries (D:=D) entries) (fun _ => True) E.
Proof.
  induction entries as [|[[k l] a] entries IH]; simpl; [by apply rets_ret|].
  eapply rets_bind; [apply print_rets|done].
Qed.

Lemma print_entries_fuel n entries : fuel_ok n false (print_entries (D:=D) entries).
Proof. induction entries as [|[[k l] a] entries IH]; simpl; fuel_walk. Qed.

Lemma print_menu_rets fuel ensure_db E :
  rets (print_menu (D:=D) fuel ensure_db) (fun _ => True) E.
Proof.
  unfold print_menu. generalize (menu_actions (D:=D) fuel) (extra_actions (D:=D) ensure_db). intros l1 l2.
  do 5 (eapply rets_bind; [first [apply print_rets | apply print_entries_rets] | intros ? _]).
  apply print_entries_rets.
Qed.

Lemma print_menu_fuel n fuel ensure_db : fuel_ok n false (print_menu (D:=D) fuel ensure_db).
Proof.
  unfold print_menu. generalize (menu_actions (D:=D) fuel) (extra_actions (D:=D) ensure_db). intros l1 l2.
  do 5 (apply fuel_ok_seq; [first [apply fuel_ok_emit | apply print_entries_fuel] | intros _]).
  apply print_entries_fuel.
Qed.

Lemma input_opt_rets p E : rets (input_opt (D:=D) p) (fun _ => True) E.
Proof. intros w _. unfold input_opt, next_line_opt. io_unfold. by destruct (w_in w). Qed.

Lemma menu_choose_rets fuel ensure_db n :
  rets (menu_choose (D:=D) fuel ensure_db n) (fun _ => True) (fun e => e = OutOfFuel).
Proof.
  induction n as [|n IH]; simpl; [by apply rets_throw|].
  eapply rets_bind; [apply input_opt_rets|]. intros [s|] _; cbv beta zeta.
  - destruct (_ ==? _); [eauto with fdb|]. destruct (action_map _ _ _); eauto with fdb.
  - eauto with fdb.
Qed.

Lemma main_menu_loop_rets fuel ensure_db n :
  rets (main_menu_loop (D:=D) fuel ensure_db n) (fun _ => True) (fun e => e = OutOfFuel).
Proof.
  induction n as [|n IH]; simpl; [by apply rets_throw|].
  eapply rets_bind; [apply print_menu_rets|]. intros _ _.
  eapply rets_bind; [apply menu_choose_rets|]. intros [a|] _; [|by apply rets_ret].
  eapply rets_bind; [apply safe_run_rets|]. intros _ _. apply IH.
Qed.

Lemma dict_get_Forall {V} (P : V -> Prop) (entries : list (string * string * V)) k v :
  Forall (fun e => P e.2) entries -> dict_get entries k = Some v -> P v.
Proof.
  unfold dict_get. intros HF (e & He & ->)%fmap_Some.
  apply find_some in He as [Hin _]. apply list_elem_of_In in Hin. rewrite elem_of_reverse in Hin.
  rewrite Forall_forall in HF. exact (HF e Hin).
Qed.

(** Each iteration of the inner loop reads a line; end of input returns
    [None] without one, and a chosen action comes from the table. *)
Lemma menu_choose_fuel fuel ensure_db n k :
  k < n ->
  triple (fun w => in_len w <= k) (menu_choose (D:=D) fuel ensure_db n)
    (fun a w => match a with
                | Some act => in_len w < k /\ exists c, action_map fuel ensure_db c = Some act
                | None => in_len w <= k
                end)
    (fun e w => e <> OutOfFuel /\ in_len w <= k).
Proof.
  revert k. induction n as [|n IH]; intros k Hk w Hw; [lia|]. simpl.
  unfold input_opt, next_line_opt, emit. rewrite !io_bind_run. simpl.
  unfold in_len in *. destruct (w_in w) as [|l rest] eqn:E; simpl in *.
  - lia.
  - destruct (_ ==? _); [simpl; lia|].
    destruct (action_map fuel ensure_db _) as [act|] eqn:Ea; [split; [simpl; lia|eauto]|].
    rewrite io_bind_run. simpl.
    destruct k as [|k]; [lia|].
    match goal with |- context [menu_choose fuel ensure_db n ?w1] =>
      specialize (IH k ltac:(lia) w1 ltac:(simpl; lia));
      destruct (menu_choose fuel ensure_db n w1) as [[[a|]|e] w']; simpl in *; intuition lia end.
Qed.

Lemma main_menu_loop_fuel fuel ensure_db n :
  (forall c a, action_map fuel ensure_db c = Some a -> fuel_ok fuel false a) -> n <= fuel ->
  fuel_ok n false (main_menu_loop (D:=D) fuel ensure_db n).
Proof.
  intros Hact. induction n as [|n IH]; intros Hn k Hk w Hw; [lia|]. simpl.
  rewrite io_bind_run. pose proof (print_menu_fuel (S n) fuel ensure_db k Hk w Hw) as H1.
  destruct (print_menu fuel ensure_db w) as [[[]|e] w1]; simpl in *; [|done].
  rewrite io_bind_run. pose proof (menu_choose_fuel fuel ensure_db fuel k ltac:(lia) w1 H1) as H2.
  destruct (menu_choose fuel ensure_db fuel w1) as [[[a|]|e] w2]; simpl in *; [|done|done].
  destruct H2 as [Hw2 [c Hc]]. destruct k as [|k]; [lia|].
  assert (Hrun : fuel_ok n false (safe_run a ;; main_menu_loop fuel ensure_db n)).
  { apply fuel_ok_seq; [|intros _; apply IH; lia].
    apply safe_run_fuel. eapply fuel_ok_weaken; [eapply Hact, Hc|lia|done]. }
  assert (Hw2k : in_len w2 <= k) by lia. specialize (Hrun k ltac:(lia) w2 Hw2k). simpl.
  destruct ((safe_run a ≫= _) w2) as [[u|e] w3]; simpl in *; intuition lia.
Qed.
End MenuProps.

Section MenuRun.
Context {D : Type} `{!SqlBackend D} `{!SqlExec D}.

(** A computation that only appends to the output. *)
Definition only_prints (m : io D unit) : Prop :=
  forall w, exists out, m w = (Ok tt, mkWorld (w_in w) out (w_db w)).

Lemma only_prints_print s : only_prints (print s).
Proof. intros w. eexists. reflexivity. Qed.

Lemma only_prints_seq m1 m2 : only_prints m1 -> only_prints m2 -> only_prints (m1 ;; m2).
Proof.
  intros H1 H2 w. destruct (H1 w) as [o1 E1]. rewrite io_bind_run, E1.
  destruct (H2 (mkWorld (w_in w) o1 (w_db w))) as [o2 E2]. rewrite E2. eauto.
Qed.

Lemma print_entries_run entries : only_prints (print_entries entries).
Proof.
  induction entries as [|[[k l] a] entries IH]; simpl; [intros w; destruct w; eexists; reflexivity|].
  by apply only_prints_seq; [apply only_prints_print|].
Qed.

Lemma print_menu_run fuel ensure_db : only_prints (print_menu fuel ensure_db).
Proof.
  unfold print_menu. generalize (menu_actions (D:=D) fuel) (extra_actions (D:=D) ensure_db). intros l1 l2.
  repeat apply only_prints_seq; auto using only_prints_print, print_entries_run.
Qed.

(** One run of the outer loop on the line [l], up to the choice. *)
Lemma main_menu_loop_line fuel' ensure_db n l rest out (d : D) :
  exists out', main_menu_loop (S fuel') ensure_db (S n) (mkWorld (l :: rest) out d) =
    (let choice := py_upper (py_strip l) in
     if choice ==? exit_key then print "Disconnected." ;; mret tt
     else match action_map (S fuel') ensure_db choice with
          | Some action => safe_run action ;; main_menu_loop (S fuel') ensure_db n
          | None => print "Invalid Choice." ;;
                    a ← menu_choose (S fuel') ensure_db fuel';
                    match a with
                    | None => mret tt
                    | Some action => safe_run action ;; main_menu_loop (S fuel') ensure_db n
                    end
          end) (mkWorld rest out' d).
Proof.
  cbn [main_menu_loop]. rewrite io_bind_run.
  destruct (print_menu_run (S fuel') ensure_db (mkWorld (l :: rest) out d)) as [o1 ->]. simpl.
  rewrite io_bind_run. cbn [menu_choose]. unfold input_opt, next_line_opt, emit.
  rewrite !io_bind_run. simpl. eexists.
  destruct (_ ==? _); [by rewrite !io_bind_run|].
  destruct (action_map _ _ _); [reflexivity|]. by rewrite !io_bind_run.
Qed.

Lemma action_map_fuel `{!SqlBackendLaws D} `{!SqlExecLaws D} fuel ensure_db :
  (forall n, fuel_ok n false ensure_db) ->
  forall c a, action_map (D:=D) fuel ensure_db c = Some a -> fuel_ok fuel false a.
Proof.
  intros He c a. apply dict_get_Forall.
  destruct (view_actions_fuel (D:=D) fuel) as (H1 & H3 & _ & H7).
  repeat apply List.Forall_cons; try apply List.Forall_nil; simpl;
    auto using update_flight_information_fuel, destination_management_fuel, add_new_flight_fuel,
      summary_reports_fuel.
  unfold reset_database. apply fuel_ok_seq; [apply He|intros _; apply fuel_ok_emit].
Qed.
End MenuRun.

(** ** What a session commits *)

Section MenuCommits.
Context {D : Type} `{!SqlBackend D} `{!SqlExec D}.

Lemma only_prints_ro m : only_prints (D:=D) m -> db_ro m.
Proof. intros H w. by destruct (H w) as [o ->]. Qed.

Lemma next_line_opt_ro : db_ro (@next_line_opt D).
Proof. intros w. unfold next_line_opt. by destruct (w_in w). Qed.

Lemma menu_choose_ro fuel ensure_db n : db_ro (menu_choose (D:=D) fuel ensure_db n).
Proof.
  induction n as [|n IH]; cbn [menu_choose]; [solve_ro|].
  apply db_ro_bind; [unfold input_opt; solve_ro; apply next_line_opt_ro|].
  intros [s|]; solve_ro.
Qed.

(** A chosen action is a value of the action table. *)
Lemma menu_choose_action fuel ensure_db n :
  rets (menu_choose (D:=D) fuel ensure_db n)
    (fun r => match r with Some a => exists c, action_map fuel ensure_db c = Some a | None => True end)
    (fun _ => True).
Proof.
  induction n as [|n IH]; simpl; [by apply rets_throw|].
  eapply rets_bind; [apply input_opt_rets|]. intros [s|] _; cbv beta zeta; [|eauto with fdb].
  destruct (_ ==? _); [eauto with fdb|].
  destruct (action_map _ _ _) eqn:Ea; [apply rets_ret; eauto|eauto with fdb].
Qed.

Variable R : D -> D -> Prop.

Lemma safe_run_commits (m : io D unit) : commits_within R m -> commits_within R (safe_run m).
Proof.
  intros Hm. apply commits_within_catch; [exact Hm|]. intros e h Hh. apply commits_within_ro.
  destruct e; simpl in Hh; simplify_eq; unfold handle_integrity_error; solve_ro.
Qed.

Lemma main_menu_loop_commits fuel ensure_db n :
  (forall c a, action_map fuel ensure_db c = Some a -> commits_within R a) ->
  commits_within R (main_menu_loop (D:=D) fuel ensure_db n).
Proof.
  intros Hact. induction n as [|n IH]; cbn [main_menu_loop]; [apply commits_within_ro; solve_ro|].
  apply commits_within_bind; [apply commits_within_ro, only_prints_ro, print_menu_run|intros _].
  eapply commits_within_rets_bind; [apply menu_choose_action|apply menu_choose_ro|].
  intros [a|] Ha; [|apply commits_within_ro; solve_ro].
  destruct Ha as [c Hc]. apply commits_within_bind; [apply safe_run_commits; exact (Hact c a Hc)|done].
Qed.

(** Every action of the table commits only checked changes, the reset
    only what [ensure_db] commits. *)
Lemma action_map_commits fuel ensure_db :
  (forall d d', uflight_write d d' -> R d d') -> (forall d d', add_flight_write d d' -> R d d') ->
  (forall d d', airport_updated d d' -> R d d') -> commits_within R ensure_db ->
  forall c a, action_map (D:=D) fuel ensure_db c = Some a -> commits_within R a.
Proof.
  intros Hu Ha Hp He c a. apply dict_get_Forall.
  destruct (view_actions_ro (D:=D) fuel) as (H1 & H3 & _ & H7).
  repeat apply List.Forall_cons; try apply List.Forall_nil; simpl;
    try (apply commits_within_ro; assumption).
  - eapply commits_within_mono; [exact Hu|apply run_machine_commits, uflight_step_commits].
  - eapply commits_within_mono; [exact Hp|apply destination_management_commits].
  - eapply commits_within_mono; [exact Ha|apply add_new_flight_writes].
  - apply commits_within_ro. unfold summary_reports. solve_ro.
  - unfold reset_database. apply commits_within_bind; [exact He|intros _; apply commits_within_ro; solve_ro].
Qed.
End MenuCommits.

(** ** No empty table is shown *)

#[export] Hint Unfold input_opt reset_database : shows.

Section MenuShows.
Context {D : Type} `{!SqlBackend D} `{!SqlExec D}.
Variables (fuel : nat) (ensure_db : io D unit) (He : shows_ok ensure_db).

Lemma next_line_opt_shows : shows_ok (@next_line_opt D).
Proof. intros w Hw. unfold next_line_opt. by destruct (w_in w). Qed.

Lemma print_entries_shows entries : shows_ok (print_entries (D:=D) entries).
Proof. induction entries as [|[[k l] a] es IH]; simpl; solve_shows. Qed.

Lemma print_menu_shows : shows_ok (print_menu (D:=D) fuel ensure_db).
Proof.
  unfold print_menu.
  do 2 (apply shows_ok_bind; [apply shows_ok_print|intros _]).
  apply shows_ok_bind; [apply print_entries_shows|intros _].
  do 2 (apply shows_ok_bind; [apply shows_ok_print|intros _]).
  apply print_entries_shows.
Qed.

#[local] Hint Resolve next_line_opt_shows print_entries_shows print_menu_shows : shows.

Lemma menu_choose_shows n : shows_ok (menu_choose fuel ensure_db n).
Proof. induction n; simpl; solve_shows. Qed.

Lemma action_map_shows c a : action_map fuel ensure_db c = Some a -> shows_ok a.
Proof.
  apply dict_get_Forall. destruct (workflows_shows (D:=D) fuel) as (? & ? & ? & ?).
  repeat constructor; simpl; try done; solve_shows.
Qed.

Lemma main_menu_loop_shows n : shows_ok (main_menu_loop fuel ensure_db n).
Proof.
  induction n as [|n IH]; cbn [main_menu_loop]; [solve_shows|].
  apply shows_ok_bind; [apply print_menu_shows|intros _].
  eapply shows_ok_rets_bind; [apply menu_choose_action|apply menu_choose_shows|].
  intros [a|] Ha; [|solve_shows]. destruct Ha as [c Hc].
  apply shows_ok_bind; [|done]. unfold safe_run. solve_shows. by eapply action_map_shows.
Qed.
End MenuShows.

(** ** The menu's contract *)

(** C1. The program's session ends normally on every input: with more
    fuel than lines of input (every loop iteration reads a line), the
    menu loop returns - by [8] or at the end of input - and no exception
    of any action escapes it, because [safe_run] reports every one of
    them and every action stops.  SeedDB's [ensure_db] is assumed to
    read no input. *)
Theorem main_menu_returns {D} `{!SqlBackend D} `{!SqlBackendLaws D} `{!SqlExec D} `{!SqlExecLaws D}
    fuel ensure_db (w : world D) :
  (forall n, fuel_ok n false ensure_db) -> in_len w < fuel ->
  fst (main_menu fuel ensure_db w) = Ok tt.
Proof.
  intros He Hw. unfold main_menu.
  pose proof (main_menu_loop_rets fuel ensure_db fuel w I) as Hr.
  pose proof (fuel_ok_no_out_of_fuel _ _ _ w (main_menu_loop_fuel fuel ensure_db fuel
                (action_map_fuel fuel ensure_db He) (le_n _)) Hw) as Hf.
  destruct (main_menu_loop fuel ensure_db fuel w) as [[[]|e] w']; simpl in *; [done|by subst].
Qed.

(** C21. The menu keys run the actions of [menu_actions]: a line that
    reads [1] to [7] or [R] once stripped and upper-cased (so [r] and
    [ 3 ] too) runs, under [safe_run], view flights, update flight
    information, the pilot schedule, destination management, add a new
    flight, the summary reports, the audit log and the database reset
    respectively, then shows the menu again. *)
Theorem main_menu_dispatch {D} `{!SqlBackend D} `{!SqlExec D} fuel (ensure_db : io D unit) :
  0 < fuel ->
  Forall (fun '(key, act) => forall l n rest out d, py_upper (py_strip l) = key ->
            exists out', main_menu_loop fuel ensure_db (S n) (mkWorld (l :: rest) out d) =
                         (safe_run act ;; main_menu_loop fuel ensure_db n) (mkWorld rest out' d))
    [("1", view_flights_by_criteria fuel); ("2", update_flight_information fuel);
     ("3", view_pilot_schedule fuel); ("4", destination_management fuel); ("5", add_new_flight fuel);
     ("6", summary_reports fuel); ("7", view_audit_log fuel); ("R", reset_database ensure_db)].
Proof.
  intros Hf. destruct fuel as [|fuel']; [lia|].
  repeat apply List.Forall_cons; try apply List.Forall_nil; intros l n rest out d Hl;
    destruct (main_menu_loop_line fuel' ensure_db n l rest out d) as [out' ->];
    exists out'; cbv zeta; rewrite Hl; reflexivity.
Qed.

(** C33. [8] ends the session with [Disconnected.], and so does the end
    of input (the [EOFError] of [input] is caught); neither raises. *)
Theorem main_menu_exit {D} `{!SqlBackend D} `{!SqlExec D} fuel (ensure_db : io D unit) n l rest out (d : D) :
  0 < fuel -> py_upper (py_strip l) = "8" ->
  fst (main_menu_loop fuel ensure_db (S n) (mkWorld (l :: rest) out d)) = Ok tt /\
  fst (main_menu_loop fuel ensure_db (S n) (mkWorld [] out d)) = Ok tt.
Proof.
  intros Hf Hl. destruct fuel as [|fuel']; [lia|]. split.
  - destruct (main_menu_loop_line fuel' ensure_db n l rest out d) as [out' ->].
    cbv zeta. rewrite Hl. reflexivity.
  - cbn [main_menu_loop]. rewrite io_bind_run.
    destruct (print_menu_run (S fuel') ensure_db (mkWorld [] out d)) as [o1 ->]. reflexivity.
Qed.

(** ** Witnesses *)

Lemma main_menu_returns_witness :
  (forall n, fuel_ok n false (mret tt : io nodb unit)) /\ in_len (mkWorld ["r"; "1"; "q"; "8"] [] NoDB) < 5 /\
  fst (main_menu 5 (mret tt) (mkWorld ["r"; "1"; "q"; "8"] [] NoDB)) = Ok tt.
Proof.
  assert (He : forall n, fuel_ok n false (mret tt : io nodb unit)) by (intros n; apply fuel_ok_ret).
  assert (Hw : in_len (mkWorld ["r"; "1"; "q"; "8"] [] NoDB) < 5) by (unfold in_len; simpl; lia).
  split; [exact He|]. split; [exact Hw|]. exact (main_menu_returns 5 (mret tt) _ He Hw).
Defined.

Lemma main_menu_dispatch_witness :
  0 < 1 /\ Forall (fun '(key, act) => forall l n rest out d, py_upper (py_strip l) = key ->
            exists out', main_menu_loop 1 (mret tt) (S n) (mkWorld (l :: rest) out d) =
                         (safe_run act ;; main_menu_loop 1 (mret tt) n) (mkWorld rest out' d))
    [("1", view_flights_by_criteria (D:=nodb) 1); ("2", update_flight_information 1);
     ("3", view_pilot_schedule 1); ("4", destination_management 1); ("5", add_new_flight 1);
     ("6", summary_reports 1); ("7", view_audit_log 1); ("R", reset_database (mret tt))].
Proof. split; [lia|]. apply main_menu_dispatch. lia. Defined.

Lemma main_menu_exit_witness :
  0 < 1 /\ py_upper (py_strip " 8 ") = "8" /\
  fst (main_menu_loop (D:=nodb) 1 (mret tt) 1 (mkWorld [" 8 "] [] NoDB)) = Ok tt.
Proof.
  split; [lia|]. split; [reflexivity|].
  exact (proj1 (main_menu_exit 1 (mret tt) 0 " 8 " [] [] NoDB ltac:(lia) eq_refl)).
Defined.
