(* ===== verification/Seed.v ===== *)
(** * Creating and checking the database file (src/src/SeedDB.py, App.py)

    [is_db_initialised] looks at the database file and at the tables it
    holds; [ensure_db] deletes the file and rebuilds it from the schema,
    views, triggers and seed scripts; [ensure_runtime_objects] re-runs the
    views and triggers scripts on an existing file; App.py's
    [initialise_db] chooses between the two, and [main] runs it before
    the menu.

    The file system and the SQL scripts are outside the model: the class
    [DbFile] gives whether the file exists and its size, the empty
    database a new file holds, and the run of one script (the state after
    the statements that ran, and the error that stopped it, if any).
    [conn.executescript] first commits the pending transaction and then
    runs the script's statements in autocommit mode, so what a failing
    script did before its error stays in the file; [run_sql_file] models
    exactly that.

    The theorems: start-up reseeds exactly the files that are not
    initialised, a seeding error escapes [main], and every state a whole
    run of [main] commits is reached by the steps of [session_step]. *)

From Stdlib Require Import Ascii ZArith Lia.
From stdpp Require Import base list sets strings.
From S2P Require Import Prelude Trace Console Update Workflows Menu.

Definition SCHEMA_SQL : string := "SQL/00_Schema.sql".
Definition VIEWS_SQL : string := "SQL/01_Views.sql".
Definition TRIGGERS_SQL : string := "SQL/03_Triggers.sql".
Definition INSERT_DIR : string := "SQL/Inserts".

Definition INSERT_FILES : list string :=
  ["01_Airline.sql"; "02_Airport.sql"; "03_Aircraft.sql"; "04_Route.sql"; "05_Flight.sql";
   "06_FlightInstance.sql"; "07_Staff.sql"; "08_Passenger.sql"; "09_Booking.sql";
   "10_CrewAssignment.sql"; "11_BookingItem.sql"].

(** A Python set: only membership matters. *)
Definition REQUIRED_TABLES : list string :=
  ["AppContext"; "Airline"; "Airport"; "Aircraft"; "Route"; "Flight"; "FlightInstance"; "Staff";
   "CrewAssignment"; "Passenger"; "Booking"; "BookingItem"; "AuditLog"].

Definition SQL_TABLE_NAMES : string := "SELECT name FROM sqlite_master WHERE type = 'table';".
Definition SQL_FOREIGN_KEYS_ON : string := "PRAGMA foreign_keys = ON;".
Definition SQL_CONTEXT_CLI : string := "UPDATE AppContext SET CurrentUser='CLI' WHERE ContextID=1;".
Definition SQL_CONTEXT_USER : string := "UPDATE AppContext SET CurrentUser='USER' WHERE ContextID=1;".

(** The database file and the scripts. *)
Class DbFile (D : Type) := {
  db_file_exists : D -> bool;
  db_file_size : D -> N;
  db_created : D;
  run_script : D -> string -> D * option exn
}.

(** A script stops only on a database error. *)
Class DbFileLaws (D : Type) `{!DbFile D} : Prop :=
  run_script_errors d path d' e :
    run_script d path = (d', Some e) -> exists msg, e = IntegrityError msg \/ e = DatabaseError msg.

Section Seed.
Context {D : Type} `{!SqlBackend D} `{!SqlExec D} `{!DbFile D}.

(** [run_sql_file(conn, path)]: the implicit COMMIT of [executescript],
    then the statements, each committed as it runs. *)
Definition run_sql_file (c : D) (path : string) : io D D :=
  put_db c ;;
  let '(c', err) := run_script c path in
  put_db c' ;;
  match err with
  | None => mret c'
  | Some e => throw e
  end.

(** [for filename in INSERT_FILES: run_sql_file(conn, INSERT_DIR / filename)] *)
Fixpoint run_inserts (c : D) (files : list string) : io D D :=
  match files with
  | [] => mret c
  | f :: fs => c' ← run_sql_file c (INSERT_DIR +:+ "/" +:+ f); run_inserts c' fs
  end.

(** [{row[0] for row in rows}] *)
Definition first_column (rows : list row) : io D (list sqlval) :=
  mapM (fun r => of_res (row_index (Some r) 0)) rows.

Definition has_table (existing : list sqlval) (t : string) : bool :=
  existsb (fun v => match v with SText s => s ==? t | _ => false end) existing.

(** [is_db_initialised()] *)
Definition is_db_initialised : io D bool :=
  d ← get_db;
  if negb (db_file_exists d) then mret false
  else if (db_file_size d =? 0)%N then mret false
  else
    match sql_query d SQL_TABLE_NAMES [] with
    | Exc _ => mret false
    | Ok (_, rows) =>
        existing ← first_column rows;
        mret (forallb (has_table existing) REQUIRED_TABLES)
    end.

(** [ensure_db()]: [DB_PATH.unlink()] and a new connection to the new,
    empty file. *)
Definition ensure_db : io D unit :=
  put_db db_created ;;
  with_conn (fun c =>
    '(c, _) ← conn_execute c SQL_FOREIGN_KEYS_ON [];
    c ← run_sql_file c SCHEMA_SQL;
    c ← run_sql_file c VIEWS_SQL;
    c ← run_sql_file c TRIGGERS_SQL;
    '(c, _) ← conn_execute c SQL_CONTEXT_CLI [];
    c ← run_inserts c INSERT_FILES;
    '(c, _) ← conn_execute c SQL_CONTEXT_USER [];
    conn_commit c ;;
    mret (tt, c)).

(** [ensure_runtime_objects()] *)
Definition ensure_runtime_objects : io D unit :=
  d ← get_db;
  if negb (db_file_exists d) then mret tt
  else
    with_conn (fun c =>
      '(c, _) ← conn_execute c SQL_FOREIGN_KEYS_ON [];
      c ← run_sql_file c VIEWS_SQL;
      c ← run_sql_file c TRIGGERS_SQL;
      conn_commit c ;;
      mret (tt, c)).

(** App.py's [initialise_db()] *)
Definition initialise_db : io D unit :=
  b ← is_db_initialised;
  if (b : bool) then ensure_runtime_objects ;; print "
Using Existing database!"
  else ensure_db ;; print "
Database Created and Populated Successfully.".

(** App.py's [main()]: the menu's reset action is this [ensure_db]. *)
Definition main (fuel : nat) : io D unit :=
  initialise_db ;; main_menu fuel ensure_db.
End Seed.

(** ** What start-up may commit *)

Section SeedSteps.
Context {D : Type} `{!SqlBackend D} `{!SqlExec D} `{!DbFile D}.

Definition seed_scripts : list string :=
  SCHEMA_SQL :: VIEWS_SQL :: TRIGGERS_SQL :: ((fun f => INSERT_DIR +:+ "/" +:+ f) <$> INSERT_FILES).

(** The statements [ensure_db] runs on the new file. *)
Inductive seed_step : D -> D -> Prop :=
  | seed_exec d d' n sql :
      sql ∈ [SQL_FOREIGN_KEYS_ON; SQL_CONTEXT_CLI; SQL_CONTEXT_USER] ->
      sql_exec d sql [] = Ok (d', n) -> seed_step d d'
  | seed_script d d' e path : path ∈ seed_scripts -> run_script d path = (d', e) -> seed_step d d'.

(** The statements [ensure_runtime_objects] runs on the existing file. *)
Inductive refresh_step : D -> D -> Prop :=
  | refresh_exec d d' n sql : sql ∈ [SQL_FOREIGN_KEYS_ON] -> sql_exec d sql [] = Ok (d', n) ->
      refresh_step d d'
  | refresh_script d d' e path : path ∈ [VIEWS_SQL; TRIGGERS_SQL] -> run_script d path = (d', e) ->
      refresh_step d d'.

(** The file holds every required table, as [is_db_initialised] checks. *)
Definition db_initialised (d : D) : Prop :=
  db_file_exists d = true /\ db_file_size d <> 0%N /\
  exists h rows, sql_query d SQL_TABLE_NAMES [] = Ok (h, rows) /\
    forall t, t ∈ REQUIRED_TABLES -> exists r, r ∈ rows /\ r !! 0 = Some (SText t).
End SeedSteps.

Section SeedReach.
Context {D : Type} `{!SqlBackend D} `{!SqlExec D} `{!DbFile D}.
Variable S : D -> D -> Prop.
Variable o : D.

Lemma run_sql_file_reach c path d :
  star S o c -> (forall x x' e, run_script x path = (x', e) -> S x x') ->
  runs d (run_sql_file c path) (fun c' d' => star S o c' /\ star S o d') (fun _ d' => star S o d').
Proof.
  intros Hc Hs. unfold run_sql_file.
  apply (runs_bind _ _ _ (fun _ d' => d' = c)); [by apply runs_put_db|]. intros [] ? ->.
  destruct (run_script c path) as [c' err] eqn:E.
  assert (Hc' : star S o c') by (eapply star_right; [exact Hc|eapply Hs, E]).
  apply (runs_bind _ _ _ (fun _ d' => d' = c')); [by apply runs_put_db|]. intros [] ? ->.
  destruct err; [by apply runs_throw|by apply runs_ret].
Qed.

Lemma conn_execute_reach c sql params d :
  star S o c -> star S o d -> (forall x x' n, sql_exec x sql params = Ok (x', n) -> S x x') ->
  runs d (conn_execute c sql params) (fun cn d' => star S o cn.1 /\ star S o d') (fun _ d' => star S o d').
Proof.
  intros Hc Hd Hs. eapply runs_conseq; [apply conn_execute_runs| |]; simpl.
  - intros [c' n] ? [-> E]. split; [|done]. eapply star_right; [exact Hc|eapply Hs, E].
  - by intros ? ? [-> _].
Qed.

Lemma run_inserts_reach files c d :
  star S o c -> (forall f x x' e, f ∈ files -> run_script x (INSERT_DIR +:+ "/" +:+ f) = (x', e) -> S x x') ->
  runs d (run_inserts c files) (fun c' d' => star S o c' /\ (star S o d' \/ d' = d))
    (fun _ d' => star S o d' \/ d' = d).
Proof.
  revert c d. induction files as [|f files IH]; intros c d Hc Hs; simpl; [apply runs_ret; auto|].
  eapply runs_bind.
  { eapply runs_conseq; [apply (run_sql_file_reach c (INSERT_DIR +:+ "/" +:+ f) d Hc)|done|intros; by left].
    intros x x' e'. apply Hs. set_solver. }
  intros c' d' [Hc' Hd']. eapply runs_conseq; [apply IH; [exact Hc'|intros f0 x x' e Hf Hr; apply (Hs f0 x x' e); [set_solver|exact Hr]]| |];
    simpl; intros; intuition subst; auto.
Qed.
End SeedReach.

(** One statement or one script of a start-up routine, as a step of [ctor]. *)
Ltac exec_step ctor :=
  eapply runs_bind;
  [apply conn_execute_reach; [eassumption|eassumption|intros ? ? ? ?E; eapply ctor; [|exact E]; set_solver]
  |intros [? ?] ? [? ?]; cbn [fst snd] in *].

Ltac script_step ctor :=
  eapply runs_bind;
  [apply run_sql_file_reach; [eassumption|intros ? ? ? ?E; eapply ctor; [|exact E]; set_solver]
  |intros ? ? [? ?]].

Section SeedRuns.
Context {D : Type} `{!SqlBackend D} `{!SqlExec D} `{!DbFile D}.

(** [ensure_db] commits only states built from the new file by the
    seeding statements. *)
Lemma ensure_db_runs d :
  runs d ensure_db (fun _ d' => star seed_step db_created d') (fun _ d' => star seed_step db_created d').
Proof.
  unfold ensure_db. apply (runs_bind _ _ _ (fun _ d' => d' = db_created)); [by apply runs_put_db|].
  intros [] ? ->. apply with_conn_runs.
  assert (H0 : star (seed_step (D:=D)) db_created db_created) by constructor.
  exec_step seed_exec. do 3 script_step seed_script. exec_step seed_exec.
  apply (runs_bind _ _ _ (fun c' d' => star seed_step db_created c' /\ star seed_step db_created d')).
  { eapply runs_conseq; [apply run_inserts_reach; [eassumption|]| |].
    - intros f x x' e Hf E. eapply seed_script; [|exact E]. unfold seed_scripts.
      apply elem_of_cons; right. do 2 (apply elem_of_cons; right). apply list_elem_of_fmap. exists f. split; [reflexivity|exact Hf].
    - intros c9 d9 [Hc9 Hd9]. split; [exact Hc9|]. destruct Hd9 as [?| ->]; done.
    - intros e9 d9 [?| ->]; done. }
  intros c9 d9 [Hc9 Hd9]. exec_step seed_exec.
  apply (runs_bind _ _ _ (fun _ d'' => star seed_step db_created d'')); [by apply runs_put_db|].
  intros [] ? ?. by apply runs_ret.
Qed.

(** [ensure_runtime_objects] commits only states reached from the
    existing database by the views and triggers scripts. *)
Lemma ensure_runtime_objects_runs d :
  runs d ensure_runtime_objects (fun _ d' => star refresh_step d d') (fun _ d' => star refresh_step d d').
Proof.
  unfold ensure_runtime_objects. apply runs_get_db.
  destruct (negb _); [apply runs_ret; constructor|]. apply with_conn_runs.
  assert (H0 : star (refresh_step (D:=D)) d d) by constructor.
  exec_step refresh_exec. do 2 script_step refresh_script.
  apply (runs_bind _ _ _ (fun _ d'' => star refresh_step d d'')); [by apply runs_put_db|].
  intros [] ? ?. by apply runs_ret.
Qed.
End SeedRuns.

Section InitialisedCheck.
Context {D : Type} `{!SqlBackend D} `{!SqlExec D} `{!DbFile D}.

Lemma first_column_at d rows :
  rets_at d (first_column (D:=D) rows) (fun vs => Forall2 (fun r v => r !! 0 = Some v) rows vs) (fun _ => True).
Proof.
  unfold first_column. induction rows as [|r rows IH]; simpl; [by apply rets_at_ret|].
  unfold row_index. destruct (r !! 0) as [v|] eqn:E; cbn [of_res]; [|by apply rets_at_throw].
  apply rets_at_bind with (R := fun v' => v' = v); [by apply rets_at_ret|]. intros ? ->.
  eapply rets_at_bind; [exact IH|]. intros vs Hvs. apply rets_at_ret. by constructor.
Qed.

Lemma has_table_spec (rows : list row) (vs : list sqlval) t :
  Forall2 (fun r v => r !! 0 = Some v) rows vs ->
  has_table vs t = true <-> exists r, r ∈ rows /\ r !! 0 = Some (SText t).
Proof.
  induction 1 as [|r v rows vs Hrv _ IH]; simpl.
  - split; [done|]. intros (r & Hr & _). by apply elem_of_nil in Hr.
  - rewrite orb_true_iff, IH. split.
    + intros [Hv|(r' & Hr' & E)]; [|exists r'; split; [by apply elem_of_cons; right|done]].
      destruct v as [| |s]; try done. apply String.eqb_eq in Hv as ->.
      exists r. split; [apply elem_of_cons; by left|done].
    + intros (r' & [->|Hr']%elem_of_cons & E); [left|right; eauto].
      rewrite E in Hrv. injection Hrv as <-. apply String.eqb_refl.
Qed.

(** [is_db_initialised] reads the database and answers whether the file
    is initialised. *)
Lemma is_db_initialised_at d :
  rets_at d (is_db_initialised (D:=D)) (fun b => b = true <-> db_initialised d) (fun _ => True).
Proof.
  unfold is_db_initialised. apply rets_at_get_db. unfold db_initialised.
  destruct (db_file_exists d); cbn [negb]; [|apply rets_at_ret; split; [done|by intros []]].
  destruct (db_file_size d =? 0)%N eqn:Es; cbv iota.
  { apply rets_at_ret. apply N.eqb_eq in Es. split; [done|by intros (_ & ? & _)]. }
  apply N.eqb_neq in Es.
  destruct (sql_query d SQL_TABLE_NAMES []) as [[h rows]|err] eqn:Eq.
  - eapply rets_at_bind; [apply first_column_at|]. intros vs Hvs. apply rets_at_ret.
    rewrite forallb_forall. split.
    + intros Hall. split_and!; [done|done|]. exists h, rows. split; [done|].
      intros t Ht. apply (has_table_spec rows vs t Hvs), Hall, list_elem_of_In, Ht.
    + intros (_ & _ & h' & rows' & Hq & Hall) t Ht. injection Hq as <- <-.
      apply (has_table_spec rows vs t Hvs), Hall, list_elem_of_In, Ht.
  - apply rets_at_ret. split; [done|]. intros (_ & _ & h' & rows' & Hq & _). congruence.
Qed.
End InitialisedCheck.

(** ** Start-up *)

(** C36. [initialise_db] reseeds the database exactly when the file is
    not initialised: on a file that exists, is not empty and holds every
    required table it commits only the effects of the views and triggers
    scripts (the data is kept), and on any other file every state it
    commits is built from a new, empty file by the schema, views,
    triggers and seed scripts and the AppContext updates (or the database
    is left as it was, when the check itself fails). *)
Theorem initialise_db_reseeds {D} `{!SqlBackend D} `{!SqlExec D} `{!DbFile D} (d : D) :
  (db_initialised d ->
   runs d initialise_db (fun _ d' => star refresh_step d d') (fun _ d' => star refresh_step d d')) /\
  (~ db_initialised d ->
   runs d initialise_db (fun _ d' => star seed_step db_created d')
     (fun _ d' => d' = d \/ star seed_step db_created d')).
Proof.
  unfold initialise_db. split; intros Hi.
  - eapply runs_at_bind; [apply is_db_initialised_at|intros e; apply star_refl|intros [] Hb].
    + eapply runs_bind; [apply ensure_runtime_objects_runs|]. intros [] d' Hd'.
      apply runs_ro; [solve_ro|done|done].
    + exfalso. by apply Hb in Hi.
  - eapply runs_at_bind; [apply is_db_initialised_at|intros e; by left|intros [] Hb].
    + exfalso. by apply Hi, Hb.
    + eapply runs_bind; [eapply runs_conseq; [apply ensure_db_runs|done|intros; by right]|].
      intros [] d' Hd'. apply runs_ro; [solve_ro|done|intros; by right].
Qed.

Lemma is_db_initialised_missing {D} `{!SqlBackend D} `{!SqlExec D} `{!DbFile D} (w : world D) :
  db_file_exists (w_db w) = false -> is_db_initialised w = (Ok false, w).
Proof. intros H. unfold is_db_initialised. rewrite io_bind_run. simpl. by rewrite H. Qed.

(** The schema script fails on the new file: [ensure_db] raises its error
    and the file keeps what the script did. *)
Lemma ensure_db_schema_error {D} `{!SqlBackend D} `{!SqlExec D} `{!DbFile D} (w : world D) c n c' e :
  sql_exec db_created SQL_FOREIGN_KEYS_ON [] = Ok (c, n) ->
  run_script c SCHEMA_SQL = (c', Some e) ->
  ensure_db w = (Exc e, mkWorld (w_in w) (w_out w) c').
Proof.
  intros Hp Hs. unfold ensure_db, with_conn, conn_execute, run_sql_file.
  repeat (rewrite ?io_bind_run, ?io_ret_run; cbn [put_db get_db w_db w_in w_out of_res]; rewrite ?Hp, ?Hs;
          cbv beta iota).
  reflexivity.
Qed.

(** C37. An error while creating the database at start-up ends the
    program: [main] runs [initialise_db] outside [safe_run], so when the
    file does not exist and the schema script fails, the database error
    escapes [main] (the menu never starts) and the file keeps what the
    script did before the error.  The spec's error-handling design
    covers only failures inside menu actions. *)
Theorem main_startup_error {D} `{!SqlBackend D} `{!SqlExec D} `{!DbFile D} fuel (w : world D) c n c' e :
  db_file_exists (w_db w) = false ->
  sql_exec db_created SQL_FOREIGN_KEYS_ON [] = Ok (c, n) ->
  run_script c SCHEMA_SQL = (c', Some e) ->
  fst (main fuel w) = Exc e /\ w_db (snd (main fuel w)) = c'.
Proof.
  intros Hf Hp Hs. unfold main, initialise_db. rewrite !io_bind_run, is_db_initialised_missing by done.
  cbv beta iota. rewrite io_bind_run, (ensure_db_schema_error w c n c' e Hp Hs). done.
Qed.

(** ** What a whole run commits *)

(** The commits of the program: deleting the file (the reset, and
    start-up on a file that is not initialised), a seeding statement or
    script, a refresh of the views and triggers, and the checked changes
    of menu options 2, 4 and 5. *)
Inductive session_step {D} `{!SqlBackend D} `{!SqlExec D} `{!DbFile D} : D -> D -> Prop :=
  | ss_unlink d : session_step d db_created
  | ss_seed d d' : seed_step d d' -> session_step d d'
  | ss_refresh d d' : refresh_step d d' -> session_step d d'
  | ss_update d d' : uflight_write d d' -> session_step d d'
  | ss_add d d' : add_flight_write d d' -> session_step d d'
  | ss_airport d d' : airport_updated d d' -> session_step d d'.

Section MainCommits.
Context {D : Type} `{!SqlBackend D} `{!SqlExec D} `{!DbFile D}.

Lemma ensure_db_commits : commits_within session_step (ensure_db (D:=D)).
Proof.
  intros d. eapply runs_conseq; [apply ensure_db_runs|intros ? ? H|intros ? ? H];
    (eapply star_step; [apply ss_unlink|exact (star_mono _ _ _ _ ss_seed H)]).
Qed.

Lemma initialise_db_commits : commits_within session_step (initialise_db (D:=D)).
Proof.
  unfold initialise_db. apply commits_within_bind.
  { intros d. eapply runs_conseq; [apply runs_of_rets_at, is_db_initialised_at
                                  |intros ? ? [-> _]; apply star_refl|intros ? ? [-> _]; apply star_refl]. }
  intros [|]; (apply commits_within_bind; [|intros _; apply commits_within_ro; solve_ro]);
    [|apply ensure_db_commits].
  intros d. eapply runs_conseq; [apply ensure_runtime_objects_runs|intros ? ? H|intros ? ? H];
    exact (star_mono _ _ _ _ ss_refresh H).
Qed.
End MainCommits.

(** C6. The whole program commits nothing but these steps: every
    database state a run of [main] leaves behind, whatever the operator
    types and whatever the database answers, is reached from the file it
    started on by deleting the file, the seeding statements and scripts
    on the new file, the refresh of views and triggers, and the checked
    changes of menu options 2 (one whitelisted field of an instance, a
    checked crew insert, a whole deletion), 4 (one whitelisted field of
    an airport) and 5 (a checked flight or instance insertion).  The
    browsing actions, the reports and [safe_run] commit nothing. *)
Theorem main_commits {D} `{!SqlBackend D} `{!SqlExec D} `{!DbFile D} fuel :
  commits_within session_step (main (D:=D) fuel).
Proof.
  unfold main, main_menu. apply commits_within_bind; [apply initialise_db_commits|intros _].
  apply main_menu_loop_commits, action_map_commits; auto using session_step, ensure_db_commits.
Qed.

(** ** No empty table is shown *)

#[export] Hint Unfold run_sql_file first_column is_db_initialised ensure_db ensure_runtime_objects
  initialise_db : shows.

Section SeedShows.
Context {D : Type} `{!SqlBackend D} `{!SqlExec D} `{!DbFile D}.

Lemma run_inserts_shows c files : shows_ok (run_inserts (D:=D) c files).
Proof. revert c. induction files; intros; simpl; solve_shows. Qed.

#[local] Hint Resolve run_inserts_shows : shows.

Lemma ensure_db_shows : shows_ok (ensure_db (D:=D)).
Proof. solve_shows. Qed.
End SeedShows.

(** C7. No run of the program shows an empty table (spec section 8: an
    empty result set shows a no-results indication, not an empty table):
    from an empty console, whatever the operator types, whatever the
    database answers and whatever the database file holds, every table
    [main] prints has at least one row.  Every listing, preview and
    single-row display goes through [print_rows], which prints
    [No results.] for no rows. *)
Theorem main_no_empty_table {D} `{!SqlBackend D} `{!SqlExec D} `{!DbFile D} fuel lines (d : D) :
  Forall event_ok (w_out (snd (main fuel (mkWorld lines [] d)))).
Proof.
  assert (Hok : shows_ok (main (D:=D) fuel)).
  { unfold main, main_menu. apply shows_ok_bind; [solve_shows|intros _].
    apply main_menu_loop_shows, ensure_db_shows. }
  apply Hok. constructor.
Qed.

(** ** Witnesses *)

(** A missing file whose schema script fails at once. *)
#[export] Instance nodb_file : DbFile nodb := {|
  db_file_exists _ := false;
  db_file_size _ := 0%N;
  db_created := NoDB;
  run_script d _ := (d, Some (DatabaseError "incomplete input"))
|}.

Lemma initialise_db_reseeds_witness :
  ~ db_initialised NoDB /\
  runs NoDB initialise_db (fun _ d' => star seed_step db_created d')
    (fun _ d' => d' = NoDB \/ star seed_step db_created d').
Proof.
  assert (H : ~ db_initialised NoDB) by (intros [H _]; discriminate H).
  split; [exact H|]. exact (proj2 (initialise_db_reseeds NoDB) H).
Defined.

Lemma main_startup_error_witness :
  db_file_exists (w_db (mkWorld [] [] NoDB)) = false /\
  sql_exec db_created SQL_FOREIGN_KEYS_ON [] = Ok (NoDB, O) /\
  run_script NoDB SCHEMA_SQL = (NoDB, Some (DatabaseError "incomplete input")) /\
  fst (main (D:=nodb) 3 (mkWorld [] [] NoDB)) = Exc (DatabaseError "incomplete input").
Proof.
  split_and!; [reflexivity|reflexivity|reflexivity|].
  exact (proj1 (main_startup_error 3 (mkWorld [] [] NoDB) NoDB O NoDB _ eq_refl eq_refl eq_refl)).
Defined.
